(** * The Darwin UDP datapath of MsQuic (src/platform/datapath_darwin.c)

    A shallow embedding of the kqueue datapath: bindings, socket contexts,
    receive blocks, send contexts, and the functions that create, use and
    destroy them.  Everything the C code asks of its surroundings (system
    calls, the pool and rundown primitives, the heap allocator, the upper
    layer's receive handler) is recorded in a trace, and the answers come
    from an [Environment] that sees the trace so far.  C pointers are heap
    addresses ([option ptr], [None] for NULL); the typed heaps are finite
    maps.  Diagnostics written with printf are left out. *)

From Stdlib Require Import ZArith List Bool Lia.
From stdpp Require Import base option list gmap strings.

Local Open Scope Z_scope.

(** ** Constants of the Darwin system headers *)

Definition AF_INET : Z := 2.
Definition AF_INET6 : Z := 30.
Definition SOCK_DGRAM : Z := 2.
Definition IPPROTO_IP : Z := 0.
Definition IPPROTO_IPV6 : Z := 41.
Definition SOL_SOCKET : Z := 65535.
Definition SO_REUSEADDR : Z := 4.
Definition IP_RECVDSTADDR : Z := 7.
Definition IP_RECVIF : Z := 20.
Definition IP_PKTINFO : Z := 26.
Definition IPV6_V6ONLY : Z := 27.
Definition IPV6_PKTINFO : Z := 46.
Definition IPV6_RECVPKTINFO : Z := 61.
Definition EAGAIN : Z := 35.
Definition EWOULDBLOCK : Z := 35.
Definition EVFILT_READ : Z := -1.
Definition EV_ADD : Z := 1.
Definition EV_CLEAR : Z := 32.

Definition sizeof_sockaddr : Z := 16.
Definition sizeof_sockaddr_in : Z := 16.
Definition sizeof_sockaddr_in6 : Z := 28.
Definition sizeof_in_pktinfo : Z := 12.
Definition sizeof_in6_pktinfo : Z := 20.
Definition sizeof_cmsghdr : Z := 12.

Definition DARWIN_ALIGN32 (n : Z) : Z := Z.land (n + 3) (Z.lnot 3).
Definition CMSG_LEN (l : Z) : Z := DARWIN_ALIGN32 sizeof_cmsghdr + l.
Definition CMSG_SPACE (l : Z) : Z :=
  DARWIN_ALIGN32 sizeof_cmsghdr + DARWIN_ALIGN32 l.

Definition TRUE : Z := 1.
Definition FALSE : Z := 0.

(** ** Data model *)

(** Heap addresses.  A C pointer is an [option ptr]. *)
Abbreviation ptr := N.

(** Modelled from the spec: QUIC_ADDR, declared in a platform header, is "a
    sockaddr union over IPv4/IPv6".  The record has one field per storage
    cell this file touches: [sa_family] and [sin_port] are shared by the
    [Ip], [Ipv4] and [Ipv6] views ([sin_port] is also [sin6_port]),
    [sin_addr] is the 32-bit IPv4 address, [sin6_addr] the 16 address bytes
    of the IPv6 view and [sin6_scope_id] its scope. *)
Record QUIC_ADDR := mkAddr {
  sa_family : Z;
  sin_port : Z;
  sin_addr : Z;
  sin6_addr : list Z;
  sin6_scope_id : Z
}.

Definition zero_addr : QUIC_ADDR := mkAddr 0 0 0 (replicate 16 0) 0.

Definition set_sa_family (v : Z) (a : QUIC_ADDR) : QUIC_ADDR :=
  mkAddr v (sin_port a) (sin_addr a) (sin6_addr a) (sin6_scope_id a).
Definition set_sin_port (v : Z) (a : QUIC_ADDR) : QUIC_ADDR :=
  mkAddr (sa_family a) v (sin_addr a) (sin6_addr a) (sin6_scope_id a).
Definition set_sin_addr (v : Z) (a : QUIC_ADDR) : QUIC_ADDR :=
  mkAddr (sa_family a) (sin_port a) v (sin6_addr a) (sin6_scope_id a).
Definition set_sin6_addr (v : list Z) (a : QUIC_ADDR) : QUIC_ADDR :=
  mkAddr (sa_family a) (sin_port a) (sin_addr a) v (sin6_scope_id a).
Definition set_sin6_scope_id (v : Z) (a : QUIC_ADDR) : QUIC_ADDR :=
  mkAddr (sa_family a) (sin_port a) (sin_addr a) (sin6_addr a) v.

(** What a call that fills [len = sizeof(struct sockaddr)] bytes of a
    QUIC_ADDR overwrites: family, port, the IPv4 address cell and the first
    eight bytes of the IPv6 address cell; the rest keeps its old content. *)
Definition write_sockaddr16 (src dst : QUIC_ADDR) : QUIC_ADDR :=
  mkAddr (sa_family src) (sin_port src) (sin_addr src)
         (take 8 (sin6_addr src) ++ drop 8 (sin6_addr dst))
         (sin6_scope_id dst).

Record QUIC_TUPLE := mkTuple {
  Tuple_RemoteAddress : QUIC_ADDR;
  Tuple_LocalAddress : QUIC_ADDR
}.

Definition zero_tuple : QUIC_TUPLE := mkTuple zero_addr zero_addr.

(** The three pools of a processor context, named by its index. *)
Inductive QUIC_POOL :=
| RecvBlockPool (ProcIndex : Z)
| SendBufferPool (ProcIndex : Z)
| SendContextPool (ProcIndex : Z).

(** Modelled from the spec: QUIC_RECV_DATAGRAM, declared in a header outside
    this file, is the "datagram metadata (buffer pointer, length, tuple,
    partition index)" with a [Next] link. [Tuple] and [Buffer] point into
    the enclosing receive block and are kept as that block's address. *)
Record QUIC_RECV_DATAGRAM := mkDatagram {
  Next : option ptr;
  Tuple : option ptr;
  Buffer : option ptr;
  BufferLength : Z;
  PartitionIndex : Z;
  Allocated : bool
}.

Definition zero_datagram : QUIC_RECV_DATAGRAM :=
  mkDatagram None None None 0 0 false.

Record QUIC_DATAPATH_RECV_BLOCK := mkRecvBlock {
  OwningPool : option QUIC_POOL;
  Block_RecvPacket : QUIC_RECV_DATAGRAM;
  Block_Tuple : QUIC_TUPLE;
  Block_Buffer : list Z
}.

Definition zero_recv_block : QUIC_DATAPATH_RECV_BLOCK :=
  mkRecvBlock None zero_datagram zero_tuple [].

Definition set_OwningPool (v : option QUIC_POOL) (b : QUIC_DATAPATH_RECV_BLOCK) :=
  mkRecvBlock v (Block_RecvPacket b) (Block_Tuple b) (Block_Buffer b).
Definition set_RecvPacket (v : QUIC_RECV_DATAGRAM) (b : QUIC_DATAPATH_RECV_BLOCK) :=
  mkRecvBlock (OwningPool b) v (Block_Tuple b) (Block_Buffer b).
Definition set_Block_Tuple (v : QUIC_TUPLE) (b : QUIC_DATAPATH_RECV_BLOCK) :=
  mkRecvBlock (OwningPool b) (Block_RecvPacket b) v (Block_Buffer b).

Definition set_Next (v : option ptr) (d : QUIC_RECV_DATAGRAM) :=
  mkDatagram v (Tuple d) (Buffer d) (BufferLength d) (PartitionIndex d) (Allocated d).
Definition set_Tuple (v : option ptr) (d : QUIC_RECV_DATAGRAM) :=
  mkDatagram (Next d) v (Buffer d) (BufferLength d) (PartitionIndex d) (Allocated d).
Definition set_Buffer (v : option ptr) (d : QUIC_RECV_DATAGRAM) :=
  mkDatagram (Next d) (Tuple d) v (BufferLength d) (PartitionIndex d) (Allocated d).
Definition set_BufferLength (v : Z) (d : QUIC_RECV_DATAGRAM) :=
  mkDatagram (Next d) (Tuple d) (Buffer d) v (PartitionIndex d) (Allocated d).
Definition set_PartitionIndex (v : Z) (d : QUIC_RECV_DATAGRAM) :=
  mkDatagram (Next d) (Tuple d) (Buffer d) (BufferLength d) v (Allocated d).
Definition set_Allocated (v : bool) (d : QUIC_RECV_DATAGRAM) :=
  mkDatagram (Next d) (Tuple d) (Buffer d) (BufferLength d) (PartitionIndex d) v.

Record QUIC_BUFFER := mkBuffer {
  Length : Z;
  Buffer_ptr : option ptr
}.

Definition zero_buffer : QUIC_BUFFER := mkBuffer 0 None.

Record iovec := mkIov {
  iov_base : option ptr;
  iov_len : Z
}.

Definition zero_iovec : iovec := mkIov None 0.

Definition QUIC_MAX_BATCH_SEND : Z := 10.

(** The intrusive [PendingSendLinkage] is represented on the side of the
    list head: a socket context's [PendingSendContextHead] is the list of
    the send contexts linked into it. *)
Record QUIC_DATAPATH_SEND_CONTEXT := mkSendContext {
  Bind : bool;
  Send_LocalAddress : QUIC_ADDR;
  Send_RemoteAddress : QUIC_ADDR;
  Pending : bool;
  Owner : option Z;
  BufferCount : Z;
  CurrentIndex : Z;
  Buffers : list QUIC_BUFFER;
  Iovs : list iovec
}.

Definition zero_send_context : QUIC_DATAPATH_SEND_CONTEXT :=
  mkSendContext false zero_addr zero_addr false None 0 0
    (replicate (Z.to_nat QUIC_MAX_BATCH_SEND) zero_buffer)
    (replicate (Z.to_nat QUIC_MAX_BATCH_SEND) zero_iovec).

Definition set_Owner (v : option Z) (c : QUIC_DATAPATH_SEND_CONTEXT) :=
  mkSendContext (Bind c) (Send_LocalAddress c) (Send_RemoteAddress c) (Pending c)
    v (BufferCount c) (CurrentIndex c) (Buffers c) (Iovs c).
Definition set_BufferCount (v : Z) (c : QUIC_DATAPATH_SEND_CONTEXT) :=
  mkSendContext (Bind c) (Send_LocalAddress c) (Send_RemoteAddress c) (Pending c)
    (Owner c) v (CurrentIndex c) (Buffers c) (Iovs c).
Definition set_CurrentIndex (v : Z) (c : QUIC_DATAPATH_SEND_CONTEXT) :=
  mkSendContext (Bind c) (Send_LocalAddress c) (Send_RemoteAddress c) (Pending c)
    (Owner c) (BufferCount c) v (Buffers c) (Iovs c).
Definition set_Buffers (v : list QUIC_BUFFER) (c : QUIC_DATAPATH_SEND_CONTEXT) :=
  mkSendContext (Bind c) (Send_LocalAddress c) (Send_RemoteAddress c) (Pending c)
    (Owner c) (BufferCount c) (CurrentIndex c) v (Iovs c).
Definition set_Iovs (v : list iovec) (c : QUIC_DATAPATH_SEND_CONTEXT) :=
  mkSendContext (Bind c) (Send_LocalAddress c) (Send_RemoteAddress c) (Pending c)
    (Owner c) (BufferCount c) (CurrentIndex c) (Buffers c) v.

(** An ancillary record as the CMSG_ macros present it. *)
Record cmsghdr := mkCmsg {
  cmsg_len : Z;
  cmsg_level : Z;
  cmsg_type : Z;
  cmsg_data : list Z
}.

(** The receive message header of a socket context.  [msg_iov] always is the
    context's own [RecvIov]; [msg_name] is the block whose tuple receives the
    source address; [msg_control] lists the ancillary records that
    CMSG_FIRSTHDR / CMSG_NXTHDR walk through in [RecvMsgControl]. *)
Record msghdr := mkMsghdr {
  msg_name : option ptr;
  msg_namelen : Z;
  msg_iovlen : Z;
  msg_control : list cmsghdr;
  msg_controllen : Z;
  msg_flags : Z
}.

Definition zero_msghdr : msghdr := mkMsghdr None 0 0 [] 0 0.

Record QUIC_SOCKET_CONTEXT := mkSocketContext {
  SocketFd : Z;
  SendWaiting : bool;
  RecvIov : iovec;
  RecvMsgHdr : msghdr;
  CurrentRecvBlock : option ptr;
  PendingSendContextHead : list ptr
}.

Definition zero_socket_context : QUIC_SOCKET_CONTEXT :=
  mkSocketContext 0 false zero_iovec zero_msghdr None [].

Definition set_SocketFd (v : Z) (s : QUIC_SOCKET_CONTEXT) :=
  mkSocketContext v (SendWaiting s) (RecvIov s) (RecvMsgHdr s)
    (CurrentRecvBlock s) (PendingSendContextHead s).
Definition set_RecvIov (v : iovec) (s : QUIC_SOCKET_CONTEXT) :=
  mkSocketContext (SocketFd s) (SendWaiting s) v (RecvMsgHdr s)
    (CurrentRecvBlock s) (PendingSendContextHead s).
Definition set_RecvMsgHdr (v : msghdr) (s : QUIC_SOCKET_CONTEXT) :=
  mkSocketContext (SocketFd s) (SendWaiting s) (RecvIov s) v
    (CurrentRecvBlock s) (PendingSendContextHead s).
Definition set_CurrentRecvBlock (v : option ptr) (s : QUIC_SOCKET_CONTEXT) :=
  mkSocketContext (SocketFd s) (SendWaiting s) (RecvIov s) (RecvMsgHdr s)
    v (PendingSendContextHead s).
Definition set_PendingSendContextHead (v : list ptr) (s : QUIC_SOCKET_CONTEXT) :=
  mkSocketContext (SocketFd s) (SendWaiting s) (RecvIov s) (RecvMsgHdr s)
    (CurrentRecvBlock s) v.

(** The two rundown references of the file; the binding's one is named by
    the binding's address. *)
Inductive QUIC_RUNDOWN_REF :=
| Rundown (Binding : ptr)
| BindingsRundown.

Record QUIC_DATAPATH_BINDING := mkBinding {
  ClientContext : Z;
  Binding_LocalAddress : QUIC_ADDR;
  Binding_RemoteAddress : QUIC_ADDR;
  Connected : bool;
  Shutdown : bool;
  Mtu : Z;
  SocketContexts : list QUIC_SOCKET_CONTEXT
}.

Definition set_Binding_LocalAddress (v : QUIC_ADDR) (b : QUIC_DATAPATH_BINDING) :=
  mkBinding (ClientContext b) v (Binding_RemoteAddress b) (Connected b) (Shutdown b)
    (Mtu b) (SocketContexts b).
Definition set_Binding_RemoteAddress (v : QUIC_ADDR) (b : QUIC_DATAPATH_BINDING) :=
  mkBinding (ClientContext b) (Binding_LocalAddress b) v (Connected b) (Shutdown b)
    (Mtu b) (SocketContexts b).
Definition set_Shutdown (v : bool) (b : QUIC_DATAPATH_BINDING) :=
  mkBinding (ClientContext b) (Binding_LocalAddress b) (Binding_RemoteAddress b) (Connected b) v
    (Mtu b) (SocketContexts b).
Definition set_SocketContexts (v : list QUIC_SOCKET_CONTEXT) (b : QUIC_DATAPATH_BINDING) :=
  mkBinding (ClientContext b) (Binding_LocalAddress b) (Binding_RemoteAddress b) (Connected b)
    (Shutdown b) (Mtu b) v.

Record QUIC_DATAPATH_PROC_CONTEXT := mkProcContext {
  KqueueFd : Z;
  Index : Z
}.

(** The process has one datapath; a binding's and a processor context's
    [Datapath] back pointer always is this one. *)
Record QUIC_DATAPATH := mkDatapath {
  Datapath_Shutdown : bool;
  MaxSendBatchSize : Z;
  ClientRecvContextLength : Z;
  ProcCount : Z;
  ProcContexts : list QUIC_DATAPATH_PROC_CONTEXT
}.

(** ** What the platform headers leave open

    The macros and declarations below live in platform headers that are not
    part of this file; the model takes them as parameters. *)
Record Platform := mkPlatform {
  (** whether QUIC_DBG_ASSERT is compiled in *)
  QUIC_DEBUG : bool;
  (** whether execution goes on after the breakpoint trap [int3] (a
      debugger is attached) or the trap ends the process *)
  TRAP_RESUMES : bool;
  QUIC_STATUS_SUCCESS : Z;
  QUIC_STATUS_OUT_OF_MEMORY : Z;
  QUIC_STATUS_INTERNAL_ERROR : Z;
  QUIC_FAILED : Z -> bool;
  QUIC_SUCCEEDED : Z -> bool;
  INVALID_SOCKET_FD : Z;
  SOCKET_ERROR : Z;
  QUIC_MAX_MTU : Z;
  QUIC_MIN_IPV4_HEADER_SIZE : Z;
  QUIC_UDP_HEADER_SIZE : Z;
  (** widths of the [BufferLength] and [PartitionIndex] fields of
      QUIC_RECV_DATAGRAM *)
  BufferLength_bits : Z;
  PartitionIndex_bits : Z;
  QuicConvertFromMappedV6 : QUIC_ADDR -> QUIC_ADDR
}.

(** ** Trace of the calls that leave the file *)

Inductive Syscall :=
| sys_socket (domain type protocol : Z)
| sys_setsockopt (fd level optname optval optlen : Z)
| sys_bind (fd : Z) (addr : QUIC_ADDR) (len : Z)
| sys_connect (fd : Z) (addr : QUIC_ADDR) (len : Z)
| sys_getsockname (fd : Z) (len : Z)
| sys_close (fd : Z)
| sys_kevent (kq ident filter flags : Z) (udata : ptr * Z)
| sys_sendto (fd : Z) (buf : option ptr) (data : option (list Z))
             (len flags : Z) (dest_addr : option QUIC_ADDR) (dest_len : Z)
| sys_sendmsg (fd : Z) (name : QUIC_ADDR) (namelen : Z) (iov : list iovec)
              (iovlen : Z) (control : list cmsghdr) (controllen : Z)
              (mflags flags : Z)
| sys_recvmsg (fd : Z) (namelen iovlen controllen flags : Z).

Inductive RundownOp :=
| RundownInitialize
| RundownAcquire
| RundownRelease
| RundownReleaseAndWait
| RundownUninitialize.

Inductive Event :=
| EvSys (call : Syscall) (ret : Z)
| EvPoolAlloc (Pool : QUIC_POOL) (ret : option ptr)
| EvPoolFree (Pool : QUIC_POOL) (Entry : option ptr)
| EvAlloc (SocketCount : Z) (ret : option ptr)
| EvFree (Mem : option ptr)
| EvRundown (op : RundownOp) (Ref : QUIC_RUNDOWN_REF)
| EvShutdown (Binding : ptr)
| EvRecvHandler (Binding : ptr) (Context : Z) (DatagramChain : option ptr)
                (Datagram : QUIC_RECV_DATAGRAM) (DatagramTuple : QUIC_TUPLE).

(** The surroundings answer every call from the trace so far. *)
Record Environment := mkEnv {
  sys_ret : list Event -> Syscall -> Z;
  sys_errno : list Event -> Syscall -> Z;
  sys_sockname : list Event -> Z -> QUIC_ADDR;
  (** the datagram a successful recvmsg delivers: ancillary records, source
      address and payload *)
  sys_datagram : list Event -> Z -> list cmsghdr * QUIC_ADDR * list Z;
  pool_alloc : list Event -> QUIC_POOL -> option ptr;
  heap_alloc : list Event -> Z -> option ptr
}.

(** Arguments of a QuicTraceEvent / QuicTraceLog call. *)
Inductive LogArg :=
| LInt (z : Z)
| LPtr (p : option ptr)
| LStr (s : string)
| LAddr (a : QUIC_ADDR).

(** ** The state of the process *)

Record World := mkWorld {
  Trace : list Event;
  Log : list (string * list LogArg);
  Errno : Z;
  Datapath : QUIC_DATAPATH;
  Bindings : gmap N QUIC_DATAPATH_BINDING;
  RecvBlocks : gmap N QUIC_DATAPATH_RECV_BLOCK;
  SendContexts : gmap N QUIC_DATAPATH_SEND_CONTEXT;
  SendBuffers : gmap N (list Z)
}.

Definition set_Trace (v : list Event) (w : World) : World :=
  mkWorld v (Log w) (Errno w) (Datapath w) (Bindings w) (RecvBlocks w)
    (SendContexts w) (SendBuffers w).
Definition set_Log (v : list (string * list LogArg)) (w : World) : World :=
  mkWorld (Trace w) v (Errno w) (Datapath w) (Bindings w) (RecvBlocks w)
    (SendContexts w) (SendBuffers w).
Definition set_Errno (v : Z) (w : World) : World :=
  mkWorld (Trace w) (Log w) v (Datapath w) (Bindings w) (RecvBlocks w)
    (SendContexts w) (SendBuffers w).
Definition set_Bindings (v : gmap N QUIC_DATAPATH_BINDING) (w : World) : World :=
  mkWorld (Trace w) (Log w) (Errno w) (Datapath w) v (RecvBlocks w)
    (SendContexts w) (SendBuffers w).
Definition set_RecvBlocks (v : gmap N QUIC_DATAPATH_RECV_BLOCK) (w : World) : World :=
  mkWorld (Trace w) (Log w) (Errno w) (Datapath w) (Bindings w) v
    (SendContexts w) (SendBuffers w).
Definition set_SendContexts (v : gmap N QUIC_DATAPATH_SEND_CONTEXT) (w : World) : World :=
  mkWorld (Trace w) (Log w) (Errno w) (Datapath w) (Bindings w) (RecvBlocks w)
    v (SendBuffers w).
Definition set_SendBuffers (v : gmap N (list Z)) (w : World) : World :=
  mkWorld (Trace w) (Log w) (Errno w) (Datapath w) (Bindings w) (RecvBlocks w)
    (SendContexts w) v.

(** ** The monad of the C code

    A function either returns ([Done]), ends the process ([Terminated]: a
    failed assertion or an unhandled trap) or leaves defined behaviour
    ([Fault]: a NULL or dangling pointer is followed, an array is indexed
    out of range). *)
Inductive Result (A : Type) :=
| Done (a : A)
| Terminated (why : string)
| Fault (why : string).
Arguments Done {A} a.
Arguments Terminated {A} why.
Arguments Fault {A} why.

Definition M (A : Type) : Type := World -> Result A * World.

Definition ret {A} (a : A) : M A := fun w => (Done a, w).

Definition bind {A B} (m : M A) (k : A -> M B) : M B :=
  fun w =>
    match m w with
    | (Done a, w') => k a w'
    | (Terminated s, w') => (Terminated s, w')
    | (Fault s, w') => (Fault s, w')
    end.

Declare Scope c_scope.
Delimit Scope c_scope with C.
Notation "x <- m ;; k" := (bind m (fun x => k))
  (at level 100, m at next level, right associativity) : c_scope.
Notation "m ;; k" := (bind m (fun _ => k))
  (at level 100, right associativity) : c_scope.
Local Open Scope c_scope.

Definition terminate {A} (why : string) : M A := fun w => (Terminated why, w).
Definition fault {A} (why : string) : M A := fun w => (Fault why, w).

Definition get {A} (f : World -> A) : M A := fun w => (Done (f w), w).
Definition modify (f : World -> World) : M unit := fun w => (Done tt, f w).

(** Follow a pointer into one of the typed heaps. *)
Definition deref {A} (heap : World -> gmap N A) (p : option ptr) : M A :=
  fun w =>
    match p with
    | None => (Fault "NULL pointer", w)
    | Some a =>
        match heap w !! a with
        | Some v => (Done v, w)
        | None => (Fault "dangling pointer", w)
        end
    end.

(** Array element; an index outside the array leaves defined behaviour. *)
Definition index {A} (l : list A) (i : Z) : M A :=
  fun w =>
    if (0 <=? i) && (i <? Z.of_nat (length l))
    then match l !! Z.to_nat i with
         | Some v => (Done v, w)
         | None => (Fault "index out of range", w)
         end
    else (Fault "index out of range", w).

Definition emit (e : Event) : M unit :=
  modify (fun w => set_Trace (Trace w ++ [e]) w).

Definition QuicTraceEvent (name : string) (args : list LogArg) : M unit :=
  modify (fun w => set_Log (Log w ++ [(name, args)]) w).

(** Counted loops.  [for_each n i body] runs [body] at [i], [i+1], ...,
    [n] times; [for_status] stops at the first iteration that leaves the
    loop with a result ([goto Exit]). *)
Fixpoint for_each (n : nat) (i : Z) (body : Z -> M unit) : M unit :=
  match n with
  | O => ret tt
  | S n' => body i ;; for_each n' (i + 1) body
  end.

Fixpoint for_status {A} (n : nat) (i : Z) (body : Z -> M (option A)) : M (option A) :=
  match n with
  | O => ret None
  | S n' =>
      r <- body i ;;
      match r with
      | Some a => ret (Some a)
      | None => for_status n' (i + 1) body
      end
  end.

Definition wrap (bits : Z) (v : Z) : Z := v mod 2 ^ bits.

(** An [int] converted to [uintptr_t], as EV_SET does with the descriptor
    it is given: 64 bits on Darwin, so that -1 becomes 2^64 - 1. *)
Definition to_uintptr (v : Z) : Z := wrap 64 v.

Section Datapath.

Context (P : Platform) (env : Environment).

(** *** Primitives outside the file *)

(** A system call: the environment gives the return value, and [errno] when
    the call fails. *)
Definition syscall (c : Syscall) : M Z :=
  fun w =>
    let r := sys_ret env (Trace w) c in
    let w1 := if r <? 0 then set_Errno (sys_errno env (Trace w) c) w else w in
    (Done r, set_Trace (Trace w1 ++ [EvSys c r]) w1).

Definition QUIC_DBG_ASSERT (cond : bool) : M unit :=
  if QUIC_DEBUG P && negb cond then terminate "QUIC_DBG_ASSERT" else ret tt.

Definition QUIC_FRE_ASSERT (cond : bool) : M unit :=
  if cond then ret tt else terminate "QUIC_FRE_ASSERT".

Definition int3 : M unit :=
  if TRAP_RESUMES P then ret tt else terminate "int3".

Definition QuicPoolAlloc (Pool : QUIC_POOL) : M (option ptr) :=
  fun w =>
    let r := pool_alloc env (Trace w) Pool in
    (Done r, set_Trace (Trace w ++ [EvPoolAlloc Pool r]) w).

(** Returning an entry to a pool ends its life in every typed heap. *)
Definition forget (Entry : option ptr) (w : World) : World :=
  match Entry with
  | None => w
  | Some a =>
      set_RecvBlocks (delete a (RecvBlocks w))
        (set_SendContexts (delete a (SendContexts w))
           (set_SendBuffers (delete a (SendBuffers w)) w))
  end.

Definition QuicPoolFree (Pool : option QUIC_POOL) (Entry : option ptr) : M unit :=
  match Pool with
  | None => fault "NULL pool"
  | Some pool => emit (EvPoolFree pool Entry) ;; modify (forget Entry)
  end.

Definition QuicRundown (op : RundownOp) (Ref : QUIC_RUNDOWN_REF) : M unit :=
  emit (EvRundown op Ref).

Definition QUIC_ALLOC_PAGED (SocketCount : Z) : M (option ptr) :=
  fun w =>
    let r := heap_alloc env (Trace w) SocketCount in
    (Done r, set_Trace (Trace w ++ [EvAlloc SocketCount r]) w).

Definition QUIC_FREE (Mem : option ptr) : M unit :=
  emit (EvFree Mem) ;;
  modify (fun w => match Mem with
                   | Some a => set_Bindings (delete a (Bindings w)) w
                   | None => w
                   end).

(** *** Stores through pointers *)

Definition store_SendContext (p : ptr) (c : QUIC_DATAPATH_SEND_CONTEXT) : M unit :=
  modify (fun w => set_SendContexts (<[p := c]> (SendContexts w)) w).

Definition store_RecvBlock (p : ptr) (b : QUIC_DATAPATH_RECV_BLOCK) : M unit :=
  modify (fun w => set_RecvBlocks (<[p := b]> (RecvBlocks w)) w).

Definition store_Binding (p : ptr) (b : QUIC_DATAPATH_BINDING) : M unit :=
  modify (fun w => set_Bindings (<[p := b]> (Bindings w)) w).

(** A store to one field of a receive block, [p->field = v]: the block at
    [p] is changed in place. *)
Definition update_RecvBlock (p : option ptr)
    (f : QUIC_DATAPATH_RECV_BLOCK -> QUIC_DATAPATH_RECV_BLOCK) : M unit :=
  blk <- deref RecvBlocks p ;;
  match p with
  | Some a => store_RecvBlock a (f blk)
  | None => fault "NULL pointer"
  end.

Definition in_RecvPacket (f : QUIC_RECV_DATAGRAM -> QUIC_RECV_DATAGRAM)
    (blk : QUIC_DATAPATH_RECV_BLOCK) : QUIC_DATAPATH_RECV_BLOCK :=
  set_RecvPacket (f (Block_RecvPacket blk)) blk.

Definition in_LocalAddress (f : QUIC_ADDR -> QUIC_ADDR)
    (blk : QUIC_DATAPATH_RECV_BLOCK) : QUIC_DATAPATH_RECV_BLOCK :=
  set_Block_Tuple
    (mkTuple (Tuple_RemoteAddress (Block_Tuple blk))
       (f (Tuple_LocalAddress (Block_Tuple blk)))) blk.

Definition in_RemoteAddress (f : QUIC_ADDR -> QUIC_ADDR)
    (blk : QUIC_DATAPATH_RECV_BLOCK) : QUIC_DATAPATH_RECV_BLOCK :=
  set_Block_Tuple
    (mkTuple (f (Tuple_RemoteAddress (Block_Tuple blk)))
       (Tuple_LocalAddress (Block_Tuple blk))) blk.

(** [Owner->Datapath]: the owner must be one of the datapath's processor
    contexts. *)
Definition Owner_deref (c : QUIC_DATAPATH_SEND_CONTEXT) : M Z :=
  match Owner c with
  | None => fault "NULL Owner"
  | Some i =>
      dp <- get Datapath ;;
      _ <- index (ProcContexts dp) i ;;
      ret i
  end.

(** *** Send contexts *)

Definition QuicDataPathBindingAllocSendContext
    (Binding : option ptr) (MaxPacketSize : Z) : M (option ptr) :=
  QUIC_DBG_ASSERT (bool_decide (Binding <> None)) ;;
  _ <- deref Bindings Binding ;;
  let ProcContext := 0 in
  SendContext <- QuicPoolAlloc (SendContextPool ProcContext) ;;
  match SendContext with
  | None =>
      QuicTraceEvent "AllocFailure" [LStr "QUIC_DATAPATH_SEND_CONTEXT"; LInt 0] ;;
      ret None
  | Some c =>
      store_SendContext c (set_Owner (Some ProcContext) zero_send_context) ;;
      ret (Some c)
  end.

Definition QuicDataPathBindingFreeSendContext (SendContext : option ptr) : M unit :=
  c <- deref SendContexts SendContext ;;
  for_each (Z.to_nat (BufferCount c)) 0 (fun i =>
    c <- deref SendContexts SendContext ;;
    owner <- Owner_deref c ;;
    b <- index (Buffers c) i ;;
    QuicPoolFree (Some (SendBufferPool owner)) (Buffer_ptr b) ;;
    c <- deref SendContexts SendContext ;;
    match SendContext with
    | Some p =>
        store_SendContext p
          (set_Buffers (<[Z.to_nat i := mkBuffer (Length b) None]> (Buffers c)) c)
    | None => fault "NULL pointer"
    end) ;;
  c <- deref SendContexts SendContext ;;
  owner <- Owner_deref c ;;
  QuicPoolFree (Some (SendContextPool owner)) SendContext.

(** The result is the slot [&SendContext->Buffers[i]] as [Some i], NULL as
    [None]. *)
Definition QuicDataPathBindingAllocSendDatagram
    (SendContext : option ptr) (MaxBufferLength : Z) : M (option Z) :=
  QUIC_DBG_ASSERT (bool_decide (SendContext <> None)) ;;
  QUIC_DBG_ASSERT
    (MaxBufferLength <=?
       QUIC_MAX_MTU P - QUIC_MIN_IPV4_HEADER_SIZE P - QUIC_UDP_HEADER_SIZE P) ;;
  c <- deref SendContexts SendContext ;;
  owner <- Owner_deref c ;;
  dp <- get Datapath ;;
  if BufferCount c =? MaxSendBatchSize dp then
    QuicTraceEvent "LibraryError" [LStr "Max batch size limit hit"] ;;
    ret None
  else
    let i := BufferCount c in
    _ <- index (Buffers c) i ;;
    match SendContext with
    | None => fault "NULL pointer"
    | Some sc =>
        let c := set_Buffers (<[Z.to_nat i := zero_buffer]> (Buffers c)) c in
        store_SendContext sc c ;;
        p <- QuicPoolAlloc (SendBufferPool owner) ;;
        let c := set_Buffers (<[Z.to_nat i := mkBuffer 0 p]> (Buffers c)) c in
        store_SendContext sc c ;;
        match p with
        | None =>
            QuicTraceEvent "AllocFailure" [LStr "Send Buffer"; LInt 0] ;;
            ret (Some i)
        | Some a =>
            modify (fun w => set_SendBuffers (<[a := []]> (SendBuffers w)) w) ;;
            let c :=
              set_Buffers (<[Z.to_nat i := mkBuffer MaxBufferLength p]> (Buffers c)) c in
            _ <- index (Iovs c) i ;;
            let c :=
              set_Iovs (<[Z.to_nat i := mkIov p MaxBufferLength]> (Iovs c)) c in
            let c := set_BufferCount (wrap 64 (BufferCount c + 1)) c in
            store_SendContext sc c ;;
            ret (Some i)
        end
    end.

Definition QuicDataPathBindingFreeSendDatagram
    (SendContext : option ptr) (SendDatagram : option Z) : M unit :=
  QUIC_FRE_ASSERT false.

Definition QuicDataPathBindingIsSendContextFull (SendContext : option ptr) : M bool :=
  c <- deref SendContexts SendContext ;;
  _ <- Owner_deref c ;;
  dp <- get Datapath ;;
  ret (BufferCount c =? MaxSendBatchSize dp).

(** *** Sending *)

Definition sizeof_QUIC_ADDR : Z := sizeof_sockaddr_in6.

(** Four bytes of memory as the 32-bit value they hold, and back. *)
Definition load32 (bs : list Z) : Z :=
  nth 0 bs 0 + 256 * nth 1 bs 0 + 65536 * nth 2 bs 0 + 16777216 * nth 3 bs 0.
Definition store32 (v : Z) : list Z :=
  [v mod 256; (v / 256) mod 256; (v / 65536) mod 256; (v / 16777216) mod 256].

(** struct in_pktinfo { ipi_ifindex; ipi_spec_dst; ipi_addr } and
    struct in6_pktinfo { ipi6_addr; ipi6_ifindex } as ancillary payload. *)
Definition in_pktinfo_bytes (ipi_ifindex ipi_spec_dst ipi_addr : Z) : list Z :=
  store32 ipi_ifindex ++ store32 ipi_spec_dst ++ store32 ipi_addr.
Definition in6_pktinfo_bytes (ipi6_addr : list Z) (ipi6_ifindex : Z) : list Z :=
  take 16 (ipi6_addr ++ replicate 16 0) ++ store32 ipi6_ifindex.

Definition SocketContext_at (Binding : option ptr) (i : Z) : M QUIC_SOCKET_CONTEXT :=
  b <- deref Bindings Binding ;;
  index (SocketContexts b) i.

(** What every failed send does with [errno]: [Some (Status, SendPending)]
    is the state in which the code jumps to [Exit]. *)
Definition send_failed (Binding : option ptr) (Status : Z) (what : string)
  : M (option (Z * bool)) :=
  e <- get Errno ;;
  if (e =? EAGAIN) || (e =? EWOULDBLOCK) then
    ret (Some (Status, true))
  else
    QuicTraceEvent "DatapathErrorStatus" [LPtr Binding; LInt e; LStr what] ;;
    ret (Some (e, false)).

Definition QuicDataPathBindingSend
    (Binding : option ptr) (LocalAddress RemoteAddress : option QUIC_ADDR)
    (SendContext : option ptr) : M Z :=
  let Status := QUIC_STATUS_SUCCESS P in
  QUIC_DBG_ASSERT (bool_decide (Binding <> None) &&
                   bool_decide (RemoteAddress <> None) &&
                   bool_decide (SendContext <> None)) ;;
  b <- deref Bindings Binding ;;
  remote <- match RemoteAddress with
            | Some r => ret r
            | None => fault "NULL pointer"
            end ;;
  let RemoteAddrLen :=
    if AF_INET =? sa_family remote then sizeof_sockaddr_in else sizeof_sockaddr_in6 in
  r <- match LocalAddress with
       | None =>
           QUIC_DBG_ASSERT (negb (sin_port (Binding_RemoteAddress b) =? 0)) ;;
           c <- deref SendContexts SendContext ;;
           for_status (Z.to_nat (BufferCount c - CurrentIndex c)) (CurrentIndex c)
             (fun i =>
                c <- deref SendContexts SendContext ;;
                buf <- index (Buffers c) i ;;
                QuicTraceEvent "DatapathSendTo"
                  [LPtr Binding; LInt (Length buf); LInt 1; LInt (Length buf);
                   LAddr remote] ;;
                s <- SocketContext_at Binding 0 ;;
                mem <- get SendBuffers ;;
                let data :=
                  take (Z.to_nat (Length buf)) <$> (Buffer_ptr buf ≫= (mem !!.)) in
                SentByteCount <-
                  syscall (sys_sendto (SocketFd s) (Buffer_ptr buf) data
                             (Length buf) 0 None 0) ;;
                if SentByteCount <? 0 then
                  send_failed Binding Status "sendto failed"
                else
                  QuicTraceEvent "DatapathSendToCompleted"
                    [LPtr Binding; LInt SentByteCount] ;;
                  match SendContext with
                  | Some sc =>
                      store_SendContext sc
                        (set_CurrentIndex (wrap 64 (CurrentIndex c + 1)) c) ;;
                      ret None
                  | None => fault "NULL pointer"
                  end)
       | Some local =>
           c <- deref SendContexts SendContext ;;
           TotalSize <-
             (fix loop (n : nat) (i TotalSize : Z) : M Z :=
                match n with
                | O => ret TotalSize
                | S n' =>
                    c <- deref SendContexts SendContext ;;
                    buf <- index (Buffers c) i ;;
                    _ <- index (Iovs c) i ;;
                    match SendContext with
                    | Some sc =>
                        store_SendContext sc
                          (set_Iovs (<[Z.to_nat i := mkIov (Buffer_ptr buf) (Length buf)]>
                                       (Iovs c)) c)
                    | None => fault "NULL pointer"
                    end ;;
                    loop n' (i + 1) (wrap 32 (TotalSize + Length buf))
                end) (Z.to_nat (BufferCount c)) 0 0 ;;
           c <- deref SendContexts SendContext ;;
           buf0 <- index (Buffers c) 0 ;;
           QuicTraceEvent "DatapathSendFromTo"
             [LPtr Binding; LInt TotalSize; LInt (BufferCount c); LInt (Length buf0);
              LAddr remote; LAddr local] ;;
           let MappedRemoteAddress := zero_addr in
           let '(control, controllen) :=
             if sa_family local =? AF_INET then
               ([mkCmsg (CMSG_LEN sizeof_in_pktinfo) IPPROTO_IP IP_PKTINFO
                   (in_pktinfo_bytes (sin6_scope_id local) 0 (sin_addr local))],
                CMSG_SPACE sizeof_in_pktinfo)
             else
               ([mkCmsg (CMSG_LEN sizeof_in6_pktinfo) IPPROTO_IPV6 IPV6_PKTINFO
                   (in6_pktinfo_bytes (sin6_addr local) (sin6_scope_id local))],
                CMSG_SPACE sizeof_in6_pktinfo) in
           s <- SocketContext_at Binding 0 ;;
           SentByteCount <-
             syscall (sys_sendmsg (SocketFd s) MappedRemoteAddress sizeof_QUIC_ADDR
                        (take (Z.to_nat (BufferCount c)) (Iovs c)) (BufferCount c)
                        control controllen 0 0) ;;
           if SentByteCount <? 0 then
             send_failed Binding Status "sendmsg failed"
           else
             QuicTraceEvent "DatapathSendMsgCompleted"
               [LPtr Binding; LInt SentByteCount] ;;
             ret None
       end ;;
  let '(Status, SendPending) :=
    match r with
    | Some exit => exit
    | None => (QUIC_STATUS_SUCCESS P, false)
    end in
  (if negb SendPending then QuicDataPathBindingFreeSendContext SendContext
   else ret tt) ;;
  ret Status.

Definition QuicDataPathBindingSendTo
    (Binding : option ptr) (RemoteAddress : option QUIC_ADDR)
    (SendContext : option ptr) : M Z :=
  QUIC_DBG_ASSERT (bool_decide (Binding <> None) &&
                   match RemoteAddress with
                   | Some r => negb (sin_port r =? 0)
                   | None => false
                   end &&
                   bool_decide (SendContext <> None)) ;;
  QuicDataPathBindingSend Binding None RemoteAddress SendContext.

Definition QuicDataPathBindingSendFromTo
    (Binding : option ptr) (LocalAddress RemoteAddress : option QUIC_ADDR)
    (SendContext : option ptr) : M Z :=
  QUIC_FRE_ASSERT false ;;
  ret (QUIC_STATUS_SUCCESS P).

(** *** Receiving *)

Definition QuicDataPathAllocRecvBlock (ProcIndex : Z) : M (option ptr) :=
  RecvBlock <- QuicPoolAlloc (RecvBlockPool ProcIndex) ;;
  match RecvBlock with
  | None =>
      QuicTraceEvent "AllocFailure" [LStr "QUIC_DATAPATH_RECV_BLOCK"; LInt 0] ;;
      ret None
  | Some p =>
      let blk := zero_recv_block in
      let blk := set_OwningPool (Some (RecvBlockPool ProcIndex)) blk in
      let blk := set_RecvPacket (set_Buffer (Some p) (Block_RecvPacket blk)) blk in
      let blk := set_RecvPacket (set_Allocated true (Block_RecvPacket blk)) blk in
      store_RecvBlock p blk ;;
      ret (Some p)
  end.

(** A socket context is addressed as [&Binding->SocketContexts[i]]. *)
Definition load_SocketContext (SocketContext : ptr * Z) : M QUIC_SOCKET_CONTEXT :=
  SocketContext_at (Some SocketContext.1) SocketContext.2.

Definition store_SocketContext (SocketContext : ptr * Z) (s : QUIC_SOCKET_CONTEXT)
  : M unit :=
  b <- deref Bindings (Some SocketContext.1) ;;
  _ <- index (SocketContexts b) SocketContext.2 ;;
  store_Binding SocketContext.1
    (set_SocketContexts (<[Z.to_nat SocketContext.2 := s]> (SocketContexts b)) b).

Definition sizeof_RecvMsgControl : Z := CMSG_SPACE 8192.

Definition QuicSocketContextPrepareReceive (SocketContext : ptr * Z) : M Z :=
  s <- load_SocketContext SocketContext ;;
  failed <-
    match CurrentRecvBlock s with
    | None =>
        blk <- QuicDataPathAllocRecvBlock 0 ;;
        store_SocketContext SocketContext (set_CurrentRecvBlock blk s) ;;
        match blk with
        | None =>
            QuicTraceEvent "AllocFailure" [LStr "QUIC_DATAPATH_RECV_BLOCK"; LInt 0] ;;
            ret true
        | Some _ => ret false
        end
    | Some _ => ret false
    end ;;
  if failed : bool then ret (QUIC_STATUS_OUT_OF_MEMORY P)
  else
    s <- load_SocketContext SocketContext ;;
    blk <- deref RecvBlocks (CurrentRecvBlock s) ;;
    let s := set_RecvIov (mkIov (Buffer (Block_RecvPacket blk)) (iov_len (RecvIov s))) s in
    store_SocketContext SocketContext s ;;
    update_RecvBlock (CurrentRecvBlock s)
      (in_RecvPacket
         (set_BufferLength (wrap (BufferLength_bits P) (iov_len (RecvIov s))))) ;;
    update_RecvBlock (CurrentRecvBlock s)
      (in_RecvPacket (set_Tuple (CurrentRecvBlock s))) ;;
    blk <- deref RecvBlocks (CurrentRecvBlock s) ;;
    let hdr := zero_msghdr in
    let hdr :=
      mkMsghdr (Tuple (Block_RecvPacket blk)) sizeof_QUIC_ADDR 1 []
        sizeof_RecvMsgControl 0 in
    store_SocketContext SocketContext (set_RecvMsgHdr hdr s) ;;
    ret (QUIC_STATUS_SUCCESS P).

(** [LocalAddr] and [RemoteAddr] of a datagram live in the tuple its [Tuple]
    pointer leads to. *)
Definition load_Tuple (TuplePtr : option ptr) : M QUIC_TUPLE :=
  blk <- deref RecvBlocks TuplePtr ;;
  ret (Block_Tuple blk).

Definition is_IPV6_PKTINFO (CMsg : cmsghdr) : bool :=
  (cmsg_level CMsg =? IPPROTO_IPV6) && (cmsg_type CMsg =? IPV6_PKTINFO).
Definition is_IP_PKTINFO (CMsg : cmsghdr) : bool :=
  (cmsg_level CMsg =? IPPROTO_IP) && (cmsg_type CMsg =? IP_PKTINFO).

(** The walk over the ancillary records; the result is [FoundLocalAddr]. *)
Fixpoint RecvComplete_cmsgs (Binding : ptr) (TuplePtr : option ptr)
    (CMsgs : list cmsghdr) : M bool :=
  match CMsgs with
  | [] => ret false
  | CMsg :: rest =>
      if is_IPV6_PKTINFO CMsg then
        let ipi6_addr := take 16 (cmsg_data CMsg ++ replicate 16 0) in
        let ipi6_ifindex := load32 (drop 16 (cmsg_data CMsg)) in
        b <- deref Bindings (Some Binding) ;;
        update_RecvBlock TuplePtr (in_LocalAddress (fun LocalAddr =>
          let LocalAddr := set_sa_family AF_INET6 LocalAddr in
          let LocalAddr := set_sin6_addr ipi6_addr LocalAddr in
          let LocalAddr := set_sin_port (sin_port (Binding_LocalAddress b)) LocalAddr in
          let LocalAddr := QuicConvertFromMappedV6 P LocalAddr in
          let LocalAddr := set_sin6_scope_id ipi6_ifindex LocalAddr in
          LocalAddr)) ;;
        ret true
      else if is_IP_PKTINFO CMsg then
        let ipi_ifindex := load32 (cmsg_data CMsg) in
        let ipi_addr := load32 (drop 8 (cmsg_data CMsg)) in
        b <- deref Bindings (Some Binding) ;;
        update_RecvBlock TuplePtr (in_LocalAddress (fun LocalAddr =>
          let LocalAddr := set_sa_family AF_INET LocalAddr in
          let LocalAddr := set_sin_addr ipi_addr LocalAddr in
          let LocalAddr := set_sin_port (sin_port (Binding_LocalAddress b)) LocalAddr in
          let LocalAddr := set_sin6_scope_id ipi_ifindex LocalAddr in
          LocalAddr)) ;;
        ret true
      else RecvComplete_cmsgs Binding TuplePtr rest
  end.

(** The upper layer's receive handler is outside the file: the call is
    recorded with the datagram and the tuple as the handler finds them.
    QuicDataPathInitialize refuses a NULL handler, so the debug assertion
    on [Datapath->RecvHandler] always holds. *)
Definition RecvHandler (Binding : ptr) (Context : Z) (DatagramChain : option ptr)
  : M unit :=
  blk <- deref RecvBlocks DatagramChain ;;
  t <- load_Tuple (Tuple (Block_RecvPacket blk)) ;;
  emit (EvRecvHandler Binding Context DatagramChain (Block_RecvPacket blk) t).

Definition QuicSocketContextRecvComplete
    (SocketContext : ptr * Z) (ProcContext : Z) (BytesTransferred : Z) : M unit :=
  let Binding := SocketContext.1 in
  s <- load_SocketContext SocketContext ;;
  QUIC_DBG_ASSERT (bool_decide (CurrentRecvBlock s <> None)) ;;
  let RecvPacket := CurrentRecvBlock s in
  store_SocketContext SocketContext (set_CurrentRecvBlock None s) ;;
  blk <- deref RecvBlocks RecvPacket ;;
  let TuplePtr := Tuple (Block_RecvPacket blk) in
  FoundLocalAddr <- RecvComplete_cmsgs Binding TuplePtr (msg_control (RecvMsgHdr s)) ;;
  QUIC_FRE_ASSERT FoundLocalAddr ;;
  t <- load_Tuple TuplePtr ;;
  QuicTraceEvent "DatapathRecv"
    [LPtr (Some Binding); LInt (wrap 32 BytesTransferred);
     LInt (wrap 32 BytesTransferred);
     LAddr (Tuple_LocalAddress t); LAddr (Tuple_RemoteAddress t)] ;;
  blk <- deref RecvBlocks RecvPacket ;;
  QUIC_DBG_ASSERT (BytesTransferred <=? BufferLength (Block_RecvPacket blk)) ;;
  dp <- get Datapath ;;
  proc <- index (ProcContexts dp) ProcContext ;;
  update_RecvBlock RecvPacket
    (in_RecvPacket (set_BufferLength (wrap (BufferLength_bits P) BytesTransferred))) ;;
  update_RecvBlock RecvPacket
    (in_RecvPacket (set_PartitionIndex (wrap (PartitionIndex_bits P) (Index proc)))) ;;
  b <- deref Bindings (Some Binding) ;;
  RecvHandler Binding (ClientContext b) RecvPacket ;;
  Status <- QuicSocketContextPrepareReceive SocketContext ;;
  QUIC_FRE_ASSERT (QUIC_SUCCEEDED P Status).

(** recvmsg on the socket context's message header: on success the kernel
    leaves the ancillary records in the control buffer, the source address
    in the tuple [msg_name] points at and the payload in the receive
    block. *)
Definition recvmsg (SocketContext : ptr * Z) : M Z :=
  s <- load_SocketContext SocketContext ;;
  let hdr := RecvMsgHdr s in
  dgram <- get (fun w => sys_datagram env (Trace w) (SocketFd s)) ;;
  Ret <- syscall (sys_recvmsg (SocketFd s) (msg_namelen hdr) (msg_iovlen hdr)
                    (msg_controllen hdr) 0) ;;
  (if 0 <=? Ret then
     let '(control, source, payload) := dgram in
     store_SocketContext SocketContext
       (set_RecvMsgHdr
          (mkMsghdr (msg_name hdr) (msg_namelen hdr) (msg_iovlen hdr) control
             (msg_controllen hdr) (msg_flags hdr)) s) ;;
     match msg_name hdr with
     | Some t => update_RecvBlock (Some t) (in_RemoteAddress (fun _ => source))
     | None => ret tt
     end ;;
     match iov_base (RecvIov s) with
     | Some q =>
         update_RecvBlock (Some q) (fun blk =>
           mkRecvBlock (OwningPool blk) (Block_RecvPacket blk) (Block_Tuple blk)
             payload)
     | None => ret tt
     end
   else ret tt) ;;
  ret Ret.

(** What the worker thread does with one event of its readiness queue. *)
Definition QuicDataPathWorkerThread_event
    (ProcContext : Z) (filter data : Z) (udata : ptr * Z) : M unit :=
  if filter =? EVFILT_READ then
    if data =? 0 then ret tt
    else
      let SocketContext := udata in
      Ret <- recvmsg SocketContext ;;
      if negb (Ret =? -1) then
        QuicSocketContextRecvComplete SocketContext ProcContext Ret
      else ret tt
  else int3.

(** The walk over a chain of datagrams.  Every round ends the life of one
    receive block, so a round budget of one more than the number of live
    blocks is never used up. *)
Fixpoint ReturnRecvDatagrams_loop (rounds : nat) (DatagramChain : option ptr)
  : M unit :=
  match DatagramChain with
  | None => ret tt
  | Some Datagram =>
      match rounds with
      | O => fault "round budget"
      | S rounds' =>
          RecvBlock <- deref RecvBlocks (Some Datagram) ;;
          let DatagramChain := Next (Block_RecvPacket RecvBlock) in
          QuicPoolFree (OwningPool RecvBlock) (Some Datagram) ;;
          ReturnRecvDatagrams_loop rounds' DatagramChain
      end
  end.

Definition QuicDataPathBindingReturnRecvDatagrams (DatagramChain : option ptr)
  : M unit :=
  fun w => ReturnRecvDatagrams_loop (S (size (RecvBlocks w))) DatagramChain w.

(** *** Sockets of a binding *)

(** getsockname asked for [sizeof(struct sockaddr)] bytes of the binding's
    local address. *)
Definition getsockname_LocalAddress (fd : Z) (Binding : ptr) : M Z :=
  b <- deref Bindings (Some Binding) ;;
  name <- get (fun w => sys_sockname env (Trace w) fd) ;;
  Result <- syscall (sys_getsockname fd sizeof_sockaddr) ;;
  (if 0 <=? Result then
     store_Binding Binding
       (set_Binding_LocalAddress (write_sockaddr16 name (Binding_LocalAddress b)) b)
   else ret tt) ;;
  ret Result.

Definition store_SocketFd (SocketContext : ptr * Z) (fd : Z) : M unit :=
  s <- load_SocketContext SocketContext ;;
  store_SocketContext SocketContext (set_SocketFd fd s).

Definition errno_Status (Binding : ptr) (what : string) : M Z :=
  Status <- get Errno ;;
  QuicTraceEvent "DatapathErrorStatus" [LPtr (Some Binding); LInt Status; LStr what] ;;
  ret Status.

Definition QuicSocketContextInitialize
    (SocketContext : ptr * Z) (ProcContext : Z)
    (LocalAddress RemoteAddress : option QUIC_ADDR) : M Z :=
  let Binding := SocketContext.1 in
  Status <-
    (af_family <-
       match RemoteAddress with
       | None =>
           match LocalAddress with
           | Some l => ret (sa_family l)
           | None => fault "NULL pointer"
           end
       | Some r => ret (sa_family r)
       end ;;
     fd <- syscall (sys_socket af_family SOCK_DGRAM 0) ;;
     store_SocketFd SocketContext fd ;;
     fd <- syscall (sys_socket AF_INET SOCK_DGRAM 0) ;;
     store_SocketFd SocketContext fd ;;
     if fd =? INVALID_SOCKET_FD P then
       int3 ;;
       errno_Status Binding "socket failed"
     else
       AddrSize <-
         (if af_family =? AF_INET then
            _ <- syscall (sys_setsockopt fd IPPROTO_IP IP_RECVDSTADDR TRUE 4) ;;
            _ <- syscall (sys_setsockopt fd IPPROTO_IP IP_PKTINFO TRUE 4) ;;
            _ <- syscall (sys_setsockopt fd IPPROTO_IP IP_RECVIF TRUE 4) ;;
            ret sizeof_sockaddr_in
          else
            _ <- syscall (sys_setsockopt fd IPPROTO_IPV6 IPV6_RECVPKTINFO TRUE 4) ;;
            _ <- syscall (sys_setsockopt fd IPPROTO_IPV6 IPV6_V6ONLY FALSE 4) ;;
            _ <- syscall (sys_setsockopt fd IPPROTO_IPV6 IPV6_RECVPKTINFO TRUE 4) ;;
            ret sizeof_sockaddr_in6) ;;
       Result <- syscall (sys_setsockopt fd SOL_SOCKET SO_REUSEADDR TRUE 4) ;;
       if Result =? SOCKET_ERROR P then
         errno_Status Binding "setsockopt(SO_REUSEADDR) failed"
       else
         b <- deref Bindings (Some Binding) ;;
         Result <- syscall (sys_bind fd (Binding_LocalAddress b) sizeof_sockaddr) ;;
         if Result =? SOCKET_ERROR P then
           errno_Status Binding "bind() failed"
         else
           connected <-
             match RemoteAddress with
             | Some r =>
                 Result <- syscall (sys_connect fd r AddrSize) ;;
                 if Result =? SOCKET_ERROR P then
                   int3 ;;
                   Status <- errno_Status Binding "connect failed" ;;
                   ret (Some Status)
                 else ret None
             | None => ret None
             end ;;
           match connected with
           | Some Status => ret Status
           | None =>
               Result <- getsockname_LocalAddress fd Binding ;;
               if Result =? SOCKET_ERROR P then
                 errno_Status Binding "getsockname failed"
               else
                 b <- deref Bindings (Some Binding) ;;
                 match LocalAddress with
                 | Some l =>
                     if negb (sin_port l =? 0) then
                       QUIC_DBG_ASSERT
                         (sin_port l =? sin_port (Binding_LocalAddress b))
                     else ret tt
                 | None => ret tt
                 end ;;
                 ret (QUIC_STATUS_SUCCESS P)
           end) ;;
  if QUIC_FAILED P Status then
    s <- load_SocketContext SocketContext ;;
    _ <- syscall (sys_close (SocketFd s)) ;;
    store_SocketFd SocketContext (INVALID_SOCKET_FD P) ;;
    ret Status
  else ret Status.

Definition QuicSocketContextStartReceive
    (SocketContext : ptr * Z) (KqueueFd : Z) : M Z :=
  Status <- QuicSocketContextPrepareReceive SocketContext ;;
  Status <-
    (if QUIC_FAILED P Status then ret Status
     else
       s <- load_SocketContext SocketContext ;;
       r <- syscall (sys_kevent KqueueFd (to_uintptr (SocketFd s)) EVFILT_READ
                       (Z.lor EV_ADD EV_CLEAR) SocketContext) ;;
       if r <? 0 then
         QUIC_DBG_ASSERT true ;;
         QuicTraceEvent "DatapathErrorStatus"
           [LPtr (Some SocketContext.1); LInt Status;
            LStr "kevent(..., sockfd EV_ADD, ...) failed"] ;;
         ret (QUIC_STATUS_INTERNAL_ERROR P)
       else ret Status) ;;
  if QUIC_FAILED P Status then
    s <- load_SocketContext SocketContext ;;
    _ <- syscall (sys_close (SocketFd s)) ;;
    store_SocketFd SocketContext (INVALID_SOCKET_FD P) ;;
    ret Status
  else ret Status.

(** *** Bindings *)

(** The result is the status and the value stored through [NewBinding], if
    the store was reached. *)
Definition QuicDataPathBindingCreate
    (LocalAddress RemoteAddress : option QUIC_ADDR) (RecvCallbackContext : Z)
  : M (Z * option ptr) :=
  dp <- get Datapath ;;
  let SocketCount := ProcCount dp in
  Binding <- QUIC_ALLOC_PAGED SocketCount ;;
  match Binding with
  | None =>
      let Status := QUIC_STATUS_OUT_OF_MEMORY P in
      QuicTraceEvent "AllocFailure" [LStr "QUIC_DATAPATH_BINDING"; LInt SocketCount] ;;
      ret (Status, None)
  | Some B =>
      QuicTraceEvent "DatapathCreate" [LPtr Binding] ;;
      let b :=
        mkBinding RecvCallbackContext zero_addr zero_addr false false
          (QUIC_MAX_MTU P)
          (replicate (Z.to_nat SocketCount) zero_socket_context) in
      store_Binding B b ;;
      QuicRundown RundownInitialize (Rundown B) ;;
      match LocalAddress with
      | Some _ => ret tt
      | None =>
          match RemoteAddress with
          | Some r =>
              store_Binding B
                (set_Binding_LocalAddress
                   (set_sa_family (sa_family r) (Binding_LocalAddress b)) b)
          | None => fault "NULL pointer"
          end
      end ;;
      for_each (Z.to_nat SocketCount) 0 (fun i =>
        b <- deref Bindings Binding ;;
        s <- load_SocketContext (B, i) ;;
        let s := set_SocketFd (INVALID_SOCKET_FD P) s in
        let s :=
          set_RecvIov
            (mkIov (iov_base (RecvIov s))
               (wrap 64 (Mtu b - QUIC_MIN_IPV4_HEADER_SIZE P - QUIC_UDP_HEADER_SIZE P)))
            s in
        let s := set_PendingSendContextHead [] s in
        store_SocketContext (B, i) s ;;
        QuicRundown RundownAcquire (Rundown B)) ;;
      QuicRundown RundownAcquire BindingsRundown ;;
      failed <-
        for_status (Z.to_nat SocketCount) 0 (fun i =>
          Status <- QuicSocketContextInitialize (B, i) i LocalAddress RemoteAddress ;;
          if QUIC_FAILED P Status then ret (Some (Status, None)) else ret None) ;;
      exit <-
        match failed with
        | Some e => ret e
        | None =>
            match RemoteAddress with
            | Some r =>
                b <- deref Bindings Binding ;;
                store_Binding B (set_Binding_RemoteAddress r b)
            | None => ret tt
            end ;;
            let NewBinding := Binding in
            dp <- get Datapath ;;
            failed <-
              for_status (Z.to_nat (ProcCount dp)) 0 (fun i =>
                dp <- get Datapath ;;
                proc <- index (ProcContexts dp) i ;;
                Status <- QuicSocketContextStartReceive (B, i) (KqueueFd proc) ;;
                if QUIC_FAILED P Status then ret (Some Status) else ret None) ;;
            match failed with
            | Some Status => ret (Status, NewBinding)
            | None => ret (QUIC_STATUS_SUCCESS P, NewBinding)
            end
        end ;;
      let '(Status, NewBinding) := exit in
      (if QUIC_FAILED P Status then
         QuicRundown RundownRelease BindingsRundown ;;
         QuicRundown RundownUninitialize (Rundown B) ;;
         QUIC_FREE Binding
       else ret tt) ;;
      ret (Status, NewBinding)
  end.

Definition QuicSocketContextUninitialize
    (SocketContext : ptr * Z) (ProcContext : Z) : M unit :=
  s <- load_SocketContext SocketContext ;;
  _ <- syscall (sys_close (SocketFd s)) ;;
  QuicRundown RundownRelease (Rundown SocketContext.1).

(** [Shutdown] is the flag other threads look at: the store is recorded in
    the trace as well. *)
Definition QuicDataPathBindingDelete (Binding : ptr) : M unit :=
  b <- deref Bindings (Some Binding) ;;
  store_Binding Binding (set_Shutdown true b) ;;
  emit (EvShutdown Binding) ;;
  dp <- get Datapath ;;
  for_each (Z.to_nat (ProcCount dp)) 0 (fun i =>
    QuicSocketContextUninitialize (Binding, i) i) ;;
  QuicRundown RundownReleaseAndWait (Rundown Binding) ;;
  QuicRundown RundownRelease BindingsRundown ;;
  QuicRundown RundownUninitialize (Rundown Binding) ;;
  QUIC_FREE (Some Binding).

End Datapath.

(** * Concrete platform, surroundings and worlds *)

(** The usual normalisation of an IPv4-mapped IPv6 address. *)
Definition is_v4mapped (a : list Z) : bool :=
  bool_decide (take 12 a = replicate 10 0 ++ [255; 255]).

Definition posix_ConvertFromMappedV6 (a : QUIC_ADDR) : QUIC_ADDR :=
  if is_v4mapped (sin6_addr a)
  then set_sin_addr (load32 (drop 12 (sin6_addr a))) (set_sa_family AF_INET a)
  else a.

(** The POSIX reading of the platform macros, with a 16-bit
    [BufferLength] and an 8-bit [PartitionIndex]; [debug] says whether
    QUIC_DBG_ASSERT is compiled in. *)
Definition posix (debug : bool) : Platform :=
  mkPlatform debug false 0 12 5 (fun s => 0 <? s) (fun s => s <=? 0)
    (-1) (-1) 1500 20 8 16 8 posix_ConvertFromMappedV6.

(** Surroundings in which every call succeeds: descriptors and heap
    addresses are numbered by the position of the call in the trace. *)
Definition fresh (tr : list Event) : Z := 3 + Z.of_nat (length tr).

Definition env_ok : Environment :=
  mkEnv (fun tr c => match c with
                     | sys_socket _ _ _ => fresh tr
                     | sys_sendto _ _ _ len _ _ _ => len
                     | _ => 0
                     end)
        (fun _ _ => 0)
        (fun _ _ => mkAddr AF_INET 50000 16777343 (replicate 16 0) 0)
        (fun _ _ => ([], zero_addr, []))
        (fun tr _ => Some (Z.to_N (fresh tr)))
        (fun tr _ => Some (Z.to_N (fresh tr))).

Definition datapath0 : QUIC_DATAPATH :=
  mkDatapath false QUIC_MAX_BATCH_SEND 0 1 [mkProcContext 9 0].

Definition world0 : World := mkWorld [] [] 0 datapath0 ∅ ∅ ∅ ∅.

(** The same surroundings with one kind of call failing. *)
Definition env_no_send_buffer : Environment :=
  mkEnv (sys_ret env_ok) (sys_errno env_ok) (sys_sockname env_ok)
        (sys_datagram env_ok)
        (fun tr pool => match pool with
                        | SendBufferPool _ => None
                        | _ => pool_alloc env_ok tr pool
                        end)
        (heap_alloc env_ok).

Definition is_kevent (c : Syscall) : bool :=
  match c with sys_kevent _ _ _ _ _ => true | _ => false end.

Definition env_kevent_fails : Environment :=
  mkEnv (fun tr c => if is_kevent c then -1 else sys_ret env_ok tr c)
        (fun _ _ => 9)
        (sys_sockname env_ok) (sys_datagram env_ok)
        (pool_alloc env_ok) (heap_alloc env_ok).

Definition is_sendto (e : Event) : bool :=
  match e with
  | EvSys (sys_sendto _ _ _ _ _ _ _) _ => true
  | _ => false
  end.

(** The kernel takes one datagram and then reports a full send queue. *)
Definition env_send_queue_full : Environment :=
  mkEnv (fun tr c => match c with
                     | sys_sendto _ _ _ len _ _ _ =>
                         if existsb is_sendto tr then -1 else len
                     | _ => sys_ret env_ok tr c
                     end)
        (fun _ _ => EAGAIN)
        (sys_sockname env_ok) (sys_datagram env_ok)
        (pool_alloc env_ok) (heap_alloc env_ok).

Definition peer : QUIC_ADDR := mkAddr AF_INET 4433 16777343 (replicate 16 0) 0.
Definition any6 : QUIC_ADDR := mkAddr AF_INET6 0 0 (replicate 16 0) 0.

(** A client binding connected to [peer], made by the datapath itself, a
    send context on it, and the context with two datagrams allocated. *)
Definition client : Result (Z * option ptr) * World :=
  QuicDataPathBindingCreate (posix false) env_ok None (Some peer) 77 world0.

Definition client_context : Result (option ptr) * World :=
  QuicDataPathBindingAllocSendContext (posix false) env_ok (Some 3%N) 1200 client.2.

Definition client_batch : Result (option Z) * World :=
  (QuicDataPathBindingAllocSendDatagram (posix false) env_ok (Some 18%N) 1200 ;;
   QuicDataPathBindingAllocSendDatagram (posix false) env_ok (Some 18%N) 1200)
    client_context.2.

(** A server binding on the IPv6 wildcard address. *)
Definition server : Result (Z * option ptr) * World :=
  QuicDataPathBindingCreate (posix false) env_ok (Some any6) None 77 world0.

(** Surroundings in which a three-byte datagram for [::1] arrives on
    interface 1, with a record that is not a PKTINFO in front of the
    IPV6_PKTINFO one. *)
Definition env_datagram : Environment :=
  mkEnv (fun tr c => match c with
                     | sys_recvmsg _ _ _ _ _ => 3
                     | _ => sys_ret env_ok tr c
                     end)
        (sys_errno env_ok) (sys_sockname env_ok)
        (fun _ _ =>
           ([mkCmsg (CMSG_LEN 4) IPPROTO_IP IP_RECVDSTADDR [127; 0; 0; 1];
             mkCmsg (CMSG_LEN sizeof_in6_pktinfo) IPPROTO_IPV6 IPV6_PKTINFO
               (in6_pktinfo_bytes (replicate 15 0 ++ [1]) 1)],
            mkAddr AF_INET6 4433 0 (replicate 15 0 ++ [1]) 0,
            [1; 2; 3]))
        (pool_alloc env_ok) (heap_alloc env_ok).

(** The server binding after the worker's recvmsg, and after a recvmsg that
    brought no ancillary record at all. *)
Definition received : Result Z * World :=
  recvmsg env_datagram (3%N, 0) server.2.

Definition received_bare : Result Z * World :=
  recvmsg env_ok (3%N, 0) server.2.

(** The server binding after the receive completion of the datagram: the
    upper layer holds the datagram in block 15. *)
Definition delivered : Result unit * World :=
  QuicSocketContextRecvComplete (posix true) env_ok (3%N, 0) 0 3 received.2.

(** * Vocabulary of the statements *)

(** The part of a trace that a call added. *)
Definition added (before after : World) : list Event :=
  drop (length (Trace before)) (Trace after).

(** The system calls of a trace, with their results. *)
Fixpoint syscalls (tr : list Event) : list (Syscall * Z) :=
  match tr with
  | [] => []
  | EvSys c r :: tr' => (c, r) :: syscalls tr'
  | _ :: tr' => syscalls tr'
  end.

(** The events of a trace with the results of the system calls blanked. *)
Definition blank (e : Event) : Event :=
  match e with
  | EvSys c _ => EvSys c 0
  | _ => e
  end.







Definition is_RecvHandler (e : Event) : bool :=
  match e with
  | EvRecvHandler _ _ _ _ _ => true
  | _ => false
  end.

Definition is_PKTINFO (CMsg : cmsghdr) : bool :=
  is_IPV6_PKTINFO CMsg || is_IP_PKTINFO CMsg.

(** The local address RecvComplete derives from a matching record. *)
Definition LocalAddr_of (P : Platform) (CMsg : cmsghdr) (port : Z)
    (LocalAddr : QUIC_ADDR) : QUIC_ADDR :=
  if is_IPV6_PKTINFO CMsg then
    set_sin6_scope_id (load32 (drop 16 (cmsg_data CMsg)))
      (QuicConvertFromMappedV6 P
         (set_sin_port port
            (set_sin6_addr (take 16 (cmsg_data CMsg ++ replicate 16 0))
               (set_sa_family AF_INET6 LocalAddr))))
  else
    set_sin6_scope_id (load32 (cmsg_data CMsg))
      (set_sin_port port
         (set_sin_addr (load32 (drop 8 (cmsg_data CMsg)))
            (set_sa_family AF_INET LocalAddr))).

(** The interface index carried by a matching record. *)
Definition ifindex_of (CMsg : cmsghdr) : Z :=
  if is_IPV6_PKTINFO CMsg then load32 (drop 16 (cmsg_data CMsg))
  else load32 (cmsg_data CMsg).

Definition is_RecvBlock_alloc (e : Event) : Prop :=
  exists r, e = EvPoolAlloc (RecvBlockPool 0) r.

(** A socket context armed for a receive, as
    QuicSocketContextPrepareReceive leaves it: the binding [b] lives at
    [B], its socket context [i] is [s], the current receive block [blk]
    lives at [p] and its datagram points at the block's own tuple. *)
Definition armed (w : World) (B : ptr) (i : Z) (b : QUIC_DATAPATH_BINDING)
    (s : QUIC_SOCKET_CONTEXT) (p : ptr) (blk : QUIC_DATAPATH_RECV_BLOCK) : Prop :=
  Bindings w !! B = Some b /\
  0 <= i /\
  SocketContexts b !! Z.to_nat i = Some s /\
  CurrentRecvBlock s = Some p /\
  RecvBlocks w !! p = Some blk /\
  Tuple (Block_RecvPacket blk) = Some p.

(** The pool a block address was last handed out from, according to the
    trace. *)
Definition alloc_of (p : ptr) (e : Event) : option QUIC_POOL :=
  match e with
  | EvPoolAlloc pool (Some a) => if decide (a = p) then Some pool else None
  | _ => None
  end.

Fixpoint allocated_from (tr : list Event) (p : ptr) : option QUIC_POOL :=
  match tr with
  | [] => None
  | e :: tr' =>
      match allocated_from tr' p with
      | Some pool => Some pool
      | None => alloc_of p e
      end
  end.

(** Every live receive block records the pool it was allocated from. *)
Definition owned (w : World) : Prop :=
  forall p blk, RecvBlocks w !! p = Some blk ->
                OwningPool blk = allocated_from (Trace w) p.

(** A chain of datagrams linked by [Next], with the owning pool of each
    containing block; a block occurs once. *)
Fixpoint chain (h : gmap N QUIC_DATAPATH_RECV_BLOCK) (head : option ptr)
    (l : list (ptr * QUIC_POOL)) : Prop :=
  match l with
  | [] => head = None
  | (p, pool) :: l' =>
      head = Some p /\
      exists blk, h !! p = Some blk /\ OwningPool blk = Some pool /\
                  chain (delete p h) (Next (Block_RecvPacket blk)) l'
  end.

Definition free_event (x : ptr * QUIC_POOL) : Event :=
  EvPoolFree x.2 (Some x.1).

(** [extends phi m]: whatever the outcome, [m] only appends to the trace,
    and every event it appends satisfies [phi]. *)
Definition extends {A} (phi : Event -> Prop) (m : M A) : Prop :=
  forall w, exists tr, Trace (m w).2 = Trace w ++ tr /\ Forall phi tr.

(** [keeps I m]: whatever the outcome, [m] leaves a world in which [I]
    holds, if it starts in one. *)
Definition keeps {A} (I : World -> Prop) (m : M A) : Prop :=
  forall w, I w -> I (m w).2.

#[local] Instance QUIC_POOL_eq_dec : EqDecision QUIC_POOL.
Proof. solve_decision. Defined.

(** Two worlds that differ at most in the event log written by
    QuicTraceEvent, and two computations that keep them so and end alike. *)
Definition same_but_log (w1 w2 : World) : Prop := set_Log [] w1 = set_Log [] w2.

Definition sim {A} (m1 m2 : M A) : Prop :=
  forall w1 w2, same_but_log w1 w2 ->
    (m1 w1).1 = (m2 w2).1 /\ same_but_log (m1 w1).2 (m2 w2).2.

(** What the connected path may add to the trace: sendto calls without a
    destination address, and the return of buffers and context to their
    pools. *)
Definition connected_send_event (e : Event) : Prop :=
  match e with
  | EvSys (sys_sendto _ _ _ _ flags dest_addr dest_len) _ =>
      flags = 0 /\ dest_addr = None /\ dest_len = 0
  | EvPoolFree _ _ => True
  | _ => False
  end.

(** * The rest of the interface *)

Section Getters.

Context (P : Platform).

Definition QuicDataPathBindingGetLocalMtu (Binding : option ptr) : M Z :=
  QUIC_DBG_ASSERT P (bool_decide (Binding <> None)) ;;
  b <- deref Bindings Binding ;;
  ret (Mtu b).

(** The result is the value stored through [Address]. *)
Definition QuicDataPathBindingGetLocalAddress (Binding : option ptr) : M QUIC_ADDR :=
  QUIC_DBG_ASSERT P (bool_decide (Binding <> None)) ;;
  b <- deref Bindings Binding ;;
  ret (Binding_LocalAddress b).

Definition QuicDataPathBindingGetRemoteAddress (Binding : option ptr) : M QUIC_ADDR :=
  QUIC_DBG_ASSERT P (bool_decide (Binding <> None)) ;;
  b <- deref Bindings Binding ;;
  ret (Binding_RemoteAddress b).

End Getters.

(** The upper layer's per-packet context lies behind the receive block.
    Addresses are byte addresses here; the size of the block and the offset
    of its [RecvPacket] member are the compiler's. *)
Section RecvPacket.

Context (sizeof_QUIC_DATAPATH_RECV_BLOCK offsetof_RecvPacket : Z).

Definition QuicDataPathRecvPacketToRecvDatagram (Packet : Z) : Z :=
  let RecvBlock := Packet - sizeof_QUIC_DATAPATH_RECV_BLOCK in
  RecvBlock + offsetof_RecvPacket.

Definition QuicDataPathRecvDatagramToRecvPacket (RecvPacket : Z) : Z :=
  let RecvBlock := RecvPacket - offsetof_RecvPacket in
  RecvBlock + 1 * sizeof_QUIC_DATAPATH_RECV_BLOCK.

End RecvPacket.

(** ** Name resolution *)
Definition AF_UNSPEC : Z := 0.

Definition AI_PASSIVE : Z := 1.

Definition AI_CANONNAME : Z := 2.

Definition AI_NUMERICHOST : Z := 4.

(** struct addrinfo as far as the file reads it: the socket address
    [ai_addr] points at, in the cells of a QUIC_ADDR, and its length. *)
Record ADDRINFO := mkAddrInfo {
  ai_addr : QUIC_ADDR;
  ai_addrlen : Z
}.

Definition IN6_IS_ADDR_V4MAPPED (a : list Z) : bool := is_v4mapped a.

Section Resolve.

Context (P : Platform).

(** QUIC_STATUS_DNS_RESOLUTION_ERROR, of the platform header. *)
Context (QUIC_STATUS_DNS_RESOLUTION_ERROR : Z).

(** The resolver: what getaddrinfo returns for a host name, no service
    name, and hints that hold a family and flags, and the list it stores
    when it returns 0.  Its calls, and those of freeaddrinfo, are not part
    of the trace. *)
Context (getaddrinfo : string -> Z -> Z -> Z * option ADDRINFO).

(** The result is the content of [*Address]. *)
Definition QuicDataPathPopulateTargetAddress
    (Family : Z) (AddrInfo : option ADDRINFO) : M QUIC_ADDR :=
  let Address := zero_addr in
  match AddrInfo with
  | None => fault "NULL pointer"
  | Some info =>
      if sa_family (ai_addr info) =? AF_INET6 then
        QUIC_DBG_ASSERT P (sizeof_sockaddr_in6 =? ai_addrlen info) ;;
        let SockAddrIn6 := ai_addr info in
        if (Family =? AF_UNSPEC) && IN6_IS_ADDR_V4MAPPED (sin6_addr SockAddrIn6) then
          ret (set_sin_port (sin_port SockAddrIn6)
                 (set_sin_addr (load32 (drop 12 (sin6_addr SockAddrIn6)))
                    (set_sa_family AF_INET Address)))
        else ret SockAddrIn6
      else if sa_family (ai_addr info) =? AF_INET then
        QUIC_DBG_ASSERT P (sizeof_sockaddr_in =? ai_addrlen info) ;;
        ret (write_sockaddr16 (ai_addr info) Address)
      else
        QUIC_FRE_ASSERT false ;;
        ret Address
  end.

(** The result is the status and the content of [*Address] on return. *)
Definition QuicDataPathResolveAddress
    (Datapath : option ptr) (HostName : string) (Address : QUIC_ADDR)
  : M (Z * QUIC_ADDR) :=
  let Status := QUIC_STATUS_SUCCESS P in
  let Hints_ai_family := AF_INET in
  let Hints_ai_flags := Z.lor AI_NUMERICHOST AI_PASSIVE in
  let '(Result, AddrInfo) := getaddrinfo HostName Hints_ai_family Hints_ai_flags in
  if Result =? 0 then
    Address <- QuicDataPathPopulateTargetAddress Hints_ai_family AddrInfo ;;
    ret (Status, Address)
  else
    let Hints_ai_flags := AI_CANONNAME in
    let '(Result, AddrInfo) := getaddrinfo HostName Hints_ai_family Hints_ai_flags in
    if Result =? 0 then
      Address <- QuicDataPathPopulateTargetAddress Hints_ai_family AddrInfo ;;
      ret (Status, Address)
    else
      QuicTraceEvent "LibraryError" [LStr "Resolving hostname to IP"] ;;
      QuicTraceEvent "DatapathResolveHostNameFailed" [LPtr Datapath; LStr HostName] ;;
      ret (QUIC_STATUS_DNS_RESOLUTION_ERROR, Address).

End Resolve.

(** * Opening and closing the datapath *)

(** QuicDataPathInitialize and QuicDataPathUninitialize work before the
    first binding is made and after the last one is gone.  They have a
    state of their own: the datapath objects in the heap, the event log,
    and the calls they made with what these returned. *)
Definition set_Datapath_Shutdown (v : bool) (d : QUIC_DATAPATH) : QUIC_DATAPATH :=
  mkDatapath v (MaxSendBatchSize d) (ClientRecvContextLength d) (ProcCount d)
    (ProcContexts d).

Definition set_MaxSendBatchSize (v : Z) (d : QUIC_DATAPATH) : QUIC_DATAPATH :=
  mkDatapath (Datapath_Shutdown d) v (ClientRecvContextLength d) (ProcCount d)
    (ProcContexts d).

Definition set_ClientRecvContextLength (v : Z) (d : QUIC_DATAPATH) : QUIC_DATAPATH :=
  mkDatapath (Datapath_Shutdown d) (MaxSendBatchSize d) v (ProcCount d)
    (ProcContexts d).

Definition set_ProcCount (v : Z) (d : QUIC_DATAPATH) : QUIC_DATAPATH :=
  mkDatapath (Datapath_Shutdown d) (MaxSendBatchSize d) (ClientRecvContextLength d) v
    (ProcContexts d).

Definition set_ProcContexts (v : list QUIC_DATAPATH_PROC_CONTEXT) (d : QUIC_DATAPATH)
  : QUIC_DATAPATH :=
  mkDatapath (Datapath_Shutdown d) (MaxSendBatchSize d) (ClientRecvContextLength d)
    (ProcCount d) v.

Definition set_KqueueFd (v : Z) (c : QUIC_DATAPATH_PROC_CONTEXT) :=
  mkProcContext v (Index c).

Definition set_Index (v : Z) (c : QUIC_DATAPATH_PROC_CONTEXT) :=
  mkProcContext (KqueueFd c) v.

(** The datapath object in the heap: the fields the bindings' functions
    read, and the two handlers. *)
Record QUIC_DATAPATH_OBJECT := mkObject {
  Object_Datapath : QUIC_DATAPATH;
  Object_RecvHandler : option Z;
  Object_UnreachableHandler : option Z
}.

(** QuicZeroMemory of an object with room for one processor context. *)
Definition zero_object : QUIC_DATAPATH_OBJECT :=
  mkObject (mkDatapath false 0 0 0 [mkProcContext 0 0]) None None.

Definition in_Datapath (f : QUIC_DATAPATH -> QUIC_DATAPATH) (o : QUIC_DATAPATH_OBJECT)
  : QUIC_DATAPATH_OBJECT :=
  mkObject (f (Object_Datapath o)) (Object_RecvHandler o) (Object_UnreachableHandler o).

(** The calls that leave the file.  A processor context, and with it its
    thread, is addressed as [&Datapath->ProcContexts[i]]; its pools are
    named by [i]. *)
Inductive HostCall :=
| host_QUIC_ALLOC_PAGED (Size : Z)
| host_QUIC_FREE (Mem : ptr)
| host_QuicRundown (op : RundownOp) (Ref : QUIC_RUNDOWN_REF)
| host_QuicPoolInitialize (IsPaged : bool) (Size : Z) (Pool : QUIC_POOL)
| host_QuicPoolUninitialize (Pool : QUIC_POOL)
| host_kqueue
| host_close (fd : Z)
| host_QuicThreadCreate (Context : ptr * Z)
| host_QuicThreadWait (Thread : ptr * Z)
| host_QuicThreadDelete (Thread : ptr * Z).

(** The host answers every call from the calls so far; an allocation
    returns the address, 0 for NULL.  It also says whether a thread that is
    waited for comes to an end: the thread of a processor context is
    QuicDataPathWorkerThread, which looks at the datapath's Shutdown flag
    only between two calls of kevent and waits in kevent without a
    timeout. *)
Record Host := mkHost {
  host_ret : list (HostCall * Z) -> HostCall -> Z;
  host_errno : list (HostCall * Z) -> Z;
  host_thread_ends : list (HostCall * Z) -> ptr * Z -> bool
}.

Record Process := mkProcess {
  Calls : list (HostCall * Z);
  Process_Log : list (string * list LogArg);
  Datapaths : gmap N QUIC_DATAPATH_OBJECT
}.

Definition H (A : Type) : Type := Process -> Result A * Process.

Definition Hret {A} (a : A) : H A := fun p => (Done a, p).

Definition Hbind {A B} (m : H A) (k : A -> H B) : H B :=
  fun p =>
    match m p with
    | (Done a, p') => k a p'
    | (Terminated s, p') => (Terminated s, p')
    | (Fault s, p') => (Fault s, p')
    end.

Declare Scope h_scope.
Delimit Scope h_scope with H.
Notation "x <- m ;; k" := (Hbind m (fun x => k))
  (at level 100, m at next level, right associativity) : h_scope.
Notation "m ;; k" := (Hbind m (fun _ => k))
  (at level 100, right associativity) : h_scope.

Fixpoint Hfor_each (n : nat) (i : Z) (body : Z -> H unit) : H unit :=
  match n with
  | O => Hret tt
  | S n' => Hbind (body i) (fun _ => Hfor_each n' (i + 1) body)
  end.

Section Lifecycle.

Local Open Scope h_scope.

Context (P : Platform) (host : Host).

(** QUIC_STATUS_INVALID_PARAMETER, of the platform header, and the sizes
    the compiler gives. *)
Context (QUIC_STATUS_INVALID_PARAMETER : Z).

Context (sizeof_QUIC_DATAPATH sizeof_QUIC_DATAPATH_PROC_CONTEXT : Z).

Context (sizeof_QUIC_DATAPATH_RECV_BLOCK MAX_UDP_PAYLOAD_LENGTH : Z).

Context (sizeof_QUIC_DATAPATH_SEND_CONTEXT : Z).

Definition host_call (c : HostCall) : H Z :=
  fun p =>
    let r := host_ret host (Calls p) c in
    (Done r, mkProcess (Calls p ++ [(c, r)]) (Process_Log p) (Datapaths p)).

Definition Process_errno : H Z := fun p => (Done (host_errno host (Calls p)), p).

Definition Process_TraceEvent (name : string) (args : list LogArg) : H unit :=
  fun p => (Done tt, mkProcess (Calls p) (Process_Log p ++ [(name, args)]) (Datapaths p)).

Definition Process_DBG_ASSERT (cond : bool) : H unit :=
  fun p => if QUIC_DEBUG P && negb cond then (Terminated "QUIC_DBG_ASSERT", p)
           else (Done tt, p).

Definition load_Datapath (Datapath : option ptr) : H QUIC_DATAPATH_OBJECT :=
  fun p =>
    match Datapath with
    | None => (Fault "NULL pointer", p)
    | Some a =>
        match Datapaths p !! a with
        | Some o => (Done o, p)
        | None => (Fault "dangling pointer", p)
        end
    end.

Definition store_Datapath (Datapath : ptr) (o : QUIC_DATAPATH_OBJECT) : H unit :=
  fun p => (Done tt, mkProcess (Calls p) (Process_Log p) (<[Datapath := o]> (Datapaths p))).

Definition update_Datapath (Datapath : ptr) (f : QUIC_DATAPATH -> QUIC_DATAPATH)
  : H unit :=
  o <- load_Datapath (Some Datapath) ;;
  store_Datapath Datapath (in_Datapath f o).

Definition load_ProcContext (ProcContext : ptr * Z) : H QUIC_DATAPATH_PROC_CONTEXT :=
  o <- load_Datapath (Some ProcContext.1) ;;
  fun p =>
    if (0 <=? ProcContext.2) &&
       (ProcContext.2 <? Z.of_nat (length (ProcContexts (Object_Datapath o))))
    then match ProcContexts (Object_Datapath o) !! Z.to_nat ProcContext.2 with
         | Some c => (Done c, p)
         | None => (Fault "index out of range", p)
         end
    else (Fault "index out of range", p).

Definition update_ProcContext (ProcContext : ptr * Z)
    (f : QUIC_DATAPATH_PROC_CONTEXT -> QUIC_DATAPATH_PROC_CONTEXT) : H unit :=
  c <- load_ProcContext ProcContext ;;
  update_Datapath ProcContext.1
    (fun d => set_ProcContexts (<[Z.to_nat ProcContext.2 := f c]> (ProcContexts d)) d).

Definition QuicProcessorContextInitialize
    (Datapath : option ptr) (Index : Z) (ProcContext : ptr * Z) : H Z :=
  let Status := QUIC_STATUS_SUCCESS P in
  Process_DBG_ASSERT (bool_decide (Datapath <> None)) ;;
  dp <- load_Datapath Datapath ;;
  let RecvPacketLength :=
    wrap 32 (sizeof_QUIC_DATAPATH_RECV_BLOCK +
             ClientRecvContextLength (Object_Datapath dp)) in
  update_ProcContext ProcContext (set_Index Index) ;;
  _ <- host_call (host_QuicPoolInitialize true RecvPacketLength
                    (RecvBlockPool ProcContext.2)) ;;
  _ <- host_call (host_QuicPoolInitialize true MAX_UDP_PAYLOAD_LENGTH
                    (SendBufferPool ProcContext.2)) ;;
  _ <- host_call (host_QuicPoolInitialize true sizeof_QUIC_DATAPATH_SEND_CONTEXT
                    (SendContextPool ProcContext.2)) ;;
  KqueueFd <- host_call host_kqueue ;;
  Status <-
    (if KqueueFd =? INVALID_SOCKET_FD P then
       Status <- Process_errno ;;
       Process_TraceEvent "LibraryErrorStatus" [LInt Status; LStr "kqueue() failed"] ;;
       Hret Status
     else
       update_ProcContext ProcContext (set_KqueueFd KqueueFd) ;;
       Status <- host_call (host_QuicThreadCreate ProcContext) ;;
       (if QUIC_FAILED P Status then
          Process_TraceEvent "LibraryErrorStatus"
            [LInt Status; LStr "QuicThreadCreate failed"]
        else Hret tt) ;;
       Hret Status) ;;
  (if QUIC_FAILED P Status then
     (if negb (KqueueFd =? INVALID_SOCKET_FD P) then
        _ <- host_call (host_close KqueueFd) ;; Hret tt
      else Hret tt) ;;
     _ <- host_call (host_QuicPoolUninitialize (RecvBlockPool ProcContext.2)) ;;
     _ <- host_call (host_QuicPoolUninitialize (SendBufferPool ProcContext.2)) ;;
     _ <- host_call (host_QuicPoolUninitialize (SendContextPool ProcContext.2)) ;;
     Hret tt
   else Hret tt) ;;
  Hret Status.

Definition Process_QUIC_FREE (Mem : ptr) : H unit :=
  _ <- host_call (host_QUIC_FREE Mem) ;;
  fun p => (Done tt, mkProcess (Calls p) (Process_Log p) (delete Mem (Datapaths p))).

(** The result is the status and the pointer stored through [NewDataPath],
    if the store was reached.  Of [NewDataPath] itself only whether it is
    NULL matters. *)
Definition QuicDataPathInitialize
    (ClientRecvContextLength : Z) (RecvCallback UnreachableCallback : option Z)
    (NewDataPath : option ptr) : H (Z * option ptr) :=
  let Status := QUIC_STATUS_SUCCESS P in
  if bool_decide (RecvCallback = None) || bool_decide (UnreachableCallback = None) ||
     bool_decide (NewDataPath = None)
  then Hret (QUIC_STATUS_INVALID_PARAMETER, None)
  else
    let DatapathObjectSize :=
      sizeof_QUIC_DATAPATH + sizeof_QUIC_DATAPATH_PROC_CONTEXT in
    a <- host_call (host_QUIC_ALLOC_PAGED DatapathObjectSize) ;;
    if a =? 0 then
      Process_TraceEvent "AllocFailure"
        [LStr "QUIC_DATAPATH"; LInt DatapathObjectSize] ;;
      Hret (QUIC_STATUS_OUT_OF_MEMORY P, None)
    else
      let Datapath := Z.to_N a in
      store_Datapath Datapath zero_object ;;
      o <- load_Datapath (Some Datapath) ;;
      store_Datapath Datapath
        (mkObject (Object_Datapath o) RecvCallback UnreachableCallback) ;;
      update_Datapath Datapath (set_ClientRecvContextLength ClientRecvContextLength) ;;
      update_Datapath Datapath (set_ProcCount 1) ;;
      update_Datapath Datapath (set_MaxSendBatchSize QUIC_MAX_BATCH_SEND) ;;
      _ <- host_call (host_QuicRundown RundownInitialize BindingsRundown) ;;
      Status <- QuicProcessorContextInitialize (Some Datapath) 0 (Datapath, 0) ;;
      if QUIC_FAILED P Status then
        update_Datapath Datapath (set_Datapath_Shutdown true) ;;
        _ <- host_call (host_QuicRundown RundownUninitialize BindingsRundown) ;;
        Process_QUIC_FREE Datapath ;;
        Hret (Status, None)
      else
        Hret (Status, Some Datapath).

(** QuicThreadWait returns when the thread has ended.  A caller that waits
    for a thread that does not end stays in the call: the run goes no
    further. *)
Definition Process_QuicThreadWait (Thread : ptr * Z) : H unit :=
  _ <- host_call (host_QuicThreadWait Thread) ;;
  fun p =>
    if host_thread_ends host (Calls p) Thread then (Done tt, p)
    else (Terminated "QuicThreadWait does not return", p).

Definition QuicProcessorContextUninitialize (ProcContext : ptr * Z) : H unit :=
  Process_QuicThreadWait ProcContext ;;
  _ <- host_call (host_QuicThreadDelete ProcContext) ;;
  c <- load_ProcContext ProcContext ;;
  _ <- host_call (host_close (KqueueFd c)) ;;
  _ <- host_call (host_QuicPoolUninitialize (RecvBlockPool ProcContext.2)) ;;
  _ <- host_call (host_QuicPoolUninitialize (SendBufferPool ProcContext.2)) ;;
  _ <- host_call (host_QuicPoolUninitialize (SendContextPool ProcContext.2)) ;;
  Hret tt.

Definition QuicDataPathUninitialize (Datapath : option ptr) : H unit :=
  match Datapath with
  | None => Hret tt
  | Some a =>
      _ <- host_call (host_QuicRundown RundownReleaseAndWait BindingsRundown) ;;
      update_Datapath a (set_Datapath_Shutdown true) ;;
      o <- load_Datapath Datapath ;;
      Hfor_each (Z.to_nat (ProcCount (Object_Datapath o))) 0
        (fun i => QuicProcessorContextUninitialize (a, i)) ;;
      _ <- host_call (host_QuicRundown RundownUninitialize BindingsRundown) ;;
      Process_QUIC_FREE a
  end.

End Lifecycle.

(** * More surroundings and worlds *)

(** Surroundings in which sendto takes every datagram. *)
Definition env_sent : Environment :=
  mkEnv (fun tr c => match c with
                     | sys_sendto _ _ _ len _ _ _ => Z.max 0 len
                     | _ => sys_ret env_ok tr c
                     end)
        (sys_errno env_ok) (sys_sockname env_ok) (sys_datagram env_ok)
        (pool_alloc env_ok) (heap_alloc env_ok).

Definition ENOBUFS : Z := 55.


(** Surroundings in which sendto fails for want of buffer space. *)
Definition env_sendto_fails : Environment :=
  mkEnv (fun tr c => match c with
                     | sys_sendto _ _ _ _ _ _ _ => -1
                     | _ => sys_ret env_ok tr c
                     end)
        (fun _ _ => ENOBUFS)
        (sys_sockname env_ok) (sys_datagram env_ok)
        (pool_alloc env_ok) (heap_alloc env_ok).


(** Surroundings with an empty receive block pool, and without memory for
    a binding. *)
Definition env_no_recv_block : Environment :=
  mkEnv (sys_ret env_datagram) (sys_errno env_ok) (sys_sockname env_ok)
        (sys_datagram env_datagram)
        (fun tr pool => match pool with
                        | RecvBlockPool _ => None
                        | _ => pool_alloc env_ok tr pool
                        end)
        (heap_alloc env_ok).

Definition env_no_memory : Environment :=
  mkEnv (sys_ret env_ok) (sys_errno env_ok) (sys_sockname env_ok)
        (sys_datagram env_ok) (pool_alloc env_ok) (fun _ _ => None).

(** The objects in the worlds above: the socket context and the binding at
    address 3 of [client], the send context at address 18 of
    [client_context] and of [client_batch]; the socket context, the binding
    and the receive block at address 15 of [server], and those of
    [received]. *)
Definition client_socket : QUIC_SOCKET_CONTEXT :=
  mkSocketContext 8 false (mkIov (Some 16%N) 1472)
    (mkMsghdr (Some 16%N) 28 1 [] 8204 0) (Some 16%N) [].

Definition client_binding : QUIC_DATAPATH_BINDING :=
  mkBinding 77 (mkAddr AF_INET 50000 16777343 (replicate 16 0) 0) peer
    false false 1500 [client_socket].

Definition empty_batch : QUIC_DATAPATH_SEND_CONTEXT :=
  set_Owner (Some 0) zero_send_context.

Definition batch_of_two : QUIC_DATAPATH_SEND_CONTEXT :=
  mkSendContext false zero_addr zero_addr false (Some 0) 2 0
    ([mkBuffer 1200 (Some 19%N); mkBuffer 1200 (Some 20%N)] ++
     replicate 8 zero_buffer)
    ([mkIov (Some 19%N) 1200; mkIov (Some 20%N) 1200] ++
     replicate 8 zero_iovec).

Definition server_socket : QUIC_SOCKET_CONTEXT :=
  mkSocketContext 8 false (mkIov (Some 15%N) 1472)
    (mkMsghdr (Some 15%N) 28 1 [] 8204 0) (Some 15%N) [].

Definition server_binding : QUIC_DATAPATH_BINDING :=
  mkBinding 77 (mkAddr AF_INET 50000 16777343 (replicate 16 0) 0) zero_addr
    false false 1500 [server_socket].

Definition server_block : QUIC_DATAPATH_RECV_BLOCK :=
  mkRecvBlock (Some (RecvBlockPool 0))
    (mkDatagram None (Some 15%N) (Some 15%N) 1472 0 true) zero_tuple [].

Definition received_socket : QUIC_SOCKET_CONTEXT :=
  set_RecvMsgHdr
    (mkMsghdr (Some 15%N) 28 1 (sys_datagram env_datagram [] 8).1.1 8204 0)
    server_socket.

Definition received_binding : QUIC_DATAPATH_BINDING :=
  set_SocketContexts [received_socket] server_binding.

Definition received_block : QUIC_DATAPATH_RECV_BLOCK :=
  mkRecvBlock (Some (RecvBlockPool 0))
    (mkDatagram None (Some 15%N) (Some 15%N) 1472 0 true)
    (mkTuple (sys_datagram env_datagram [] 8).1.2 zero_addr) [1; 2; 3].

(** A binding before its socket is made, as QuicDataPathBindingCreate
    prepares it, alone in the world. *)
Definition unbound_socket : QUIC_SOCKET_CONTEXT :=
  mkSocketContext (-1) false (mkIov None 1472) zero_msghdr None [].

Definition unbound_binding : QUIC_DATAPATH_BINDING :=
  mkBinding 77 zero_addr zero_addr false false 1500 [unbound_socket].

Definition unbound : World :=
  set_Bindings (<[3%N := unbound_binding]> ∅) world0.

(** The IPv6 wildcard address with the port 4433 asked for. *)
Definition port4433 : QUIC_ADDR := mkAddr AF_INET6 4433 0 (replicate 16 0) 0.

(** The same binding with its socket made, on descriptor 8, and no receive
    block yet. *)
Definition bound_socket : QUIC_SOCKET_CONTEXT :=
  mkSocketContext 8 false (mkIov None 1472) zero_msghdr None [].

Definition bound_binding : QUIC_DATAPATH_BINDING :=
  mkBinding 77 zero_addr zero_addr false false 1500 [bound_socket].

Definition bound : World :=
  set_Bindings (<[3%N := bound_binding]> ∅) world0.

(** ENOMEM, the status of a thread that could not be started. *)
Definition ENOMEM : Z := 12.

(** A host that gives memory at address 3 and the descriptor 9, and starts
    the thread; the thread has ended when it is waited for. *)
Definition host_ok : Host :=
  mkHost (fun tr c => match c with
                      | host_QUIC_ALLOC_PAGED _ => 3
                      | host_kqueue => 9
                      | _ => 0
                      end)
         (fun _ => 0)
         (fun _ _ => true).

(** A host that cannot start a thread. *)
Definition host_no_thread : Host :=
  mkHost (fun tr c => match c with
                      | host_QuicThreadCreate _ => ENOMEM
                      | _ => host_ret host_ok tr c
                      end)
         (host_errno host_ok) (host_thread_ends host_ok).

(** A host whose worker thread stays in kevent. *)
Definition host_worker_waits : Host :=
  mkHost (host_ret host_ok) (host_errno host_ok) (fun _ _ => false).

(** A process that has made no call and holds no datapath. *)
Definition Process0 : Process := mkProcess [] [] ∅.

(** * More vocabulary *)

(** A live send context with its arrays of ten slots, owned by a processor
    context of the datapath. *)
Definition batch (w : World) (c : ptr) (ctx : QUIC_DATAPATH_SEND_CONTEXT)
    (owner : Z) : Prop :=
  SendContexts w !! c = Some ctx /\
  Owner ctx = Some owner /\
  0 <= owner /\
  is_Some (ProcContexts (Datapath w) !! Z.to_nat owner) /\
  length (Buffers ctx) = Z.to_nat QUIC_MAX_BATCH_SEND /\
  length (Iovs ctx) = Z.to_nat QUIC_MAX_BATCH_SEND /\
  0 <= BufferCount ctx <= QUIC_MAX_BATCH_SEND.

(** The datagrams of a send context that are in use. *)
Definition used (ctx : QUIC_DATAPATH_SEND_CONTEXT) : list QUIC_BUFFER :=
  take (Z.to_nat (BufferCount ctx)) (Buffers ctx).

Definition free_buffer (owner : Z) (b : QUIC_BUFFER) : Event :=
  EvPoolFree (SendBufferPool owner) (Buffer_ptr b).

(** What QuicDataPathBindingFreeSendContext adds to the trace. *)
Definition FreeSendContext_events (c : ptr) (ctx : QUIC_DATAPATH_SEND_CONTEXT)
    (owner : Z) : list Event :=
  map (free_buffer owner) (used ctx) ++ [EvPoolFree (SendContextPool owner) (Some c)].

Definition is_sendto_call (c : Syscall) : bool :=
  match c with sys_sendto _ _ _ _ _ _ _ => true | _ => false end.

(** Surroundings in which no sendto fails. *)
Definition sends_succeed (env : Environment) : Prop :=
  forall tr c, is_sendto_call c = true -> 0 <= sys_ret env tr c.

(** The sendto call of the connected path for one datagram, as the trace
    records it, the result blanked: the datagram's buffer with the first
    [Length] bytes of its contents, flags 0 and no destination. *)
Definition sendto_call (fd : Z) (mem : gmap N (list Z)) (b : QUIC_BUFFER) : Syscall :=
  sys_sendto fd (Buffer_ptr b)
    (take (Z.to_nat (Length b)) <$> (Buffer_ptr b ≫= (mem !!.)))
    (Length b) 0 None 0.

Definition sendto_event (fd : Z) (mem : gmap N (list Z)) (b : QUIC_BUFFER) : Event :=
  EvSys (sendto_call fd mem b) 0.

(** The ancillary data QuicDataPathBindingSend builds from a local address:
    one IP_PKTINFO record for an AF_INET address, one IPV6_PKTINFO record
    otherwise, each with the address and the interface index (kept in
    sin6_scope_id). *)
Definition pktinfo_of (local : QUIC_ADDR) : list cmsghdr * Z :=
  if sa_family local =? AF_INET then
    ([mkCmsg (CMSG_LEN sizeof_in_pktinfo) IPPROTO_IP IP_PKTINFO
        (in_pktinfo_bytes (sin6_scope_id local) 0 (sin_addr local))],
     CMSG_SPACE sizeof_in_pktinfo)
  else
    ([mkCmsg (CMSG_LEN sizeof_in6_pktinfo) IPPROTO_IPV6 IPV6_PKTINFO
        (in6_pktinfo_bytes (sin6_addr local) (sin6_scope_id local))],
     CMSG_SPACE sizeof_in6_pktinfo).

(** What the path with a local address may add to the trace: sendmsg calls
    whose destination is the zeroed MappedRemoteAddress and whose ancillary
    data is made from the local address, and the return of buffers and
    context to their pools. *)
Definition unconnected_send_event (local : QUIC_ADDR) (e : Event) : Prop :=
  match e with
  | EvSys (sys_sendmsg _ name namelen _ _ control controllen mflags flags) _ =>
      name = zero_addr /\ namelen = sizeof_QUIC_ADDR /\
      (control, controllen) = pktinfo_of local /\ mflags = 0 /\ flags = 0
  | EvPoolFree _ _ => True
  | _ => False
  end.

(** The I/O vector entry made for a datagram. *)
Definition iovec_of (b : QUIC_BUFFER) : iovec := mkIov (Buffer_ptr b) (Length b).

Definition would_block (e : Z) : bool := (e =? EAGAIN) || (e =? EWOULDBLOCK).

(** A socket context armed on a block of its own making: the message
    header names the block's tuple as the place for the source address, and
    the I/O vector points at the block's buffer. *)
Definition ready (w : World) (B : ptr) (i : Z) (b : QUIC_DATAPATH_BINDING)
    (s : QUIC_SOCKET_CONTEXT) (p : ptr) (blk : QUIC_DATAPATH_RECV_BLOCK) : Prop :=
  armed w B i b s p blk /\
  msg_name (RecvMsgHdr s) = Some p /\
  iov_base (RecvIov s) = Some p.

(** The message header QuicSocketContextPrepareReceive leaves. *)
Definition armed_msghdr (p : ptr) : msghdr :=
  mkMsghdr (Some p) sizeof_QUIC_ADDR 1 [] sizeof_RecvMsgControl 0.

(** The block a receive completion hands up: the local address made from
    the matching record, the byte count and the worker's index filled in. *)
Definition handed_up (P : Platform) (b : QUIC_DATAPATH_BINDING) (CMsg : cmsghdr)
    (BytesTransferred : Z) (proc : QUIC_DATAPATH_PROC_CONTEXT)
    (blk : QUIC_DATAPATH_RECV_BLOCK) : QUIC_DATAPATH_RECV_BLOCK :=
  in_RecvPacket (set_PartitionIndex (wrap (PartitionIndex_bits P) (Index proc)))
    (in_RecvPacket (set_BufferLength (wrap (BufferLength_bits P) BytesTransferred))
       (in_LocalAddress (LocalAddr_of P CMsg (sin_port (Binding_LocalAddress b)))
          blk)).



(** The descriptor a socket context of a binding holds. *)
Definition SocketFd_at (w : World) (SocketContext : ptr * Z) : option Z :=
  b ← Bindings w !! SocketContext.1 ;
  SocketFd <$> SocketContexts b !! Z.to_nat SocketContext.2.

(** The registration of a socket with a readiness queue: readable events,
    edge triggered, with the socket context as user data.  The queue knows
    the socket by its descriptor converted to [uintptr_t]. *)
Definition register_call (KqueueFd fd : Z) (SocketContext : ptr * Z) : Syscall :=
  sys_kevent KqueueFd (to_uintptr fd) EVFILT_READ (Z.lor EV_ADD EV_CLEAR)
    SocketContext.

(** The calls whose result QuicSocketContextInitialize looks at, the two
    socket calls apart. *)
Definition Initialize_checks (c : Syscall) : bool :=
  match c with
  | sys_setsockopt _ level optname _ _ =>
      (level =? SOL_SOCKET) && (optname =? SO_REUSEADDR)
  | sys_bind _ _ _ | sys_connect _ _ _ | sys_getsockname _ _ => true
  | _ => false
  end.

(** Surroundings in which those calls succeed and an AF_INET datagram
    socket can be had. *)
Definition sockets_work (P : Platform) (env : Environment) : Prop :=
  (forall tr, sys_ret env tr (sys_socket AF_INET SOCK_DGRAM 0) <> INVALID_SOCKET_FD P) /\
  (forall tr c, Initialize_checks c = true -> sys_ret env tr c = 0).

(** The address family QuicSocketContextInitialize works with: the remote
    address's, or the local address's when there is no remote address. *)
Definition address_family (LocalAddress RemoteAddress : option QUIC_ADDR) : option Z :=
  match RemoteAddress with
  | Some r => Some (sa_family r)
  | None => sa_family <$> LocalAddress
  end.

Definition receive_options (af fd : Z) : list Syscall :=
  if af =? AF_INET then
    [sys_setsockopt fd IPPROTO_IP IP_RECVDSTADDR TRUE 4;
     sys_setsockopt fd IPPROTO_IP IP_PKTINFO TRUE 4;
     sys_setsockopt fd IPPROTO_IP IP_RECVIF TRUE 4]
  else
    [sys_setsockopt fd IPPROTO_IPV6 IPV6_RECVPKTINFO TRUE 4;
     sys_setsockopt fd IPPROTO_IPV6 IPV6_V6ONLY FALSE 4;
     sys_setsockopt fd IPPROTO_IPV6 IPV6_RECVPKTINFO TRUE 4].

(** The system calls of a successful QuicSocketContextInitialize, for the
    descriptor [fd] it keeps and the address [bound] the binding held on
    entry. *)
Definition Initialize_calls (af fd : Z) (bound : QUIC_ADDR)
    (RemoteAddress : option QUIC_ADDR) : list Syscall :=
  [sys_socket af SOCK_DGRAM 0; sys_socket AF_INET SOCK_DGRAM 0] ++
  receive_options af fd ++
  [sys_setsockopt fd SOL_SOCKET SO_REUSEADDR TRUE 4;
   sys_bind fd bound sizeof_sockaddr] ++
  match RemoteAddress with
  | Some r =>
      [sys_connect fd r
         (if af =? AF_INET then sizeof_sockaddr_in else sizeof_sockaddr_in6)]
  | None => []
  end ++
  [sys_getsockname fd sizeof_sockaddr].

(** The debug assertion on the port: a caller that asks for a port gets
    it. *)
Definition port_as_requested (P : Platform) (env : Environment)
    (LocalAddress : option QUIC_ADDR) : Prop :=
  QUIC_DEBUG P = true ->
  forall l, LocalAddress = Some l -> sin_port l <> 0 ->
            forall tr fd, sin_port (sys_sockname env tr fd) = sin_port l.

(** The assertion itself, on the address [name] that getsockname reported:
    compiled in only in a debug build, and made only for a caller that asks
    for a port. *)
Definition port_assertion_holds (P : Platform) (LocalAddress : option QUIC_ADDR)
    (name : QUIC_ADDR) : bool :=
  match LocalAddress with
  | Some l =>
      negb (QUIC_DEBUG P) || (sin_port l =? 0) || (sin_port l =? sin_port name)
  | None => true
  end.

(** How a call ends that has reached that assertion with the status
    QUIC_STATUS_SUCCESS. *)
Definition asserted {A} (P : Platform) (LocalAddress : option QUIC_ADDR)
    (name : QUIC_ADDR) (a : A) : Result A :=
  if port_assertion_holds P LocalAddress name then Done a
  else Terminated "QUIC_DBG_ASSERT".

(** A state reached from [w] by system calls [tr] alone. *)
Definition after_calls (w : World) (tr : list Event) (w' : World) : Prop :=
  Trace w' = Trace w ++ tr /\
  Bindings w' = Bindings w /\ Datapath w' = Datapath w /\
  RecvBlocks w' = RecvBlocks w.

(** What Binding->LocalAddress holds when QuicDataPathBindingCreate makes
    the sockets: zeroes, with the family of the remote address when no local
    address is given. *)
Definition Create_LocalAddress (LocalAddress RemoteAddress : option QUIC_ADDR)
  : QUIC_ADDR :=
  match LocalAddress, RemoteAddress with
  | None, Some r => set_sa_family (sa_family r) zero_addr
  | _, _ => zero_addr
  end.

(** Surroundings in which the receive path can be started: the receive
    block pool is not empty and the readiness queue takes registrations. *)
Definition receive_starts (env : Environment) : Prop :=
  (forall tr, is_Some (pool_alloc env tr (RecvBlockPool 0))) /\
  (forall tr c, is_kevent c = true -> 0 <= sys_ret env tr c).

(** What a successful QuicDataPathBindingCreate adds to the trace on a
    datapath with one processor context, results of the system calls
    apart. *)
Definition Create_events (B : ptr) (af fd : Z) (p : ptr) (KqueueFd : Z)
    (LocalAddress RemoteAddress : option QUIC_ADDR) : list Event :=
  [EvAlloc 1 (Some B);
   EvRundown RundownInitialize (Rundown B);
   EvRundown RundownAcquire (Rundown B);
   EvRundown RundownAcquire BindingsRundown] ++
  map (fun c => EvSys c 0)
    (Initialize_calls af fd (Create_LocalAddress LocalAddress RemoteAddress)
       RemoteAddress) ++
  [EvPoolAlloc (RecvBlockPool 0) (Some p);
   EvSys (register_call KqueueFd fd (B, 0)) 0].

(** What QuicDataPathBindingCreate has added to the trace when its socket
    is made, results of the system calls apart. *)
Definition Create_socket_events (B : ptr) (af fd : Z)
    (LocalAddress RemoteAddress : option QUIC_ADDR) : list Event :=
  [EvAlloc 1 (Some B);
   EvRundown RundownInitialize (Rundown B);
   EvRundown RundownAcquire (Rundown B);
   EvRundown RundownAcquire BindingsRundown] ++
  map (fun c => EvSys c 0)
    (Initialize_calls af fd (Create_LocalAddress LocalAddress RemoteAddress)
       RemoteAddress).

Definition is_pool_event (e : Event) : bool :=
  match e with
  | EvPoolAlloc _ _ | EvPoolFree _ _ => true
  | _ => false
  end.

(** The heaps of the pools' entries. *)
Definition pool_entries (w : World)
  : gmap N QUIC_DATAPATH_RECV_BLOCK * gmap N QUIC_DATAPATH_SEND_CONTEXT *
    gmap N (list Z) :=
  (RecvBlocks w, SendContexts w, SendBuffers w).

(** The answer QuicDataPathResolveAddress goes by: that of the numeric
    lookup if it succeeds, else that of the lookup by name. *)
Definition resolved (getaddrinfo : string -> Z -> Z -> Z * option ADDRINFO)
    (HostName : string) : option (option ADDRINFO) :=
  let numeric := getaddrinfo HostName AF_INET (Z.lor AI_NUMERICHOST AI_PASSIVE) in
  let canonical := getaddrinfo HostName AF_INET AI_CANONNAME in
  if numeric.1 =? 0 then Some numeric.2
  else if canonical.1 =? 0 then Some canonical.2
  else None.

Definition is_call_or_alloc (e : Event) : bool :=
  match e with
  | EvSys _ _ | EvPoolAlloc _ _ => true
  | _ => false
  end.

(** [appends tr m]: when [m] returns, it has added [tr] to the trace. *)
Definition appends {A} (tr : list Event) (m : M A) : Prop :=
  forall w a w', m w = (Done a, w') -> Trace w' = Trace w ++ tr.

(** What a call leaves its caller with, and what it takes back. *)
Inductive Resource :=
| res_Memory (a : ptr)
| res_Rundown (r : QUIC_RUNDOWN_REF)
| res_Pool (p : QUIC_POOL)
| res_Descriptor (fd : Z)
| res_Thread (t : ptr * Z).

Definition acquires (P : Platform) (c : HostCall * Z) : list Resource :=
  match c with
  | (host_QUIC_ALLOC_PAGED _, r) => if r =? 0 then [] else [res_Memory (Z.to_N r)]
  | (host_QuicRundown RundownInitialize ref, _) => [res_Rundown ref]
  | (host_QuicPoolInitialize _ _ pool, _) => [res_Pool pool]
  | (host_kqueue, r) => if r =? INVALID_SOCKET_FD P then [] else [res_Descriptor r]
  | (host_QuicThreadCreate t, r) => if QUIC_FAILED P r then [] else [res_Thread t]
  | _ => []
  end.

Definition releases (c : HostCall * Z) : list Resource :=
  match c with
  | (host_QUIC_FREE a, _) => [res_Memory a]
  | (host_QuicRundown RundownUninitialize ref, _) => [res_Rundown ref]
  | (host_QuicPoolUninitialize pool, _) => [res_Pool pool]
  | (host_close fd, _) => [res_Descriptor fd]
  | (host_QuicThreadDelete t, _) => [res_Thread t]
  | _ => []
  end.

(** Calls that give back what they took, each thing once. *)
Definition balanced (P : Platform) (calls : list (HostCall * Z)) : Prop :=
  flat_map (acquires P) calls ≡ₚ flat_map releases calls.

(** The calls that a function added. *)
Definition called (before after : Process) : list (HostCall * Z) :=
  drop (length (Calls before)) (Calls after).

(** The calls whose result the code looks at; the result of any other call
    is blanked. *)
Definition significant (c : HostCall) : bool :=
  match c with
  | host_QUIC_ALLOC_PAGED _ | host_kqueue | host_QuicThreadCreate _ => true
  | _ => false
  end.

Definition Process_blank (c : HostCall * Z) : HostCall * Z :=
  if significant c.1 then c else (c.1, 0).

Definition quiet (c : HostCall) : HostCall * Z := (c, 0).

(** What QuicProcessorContextInitialize calls for the processor context 0 of
    the datapath at [a], when kqueue returns [kq] and the status is
    [Status]. *)
Definition ProcContext_calls (P : Platform) (RecvPacketLength MAX_UDP_PAYLOAD_LENGTH
    sizeof_QUIC_DATAPATH_SEND_CONTEXT : Z) (a : ptr) (kq Status : Z)
  : list (HostCall * Z) :=
  map quiet
    [host_QuicPoolInitialize true RecvPacketLength (RecvBlockPool 0);
     host_QuicPoolInitialize true MAX_UDP_PAYLOAD_LENGTH (SendBufferPool 0);
     host_QuicPoolInitialize true sizeof_QUIC_DATAPATH_SEND_CONTEXT (SendContextPool 0)] ++
  [(host_kqueue, kq)] ++
  (if kq =? INVALID_SOCKET_FD P then [] else [(host_QuicThreadCreate (a, 0), Status)]) ++
  (if QUIC_FAILED P Status then
     map quiet
       ((if kq =? INVALID_SOCKET_FD P then [] else [host_close kq]) ++
        [host_QuicPoolUninitialize (RecvBlockPool 0);
         host_QuicPoolUninitialize (SendBufferPool 0);
         host_QuicPoolUninitialize (SendContextPool 0)])
   else []).

(** What QuicDataPathInitialize calls once its arguments are accepted and
    the allocation gave the address [a], and the datapath object it
    makes. *)
Definition Initialize_calls_of (P : Platform) (DatapathObjectSize RecvPacketLength
    MAX_UDP_PAYLOAD_LENGTH sizeof_QUIC_DATAPATH_SEND_CONTEXT a kq Status : Z)
  : list (HostCall * Z) :=
  [(host_QUIC_ALLOC_PAGED DatapathObjectSize, a);
   quiet (host_QuicRundown RundownInitialize BindingsRundown)] ++
  ProcContext_calls P RecvPacketLength MAX_UDP_PAYLOAD_LENGTH
    sizeof_QUIC_DATAPATH_SEND_CONTEXT (Z.to_N a) kq Status ++
  (if QUIC_FAILED P Status then
     map quiet
       [host_QuicRundown RundownUninitialize BindingsRundown;
        host_QUIC_FREE (Z.to_N a)]
   else []).

Definition Datapath_made (P : Platform) (ClientRecvContextLength : Z)
    (RecvCallback UnreachableCallback : option Z) (kq : Z) : QUIC_DATAPATH_OBJECT :=
  mkObject
    (mkDatapath false QUIC_MAX_BATCH_SEND ClientRecvContextLength 1
       [if kq =? INVALID_SOCKET_FD P then mkProcContext 0 0 else mkProcContext kq 0])
    RecvCallback UnreachableCallback.

(** Every recorded result is an answer of the host. *)
Definition answers (host : Host) (calls : list (HostCall * Z)) : Prop :=
  Forall (fun c => exists tr, c.2 = host_ret host tr c.1) calls.

(** A state reached by calls alone. *)
Definition after (host : Host) (p : Process) (new : list (HostCall * Z))
    (p' : Process) : Prop :=
  Calls p' = Calls p ++ new /\ Datapaths p' = Datapaths p /\ answers host new.


(** * Reasoning about the monad *)

Lemma bind_Done {A B} (m : M A) (k : A -> M B) w a w1 :
  m w = (Done a, w1) -> bind m k w = k a w1.
Proof. unfold bind. intros ->. reflexivity. Qed.

Lemma bind_Terminated {A B} (m : M A) (k : A -> M B) w s w1 :
  m w = (Terminated s, w1) -> bind m k w = (Terminated s, w1).
Proof. unfold bind. intros ->. reflexivity. Qed.

Lemma bind_Fault {A B} (m : M A) (k : A -> M B) w s w1 :
  m w = (Fault s, w1) -> bind m k w = (Fault s, w1).
Proof. unfold bind. intros ->. reflexivity. Qed.

Lemma deref_Some {A} (heap : World -> gmap N A) a v w :
  heap w !! a = Some v -> deref heap (Some a) w = (Done v, w).
Proof. unfold deref. intros ->. reflexivity. Qed.

Lemma index_Some {A} (l : list A) i v w :
  0 <= i -> l !! Z.to_nat i = Some v -> index l i w = (Done v, w).
Proof.
  intros Hi Hl. unfold index.
  assert (Z.to_nat i < length l)%nat by (eapply lookup_lt_Some; eauto).
  replace ((0 <=? i) && (i <? Z.of_nat (length l))) with true.
  - rewrite Hl. reflexivity.
  - symmetry. apply andb_true_iff. split; [apply Z.leb_le | apply Z.ltb_lt]; lia.
Qed.

Lemma index_None {A} (l : list A) i w :
  i < 0 \/ l !! Z.to_nat i = None -> index l i w = (Fault "index out of range", w).
Proof.
  intros H. unfold index.
  destruct ((0 <=? i) && (i <? Z.of_nat (length l))) eqn:E; [|reflexivity].
  apply andb_true_iff in E as [E1 E2]. apply Z.leb_le in E1.
  destruct H as [H|H]; [lia|]. rewrite H. reflexivity.
Qed.

Lemma load_SocketContext_eq B i b s w :
  Bindings w !! B = Some b -> 0 <= i ->
  SocketContexts b !! Z.to_nat i = Some s ->
  load_SocketContext (B, i) w = (Done s, w).
Proof.
  intros Hb Hi Hs. unfold load_SocketContext, SocketContext_at. cbn [fst snd].
  erewrite bind_Done; [|apply deref_Some; eassumption].
  apply index_Some; assumption.
Qed.

Lemma store_SocketContext_eq B i b s s' w :
  Bindings w !! B = Some b -> 0 <= i ->
  SocketContexts b !! Z.to_nat i = Some s ->
  store_SocketContext (B, i) s' w =
    (Done tt,
     set_Bindings
       (<[B := set_SocketContexts (<[Z.to_nat i := s']> (SocketContexts b)) b]>
          (Bindings w)) w).
Proof.
  intros Hb Hi Hs. unfold store_SocketContext. cbn [fst snd].
  erewrite bind_Done; [|apply deref_Some; eassumption].
  erewrite bind_Done; [|apply index_Some; eassumption].
  reflexivity.
Qed.

Lemma update_RecvBlock_eq p f blk w :
  RecvBlocks w !! p = Some blk ->
  update_RecvBlock (Some p) f w =
    (Done tt, set_RecvBlocks (<[p := f blk]> (RecvBlocks w)) w).
Proof.
  intros H. unfold update_RecvBlock.
  erewrite bind_Done; [|apply deref_Some; exact H]. reflexivity.
Qed.

Lemma Owner_deref_eq c i proc w :
  Owner c = Some i -> 0 <= i ->
  ProcContexts (Datapath w) !! Z.to_nat i = Some proc ->
  Owner_deref c w = (Done i, w).
Proof.
  intros Ho Hi Hp. unfold Owner_deref. rewrite Ho.
  erewrite bind_Done; [|reflexivity].
  erewrite bind_Done; [|apply index_Some; eassumption].
  reflexivity.
Qed.

Lemma added_app w w' tr : Trace w' = Trace w ++ tr -> added w w' = tr.
Proof. unfold added. intros ->. apply drop_app_length. Qed.

(** * How a computation lets the trace grow *)

Section Extends.

Context (phi : Event -> Prop).

Lemma extends_quiet {A} (m : M A) :
  (forall w, Trace (m w).2 = Trace w) -> extends phi m.
Proof. intros H w. exists []. rewrite app_nil_r. split; [apply H | constructor]. Qed.

Lemma extends_ret {A} (a : A) : extends phi (ret a).
Proof. apply extends_quiet. reflexivity. Qed.

Lemma extends_fault {A} s : extends phi (@fault A s).
Proof. apply extends_quiet. reflexivity. Qed.

Lemma extends_terminate {A} s : extends phi (@terminate A s).
Proof. apply extends_quiet. reflexivity. Qed.

Lemma extends_get {A} (f : World -> A) : extends phi (get f).
Proof. apply extends_quiet. reflexivity. Qed.

Lemma extends_modify f :
  (forall w, Trace (f w) = Trace w) -> extends phi (modify f).
Proof. intros H. apply extends_quiet. exact H. Qed.

Lemma extends_deref {A} (heap : World -> gmap N A) p : extends phi (deref heap p).
Proof.
  apply extends_quiet. intros w. unfold deref.
  destruct p as [a|]; [destruct (heap w !! a)|]; reflexivity.
Qed.

Lemma extends_index {A} (l : list A) i : extends phi (index l i).
Proof.
  apply extends_quiet. intros w. unfold index.
  destruct ((0 <=? i) && (i <? Z.of_nat (length l))); [destruct (l !! Z.to_nat i)|];
    reflexivity.
Qed.

Lemma extends_emit e : phi e -> extends phi (emit e).
Proof. intros He w. exists [e]. split; [reflexivity | repeat constructor; exact He]. Qed.

Lemma extends_bind {A B} (m : M A) (k : A -> M B) :
  extends phi m -> (forall a, extends phi (k a)) -> extends phi (bind m k).
Proof.
  intros Hm Hk w. destruct (Hm w) as (tr1 & Ht1 & Hf1). unfold bind.
  destruct (m w) as [[a|s|s] w1]; cbn in *.
  - destruct (Hk a w1) as (tr2 & Ht2 & Hf2).
    exists (tr1 ++ tr2). rewrite Ht2, Ht1, app_assoc. split; [reflexivity|].
    apply Forall_app. split; assumption.
  - exists tr1. split; assumption.
  - exists tr1. split; assumption.
Qed.

Lemma extends_QuicTraceEvent name args : extends phi (QuicTraceEvent name args).
Proof. apply extends_modify. reflexivity. Qed.

Lemma extends_store_SendContext p c : extends phi (store_SendContext p c).
Proof. apply extends_modify. reflexivity. Qed.

Lemma extends_store_RecvBlock p b : extends phi (store_RecvBlock p b).
Proof. apply extends_modify. reflexivity. Qed.

Lemma extends_store_Binding p b : extends phi (store_Binding p b).
Proof. apply extends_modify. reflexivity. Qed.

Lemma extends_update_RecvBlock p f : extends phi (update_RecvBlock p f).
Proof.
  unfold update_RecvBlock. apply extends_bind; [apply extends_deref|].
  intros ?. destruct p; [apply extends_store_RecvBlock | apply extends_fault].
Qed.

Lemma extends_QUIC_DBG_ASSERT P c : extends phi (QUIC_DBG_ASSERT P c).
Proof.
  unfold QUIC_DBG_ASSERT.
  destruct (QUIC_DEBUG P && negb c); [apply extends_terminate | apply extends_ret].
Qed.

Lemma extends_QUIC_FRE_ASSERT c : extends phi (QUIC_FRE_ASSERT c).
Proof.
  unfold QUIC_FRE_ASSERT. destruct c; [apply extends_ret | apply extends_terminate].
Qed.

Lemma extends_int3 P : extends phi (int3 P).
Proof.
  unfold int3. destruct (TRAP_RESUMES P); [apply extends_ret | apply extends_terminate].
Qed.

Lemma extends_syscall env c :
  (forall r, phi (EvSys c r)) -> extends phi (syscall env c).
Proof.
  intros H w. exists [EvSys c (sys_ret env (Trace w) c)]. unfold syscall. cbn.
  split; [|repeat constructor; apply H].
  destruct (sys_ret env (Trace w) c <? 0); reflexivity.
Qed.

Lemma extends_QuicPoolAlloc env pool :
  (forall r, phi (EvPoolAlloc pool r)) -> extends phi (QuicPoolAlloc env pool).
Proof.
  intros H w. exists [EvPoolAlloc pool (pool_alloc env (Trace w) pool)].
  split; [reflexivity | repeat constructor; apply H].
Qed.

Lemma forget_Trace Entry w : Trace (forget Entry w) = Trace w.
Proof. destruct Entry; reflexivity. Qed.

Lemma extends_QuicPoolFree pool Entry :
  (forall q, phi (EvPoolFree q Entry)) -> extends phi (QuicPoolFree pool Entry).
Proof.
  intros H. unfold QuicPoolFree. destruct pool; [|apply extends_fault].
  apply extends_bind; [apply extends_emit, H|].
  intros _. apply extends_modify, forget_Trace.
Qed.

Lemma extends_QuicRundown op r :
  phi (EvRundown op r) -> extends phi (QuicRundown op r).
Proof. apply extends_emit. Qed.

Lemma extends_for_each n : forall i body,
  (forall i, extends phi (body i)) -> extends phi (for_each n i body).
Proof.
  induction n as [|n IH]; intros i body Hb; cbn.
  - apply extends_ret.
  - apply extends_bind; [apply Hb | intros _; apply IH, Hb].
Qed.

Lemma extends_for_status {A} n : forall i (body : Z -> M (option A)),
  (forall i, extends phi (body i)) -> extends phi (for_status n i body).
Proof.
  induction n as [|n IH]; intros i body Hb; cbn.
  - apply extends_ret.
  - apply extends_bind; [apply Hb|].
    intros [a|]; [apply extends_ret | apply IH, Hb].
Qed.

End Extends.

(** One step of a proof that a piece of code only appends events of a
    given kind. *)
Ltac extends_step :=
  first
    [ apply extends_ret | apply extends_fault | apply extends_terminate
    | apply extends_get | apply extends_deref | apply extends_index
    | apply extends_QuicTraceEvent | apply extends_store_SendContext
    | apply extends_store_RecvBlock | apply extends_store_Binding
    | apply extends_update_RecvBlock
    | apply extends_QUIC_DBG_ASSERT | apply extends_QUIC_FRE_ASSERT
    | apply extends_int3
    | apply extends_bind; [|intros ?]
    | apply extends_for_each; intros ?
    | apply extends_for_status; intros ?
    | match goal with
      | |- extends _ (match ?x with _ => _ end) => destruct x
      | |- extends _ (let '(_, _) := ?x in _) => destruct x
      end ].

Lemma extends_weaken {A} (phi psi : Event -> Prop) (m : M A) :
  (forall e, phi e -> psi e) -> extends phi m -> extends psi m.
Proof.
  intros H Hm w. destruct (Hm w) as (tr & Ht & Hf).
  exists tr. split; [exact Ht | eapply Forall_impl; eauto].
Qed.

Lemma QuicDataPathAllocRecvBlock_extends env ProcIndex :
  extends (fun e => exists r, e = EvPoolAlloc (RecvBlockPool ProcIndex) r)
    (QuicDataPathAllocRecvBlock env ProcIndex).
Proof.
  unfold QuicDataPathAllocRecvBlock.
  apply extends_bind; [apply extends_QuicPoolAlloc; eauto|].
  intros ?. repeat extends_step.
Qed.

Lemma QuicSocketContextPrepareReceive_extends P env SocketContext :
  extends is_RecvBlock_alloc (QuicSocketContextPrepareReceive P env SocketContext).
Proof.
  unfold QuicSocketContextPrepareReceive, load_SocketContext, store_SocketContext,
    SocketContext_at.
  repeat first [ apply QuicDataPathAllocRecvBlock_extends | extends_step ].
Qed.

Lemma rearm_extends P env SocketContext :
  extends (fun e => is_RecvHandler e = false)
    (Status <- QuicSocketContextPrepareReceive P env SocketContext ;;
     QUIC_FRE_ASSERT (QUIC_SUCCEEDED P Status)).
Proof.
  apply extends_bind; [|intros ?; apply extends_QUIC_FRE_ASSERT].
  eapply extends_weaken; [|apply QuicSocketContextPrepareReceive_extends].
  intros e [r ->]. reflexivity.
Qed.

(** * Invariants of the world *)

Section Keeps.

Context (I : World -> Prop).

Lemma keeps_same {A} (m : M A) : (forall w, (m w).2 = w) -> keeps I m.
Proof. intros H w Hw. rewrite H. exact Hw. Qed.

Lemma keeps_ret {A} (a : A) : keeps I (ret a).
Proof. apply keeps_same. reflexivity. Qed.

Lemma keeps_fault {A} s : keeps I (@fault A s).
Proof. apply keeps_same. reflexivity. Qed.

Lemma keeps_terminate {A} s : keeps I (@terminate A s).
Proof. apply keeps_same. reflexivity. Qed.

Lemma keeps_get {A} (f : World -> A) : keeps I (get f).
Proof. apply keeps_same. reflexivity. Qed.

Lemma keeps_deref {A} (heap : World -> gmap N A) p : keeps I (deref heap p).
Proof.
  apply keeps_same. intros w. unfold deref.
  destruct p as [a|]; [destruct (heap w !! a)|]; reflexivity.
Qed.

Lemma keeps_index {A} (l : list A) i : keeps I (index l i).
Proof.
  apply keeps_same. intros w. unfold index.
  destruct ((0 <=? i) && (i <? Z.of_nat (length l))); [destruct (l !! Z.to_nat i)|];
    reflexivity.
Qed.

Lemma keeps_modify f : (forall w, I w -> I (f w)) -> keeps I (modify f).
Proof. intros H w Hw. apply H, Hw. Qed.

Lemma keeps_bind {A B} (m : M A) (k : A -> M B) :
  keeps I m -> (forall a, keeps I (k a)) -> keeps I (bind m k).
Proof.
  intros Hm Hk w Hw. specialize (Hm w Hw). unfold bind.
  destruct (m w) as [[a|s|s] w1]; cbn in *; [apply Hk|..]; exact Hm.
Qed.

Lemma keeps_QUIC_DBG_ASSERT P c : keeps I (QUIC_DBG_ASSERT P c).
Proof.
  unfold QUIC_DBG_ASSERT.
  destruct (QUIC_DEBUG P && negb c); [apply keeps_terminate | apply keeps_ret].
Qed.

Lemma keeps_QUIC_FRE_ASSERT c : keeps I (QUIC_FRE_ASSERT c).
Proof.
  unfold QUIC_FRE_ASSERT. destruct c; [apply keeps_ret | apply keeps_terminate].
Qed.

End Keeps.

(** * Sending *)

(** C1: QuicDataPathBindingSendFromTo is documented to send the batch, and
    QuicDataPathBindingSend holds the sendmsg path with the
    IP_PKTINFO / IPV6_PKTINFO record for it; the function itself stops at
    QUIC_FRE_ASSERT(FALSE): whatever the binding, the addresses and the send
    context, the process is terminated, no call is issued and nothing
    changes. *)
Theorem QuicDataPathBindingSendFromTo_terminates :
  forall P Binding LocalAddress RemoteAddress SendContext w,
    QuicDataPathBindingSendFromTo P Binding LocalAddress RemoteAddress
      SendContext w = (Terminated "QUIC_FRE_ASSERT", w).
Proof. reflexivity. Qed.

(** The path QuicDataPathBindingSendFromTo leaves unused: with a local
    address, QuicDataPathBindingSend issues one sendmsg that carries the
    I/O vector of the whole batch and one IP_PKTINFO record made of the
    local address and its interface index (here 127.0.0.1 on interface 4);
    the name it passes is the zeroed MappedRemoteAddress. *)
Example QuicDataPathBindingSend_with_LocalAddress :
  let out :=
    QuicDataPathBindingSend (posix false) env_ok (Some 3%N)
      (Some (mkAddr AF_INET 0 16777343 (replicate 16 0) 4)) (Some peer)
      (Some 18%N) client_batch.2 in
  out.1 = Done (QUIC_STATUS_SUCCESS (posix false)) /\
  added client_batch.2 out.2 =
    [EvSys
       (sys_sendmsg 8 zero_addr sizeof_QUIC_ADDR
          [mkIov (Some 19%N) 1200; mkIov (Some 20%N) 1200] 2
          [mkCmsg (CMSG_LEN sizeof_in_pktinfo) IPPROTO_IP IP_PKTINFO
             [4; 0; 0; 0; 0; 0; 0; 0; 127; 0; 0; 1]]
          (CMSG_SPACE sizeof_in_pktinfo) 0 0) 0;
     EvPoolFree (SendBufferPool 0) (Some 19%N);
     EvPoolFree (SendBufferPool 0) (Some 20%N);
     EvPoolFree (SendContextPool 0) (Some 18%N)].
Proof. vm_compute. split; reflexivity. Qed.

(** C2: on the connected path, a batch of two datagrams whose second sendto
    fails with EAGAIN: the call returns QUIC_STATUS_SUCCESS, keeps the send
    context alive and leaves CurrentIndex at the datagram that blocked, but
    the context's Pending flag stays false, the socket context's list of
    pending sends stays empty, its SendWaiting stays false and no kevent
    call asks for writable readiness. *)
Theorem QuicDataPathBindingSend_blocked_not_pended :
  let out :=
    QuicDataPathBindingSend (posix false) env_send_queue_full
      (Some 3%N) None (Some peer) (Some 18%N) client_batch.2 in
  added client_batch.2 out.2 =
    [EvSys (sys_sendto 8 (Some 19%N) (Some []) 1200 0 None 0) 1200;
     EvSys (sys_sendto 8 (Some 20%N) (Some []) 1200 0 None 0) (-1)] /\
  Errno out.2 = EAGAIN /\
  out.1 = Done (QUIC_STATUS_SUCCESS (posix false)) /\
  CurrentIndex <$> SendContexts out.2 !! 18%N = Some 1 /\
  Pending <$> SendContexts out.2 !! 18%N = Some false /\
  (map PendingSendContextHead ∘ SocketContexts) <$> Bindings out.2 !! 3%N
    = Some [[]] /\
  (map SendWaiting ∘ SocketContexts) <$> Bindings out.2 !! 3%N = Some [false].
Proof. vm_compute. repeat split; reflexivity. Qed.

(** * The remote address on the connected send path *)

Lemma same_but_log_fields w1 w2 :
  same_but_log w1 w2 <->
  Trace w1 = Trace w2 /\ Errno w1 = Errno w2 /\ Datapath w1 = Datapath w2 /\
  Bindings w1 = Bindings w2 /\ RecvBlocks w1 = RecvBlocks w2 /\
  SendContexts w1 = SendContexts w2 /\ SendBuffers w1 = SendBuffers w2.
Proof.
  unfold same_but_log. destruct w1, w2; cbn. split.
  - intros [=]. subst. repeat split.
  - intros (-> & -> & -> & -> & -> & -> & ->). reflexivity.
Qed.

Ltac same_fields :=
  repeat match goal with
         | H : same_but_log _ _ |- _ =>
             apply same_but_log_fields in H;
             destruct H as (? & ? & ? & ? & ? & ? & ?)
         end;
  try match goal with
      | |- same_but_log _ _ => apply same_but_log_fields; cbn; repeat split
      end;
  first [cbv beta; congruence | cbn; congruence].

Lemma sim_ret {A} (a : A) : sim (ret a) (ret a).
Proof. intros w1 w2 H. split; [reflexivity | exact H]. Qed.

Lemma sim_fault {A} s : sim (@fault A s) (fault s).
Proof. intros w1 w2 H. split; [reflexivity | exact H]. Qed.

Lemma sim_terminate {A} s : sim (@terminate A s) (terminate s).
Proof. intros w1 w2 H. split; [reflexivity | exact H]. Qed.

Lemma sim_bind {A B} (m1 m2 : M A) (k1 k2 : A -> M B) :
  sim m1 m2 -> (forall a, sim (k1 a) (k2 a)) -> sim (bind m1 k1) (bind m2 k2).
Proof.
  intros Hm Hk w1 w2 H. destruct (Hm w1 w2 H) as [Hr Hw]. unfold bind.
  destruct (m1 w1) as [r1 w1'], (m2 w2) as [r2 w2']. cbn in *. subst r2.
  destruct r1 as [a|s|s]; [apply Hk, Hw|..]; split; [reflexivity | exact Hw |
    reflexivity | exact Hw].
Qed.

Lemma sim_bind_ret {A B} (a1 a2 : A) (k1 k2 : A -> M B) :
  sim (k1 a1) (k2 a2) -> sim (bind (ret a1) k1) (bind (ret a2) k2).
Proof. intros H w1 w2 Hw. exact (H w1 w2 Hw). Qed.

Lemma sim_get {A} (f : World -> A) :
  (forall w1 w2, same_but_log w1 w2 -> f w1 = f w2) -> sim (get f) (get f).
Proof. intros Hf w1 w2 H. cbn. split; [f_equal; apply Hf, H | exact H]. Qed.

Lemma sim_modify f :
  (forall w1 w2, same_but_log w1 w2 -> same_but_log (f w1) (f w2)) ->
  sim (modify f) (modify f).
Proof. intros Hf w1 w2 H. cbn. split; [reflexivity | apply Hf, H]. Qed.

Lemma sim_deref {A} (heap : World -> gmap N A) p :
  (forall w1 w2, same_but_log w1 w2 -> heap w1 = heap w2) ->
  sim (deref heap p) (deref heap p).
Proof.
  intros Hh w1 w2 H. unfold deref. rewrite (Hh w1 w2 H).
  destruct p as [a|]; [destruct (heap w2 !! a)|]; split; try reflexivity; exact H.
Qed.

Lemma sim_index {A} (l : list A) i : sim (index l i) (index l i).
Proof.
  intros w1 w2 H. unfold index.
  destruct ((0 <=? i) && (i <? Z.of_nat (length l))); [destruct (l !! Z.to_nat i)|];
    split; try reflexivity; exact H.
Qed.

Lemma sim_QuicTraceEvent n1 a1 n2 a2 :
  sim (QuicTraceEvent n1 a1) (QuicTraceEvent n2 a2).
Proof. intros w1 w2 H. cbn. split; [reflexivity | same_fields]. Qed.

Lemma sim_QUIC_DBG_ASSERT P c : sim (QUIC_DBG_ASSERT P c) (QUIC_DBG_ASSERT P c).
Proof.
  unfold QUIC_DBG_ASSERT.
  destruct (QUIC_DEBUG P && negb c); [apply sim_terminate | apply sim_ret].
Qed.

Lemma sim_syscall env c : sim (syscall env c) (syscall env c).
Proof.
  intros w1 w2 H. unfold syscall.
  assert (Htr : Trace w1 = Trace w2) by same_fields. rewrite Htr. cbn.
  split; [reflexivity|].
  destruct (sys_ret env (Trace w2) c <? 0); same_fields.
Qed.

Lemma sim_store_SendContext p c : sim (store_SendContext p c) (store_SendContext p c).
Proof. apply sim_modify. intros w1 w2 H. same_fields. Qed.

Lemma sim_QuicPoolFree pool Entry :
  sim (QuicPoolFree pool Entry) (QuicPoolFree pool Entry).
Proof.
  unfold QuicPoolFree. destruct pool; [|apply sim_fault].
  apply sim_bind; [|intros _].
  - apply sim_modify. intros w1 w2 H. same_fields.
  - apply sim_modify. intros w1 w2 H. destruct Entry; same_fields.
Qed.

Lemma sim_for_each n : forall i body1 body2,
  (forall i, sim (body1 i) (body2 i)) ->
  sim (for_each n i body1) (for_each n i body2).
Proof.
  induction n as [|n IH]; intros i b1 b2 Hb; cbn.
  - apply sim_ret.
  - apply sim_bind; [apply Hb | intros _; apply IH, Hb].
Qed.

Lemma sim_for_status {A} n : forall i (body1 body2 : Z -> M (option A)),
  (forall i, sim (body1 i) (body2 i)) ->
  sim (for_status n i body1) (for_status n i body2).
Proof.
  induction n as [|n IH]; intros i b1 b2 Hb; cbn.
  - apply sim_ret.
  - apply sim_bind; [apply Hb|].
    intros [a|]; [apply sim_ret | apply IH, Hb].
Qed.

Ltac sim_step :=
  lazymatch goal with
  | |- sim (ret _) (ret _) => apply sim_ret
  | |- sim (fault _) (fault _) => apply sim_fault
  | |- sim (terminate _) (terminate _) => apply sim_terminate
  | |- sim (index _ _) (index _ _) => apply sim_index
  | |- sim (QuicTraceEvent _ _) (QuicTraceEvent _ _) => apply sim_QuicTraceEvent
  | |- sim (QUIC_DBG_ASSERT _ _) (QUIC_DBG_ASSERT _ _) => apply sim_QUIC_DBG_ASSERT
  | |- sim (syscall _ _) (syscall _ _) => apply sim_syscall
  | |- sim (store_SendContext _ _) (store_SendContext _ _) =>
      apply sim_store_SendContext
  | |- sim (QuicPoolFree _ _) (QuicPoolFree _ _) => apply sim_QuicPoolFree
  | |- sim (deref _ _) (deref _ _) => apply sim_deref; intros ? ? ?; same_fields
  | |- sim (get _) (get _) => apply sim_get; intros ? ? ?; same_fields
  | |- sim (bind (ret _) _) (bind (ret _) _) => apply sim_bind_ret
  | |- sim (bind _ _) (bind _ _) => apply sim_bind; [|intros ?]
  | |- sim (for_each _ _ _) (for_each _ _ _) => apply sim_for_each; intros ?
  | |- sim (for_status _ _ _) (for_status _ _ _) => apply sim_for_status; intros ?
  | |- sim (match ?x with _ => _ end) (match ?x with _ => _ end) => destruct x
  | |- sim (if ?c then _ else _) (if ?c then _ else _) => destruct c
  end.

Lemma sim_QuicDataPathBindingFreeSendContext c :
  sim (QuicDataPathBindingFreeSendContext c) (QuicDataPathBindingFreeSendContext c).
Proof.
  unfold QuicDataPathBindingFreeSendContext, Owner_deref. repeat sim_step.
Qed.

Lemma sim_QuicDataPathBindingSend_connected P env Binding r1 r2 SendContext :
  sim (QuicDataPathBindingSend P env Binding None (Some r1) SendContext)
      (QuicDataPathBindingSend P env Binding None (Some r2) SendContext).
Proof.
  unfold QuicDataPathBindingSend, send_failed, SocketContext_at.
  repeat first [ apply sim_QuicDataPathBindingFreeSendContext | sim_step ].
Qed.

Lemma QuicDataPathBindingSend_connected_extends P env Binding r SendContext :
  extends connected_send_event
    (QuicDataPathBindingSend P env Binding None (Some r) SendContext).
Proof.
  unfold QuicDataPathBindingSend, send_failed, SocketContext_at,
    QuicDataPathBindingFreeSendContext, Owner_deref.
  repeat first
    [ apply extends_syscall; intros ?; cbn; auto
    | apply extends_QuicPoolFree; intros ?; exact I
    | extends_step ].
Qed.

(** C10: on the connected path (LocalAddress == NULL) two calls that differ
    only in RemoteAddress end with the same result, the same trace of
    calls (so the same sendto calls: descriptor, buffer, contents, length,
    flags) and the same state, the event log apart; and every sendto of the
    call is made with flags 0 and a NULL destination of length 0. *)
Theorem QuicDataPathBindingSend_connected_ignores_RemoteAddress :
  forall P env Binding RemoteAddress1 RemoteAddress2 SendContext w,
    let out1 :=
      QuicDataPathBindingSend P env Binding None (Some RemoteAddress1)
        SendContext w in
    let out2 :=
      QuicDataPathBindingSend P env Binding None (Some RemoteAddress2)
        SendContext w in
    out1.1 = out2.1 /\
    Trace out1.2 = Trace out2.2 /\
    same_but_log out1.2 out2.2 /\
    Forall connected_send_event (added w out1.2).
Proof.
  intros P env Binding r1 r2 SendContext w out1 out2.
  destruct (sim_QuicDataPathBindingSend_connected P env Binding r1 r2 SendContext
              w w eq_refl) as [Hr Hw].
  split; [exact Hr|]. split; [|split; [exact Hw|]].
  - apply same_but_log_fields in Hw. apply Hw.
  - destruct (QuicDataPathBindingSend_connected_extends P env Binding r1
                SendContext w) as (tr & Htr & Hphi).
    subst out1. rewrite (added_app _ _ _ Htr). exact Hphi.
Qed.

(** The two calls are not the same computation: the log differs. *)
Example QuicDataPathBindingSend_connected_logs_RemoteAddress :
  let out1 :=
    QuicDataPathBindingSend (posix false) env_ok (Some 3%N) None (Some peer)
      (Some 18%N) client_batch.2 in
  let out2 :=
    QuicDataPathBindingSend (posix false) env_ok (Some 3%N) None (Some any6)
      (Some 18%N) client_batch.2 in
  Log out1.2 <> Log out2.2 /\
  syscalls (added client_batch.2 out1.2) =
    [(sys_sendto 8 (Some 19%N) (Some []) 1200 0 None 0, 1200);
     (sys_sendto 8 (Some 20%N) (Some []) 1200 0 None 0, 1200)].
Proof. split; [vm_compute; discriminate | vm_compute; reflexivity]. Qed.

(** * Allocation of send datagrams *)

(** C6: when the send-buffer pool has nothing to give,
    QuicDataPathBindingAllocSendDatagram does not return NULL: it returns
    the address of the slot [Buffers[BufferCount]] it had taken (here slot
    0), whose buffer pointer is NULL, and leaves BufferCount as it was.  The
    function is annotated _Success_(return != NULL) and jumps to Exit for
    this failure. *)
Theorem QuicDataPathBindingAllocSendDatagram_pool_empty :
  let w := client_context.2 in
  let out :=
    QuicDataPathBindingAllocSendDatagram (posix false) env_no_send_buffer
      (Some 18%N) 1200 w in
  BufferCount <$> SendContexts w !! 18%N = Some 0 /\
  MaxSendBatchSize (Datapath w) = 10 /\
  added w out.2 = [EvPoolAlloc (SendBufferPool 0) None] /\
  out.1 = Done (Some 0) /\
  BufferCount <$> SendContexts out.2 !! 18%N = Some 0 /\
  (fun c => Buffers c !! 0%nat) <$> SendContexts out.2 !! 18%N
    = Some (Some (mkBuffer 0 None)).
Proof. vm_compute. repeat split; reflexivity. Qed.

(** For a live send context owned by a processor context of the datapath:
    QuicDataPathBindingIsSendContextFull answers whether BufferCount equals
    MaxSendBatchSize. *)
Lemma QuicDataPathBindingIsSendContextFull_eq c ctx i proc w :
  SendContexts w !! c = Some ctx ->
  Owner ctx = Some i -> 0 <= i ->
  ProcContexts (Datapath w) !! Z.to_nat i = Some proc ->
  QuicDataPathBindingIsSendContextFull (Some c) w =
    (Done (BufferCount ctx =? MaxSendBatchSize (Datapath w)), w).
Proof.
  intros Hc Ho Hi Hp. unfold QuicDataPathBindingIsSendContextFull.
  erewrite bind_Done; [|apply deref_Some; exact Hc].
  erewrite bind_Done; [|eapply Owner_deref_eq; eassumption].
  reflexivity.
Qed.

(** With the batch not above the array of ten buffers,
    QuicDataPathBindingAllocSendDatagram returns NULL exactly when
    BufferCount equals MaxSendBatchSize, whatever the pool does. *)
Lemma QuicDataPathBindingAllocSendDatagram_nil_iff_full
    P env c ctx i proc MaxBufferLength w :
  SendContexts w !! c = Some ctx ->
  Owner ctx = Some i -> 0 <= i ->
  ProcContexts (Datapath w) !! Z.to_nat i = Some proc ->
  length (Buffers ctx) = Z.to_nat QUIC_MAX_BATCH_SEND ->
  length (Iovs ctx) = Z.to_nat QUIC_MAX_BATCH_SEND ->
  0 <= BufferCount ctx <= QUIC_MAX_BATCH_SEND ->
  MaxSendBatchSize (Datapath w) = QUIC_MAX_BATCH_SEND ->
  QUIC_DEBUG P &&
    negb (MaxBufferLength <=?
            QUIC_MAX_MTU P - QUIC_MIN_IPV4_HEADER_SIZE P - QUIC_UDP_HEADER_SIZE P)
    = false ->
  let out := QuicDataPathBindingAllocSendDatagram P env (Some c) MaxBufferLength w in
  (BufferCount ctx = MaxSendBatchSize (Datapath w) -> out.1 = Done None) /\
  (BufferCount ctx <> MaxSendBatchSize (Datapath w) ->
   out.1 = Done (Some (BufferCount ctx)) /\
   match pool_alloc env (Trace w) (SendBufferPool i) with
   | Some a =>
       exists ctx',
         SendContexts out.2 !! c = Some ctx' /\
         BufferCount ctx' = BufferCount ctx + 1 /\
         Iovs ctx' !! Z.to_nat (BufferCount ctx) =
           Some (mkIov (Some a) MaxBufferLength) /\
         Buffers ctx' !! Z.to_nat (BufferCount ctx) =
           Some (mkBuffer MaxBufferLength (Some a))
   | None =>
       exists ctx',
         SendContexts out.2 !! c = Some ctx' /\
         BufferCount ctx' = BufferCount ctx /\
         Buffers ctx' !! Z.to_nat (BufferCount ctx) = Some (mkBuffer 0 None)
   end).
Proof.
  intros Hc Ho Hi Hp Hlb Hli Hcount Hmax Hdbg out. subst out.
  unfold QuicDataPathBindingAllocSendDatagram.
  erewrite bind_Done;
    [|unfold QUIC_DBG_ASSERT; rewrite bool_decide_true by discriminate;
      rewrite andb_false_r; reflexivity].
  erewrite bind_Done; [|unfold QUIC_DBG_ASSERT; rewrite Hdbg; reflexivity].
  erewrite bind_Done; [|apply deref_Some; exact Hc].
  erewrite bind_Done; [|eapply Owner_deref_eq; eassumption].
  erewrite bind_Done; [|reflexivity].
  destruct (BufferCount ctx =? MaxSendBatchSize (Datapath w)) eqn:Hfull.
  - apply Z.eqb_eq in Hfull. split; [reflexivity | contradiction].
  - apply Z.eqb_neq in Hfull. split; [contradiction|]. intros _.
    assert (Hlt : (Z.to_nat (BufferCount ctx) < length (Buffers ctx))%nat).
    { rewrite Hlb. unfold QUIC_MAX_BATCH_SEND in *. lia. }
    destruct (lookup_lt_is_Some_2 _ _ Hlt) as [buf Hbuf].
    erewrite bind_Done; [|apply index_Some; [lia | exact Hbuf]].
    unfold store_SendContext, QuicPoolAlloc, QuicTraceEvent, bind, modify, ret.
    cbn [Trace set_SendContexts].
    destruct (pool_alloc env (Trace w) (SendBufferPool i)) as [a|].
    + assert (Hlti : (Z.to_nat (BufferCount ctx) < length (Iovs ctx))%nat).
      { rewrite Hli. unfold QUIC_MAX_BATCH_SEND in *. lia. }
      destruct (lookup_lt_is_Some_2 _ _ Hlti) as [iov Hiov].
      unfold index. cbn.
      replace ((0 <=? BufferCount ctx) &&
               (BufferCount ctx <? Z.of_nat (length (Iovs ctx)))) with true
        by (symmetry; apply andb_true_iff; split;
            [apply Z.leb_le | apply Z.ltb_lt]; lia).
      rewrite Hiov. cbn. split; [reflexivity|].
      eexists. split; [apply lookup_insert_eq|]. cbn.
      split; [unfold wrap; apply Z.mod_small; unfold QUIC_MAX_BATCH_SEND in *; lia|].
      split; apply list_lookup_insert_eq; rewrite ?length_insert; assumption.
    + cbn. split; [reflexivity|].
      eexists. split; [apply lookup_insert_eq|]. cbn.
      split; [reflexivity|].
      apply list_lookup_insert_eq. rewrite ?length_insert. assumption.
Qed.

(** * Sockets and bindings *)

(** C3: a socket context initialised for the IPv6 wildcard address with no
    remote address.  The descriptor made for AF_INET6 is overwritten at once
    by one made for AF_INET, and that second descriptor is the one stored in
    SocketFd, configured (with the IPv6 options), bound and kept. *)
Theorem QuicSocketContextInitialize_socket_is_AF_INET :
  let w := server.2 in
  server.1 = Done (QUIC_STATUS_SUCCESS (posix false), Some 3%N) /\
  (map SocketFd ∘ SocketContexts) <$> Bindings w !! 3%N = Some [8] /\
  syscalls (Trace w) =
    [(sys_socket AF_INET6 SOCK_DGRAM 0, 7);
     (sys_socket AF_INET SOCK_DGRAM 0, 8);
     (sys_setsockopt 8 IPPROTO_IPV6 IPV6_RECVPKTINFO 1 4, 0);
     (sys_setsockopt 8 IPPROTO_IPV6 IPV6_V6ONLY 0 4, 0);
     (sys_setsockopt 8 IPPROTO_IPV6 IPV6_RECVPKTINFO 1 4, 0);
     (sys_setsockopt 8 SOL_SOCKET SO_REUSEADDR 1 4, 0);
     (sys_bind 8 zero_addr sizeof_sockaddr, 0);
     (sys_getsockname 8 sizeof_sockaddr, 0);
     (sys_kevent 9 8 EVFILT_READ (Z.lor EV_ADD EV_CLEAR) (3%N, 0), 0)].
Proof. vm_compute. repeat split; reflexivity. Qed.

(** C4: a binding whose only socket context was initialised, and whose
    registration with the readiness queue then fails.  The failure path
    releases the datapath's BindingsRundown once and frees the binding, but
    the socket context is not torn down: its reference on the binding's
    rundown is never released and its armed receive block stays out of the
    pool; the pointer stored through NewBinding is left dangling.  The
    source marks the spot "TODO - Clean up socket contexts". *)
Theorem QuicDataPathBindingCreate_failure_skips_socket_contexts :
  let out :=
    QuicDataPathBindingCreate (posix false) env_kevent_fails
      (Some any6) None 77 world0 in
  out.1 = Done (QUIC_STATUS_INTERNAL_ERROR (posix false), Some 3%N) /\
  QUIC_FAILED (posix false) (QUIC_STATUS_INTERNAL_ERROR (posix false)) = true /\
  Trace out.2 =
    [EvAlloc 1 (Some 3%N);
     EvRundown RundownInitialize (Rundown 3);
     EvRundown RundownAcquire (Rundown 3);
     EvRundown RundownAcquire BindingsRundown;
     EvSys (sys_socket AF_INET6 SOCK_DGRAM 0) 7;
     EvSys (sys_socket AF_INET SOCK_DGRAM 0) 8;
     EvSys (sys_setsockopt 8 IPPROTO_IPV6 IPV6_RECVPKTINFO 1 4) 0;
     EvSys (sys_setsockopt 8 IPPROTO_IPV6 IPV6_V6ONLY 0 4) 0;
     EvSys (sys_setsockopt 8 IPPROTO_IPV6 IPV6_RECVPKTINFO 1 4) 0;
     EvSys (sys_setsockopt 8 SOL_SOCKET SO_REUSEADDR 1 4) 0;
     EvSys (sys_bind 8 zero_addr sizeof_sockaddr) 0;
     EvSys (sys_getsockname 8 sizeof_sockaddr) 0;
     EvPoolAlloc (RecvBlockPool 0) (Some 15%N);
     EvSys (sys_kevent 9 8 EVFILT_READ (Z.lor EV_ADD EV_CLEAR) (3%N, 0)) (-1);
     EvSys (sys_close 8) 0;
     EvRundown RundownRelease BindingsRundown;
     EvRundown RundownUninitialize (Rundown 3);
     EvFree (Some 3%N)] /\
  Bindings out.2 !! 3%N = None /\
  OwningPool <$> RecvBlocks out.2 !! 15%N = Some (Some (RecvBlockPool 0)).
Proof. vm_compute. repeat split; reflexivity. Qed.












(** * Receiving *)

Lemma LocalAddr_of_scope P CMsg port a :
  sin6_scope_id (LocalAddr_of P CMsg port a) = ifindex_of CMsg.
Proof. unfold LocalAddr_of, ifindex_of. destruct (is_IPV6_PKTINFO CMsg); reflexivity. Qed.

Lemma LocalAddr_of_port P CMsg port a :
  (forall x, sin_port (QuicConvertFromMappedV6 P x) = sin_port x) ->
  sin_port (LocalAddr_of P CMsg port a) = port.
Proof.
  intros Hconv. unfold LocalAddr_of.
  destruct (is_IPV6_PKTINFO CMsg); cbn; [rewrite Hconv|]; reflexivity.
Qed.

(** The first matching record of a control buffer, if there is one. *)
Lemma first_PKTINFO (l : list cmsghdr) :
  if existsb is_PKTINFO l
  then exists pre CMsg post,
         l = pre ++ CMsg :: post /\
         Forall (fun c => is_PKTINFO c = false) pre /\ is_PKTINFO CMsg = true
  else Forall (fun c => is_PKTINFO c = false) l.
Proof.
  induction l as [|c l IH]; cbn; [constructor|].
  destruct (is_PKTINFO c) eqn:Hc; cbn.
  - exists [], c, l. repeat split; [constructor | exact Hc].
  - destruct (existsb is_PKTINFO l).
    + destruct IH as (pre & c' & post & -> & Hpre & Hc').
      exists (c :: pre), c', post. repeat split; [constructor|]; assumption.
    + constructor; assumption.
Qed.

Lemma first_PKTINFO_unique (pre pre' post post' : list cmsghdr) c c' :
  pre ++ c :: post = pre' ++ c' :: post' ->
  Forall (fun c => is_PKTINFO c = false) pre -> is_PKTINFO c = true ->
  Forall (fun c => is_PKTINFO c = false) pre' -> is_PKTINFO c' = true ->
  pre = pre' /\ c = c' /\ post = post'.
Proof.
  revert pre'. induction pre as [|x pre IH]; intros [|x' pre'] Heq Hp Hc Hp' Hc';
    cbn in Heq; simplify_eq.
  - auto.
  - inversion Hp'; congruence.
  - inversion Hp; congruence.
  - inversion Hp; inversion Hp'; subst.
    destruct (IH pre') as (-> & -> & ->); auto.
Qed.

Lemma RecvComplete_cmsgs_none P B TuplePtr l w :
  Forall (fun c => is_PKTINFO c = false) l ->
  RecvComplete_cmsgs P B TuplePtr l w = (Done false, w).
Proof.
  induction 1 as [|c l Hc _ IH]; [reflexivity|].
  unfold is_PKTINFO in Hc. apply orb_false_iff in Hc as [H6 H4].
  cbn [RecvComplete_cmsgs]. rewrite H6, H4. exact IH.
Qed.

Lemma RecvComplete_cmsgs_found P B b t blkT pre CMsg post w :
  Forall (fun c => is_PKTINFO c = false) pre ->
  is_PKTINFO CMsg = true ->
  Bindings w !! B = Some b ->
  RecvBlocks w !! t = Some blkT ->
  RecvComplete_cmsgs P B (Some t) (pre ++ CMsg :: post) w =
    (Done true,
     set_RecvBlocks
       (<[t := in_LocalAddress
                 (LocalAddr_of P CMsg (sin_port (Binding_LocalAddress b))) blkT]>
          (RecvBlocks w)) w).
Proof.
  intros Hpre Hc Hb Ht.
  induction Hpre as [|c pre Hn _ IH].
  - cbn [app RecvComplete_cmsgs]. unfold LocalAddr_of.
    unfold is_PKTINFO in Hc.
    destruct (is_IPV6_PKTINFO CMsg) eqn:H6.
    + erewrite bind_Done; [|apply deref_Some; exact Hb].
      erewrite bind_Done; [|apply update_RecvBlock_eq; exact Ht].
      reflexivity.
    + cbn in Hc. rewrite Hc.
      erewrite bind_Done; [|apply deref_Some; exact Hb].
      erewrite bind_Done; [|apply update_RecvBlock_eq; exact Ht].
      reflexivity.
  - unfold is_PKTINFO in Hn. apply orb_false_iff in Hn as [H6 H4].
    cbn [app RecvComplete_cmsgs]. rewrite H6, H4. exact IH.
Qed.

(** QuicSocketContextPrepareReceive arms: on a socket context without a
    current block, when the pool hands out a block, the socket context ends
    up armed on that block, with an empty control buffer and the length of
    its I/O vector as the block's BufferLength. *)
Lemma QuicSocketContextPrepareReceive_arms P env B i b s p w :
  Bindings w !! B = Some b ->
  0 <= i ->
  SocketContexts b !! Z.to_nat i = Some s ->
  CurrentRecvBlock s = None ->
  pool_alloc env (Trace w) (RecvBlockPool 0) = Some p ->
  exists w' b' s' blk',
    QuicSocketContextPrepareReceive P env (B, i) w =
      (Done (QUIC_STATUS_SUCCESS P), w') /\
    armed w' B i b' s' p blk' /\
    OwningPool blk' = Some (RecvBlockPool 0) /\
    BufferLength (Block_RecvPacket blk') =
      wrap (BufferLength_bits P) (iov_len (RecvIov s)) /\
    msg_control (RecvMsgHdr s') = [] /\
    msg_name (RecvMsgHdr s') = Some p /\
    Binding_LocalAddress b' = Binding_LocalAddress b /\
    ClientContext b' = ClientContext b.
Proof.
  intros Hb Hi Hs Hcur Hpool.
  assert (Hlen : (Z.to_nat i < length (SocketContexts b))%nat)
    by (eapply lookup_lt_Some; eauto).
  unfold QuicSocketContextPrepareReceive.
  erewrite bind_Done; [|eapply load_SocketContext_eq; eassumption].
  rewrite Hcur.
  erewrite bind_Done; last first.
  { erewrite bind_Done; last first.
    { unfold QuicDataPathAllocRecvBlock, QuicPoolAlloc. unfold bind at 1.
      rewrite Hpool. reflexivity. }
    erewrite bind_Done; last first.
    { eapply store_SocketContext_eq; cbn; eassumption. }
    reflexivity. }
  cbv iota.
  erewrite bind_Done; last first.
  { eapply load_SocketContext_eq; [cbn; apply lookup_insert_eq | exact Hi |].
    cbn. apply list_lookup_insert_eq. exact Hlen. }
  cbn [CurrentRecvBlock set_CurrentRecvBlock].
  erewrite bind_Done; [|apply deref_Some; cbn; apply lookup_insert_eq].
  erewrite bind_Done; last first.
  { eapply store_SocketContext_eq; [cbn; apply lookup_insert_eq | exact Hi |].
    cbn. apply list_lookup_insert_eq. exact Hlen. }
  erewrite bind_Done; [|apply update_RecvBlock_eq; cbn; apply lookup_insert_eq].
  erewrite bind_Done; [|apply update_RecvBlock_eq; cbn; apply lookup_insert_eq].
  erewrite bind_Done; [|apply deref_Some; cbn; apply lookup_insert_eq].
  erewrite bind_Done; last first.
  { eapply store_SocketContext_eq; [cbn; apply lookup_insert_eq | exact Hi |].
    cbn. apply list_lookup_insert_eq. rewrite length_insert. exact Hlen. }
  do 4 eexists. split; [reflexivity|]. split.
  { unfold armed. cbn. split; [apply lookup_insert_eq|]. split; [exact Hi|].
    split; [apply list_lookup_insert_eq; rewrite !length_insert; exact Hlen|].
    split; [reflexivity|]. split; [apply lookup_insert_eq | reflexivity]. }
  repeat split.
Qed.

(** The receive completion of an armed socket context whose control buffer
    holds a matching record, run up to the assertion on the byte count. *)
Ltac RecvComplete_prefix P B b p blk Hb Hi Hs Hcur Hblk Htup Hctl Hpre Hc :=
  unfold QuicSocketContextRecvComplete; cbn [fst snd];
  erewrite bind_Done; [|eapply load_SocketContext_eq; eassumption];
  rewrite Hcur;
  erewrite bind_Done;
    [|unfold QUIC_DBG_ASSERT; rewrite bool_decide_true by discriminate;
      rewrite andb_false_r; reflexivity];
  erewrite bind_Done; [|eapply store_SocketContext_eq; eassumption];
  erewrite bind_Done; [|apply deref_Some; exact Hblk];
  rewrite Htup, Hctl;
  erewrite bind_Done;
    [|eapply (RecvComplete_cmsgs_found P B _ p blk); try eassumption;
      cbn; apply lookup_insert_eq];
  erewrite bind_Done; [|reflexivity];
  erewrite bind_Done;
    [|unfold load_Tuple; erewrite bind_Done;
      [|apply deref_Some; cbn; apply lookup_insert_eq]; reflexivity];
  erewrite bind_Done; [|reflexivity];
  erewrite bind_Done; [|apply deref_Some; cbn; apply lookup_insert_eq].

(** The receive completion up to and including the upcall; what follows is
    the re-arming of the socket context. *)
Lemma QuicSocketContextRecvComplete_upcall
    P env w B i b s p blk pre CMsg post ProcContext proc BytesTransferred :
  armed w B i b s p blk ->
  msg_control (RecvMsgHdr s) = pre ++ CMsg :: post ->
  Forall (fun c => is_PKTINFO c = false) pre ->
  is_PKTINFO CMsg = true ->
  0 <= ProcContext ->
  ProcContexts (Datapath w) !! Z.to_nat ProcContext = Some proc ->
  QUIC_DEBUG P && negb (BytesTransferred <=? BufferLength (Block_RecvPacket blk))
    = false ->
  exists w1,
    QuicSocketContextRecvComplete P env (B, i) ProcContext BytesTransferred w =
      (Status <- QuicSocketContextPrepareReceive P env (B, i) ;;
       QUIC_FRE_ASSERT (QUIC_SUCCEEDED P Status)) w1 /\
    Trace w1 = Trace w ++
      [EvRecvHandler B (ClientContext b) (Some p)
         (set_PartitionIndex (wrap (PartitionIndex_bits P) (Index proc))
            (set_BufferLength (wrap (BufferLength_bits P) BytesTransferred)
               (Block_RecvPacket blk)))
         (mkTuple (Tuple_RemoteAddress (Block_Tuple blk))
            (LocalAddr_of P CMsg (sin_port (Binding_LocalAddress b))
               (Tuple_LocalAddress (Block_Tuple blk))))].
Proof.
  intros (Hb & Hi & Hs & Hcur & Hblk & Htup) Hctl Hpre Hc Hpc Hproc Hdbg.
  RecvComplete_prefix P B b p blk Hb Hi Hs Hcur Hblk Htup Hctl Hpre Hc.
  erewrite bind_Done; [|unfold QUIC_DBG_ASSERT; cbn; rewrite Hdbg; reflexivity].
  erewrite bind_Done; [|reflexivity].
  erewrite bind_Done; [|apply index_Some; [exact Hpc | exact Hproc]].
  erewrite bind_Done; [|apply update_RecvBlock_eq; cbn; apply lookup_insert_eq].
  erewrite bind_Done; [|apply update_RecvBlock_eq; cbn; apply lookup_insert_eq].
  erewrite bind_Done; [|apply deref_Some; cbn; apply lookup_insert_eq].
  erewrite bind_Done; last first.
  { unfold RecvHandler.
    erewrite bind_Done; [|apply deref_Some; cbn; apply lookup_insert_eq].
    erewrite bind_Done; last first.
    { unfold load_Tuple.
      erewrite bind_Done;
        [|cbn; rewrite Htup; apply deref_Some; cbn; apply lookup_insert_eq].
      reflexivity. }
    reflexivity. }
  eexists. split; [reflexivity|]. reflexivity.
Qed.

(** Without a matching record the assertion on FoundLocalAddr ends the
    process before anything is handed up. *)
Lemma QuicSocketContextRecvComplete_not_found
    P env w B i b s p blk ProcContext BytesTransferred :
  armed w B i b s p blk ->
  Forall (fun c => is_PKTINFO c = false) (msg_control (RecvMsgHdr s)) ->
  exists w1,
    QuicSocketContextRecvComplete P env (B, i) ProcContext BytesTransferred w =
      (Terminated "QUIC_FRE_ASSERT", w1) /\
    Trace w1 = Trace w.
Proof.
  intros (Hb & Hi & Hs & Hcur & Hblk & Htup) Hnone.
  unfold QuicSocketContextRecvComplete. cbn [fst snd].
  erewrite bind_Done; [|eapply load_SocketContext_eq; eassumption].
  rewrite Hcur.
  erewrite bind_Done;
    [|unfold QUIC_DBG_ASSERT; rewrite bool_decide_true by discriminate;
      rewrite andb_false_r; reflexivity].
  erewrite bind_Done; [|eapply store_SocketContext_eq; eassumption].
  erewrite bind_Done; [|apply deref_Some; exact Hblk].
  erewrite bind_Done; [|apply RecvComplete_cmsgs_none; exact Hnone].
  eexists. split; [reflexivity|]. reflexivity.
Qed.

(** With a matching record, a byte count above the armed length (in a
    build with debug assertions) or a processor context outside the
    datapath's array stops the completion before the upcall. *)
Lemma QuicSocketContextRecvComplete_stopped
    P env w B i b s p blk pre CMsg post ProcContext BytesTransferred :
  armed w B i b s p blk ->
  msg_control (RecvMsgHdr s) = pre ++ CMsg :: post ->
  Forall (fun c => is_PKTINFO c = false) pre ->
  is_PKTINFO CMsg = true ->
  QUIC_DEBUG P && negb (BytesTransferred <=? BufferLength (Block_RecvPacket blk))
    = true \/
  ProcContext < 0 \/ ProcContexts (Datapath w) !! Z.to_nat ProcContext = None ->
  exists r w1,
    QuicSocketContextRecvComplete P env (B, i) ProcContext BytesTransferred w =
      (r, w1) /\
    Trace w1 = Trace w.
Proof.
  intros (Hb & Hi & Hs & Hcur & Hblk & Htup) Hctl Hpre Hc Hstop.
  RecvComplete_prefix P B b p blk Hb Hi Hs Hcur Hblk Htup Hctl Hpre Hc.
  destruct (QUIC_DEBUG P &&
            negb (BytesTransferred <=? BufferLength (Block_RecvPacket blk))) eqn:Hdbg.
  - erewrite bind_Terminated;
      [|unfold QUIC_DBG_ASSERT; cbn; rewrite Hdbg; reflexivity].
    do 2 eexists. split; reflexivity.
  - destruct Hstop as [Hstop|Hstop]; [discriminate|].
    erewrite bind_Done; [|unfold QUIC_DBG_ASSERT; cbn; rewrite Hdbg; reflexivity].
    erewrite bind_Done; [|reflexivity].
    erewrite bind_Fault; [|apply index_None; exact Hstop].
    do 2 eexists. split; reflexivity.
Qed.

(** C7: a receive completion on an armed socket context whose control
    buffer holds an IPV6_PKTINFO or IP_PKTINFO record, for a byte count
    that fits the armed buffer: the receive handler is called once, before
    the socket context is re-armed, and the datagram it is given has the
    binding's stored local port as the port of its local address,
    BytesTransferred as its BufferLength and the worker's index as its
    PartitionIndex. *)
Theorem QuicSocketContextRecvComplete_delivers :
  forall P env w B i b s p blk ProcContext proc BytesTransferred,
    (forall a, sin_port (QuicConvertFromMappedV6 P a) = sin_port a) ->
    armed w B i b s p blk ->
    existsb is_PKTINFO (msg_control (RecvMsgHdr s)) = true ->
    0 <= ProcContext ->
    ProcContexts (Datapath w) !! Z.to_nat ProcContext = Some proc ->
    0 <= Index proc < 2 ^ PartitionIndex_bits P ->
    0 <= BytesTransferred <= BufferLength (Block_RecvPacket blk) ->
    BufferLength (Block_RecvPacket blk) < 2 ^ BufferLength_bits P ->
    let out :=
      QuicSocketContextRecvComplete P env (B, i) ProcContext BytesTransferred w in
    exists Datagram DatagramTuple rest,
      added w out.2 =
        EvRecvHandler B (ClientContext b) (Some p) Datagram DatagramTuple :: rest /\
      Forall (fun e => is_RecvHandler e = false) rest /\
      sin_port (Tuple_LocalAddress DatagramTuple) =
        sin_port (Binding_LocalAddress b) /\
      BufferLength Datagram = BytesTransferred /\
      PartitionIndex Datagram = Index proc.
Proof.
  intros P env w B i b s p blk ProcContext proc BT Hconv Harmed Hex Hpc Hproc
    Hidx Hbt Hbl out.
  pose proof (first_PKTINFO (msg_control (RecvMsgHdr s))) as Hfirst.
  rewrite Hex in Hfirst. destruct Hfirst as (pre & CMsg & post & Hctl & Hpre & Hc).
  destruct (QuicSocketContextRecvComplete_upcall P env w B i b s p blk pre CMsg post
              ProcContext proc BT Harmed Hctl Hpre Hc Hpc Hproc)
    as (w1 & Hrun & Htr).
  { replace (BT <=? BufferLength (Block_RecvPacket blk)) with true
      by (symmetry; apply Z.leb_le; lia).
    apply andb_false_r. }
  destruct (rearm_extends P env (B, i) w1) as (rest & Hrest & Hquiet).
  do 2 eexists. exists rest. split; [|split; [exact Hquiet|]].
  - apply added_app. subst out. rewrite Hrun, Hrest, Htr, <- app_assoc. reflexivity.
  - cbn. split; [apply LocalAddr_of_port, Hconv|].
    unfold wrap. split; apply Z.mod_small; lia.
Qed.

Lemma posix_ConvertFromMappedV6_port a :
  sin_port (posix_ConvertFromMappedV6 a) = sin_port a.
Proof. unfold posix_ConvertFromMappedV6. destruct (is_v4mapped _); reflexivity. Defined.

Lemma QuicSocketContextRecvComplete_delivers_witness :
  let out :=
    QuicSocketContextRecvComplete (posix true) env_ok (3%N, 0) 0 3 received.2 in
  received.1 = Done 3 /\
  exists Datagram DatagramTuple rest,
    added received.2 out.2 =
      EvRecvHandler 3 77 (Some 15%N) Datagram DatagramTuple :: rest /\
    Forall (fun e => is_RecvHandler e = false) rest /\
    sin_port (Tuple_LocalAddress DatagramTuple) = 50000 /\
    BufferLength Datagram = 3 /\
    PartitionIndex Datagram = 0.
Proof.
  split; [vm_compute; reflexivity|].
  let b := eval vm_compute in (Bindings received.2 !! 3%N) in
  match b with
  | Some ?b =>
      let s := eval vm_compute in (SocketContexts b !! 0%nat) in
      match s with
      | Some ?s =>
          let blk := eval vm_compute in (RecvBlocks received.2 !! 15%N) in
          match blk with
          | Some ?blk =>
              apply (QuicSocketContextRecvComplete_delivers (posix true) env_ok
                       received.2 3%N 0 b s 15%N blk 0 (mkProcContext 9 0) 3)
          end
      end
  end.
  - exact posix_ConvertFromMappedV6_port.
  - unfold armed. repeat split; first [lia | vm_compute; reflexivity].
  - vm_compute; reflexivity.
  - lia.
  - vm_compute; reflexivity.
  - cbn. lia.
  - cbn. lia.
  - cbn. lia.
Defined.

(** C8: on an armed socket context, a receive completion that finds neither
    an IPV6_PKTINFO nor an IP_PKTINFO record among the ancillary records
    ends the process at the assertion on FoundLocalAddr, with nothing handed
    up; and whenever the receive handler is reached, the control buffer
    splits into records that do not match, the one matching record that was
    consumed, and the records after it, which the walk never looks at: the
    handler sees the local address made from that one record. *)
Theorem QuicSocketContextRecvComplete_needs_PKTINFO :
  forall P env w B i b s p blk ProcContext BytesTransferred,
    armed w B i b s p blk ->
    let out :=
      QuicSocketContextRecvComplete P env (B, i) ProcContext BytesTransferred w in
    (existsb is_PKTINFO (msg_control (RecvMsgHdr s)) = false ->
     out.1 = Terminated "QUIC_FRE_ASSERT" /\ added w out.2 = []) /\
    (forall B' Context chain Datagram DatagramTuple,
       In (EvRecvHandler B' Context chain Datagram DatagramTuple) (added w out.2) ->
       exists pre CMsg post,
         msg_control (RecvMsgHdr s) = pre ++ CMsg :: post /\
         Forall (fun c => is_PKTINFO c = false) pre /\
         is_PKTINFO CMsg = true /\
         Tuple_LocalAddress DatagramTuple =
           LocalAddr_of P CMsg (sin_port (Binding_LocalAddress b))
             (Tuple_LocalAddress (Block_Tuple blk))).
Proof.
  intros P env w B i b s p blk ProcContext BT Harmed out.
  pose proof (first_PKTINFO (msg_control (RecvMsgHdr s))) as Hfirst.
  destruct (existsb is_PKTINFO (msg_control (RecvMsgHdr s))) eqn:Hex.
  - split; [discriminate|].
    destruct Hfirst as (pre & CMsg & post & Hctl & Hpre & Hc).
    intros B' Context chain Datagram DatagramTuple Hin.
    exists pre, CMsg, post. repeat split; try assumption.
    destruct (QUIC_DEBUG P &&
              negb (BT <=? BufferLength (Block_RecvPacket blk))) eqn:Hdbg;
      [|destruct (Z_lt_dec ProcContext 0) as [Hneg|Hpc];
        [|destruct (ProcContexts (Datapath w) !! Z.to_nat ProcContext)
            as [proc|] eqn:Hproc]].
    + destruct (QuicSocketContextRecvComplete_stopped P env w B i b s p blk pre
                  CMsg post ProcContext BT Harmed Hctl Hpre Hc)
        as (r & w1 & Hrun & Htr); [left; exact Hdbg|].
      subst out. rewrite Hrun in Hin. cbn in Hin.
      rewrite (added_app w w1 []) in Hin by (rewrite app_nil_r; exact Htr).
      destruct Hin.
    + destruct (QuicSocketContextRecvComplete_stopped P env w B i b s p blk pre
                  CMsg post ProcContext BT Harmed Hctl Hpre Hc)
        as (r & w1 & Hrun & Htr); [right; left; exact Hneg|].
      subst out. rewrite Hrun in Hin. cbn in Hin.
      rewrite (added_app w w1 []) in Hin by (rewrite app_nil_r; exact Htr).
      destruct Hin.
    + destruct (QuicSocketContextRecvComplete_upcall P env w B i b s p blk pre CMsg
                  post ProcContext proc BT Harmed Hctl Hpre Hc)
        as (w1 & Hrun & Htr); [lia | exact Hproc | exact Hdbg |].
      destruct (rearm_extends P env (B, i) w1) as (rest & Hrest & Hquiet).
      subst out. rewrite Hrun in Hin.
      erewrite added_app in Hin
        by (rewrite Hrest, Htr, <- app_assoc; reflexivity).
      destruct Hin as [Heq|Hin].
      * injection Heq as <- <- <- <- <-. reflexivity.
      * cbn in Hin. rewrite List.Forall_forall in Hquiet.
        apply Hquiet in Hin. discriminate.
    + destruct (QuicSocketContextRecvComplete_stopped P env w B i b s p blk pre
                  CMsg post ProcContext BT Harmed Hctl Hpre Hc)
        as (r & w1 & Hrun & Htr); [right; right; exact Hproc|].
      subst out. rewrite Hrun in Hin. cbn in Hin.
      rewrite (added_app w w1 []) in Hin by (rewrite app_nil_r; exact Htr).
      destruct Hin.
  - destruct (QuicSocketContextRecvComplete_not_found P env w B i b s p blk
                ProcContext BT Harmed Hfirst) as (w1 & Hrun & Htr).
    assert (Hadd : added w out.2 = []).
    { subst out. rewrite Hrun. apply added_app. rewrite app_nil_r. exact Htr. }
    split.
    + intros _. split; [subst out; rewrite Hrun; reflexivity | exact Hadd].
    + intros B' Context chain Datagram DatagramTuple Hin.
      rewrite Hadd in Hin. destruct Hin.
Qed.

Lemma QuicSocketContextRecvComplete_needs_PKTINFO_witness :
  let out :=
    QuicSocketContextRecvComplete (posix true) env_ok (3%N, 0) 0 3 received_bare.2 in
  out.1 = Terminated "QUIC_FRE_ASSERT" /\ added received_bare.2 out.2 = [].
Proof.
  let b := eval vm_compute in (Bindings received_bare.2 !! 3%N) in
  match b with
  | Some ?b =>
      let s := eval vm_compute in (SocketContexts b !! 0%nat) in
      match s with
      | Some ?s =>
          let blk := eval vm_compute in (RecvBlocks received_bare.2 !! 15%N) in
          match blk with
          | Some ?blk =>
              apply (QuicSocketContextRecvComplete_needs_PKTINFO (posix true) env_ok
                       received_bare.2 3%N 0 b s 15%N blk 0 3)
          end
      end
  end.
  - unfold armed. repeat split; first [lia | vm_compute; reflexivity].
  - vm_compute; reflexivity.
Defined.

(** * Returning receive blocks *)

Lemma allocated_from_snoc tr e p :
  allocated_from (tr ++ [e]) p =
    match alloc_of p e with
    | Some pool => Some pool
    | None => allocated_from tr p
    end.
Proof.
  induction tr as [|e' tr IH]; cbn.
  - destruct (alloc_of p e); reflexivity.
  - rewrite IH. destruct (alloc_of p e); [reflexivity|].
    destruct (allocated_from tr p); reflexivity.
Qed.

Lemma chain_length h head l : chain h head l -> (length l <= size h)%nat.
Proof.
  revert h head. induction l as [|[p pool] l IH]; intros h head Hc; cbn in *.
  - lia.
  - destruct Hc as (_ & blk & Hp & _ & Hc). apply IH in Hc.
    rewrite map_size_delete_Some in Hc by eauto.
    assert (size h <> 0%nat) by (eapply map_size_ne_0_lookup_2; eauto). lia.
Qed.

Lemma chain_weaken h h' head l : h ⊆ h' -> chain h head l -> chain h' head l.
Proof.
  revert h h' head. induction l as [|[p pool] l IH]; intros h h' head Hsub Hc;
    cbn in *; [exact Hc|].
  destruct Hc as (-> & blk & Hp & Ho & Hc). split; [reflexivity|].
  exists blk. split; [eapply lookup_weaken; eauto|]. split; [exact Ho|].
  eapply IH; [|exact Hc]. apply delete_mono. exact Hsub.
Qed.

Lemma chain_owner h head l x :
  chain h head l -> In x l ->
  exists blk, h !! x.1 = Some blk /\ OwningPool blk = Some x.2.
Proof.
  revert h head. induction l as [|[p pool] l IH]; intros h head Hc Hin;
    [destruct Hin|].
  cbn in Hc. destruct Hc as (_ & blk & Hp & Ho & Hc).
  destruct Hin as [<-|Hin]; [exists blk; split; assumption|].
  destruct (IH _ _ Hc Hin) as (blk' & Hp' & Ho').
  exists blk'. split; [|exact Ho'].
  eapply lookup_weaken; [exact Hp' | apply delete_subseteq].
Qed.

Lemma ReturnRecvDatagrams_loop_chain :
  forall l rounds head w,
    chain (RecvBlocks w) head l ->
    (length l <= rounds)%nat ->
    exists w',
      ReturnRecvDatagrams_loop rounds head w = (Done tt, w') /\
      Trace w' = Trace w ++ map free_event l /\
      RecvBlocks w' ⊆ RecvBlocks w /\
      forall x, In x l -> RecvBlocks w' !! x.1 = None.
Proof.
  induction l as [|[p pool] l IH]; intros rounds head w Hc Hr; cbn in Hc.
  - subst head. exists w. destruct rounds; cbn; rewrite app_nil_r;
      repeat split; try reflexivity; intros ? [].
  - destruct Hc as (-> & blk & Hp & Ho & Hc).
    destruct rounds as [|rounds]; [cbn in Hr; lia|].
    cbn [ReturnRecvDatagrams_loop].
    erewrite bind_Done; [|apply deref_Some; exact Hp].
    rewrite Ho. unfold QuicPoolFree, emit. unfold bind at 1 2. unfold modify.
    set (w1 := forget _ _).
    assert (Hh1 : RecvBlocks w1 = delete p (RecvBlocks w)) by reflexivity.
    destruct (IH rounds (Next (Block_RecvPacket blk)) w1) as (w' & Hrun & Htr & Hsub & Hgone).
    { rewrite Hh1. exact Hc. }
    { cbn in Hr. lia. }
    exists w'. split; [exact Hrun|]. split; [|split].
    + rewrite Htr. subst w1. cbn. rewrite <- app_assoc. reflexivity.
    + etrans; [exact Hsub|]. rewrite Hh1. apply delete_subseteq.
    + intros x [<-|Hin]; [|apply Hgone, Hin].
      cbn. eapply lookup_weaken_None; [|exact Hsub].
      rewrite Hh1. apply lookup_delete_eq.
Qed.

(** The round budget of the walk is never what stops it. *)
Lemma ReturnRecvDatagrams_loop_budget :
  forall rounds head w,
    (size (RecvBlocks w) < rounds)%nat ->
    (ReturnRecvDatagrams_loop rounds head w).1 <> Fault "round budget".
Proof.
  induction rounds as [|rounds IH]; intros head w Hsize; [lia|].
  destruct head as [d|]; cbn [ReturnRecvDatagrams_loop]; [|discriminate].
  unfold bind at 1, deref.
  destruct (RecvBlocks w !! d) as [blk|] eqn:Hd; [|discriminate].
  unfold QuicPoolFree. destruct (OwningPool blk) as [pool|]; [|discriminate].
  unfold emit. unfold bind at 1 2. unfold modify.
  apply IH. cbn. rewrite map_size_delete_Some by eauto.
  assert (size (RecvBlocks w) <> 0%nat) by (eapply map_size_ne_0_lookup_2; eauto).
  lia.
Qed.

Lemma owned_frame w w' :
  Trace w' = Trace w -> RecvBlocks w' = RecvBlocks w -> owned w -> owned w'.
Proof. unfold owned. intros -> ->. auto. Qed.

Lemma keeps_owned_QuicTraceEvent name args : keeps owned (QuicTraceEvent name args).
Proof. apply keeps_modify. intros w. apply owned_frame; reflexivity. Qed.

Lemma keeps_owned_store_Binding p b : keeps owned (store_Binding p b).
Proof. apply keeps_modify. intros w. apply owned_frame; reflexivity. Qed.

Lemma keeps_owned_store_SocketContext sc s : keeps owned (store_SocketContext sc s).
Proof.
  unfold store_SocketContext.
  apply keeps_bind; [apply keeps_deref|]. intros ?.
  apply keeps_bind; [apply keeps_index|]. intros ?.
  apply keeps_owned_store_Binding.
Qed.

Lemma keeps_owned_load_SocketContext sc : keeps owned (load_SocketContext sc).
Proof.
  unfold load_SocketContext, SocketContext_at.
  apply keeps_bind; [apply keeps_deref|]. intros ?. apply keeps_index.
Qed.

Lemma keeps_owned_update_RecvBlock p f :
  (forall blk, OwningPool (f blk) = OwningPool blk) ->
  keeps owned (update_RecvBlock p f).
Proof.
  intros Hf w Hw. unfold update_RecvBlock, bind, deref.
  destruct p as [a|]; [|exact Hw].
  destruct (RecvBlocks w !! a) as [blk|] eqn:Ha; [|exact Hw].
  cbn. intros q blk' Hq. cbn in Hq.
  rewrite lookup_insert in Hq. destruct (decide (a = q)) as [->|Hne].
  - injection Hq as <-. rewrite Hf. apply Hw, Ha.
  - apply Hw, Hq.
Qed.

Lemma keeps_owned_emit e :
  (forall p, alloc_of p e = None) -> keeps owned (emit e).
Proof.
  intros He w Hw p blk Hp. cbn in *.
  rewrite allocated_from_snoc, He. apply Hw, Hp.
Qed.

Lemma keeps_owned_syscall env c : keeps owned (syscall env c).
Proof.
  intros w Hw p blk Hp. unfold syscall in *. cbn in *.
  destruct (sys_ret env (Trace w) c <? 0); cbn in *;
    rewrite allocated_from_snoc; cbn; apply Hw, Hp.
Qed.

Lemma keeps_owned_QuicPoolFree pool Entry : keeps owned (QuicPoolFree pool Entry).
Proof.
  unfold QuicPoolFree. destruct pool as [pool|]; [|apply keeps_fault].
  apply keeps_bind; [apply keeps_owned_emit; reflexivity|]. intros _.
  apply keeps_modify. intros w Hw p blk Hp.
  rewrite forget_Trace. destruct Entry as [a|]; [|apply Hw, Hp].
  cbn in Hp. apply lookup_delete_Some in Hp as [_ Hp]. apply Hw, Hp.
Qed.

Lemma keeps_owned_QuicDataPathAllocRecvBlock env ProcIndex :
  keeps owned (QuicDataPathAllocRecvBlock env ProcIndex).
Proof.
  intros w Hw. unfold QuicDataPathAllocRecvBlock, QuicPoolAlloc, bind.
  destruct (pool_alloc env (Trace w) (RecvBlockPool ProcIndex)) as [a|].
  - intros q blk Hq. cbn in *. rewrite allocated_from_snoc. cbn.
    rewrite lookup_insert in Hq. destruct (decide (a = q)) as [->|Hne].
    + injection Hq as <-. reflexivity.
    + apply Hw, Hq.
  - intros q blk Hq. cbn in *. rewrite allocated_from_snoc. cbn. apply Hw, Hq.
Qed.

Ltac keeps_step :=
  first
    [ apply keeps_ret | apply keeps_fault | apply keeps_terminate
    | apply keeps_get | apply keeps_deref | apply keeps_index
    | apply keeps_QUIC_DBG_ASSERT | apply keeps_QUIC_FRE_ASSERT
    | apply keeps_owned_QuicTraceEvent | apply keeps_owned_store_Binding
    | apply keeps_owned_store_SocketContext | apply keeps_owned_load_SocketContext
    | apply keeps_owned_update_RecvBlock; intros ?; reflexivity
    | apply keeps_owned_syscall | apply keeps_owned_QuicPoolFree
    | apply keeps_owned_QuicDataPathAllocRecvBlock
    | apply keeps_owned_emit; intros ?; reflexivity
    | apply keeps_bind; [|intros ?]
    | match goal with
      | |- keeps _ (match ?x with _ => _ end) => destruct x
      | |- keeps _ (let '(_, _) := ?x in _) => destruct x
      end ].

Lemma keeps_owned_PrepareReceive P env sc :
  keeps owned (QuicSocketContextPrepareReceive P env sc).
Proof. unfold QuicSocketContextPrepareReceive. repeat keeps_step. Qed.

Lemma keeps_owned_recvmsg env sc : keeps owned (recvmsg env sc).
Proof. unfold recvmsg. repeat keeps_step. Qed.

Lemma keeps_owned_RecvComplete_cmsgs P B t l :
  keeps owned (RecvComplete_cmsgs P B t l).
Proof. induction l as [|c l IH]; cbn; repeat keeps_step. exact IH. Qed.

Lemma keeps_owned_RecvComplete P env sc proc BytesTransferred :
  keeps owned (QuicSocketContextRecvComplete P env sc proc BytesTransferred).
Proof.
  unfold QuicSocketContextRecvComplete, RecvHandler, load_Tuple.
  repeat first [ apply keeps_owned_RecvComplete_cmsgs
               | apply keeps_owned_PrepareReceive | keeps_step ].
Qed.

Lemma keeps_owned_ReturnRecvDatagrams_loop rounds :
  forall head, keeps owned (ReturnRecvDatagrams_loop rounds head).
Proof.
  induction rounds as [|rounds IH]; intros [p|]; cbn; repeat keeps_step.
  apply IH.
Qed.

(** C9: in a world where every live receive block records the pool it was
    allocated from, returning a chain of datagrams linked by Next frees the
    block of each datagram, in chain order and none skipped, to the pool in
    the block's OwningPool, which is the pool the block was allocated from;
    QuicDataPathAllocRecvBlock records the pool it allocates from in
    OwningPool, and arming a receive, the kernel's recvmsg, the receive
    completion and the return itself never change the OwningPool of a live
    block. *)
Theorem QuicDataPathBindingReturnRecvDatagrams_round_trip :
  forall P env w DatagramChain l,
    owned w ->
    chain (RecvBlocks w) DatagramChain l ->
    let out := QuicDataPathBindingReturnRecvDatagrams DatagramChain w in
    (out.1 = Done tt /\
     added w out.2 = map free_event l /\
     (forall x, In x l -> RecvBlocks out.2 !! x.1 = None) /\
     (forall x, In x l -> allocated_from (Trace w) x.1 = Some x.2) /\
     owned out.2) /\
    (forall ProcIndex,
       let a := QuicDataPathAllocRecvBlock env ProcIndex w in
       owned a.2 /\
       forall p, a.1 = Done (Some p) ->
         added w a.2 = [EvPoolAlloc (RecvBlockPool ProcIndex) (Some p)] /\
         OwningPool <$> RecvBlocks a.2 !! p = Some (Some (RecvBlockPool ProcIndex))) /\
    (forall SocketContext ProcContext BytesTransferred,
       owned (QuicSocketContextPrepareReceive P env SocketContext w).2 /\
       owned (recvmsg env SocketContext w).2 /\
       owned (QuicSocketContextRecvComplete P env SocketContext ProcContext
                BytesTransferred w).2).
Proof.
  intros P env w head l Hw Hc out. split; [|split].
  - destruct (ReturnRecvDatagrams_loop_chain l (S (size (RecvBlocks w))) head w Hc)
      as (w' & Hrun & Htr & Hsub & Hgone).
    { apply chain_length in Hc. lia. }
    assert (Hout : out = (Done tt, w')) by exact Hrun.
    rewrite Hout. cbn. split; [reflexivity|].
    split; [apply added_app, Htr|]. split; [exact Hgone|]. split.
    + intros x Hin. destruct (chain_owner _ _ _ x Hc Hin) as (blk & Hp & Ho).
      rewrite <- Ho. symmetry. apply Hw, Hp.
    + replace w' with out.2 by (rewrite Hout; reflexivity).
      apply keeps_owned_ReturnRecvDatagrams_loop, Hw.
  - intros ProcIndex a. split; [apply keeps_owned_QuicDataPathAllocRecvBlock, Hw|].
    intros p Hp. subst a. revert Hp.
    unfold QuicDataPathAllocRecvBlock, QuicPoolAlloc, bind, added.
    destruct (pool_alloc env (Trace w) (RecvBlockPool ProcIndex)) as [a|]; cbn;
      intros [= <-].
    rewrite drop_app_length, lookup_insert_eq. split; reflexivity.
  - intros sc proc bt. split; [|split].
    + apply keeps_owned_PrepareReceive, Hw.
    + apply keeps_owned_recvmsg, Hw.
    + apply keeps_owned_RecvComplete, Hw.
Qed.

Lemma QuicDataPathBindingReturnRecvDatagrams_round_trip_witness :
  let out := QuicDataPathBindingReturnRecvDatagrams (Some 15%N) delivered.2 in
  out.1 = Done tt /\
  added delivered.2 out.2 = [EvPoolFree (RecvBlockPool 0) (Some 15%N)] /\
  allocated_from (Trace delivered.2) 15%N = Some (RecvBlockPool 0).
Proof.
  destruct (QuicDataPathBindingReturnRecvDatagrams_round_trip (posix true) env_ok
              delivered.2 (Some 15%N) [(15%N, RecvBlockPool 0)])
    as ((H1 & H2 & _ & H4 & _) & _).
  - apply (bool_decide_unpack
             (map_Forall (fun p blk => OwningPool blk =
                                       allocated_from (Trace delivered.2) p)
                (RecvBlocks delivered.2))).
    vm_compute. exact I.
  - cbn. split; [reflexivity|].
    eexists. split; [vm_compute; reflexivity|].
    split; [reflexivity|]. vm_compute. reflexivity.
  - split; [exact H1|]. split; [exact H2|]. apply (H4 (15%N, RecvBlockPool 0)).
    left. reflexivity.
Defined.

(** * Sending on the connected path *)

Lemma QuicPoolFree_eq pool Entry w :
  QuicPoolFree (Some pool) Entry w =
    (Done tt, forget Entry (set_Trace (Trace w ++ [EvPoolFree pool Entry]) w)).
Proof. reflexivity. Qed.

Lemma forget_SendContexts_ne Entry c w :
  Entry <> Some c ->
  SendContexts (forget Entry w) !! c = SendContexts w !! c.
Proof.
  intros Hne. destruct Entry as [a|]; [|reflexivity]. cbn.
  apply lookup_delete_ne. congruence.
Qed.

Lemma forget_Datapath Entry w : Datapath (forget Entry w) = Datapath w.
Proof. destruct Entry; reflexivity. Qed.

Lemma forget_Bindings Entry w : Bindings (forget Entry w) = Bindings w.
Proof. destruct Entry; reflexivity. Qed.

Lemma forget_Errno Entry w : Errno (forget Entry w) = Errno w.
Proof. destruct Entry; reflexivity. Qed.

Lemma forget_SendBuffers_subseteq Entry w :
  SendBuffers (forget Entry w) ⊆ SendBuffers w.
Proof. destruct Entry; cbn; [apply delete_subseteq | reflexivity]. Qed.

Lemma forget_SendBuffers_gone a w : SendBuffers (forget (Some a) w) !! a = None.
Proof. cbn. apply lookup_delete_eq. Qed.

Lemma FreeSendContext_loop c owner proc :
  forall k j ctx w,
    SendContexts w !! c = Some ctx ->
    Owner ctx = Some owner -> 0 <= owner ->
    ProcContexts (Datapath w) !! Z.to_nat owner = Some proc ->
    0 <= j -> (Z.to_nat j + k <= length (Buffers ctx))%nat ->
    Forall (fun b => Buffer_ptr b <> Some c) (take k (drop (Z.to_nat j) (Buffers ctx))) ->
    exists w' ctx',
      for_each k j (fun i =>
        c0 <- deref SendContexts (Some c) ;;
        owner <- Owner_deref c0 ;;
        b <- index (Buffers c0) i ;;
        QuicPoolFree (Some (SendBufferPool owner)) (Buffer_ptr b) ;;
        c0 <- deref SendContexts (Some c) ;;
        store_SendContext c
          (set_Buffers (<[Z.to_nat i := mkBuffer (Length b) None]> (Buffers c0)) c0)) w
        = (Done tt, w') /\
      SendContexts w' !! c = Some ctx' /\
      Owner ctx' = Some owner /\
      Datapath w' = Datapath w /\
      Bindings w' = Bindings w /\
      Errno w' = Errno w /\
      Trace w' = Trace w ++
        map (free_buffer owner) (take k (drop (Z.to_nat j) (Buffers ctx))) /\
      SendBuffers w' ⊆ SendBuffers w /\
      (forall b a, In b (take k (drop (Z.to_nat j) (Buffers ctx))) ->
                   Buffer_ptr b = Some a -> SendBuffers w' !! a = None).
Proof.
  induction k as [|k IH]; intros j ctx w Hc Ho Hown Hproc Hj Hlen Hne.
  - exists w, ctx. cbn. rewrite app_nil_r. repeat split; try assumption; try reflexivity.
    intros b a [].
  - assert (Hlt : (Z.to_nat j < length (Buffers ctx))%nat) by lia.
    destruct (lookup_lt_is_Some_2 _ _ Hlt) as [b Hb].
    assert (Hdrop : drop (Z.to_nat j) (Buffers ctx) =
                    b :: drop (S (Z.to_nat j)) (Buffers ctx)).
    { apply drop_S. exact Hb. }
    rewrite Hdrop in Hne |- *. cbn [take] in Hne |- *.
    apply Forall_cons in Hne as [Hbc Hne].
    cbn [for_each].
    erewrite bind_Done; last first.
    { erewrite bind_Done; [|apply deref_Some; exact Hc].
      erewrite bind_Done; [|eapply Owner_deref_eq; eassumption].
      erewrite bind_Done; [|apply index_Some; [exact Hj | exact Hb]].
      erewrite bind_Done; [|apply QuicPoolFree_eq].
      erewrite bind_Done; last first.
      { apply deref_Some. rewrite forget_SendContexts_ne by exact Hbc. exact Hc. }
      reflexivity. }
    set (ctx1 := set_Buffers (<[Z.to_nat j := mkBuffer (Length b) None]> (Buffers ctx)) ctx).
    set (w1 := set_SendContexts _ _).
    destruct (IH (j + 1) ctx1 w1) as (w' & ctx' & Hrun & Hc' & Ho' & Hd' & Hbd' & He' & Htr' & Hsub & Hgone).
    + subst w1. cbn. apply lookup_insert_eq.
    + exact Ho.
    + exact Hown.
    + subst w1. cbn. rewrite forget_Datapath. exact Hproc.
    + lia.
    + subst ctx1. cbn. rewrite length_insert. lia.
    + subst ctx1. cbn.
      replace (Z.to_nat (j + 1)) with (S (Z.to_nat j)) by lia.
      rewrite drop_insert_lt by lia. exact Hne.
    + assert (Hd1 : drop (Z.to_nat (j + 1)) (Buffers ctx1) =
                    drop (S (Z.to_nat j)) (Buffers ctx)).
      { subst ctx1. cbn. replace (Z.to_nat (j + 1)) with (S (Z.to_nat j)) by lia.
        apply drop_insert_lt. lia. }
      rewrite Hd1 in Htr', Hgone.
      exists w', ctx'. split; [exact Hrun|]. split; [exact Hc'|].
      split; [exact Ho'|].
      split; [rewrite Hd'; subst w1; cbn; rewrite forget_Datapath; reflexivity|].
      split; [rewrite Hbd'; subst w1; cbn; rewrite forget_Bindings; reflexivity|].
      split; [rewrite He'; subst w1; cbn; rewrite forget_Errno; reflexivity|].
      split; [|split].
      * rewrite Htr'. subst w1. cbn. rewrite forget_Trace. cbn.
        rewrite <- app_assoc. reflexivity.
      * etrans; [exact Hsub|]. subst w1. cbn.
        exact (forget_SendBuffers_subseteq (Buffer_ptr b) (set_Trace _ w)).
      * intros b' a [<-|Hin] Ha; [|eapply Hgone; eassumption].
        eapply lookup_weaken_None; [|exact Hsub].
        subst w1. cbn. rewrite Ha. apply lookup_delete_eq.
Qed.

Lemma QuicDataPathBindingFreeSendContext_run c ctx owner w :
  batch w c ctx owner ->
  Forall (fun b => Buffer_ptr b <> Some c) (used ctx) ->
  exists w',
    QuicDataPathBindingFreeSendContext (Some c) w = (Done tt, w') /\
    Trace w' = Trace w ++ FreeSendContext_events c ctx owner /\
    SendContexts w' !! c = None /\
    Bindings w' = Bindings w /\
    Datapath w' = Datapath w /\
    Errno w' = Errno w /\
    SendBuffers w' ⊆ SendBuffers w /\
    (forall b a, In b (used ctx) -> Buffer_ptr b = Some a ->
                 SendBuffers w' !! a = None).
Proof.
  intros (Hc & Ho & Hown & [proc Hproc] & Hlb & _ & Hcount) Hne.
  unfold used in *.
  assert (Hlen : (Z.to_nat 0 + Z.to_nat (BufferCount ctx) <= length (Buffers ctx))%nat)
    by (rewrite Hlb; unfold QUIC_MAX_BATCH_SEND in *; lia).
  destruct (FreeSendContext_loop c owner proc (Z.to_nat (BufferCount ctx)) 0 ctx w
              Hc Ho Hown Hproc (Z.le_refl 0) Hlen Hne)
    as (w1 & ctx1 & Hrun & Hc1 & Ho1 & Hd1 & Hb1 & He1 & Htr1 & Hsub1 & Hgone1).
  change (drop (Z.to_nat 0) (Buffers ctx)) with (Buffers ctx) in *.
  unfold QuicDataPathBindingFreeSendContext.
  erewrite bind_Done; [|apply deref_Some; exact Hc].
  erewrite bind_Done; [|exact Hrun].
  erewrite bind_Done; [|apply deref_Some; exact Hc1].
  erewrite bind_Done; [|eapply Owner_deref_eq; [exact Ho1 | exact Hown |]; rewrite Hd1; exact Hproc].
  rewrite QuicPoolFree_eq.
  eexists. split; [reflexivity|].
  split; [|split; [|split; [|split; [|split; [|split]]]]].
  - rewrite forget_Trace. cbn. rewrite Htr1, <- app_assoc. reflexivity.
  - cbn. apply lookup_delete_eq.
  - rewrite forget_Bindings. exact Hb1.
  - rewrite forget_Datapath. exact Hd1.
  - rewrite forget_Errno. exact He1.
  - etrans; [exact (forget_SendBuffers_subseteq (Some c) (set_Trace _ w1))|]. exact Hsub1.
  - intros b a Hin Ha. eapply lookup_weaken_None; [eapply Hgone1; eassumption|].
    exact (forget_SendBuffers_subseteq (Some c) (set_Trace _ w1)).
Qed.

(** X1: QuicDataPathBindingFreeSendContext returns every datagram in use to
    the send-buffer pool of the owning processor context, in slot order, and
    then the context itself to the send-context pool of the same owner;
    afterwards neither the context nor any of those buffers is live. *)
Theorem QuicDataPathBindingFreeSendContext_frees :
  forall c ctx owner w,
    batch w c ctx owner ->
    Forall (fun b => Buffer_ptr b <> Some c) (used ctx) ->
    let out := QuicDataPathBindingFreeSendContext (Some c) w in
    out.1 = Done tt /\
    added w out.2 = FreeSendContext_events c ctx owner /\
    SendContexts out.2 !! c = None /\
    (forall b a, In b (used ctx) -> Buffer_ptr b = Some a ->
                 SendBuffers out.2 !! a = None).
Proof.
  intros c ctx owner w Hbatch Hne out.
  destruct (QuicDataPathBindingFreeSendContext_run c ctx owner w Hbatch Hne)
    as (w' & Hrun & Htr & Hgone & _ & _ & _ & _ & Hbufs).
  subst out. rewrite Hrun. cbn.
  split; [reflexivity|]. split; [apply added_app, Htr|]. split; assumption.
Qed.

Lemma batch_of_two_batch : batch client_batch.2 18 batch_of_two 0.
Proof.
  unfold batch.
  split; [vm_compute; reflexivity|]. split; [reflexivity|].
  split; [lia|]. split; [vm_compute; eauto|].
  split; [reflexivity|]. split; [reflexivity|].
  cbn. unfold QUIC_MAX_BATCH_SEND. lia.
Defined.

Lemma batch_of_two_no_alias :
  Forall (fun b => Buffer_ptr b <> Some 18%N) (used batch_of_two).
Proof. repeat constructor; discriminate. Defined.

Lemma QuicDataPathBindingFreeSendContext_frees_witness :
  let w := client_batch.2 in
  let out := QuicDataPathBindingFreeSendContext (Some 18%N) w in
  out.1 = Done tt /\
  added w out.2 = FreeSendContext_events 18 batch_of_two 0 /\
  SendContexts out.2 !! 18%N = None /\
  (forall b a, In b (used batch_of_two) -> Buffer_ptr b = Some a ->
               SendBuffers out.2 !! a = None).
Proof.
  exact (QuicDataPathBindingFreeSendContext_frees 18 batch_of_two 0 client_batch.2
           batch_of_two_batch batch_of_two_no_alias).
Defined.

Lemma syscall_run env c w :
  syscall env c w = (Done (sys_ret env (Trace w) c), (syscall env c w).2).
Proof. reflexivity. Qed.

Lemma syscall_nonneg env c w :
  0 <= sys_ret env (Trace w) c ->
  syscall env c w =
    (Done (sys_ret env (Trace w) c),
     set_Trace (Trace w ++ [EvSys c (sys_ret env (Trace w) c)]) w).
Proof.
  intros H. unfold syscall.
  replace (sys_ret env (Trace w) c <? 0) with false
    by (symmetry; apply Z.ltb_ge; exact H).
  reflexivity.
Qed.

Lemma syscall_neg env c w :
  sys_ret env (Trace w) c < 0 ->
  syscall env c w =
    (Done (sys_ret env (Trace w) c),
     set_Trace (Trace w ++ [EvSys c (sys_ret env (Trace w) c)])
       (set_Errno (sys_errno env (Trace w) c) w)).
Proof.
  intros H. unfold syscall.
  replace (sys_ret env (Trace w) c <? 0) with true
    by (symmetry; apply Z.ltb_lt; exact H).
  reflexivity.
Qed.

Lemma SocketContext_at_eq B i b s w :
  Bindings w !! B = Some b -> 0 <= i ->
  SocketContexts b !! Z.to_nat i = Some s ->
  SocketContext_at (Some B) i w = (Done s, w).
Proof. apply load_SocketContext_eq. Qed.

Lemma Send_connected_loop P env B b s c r :
  sends_succeed env ->
  SocketContexts b !! 0%nat = Some s ->
  forall n k ctx w,
    SendContexts w !! c = Some ctx ->
    Bindings w !! B = Some b ->
    CurrentIndex ctx = k -> 0 <= k ->
    (Z.to_nat k + n <= length (Buffers ctx))%nat ->
    k + Z.of_nat n < 2 ^ 64 ->
    exists w' ctx',
      for_status n k
        (fun i =>
           c0 <- deref SendContexts (Some c) ;;
           buf <- index (Buffers c0) i ;;
           QuicTraceEvent "DatapathSendTo"
             [LPtr (Some B); LInt (Length buf); LInt 1; LInt (Length buf); LAddr r] ;;
           s <- SocketContext_at (Some B) 0 ;;
           mem <- get SendBuffers ;;
           let data :=
             take (Z.to_nat (Length buf)) <$> (Buffer_ptr buf ≫= (mem !!.)) in
           SentByteCount <-
             syscall env (sys_sendto (SocketFd s) (Buffer_ptr buf) data
                            (Length buf) 0 None 0) ;;
           if SentByteCount <? 0 then
             send_failed (Some B) (QUIC_STATUS_SUCCESS P) "sendto failed"
           else
             QuicTraceEvent "DatapathSendToCompleted"
               [LPtr (Some B); LInt SentByteCount] ;;
             store_SendContext c
               (set_CurrentIndex (wrap 64 (CurrentIndex c0 + 1)) c0) ;;
             ret None) w
        = (Done None, w') /\
      SendContexts w' !! c = Some ctx' /\
      CurrentIndex ctx' = k + Z.of_nat n /\
      Buffers ctx' = Buffers ctx /\
      Iovs ctx' = Iovs ctx /\
      BufferCount ctx' = BufferCount ctx /\
      Owner ctx' = Owner ctx /\
      Bindings w' = Bindings w /\
      Datapath w' = Datapath w /\
      SendBuffers w' = SendBuffers w /\
      exists tr,
        Trace w' = Trace w ++ tr /\
        map blank tr =
          map (sendto_event (SocketFd s) (SendBuffers w))
            (take n (drop (Z.to_nat k) (Buffers ctx))).
Proof.
  intros Henv Hs.
  induction n as [|n IH]; intros k ctx w Hc Hb Hk Hk0 Hlen Hmax.
  - exists w, ctx. cbn. rewrite Z.add_0_r.
    repeat split; try assumption; try reflexivity.
    exists []. rewrite app_nil_r. split; reflexivity.
  - assert (Hlt : (Z.to_nat k < length (Buffers ctx))%nat) by lia.
    destruct (lookup_lt_is_Some_2 _ _ Hlt) as [buf Hbuf].
    rewrite (drop_S _ _ _ Hbuf). cbn [take map for_status].
    set (call := sys_sendto (SocketFd s) (Buffer_ptr buf)
                   (take (Z.to_nat (Length buf)) <$>
                      (Buffer_ptr buf ≫= (SendBuffers w !!.)))
                   (Length buf) 0 None 0).
    erewrite bind_Done; last first.
    { erewrite bind_Done; [|apply deref_Some; exact Hc].
      erewrite bind_Done; [|apply index_Some; [exact Hk0 | exact Hbuf]].
      erewrite bind_Done; [|reflexivity].
      erewrite bind_Done; [|apply SocketContext_at_eq with (b := b); [exact Hb | lia | exact Hs]].
      erewrite bind_Done; [|reflexivity].
      cbv zeta. cbn [SendBuffers set_Log].
      erewrite bind_Done; [|apply syscall_nonneg; apply Henv; reflexivity].
      replace (sys_ret env _ _ <? 0) with false
        by (symmetry; apply Z.ltb_ge; apply Henv; reflexivity).
      erewrite bind_Done; [|reflexivity].
      erewrite bind_Done; [|reflexivity].
      reflexivity. }
    cbv iota.
    match goal with
    | |- context [for_status n (k + 1) _ ?w1] => set (w1' := w1)
    end.
    destruct (IH (k + 1)
                (set_CurrentIndex (wrap 64 (CurrentIndex ctx + 1)) ctx) w1')
      as (w' & ctx' & Hrun & Hc' & Hci & Hbufs & Hiovs & Hcnt & Hown & Hbd & Hdp & Hsb & tr & Htr & Hbl).
    + subst w1'. cbn. apply lookup_insert_eq.
    + subst w1'. cbn. exact Hb.
    + cbn. rewrite Hk. unfold wrap. apply Z.mod_small. lia.
    + lia.
    + cbn. lia.
    + lia.
    + exists w', ctx'. split; [exact Hrun|]. split; [exact Hc'|].
      split; [lia|]. split; [exact Hbufs|]. split; [exact Hiovs|].
      split; [exact Hcnt|]. split; [exact Hown|].
      split; [rewrite Hbd; reflexivity|]. split; [rewrite Hdp; reflexivity|].
      split; [rewrite Hsb; reflexivity|].
      eexists. split.
      * rewrite Htr. subst w1'. cbn. rewrite <- app_assoc. reflexivity.
      * cbn [map app blank]. rewrite Hbl. cbn.
        replace (Z.to_nat (k + 1)) with (S (Z.to_nat k)) by lia.
        reflexivity.
Qed.

Lemma QUIC_DBG_ASSERT_pass P cond w :
  QUIC_DEBUG P && negb cond = false -> QUIC_DBG_ASSERT P cond w = (Done tt, w).
Proof. intros H. unfold QUIC_DBG_ASSERT. rewrite H. reflexivity. Qed.

Lemma QUIC_DBG_ASSERT_true P w : QUIC_DBG_ASSERT P true w = (Done tt, w).
Proof. apply QUIC_DBG_ASSERT_pass, andb_false_r. Qed.

Lemma used_length ctx :
  length (Buffers ctx) = Z.to_nat QUIC_MAX_BATCH_SEND ->
  0 <= BufferCount ctx <= QUIC_MAX_BATCH_SEND ->
  length (used ctx) = Z.to_nat (BufferCount ctx).
Proof. intros Hl Hc. unfold used. rewrite length_take. lia. Qed.

(** X2: on the connected path, when no sendto fails: the call returns
    QUIC_STATUS_SUCCESS; it issues one sendto per datagram from CurrentIndex
    up to BufferCount, in slot order, each with the datagram's buffer and
    length, flags 0 and no destination; then it frees the send context with
    all its datagrams, those before CurrentIndex included. *)
Theorem QuicDataPathBindingSend_connected_sends :
  forall P env B b s c ctx owner r w,
    sends_succeed env ->
    Bindings w !! B = Some b ->
    SocketContexts b !! 0%nat = Some s ->
    QUIC_DEBUG P && (sin_port (Binding_RemoteAddress b) =? 0) = false ->
    batch w c ctx owner ->
    0 <= CurrentIndex ctx <= BufferCount ctx ->
    Forall (fun b => Buffer_ptr b <> Some c) (used ctx) ->
    let out := QuicDataPathBindingSend P env (Some B) None (Some r) (Some c) w in
    out.1 = Done (QUIC_STATUS_SUCCESS P) /\
    map blank (added w out.2) =
      map (sendto_event (SocketFd s) (SendBuffers w))
        (drop (Z.to_nat (CurrentIndex ctx)) (used ctx)) ++
      FreeSendContext_events c ctx owner /\
    SendContexts out.2 !! c = None.
Proof.
  intros P env B b s c ctx owner r w Henv Hb Hs Hdbg Hbatch Hidx Hne out.
  pose proof Hbatch as (Hc & Ho & Hown & Hproc & Hlb & Hli & Hcount).
  subst out. unfold QuicDataPathBindingSend. cbv zeta.
  erewrite bind_Done; [|apply QUIC_DBG_ASSERT_pass; rewrite !bool_decide_true by discriminate; apply andb_false_r].
  erewrite bind_Done; [|apply deref_Some; exact Hb].
  erewrite bind_Done; [|reflexivity].
  assert (Hlen : (Z.to_nat (CurrentIndex ctx) +
                  Z.to_nat (BufferCount ctx - CurrentIndex ctx)
                  <= length (Buffers ctx))%nat)
    by (rewrite Hlb; unfold QUIC_MAX_BATCH_SEND in *; lia).
  assert (Hmax : CurrentIndex ctx +
                 Z.of_nat (Z.to_nat (BufferCount ctx - CurrentIndex ctx)) < 2 ^ 64)
    by (unfold QUIC_MAX_BATCH_SEND in *; lia).
  destruct (Send_connected_loop P env B b s c r Henv Hs
              (Z.to_nat (BufferCount ctx - CurrentIndex ctx)) (CurrentIndex ctx) ctx w
              Hc Hb eq_refl (proj1 Hidx) Hlen Hmax)
    as (w1 & ctx1 & Hrun & Hc1 & Hci & Hbufs & Hiovs & Hcnt & Hown1 & Hbd & Hdp & Hsb & tr & Htr & Hbl).
  erewrite bind_Done; last first.
  { erewrite bind_Done; [|apply QUIC_DBG_ASSERT_pass; rewrite negb_involutive; exact Hdbg].
    erewrite bind_Done; [|apply deref_Some; exact Hc].
    exact Hrun. }
  cbn [negb].
  destruct (QuicDataPathBindingFreeSendContext_run c ctx1 owner w1)
    as (w2 & Hfree & Htr2 & Hgone & _).
  { unfold batch. rewrite Hbufs, Hiovs, Hcnt, Hown1, Hdp. repeat split; try assumption; lia. }
  { unfold used. rewrite Hbufs, Hcnt. exact Hne. }
  erewrite bind_Done; [|exact Hfree].
  cbn. split; [reflexivity|]. split; [|exact Hgone].
  erewrite added_app; last first.
  { rewrite Htr2, Htr, <- app_assoc. reflexivity. }
  rewrite map_app, Hbl. f_equal.
  - f_equal. unfold used. rewrite take_drop_commute. f_equal. f_equal. lia.
  - unfold FreeSendContext_events, used. rewrite Hbufs, Hcnt.
    rewrite map_app, map_map. cbn. reflexivity.
Qed.

Lemma env_sent_sends_succeed : sends_succeed env_sent.
Proof. intros tr [] H; try discriminate H. cbn. lia. Defined.

Lemma QuicDataPathBindingSend_connected_sends_witness :
  let w := client_batch.2 in
  let out :=
    QuicDataPathBindingSend (posix false) env_sent (Some 3%N) None (Some peer)
      (Some 18%N) w in
  out.1 = Done (QUIC_STATUS_SUCCESS (posix false)) /\
  map blank (added w out.2) =
    map (sendto_event 8 (SendBuffers w)) (used batch_of_two) ++
    FreeSendContext_events 18 batch_of_two 0 /\
  SendContexts out.2 !! 18%N = None.
Proof.
  refine (QuicDataPathBindingSend_connected_sends (posix false) env_sent 3
            client_binding client_socket 18 batch_of_two 0 peer client_batch.2
            env_sent_sends_succeed _ _ _ batch_of_two_batch _
            batch_of_two_no_alias).
  - vm_compute. reflexivity.
  - reflexivity.
  - reflexivity.
  - cbn. lia.
Defined.

(** X3: on the connected path, when the sendto for the datagram at
    CurrentIndex fails: no further sendto is issued.  With errno EAGAIN /
    EWOULDBLOCK the call returns QUIC_STATUS_SUCCESS and leaves the send
    context exactly as it was (not freed, CurrentIndex not advanced, nothing
    registered anywhere); with any other errno it returns that errno as its
    status and frees the send context with all its datagrams. *)
Theorem QuicDataPathBindingSend_connected_sendto_fails :
  forall P env B b s c ctx owner r w buf,
    Bindings w !! B = Some b ->
    SocketContexts b !! 0%nat = Some s ->
    QUIC_DEBUG P && (sin_port (Binding_RemoteAddress b) =? 0) = false ->
    batch w c ctx owner ->
    0 <= CurrentIndex ctx < BufferCount ctx ->
    Buffers ctx !! Z.to_nat (CurrentIndex ctx) = Some buf ->
    Forall (fun b => Buffer_ptr b <> Some c) (used ctx) ->
    let call := sendto_call (SocketFd s) (SendBuffers w) buf in
    let e := sys_errno env (Trace w) call in
    sys_ret env (Trace w) call < 0 ->
    let out := QuicDataPathBindingSend P env (Some B) None (Some r) (Some c) w in
    Errno out.2 = e /\
    if (e =? EAGAIN) || (e =? EWOULDBLOCK) then
      out.1 = Done (QUIC_STATUS_SUCCESS P) /\
      added w out.2 = [EvSys call (sys_ret env (Trace w) call)] /\
      SendContexts out.2 = SendContexts w /\
      Bindings out.2 = Bindings w
    else
      out.1 = Done e /\
      added w out.2 =
        EvSys call (sys_ret env (Trace w) call) :: FreeSendContext_events c ctx owner /\
      SendContexts out.2 !! c = None.
Proof.
  intros P env B b s c ctx owner r w buf Hb Hs Hdbg Hbatch Hidx Hbuf Hne call e
    Hfail out.
  pose proof Hbatch as (Hc & Ho & Hown & Hproc & Hlb & Hli & Hcount).
  subst out. unfold QuicDataPathBindingSend. cbv zeta.
  erewrite bind_Done; [|apply QUIC_DBG_ASSERT_pass; rewrite !bool_decide_true by discriminate; apply andb_false_r].
  erewrite bind_Done; [|apply deref_Some; exact Hb].
  erewrite bind_Done; [|reflexivity].
  assert (Hn : Z.to_nat (BufferCount ctx - CurrentIndex ctx) =
               S (Z.to_nat (BufferCount ctx - CurrentIndex ctx - 1))) by lia.
  subst call e. unfold sendto_call in *.
  match goal with
  | |- _ /\ (if ?c then _ else _) => destruct c eqn:He
  end.
  - erewrite bind_Done; last first.
    { erewrite bind_Done; [|apply QUIC_DBG_ASSERT_pass; rewrite negb_involutive; exact Hdbg].
      erewrite bind_Done; [|apply deref_Some; exact Hc].
      rewrite Hn. cbn [for_status].
      erewrite bind_Done; last first.
      { erewrite bind_Done; [|apply deref_Some; exact Hc].
        erewrite bind_Done; [|apply index_Some; [lia | exact Hbuf]].
        erewrite bind_Done; [|reflexivity].
        erewrite bind_Done; [|apply SocketContext_at_eq with (b := b); [exact Hb | lia | exact Hs]].
        erewrite bind_Done; [|reflexivity].
        cbv zeta. cbn [SendBuffers set_Log].
        erewrite bind_Done; [|apply syscall_neg; exact Hfail].
        replace (sys_ret env _ _ <? 0) with true
          by (symmetry; apply Z.ltb_lt; exact Hfail).
        unfold send_failed.
        erewrite bind_Done; [|reflexivity].
        cbn [Errno set_Trace set_Errno set_Log Trace].
        rewrite He. reflexivity. }
      reflexivity. }
    cbn. split; [reflexivity|]. split; [reflexivity|].
    split; [|split; reflexivity].
    unfold added. cbn. rewrite drop_app_length. reflexivity.
  - erewrite bind_Done; last first.
    { erewrite bind_Done; [|apply QUIC_DBG_ASSERT_pass; rewrite negb_involutive; exact Hdbg].
      erewrite bind_Done; [|apply deref_Some; exact Hc].
      rewrite Hn. cbn [for_status].
      erewrite bind_Done; last first.
      { erewrite bind_Done; [|apply deref_Some; exact Hc].
        erewrite bind_Done; [|apply index_Some; [lia | exact Hbuf]].
        erewrite bind_Done; [|reflexivity].
        erewrite bind_Done; [|apply SocketContext_at_eq with (b := b); [exact Hb | lia | exact Hs]].
        erewrite bind_Done; [|reflexivity].
        cbv zeta. cbn [SendBuffers set_Log].
        erewrite bind_Done; [|apply syscall_neg; exact Hfail].
        replace (sys_ret env _ _ <? 0) with true
          by (symmetry; apply Z.ltb_lt; exact Hfail).
        unfold send_failed.
        erewrite bind_Done; [|reflexivity].
        cbn [Errno set_Trace set_Errno set_Log Trace].
        rewrite He.
        erewrite bind_Done; [|reflexivity]. reflexivity. }
      reflexivity. }
    cbn [negb].
    match goal with
    | |- context [bind (QuicDataPathBindingFreeSendContext (Some c)) _ ?w1] =>
        set (w1' := w1)
    end.
    destruct (QuicDataPathBindingFreeSendContext_run c ctx owner w1')
      as (w2 & Hfree & Htr2 & Hgone & _ & _ & HE & _).
    { subst w1'. unfold batch. cbn. repeat split; try assumption; lia. }
    { exact Hne. }
    erewrite bind_Done; [|exact Hfree].
    cbn.
    split; [rewrite HE; reflexivity|]. split; [reflexivity|]. split; [|exact Hgone].
    apply added_app. rewrite Htr2. subst w1'. cbn. rewrite <- app_assoc. reflexivity.
Qed.

Lemma QuicDataPathBindingSend_connected_sendto_fails_witness :
  let w := client_batch.2 in
  let call := sendto_call 8 (SendBuffers w) (mkBuffer 1200 (Some 19%N)) in
  let out :=
    QuicDataPathBindingSend (posix false) env_sendto_fails (Some 3%N) None
      (Some peer) (Some 18%N) w in
  Errno out.2 = ENOBUFS /\
  out.1 = Done ENOBUFS /\
  added w out.2 = EvSys call (-1) :: FreeSendContext_events 18 batch_of_two 0 /\
  SendContexts out.2 !! 18%N = None.
Proof.
  refine (QuicDataPathBindingSend_connected_sendto_fails (posix false)
            env_sendto_fails 3 client_binding client_socket 18 batch_of_two 0
            peer client_batch.2 (mkBuffer 1200 (Some 19%N))
            _ _ _ batch_of_two_batch _ _ batch_of_two_no_alias _).
  - vm_compute. reflexivity.
  - reflexivity.
  - reflexivity.
  - cbn. lia.
  - reflexivity.
  - cbn. lia.
Defined.

(** * Sending with a local address *)

Lemma sim_QuicDataPathBindingSend_unconnected P env Binding local r1 r2 SendContext :
  sim (QuicDataPathBindingSend P env Binding (Some local) (Some r1) SendContext)
      (QuicDataPathBindingSend P env Binding (Some local) (Some r2) SendContext).
Proof.
  unfold QuicDataPathBindingSend, send_failed, SocketContext_at.
  repeat first
    [ apply sim_QuicDataPathBindingFreeSendContext
    | sim_step
    | match goal with
      | |- sim (?f ?n ?i ?t) (?f ?n ?i ?t) =>
          let H := fresh in
          assert (H : forall m j T, sim (f m j T) (f m j T));
          [ intros m; induction m as [|m IHm]; intros j T; cbn;
            [apply sim_ret | repeat sim_step; apply IHm]
          | apply H ]
      end ].
Qed.

Lemma QuicDataPathBindingSend_unconnected_extends P env Binding local r SendContext :
  extends (unconnected_send_event local)
    (QuicDataPathBindingSend P env Binding (Some local) (Some r) SendContext).
Proof.
  unfold QuicDataPathBindingSend, send_failed, SocketContext_at,
    QuicDataPathBindingFreeSendContext, Owner_deref.
  repeat first
    [ apply extends_syscall; intros ?; cbn; unfold pktinfo_of;
      repeat split; try reflexivity; symmetry; eassumption
    | apply extends_QuicPoolFree; intros ?; exact I
    | match goal with
      | |- extends _ (let '(_, _) := ?x in _) => destruct x eqn:?
      end
    | extends_step
    | match goal with
      | |- extends ?phi (?f ?n ?i ?t) =>
          let H := fresh in
          assert (H : forall m j T, extends phi (f m j T));
          [ intros m; induction m as [|m IHm]; intros j T; cbn;
            [apply extends_ret | repeat extends_step; apply IHm]
          | apply H ]
      end ].
Qed.

(** X4: on the path with a local address (LocalAddress != NULL) the remote
    address does not reach the kernel: two calls that differ only in
    RemoteAddress end with the same result, the same trace of calls and the
    same state, the event log apart; every sendmsg of the call names the
    zeroed MappedRemoteAddress (28 bytes) as its destination, carries the one
    IP_PKTINFO / IPV6_PKTINFO record made from LocalAddress and has flags
    0. *)
Theorem QuicDataPathBindingSend_unconnected_destination :
  forall P env Binding LocalAddress RemoteAddress1 RemoteAddress2 SendContext w,
    let out1 :=
      QuicDataPathBindingSend P env Binding (Some LocalAddress)
        (Some RemoteAddress1) SendContext w in
    let out2 :=
      QuicDataPathBindingSend P env Binding (Some LocalAddress)
        (Some RemoteAddress2) SendContext w in
    out1.1 = out2.1 /\
    Trace out1.2 = Trace out2.2 /\
    same_but_log out1.2 out2.2 /\
    Forall (unconnected_send_event LocalAddress) (added w out1.2).
Proof.
  intros P env Binding local r1 r2 SendContext w out1 out2.
  destruct (sim_QuicDataPathBindingSend_unconnected P env Binding local r1 r2
              SendContext w w eq_refl) as [Hr Hw].
  split; [exact Hr|]. split; [|split; [exact Hw|]].
  - apply same_but_log_fields in Hw. apply Hw.
  - destruct (QuicDataPathBindingSend_unconnected_extends P env Binding local r1
                SendContext w) as (tr & Htr & Hphi).
    subst out1. rewrite (added_app _ _ _ Htr). exact Hphi.
Qed.

Lemma Send_iov_loop c :
  forall n i T ctx w,
    SendContexts w !! c = Some ctx ->
    0 <= i ->
    (Z.to_nat i + n <= length (Buffers ctx))%nat ->
    length (Iovs ctx) = length (Buffers ctx) ->
    exists T' w' ctx',
      (fix loop (n : nat) (i TotalSize : Z) {struct n} : M Z :=
         match n with
         | O => ret TotalSize
         | S n' =>
             c0 <- deref SendContexts (Some c) ;;
             buf <- index (Buffers c0) i ;;
             _ <- index (Iovs c0) i ;;
             store_SendContext c
               (set_Iovs (<[Z.to_nat i := mkIov (Buffer_ptr buf) (Length buf)]>
                            (Iovs c0)) c0) ;;
             loop n' (i + 1) (wrap 32 (TotalSize + Length buf))
         end) n i T w = (Done T', w') /\
      SendContexts w' !! c = Some ctx' /\
      Buffers ctx' = Buffers ctx /\
      BufferCount ctx' = BufferCount ctx /\
      Owner ctx' = Owner ctx /\
      length (Iovs ctx') = length (Iovs ctx) /\
      take (Z.to_nat i) (Iovs ctx') = take (Z.to_nat i) (Iovs ctx) /\
      take n (drop (Z.to_nat i) (Iovs ctx')) =
        map iovec_of (take n (drop (Z.to_nat i) (Buffers ctx))) /\
      Trace w' = Trace w /\ Log w' = Log w /\ Errno w' = Errno w /\
      Bindings w' = Bindings w /\ Datapath w' = Datapath w /\
      SendBuffers w' = SendBuffers w.
Proof.
  induction n as [|n IH]; intros i T ctx w Hc Hi Hlen Hli.
  - exists T, w, ctx. cbn. repeat split; try assumption; reflexivity.
  - assert (Hlt : (Z.to_nat i < length (Buffers ctx))%nat) by lia.
    destruct (lookup_lt_is_Some_2 _ _ Hlt) as [buf Hbuf].
    assert (Hlti : (Z.to_nat i < length (Iovs ctx))%nat) by lia.
    destruct (lookup_lt_is_Some_2 _ _ Hlti) as [iov Hiov].
    erewrite bind_Done; [|apply deref_Some; exact Hc].
    erewrite bind_Done; [|apply index_Some; [exact Hi | exact Hbuf]].
    erewrite bind_Done; [|apply index_Some; [exact Hi | exact Hiov]].
    erewrite bind_Done; [|reflexivity].
    set (ctx1 := set_Iovs _ ctx).
    match goal with
    | |- context [_ n (i + 1) _ ?w1 = _] => set (w1' := w1)
    end.
    destruct (IH (i + 1) (wrap 32 (T + Length buf)) ctx1 w1')
      as (T' & w' & ctx' & Hrun & Hc' & Hbufs & Hcnt & Hown & Hl & Hpre & Hpost & Hfr).
    + subst w1'. cbn. apply lookup_insert_eq.
    + lia.
    + subst ctx1. cbn. lia.
    + subst ctx1. cbn. rewrite length_insert. exact Hli.
    + exists T', w', ctx'. split; [exact Hrun|]. split; [exact Hc'|].
      split; [exact Hbufs|]. split; [exact Hcnt|]. split; [exact Hown|].
      split; [rewrite Hl; subst ctx1; cbn; apply length_insert|].
      replace (Z.to_nat (i + 1)) with (S (Z.to_nat i)) in * by lia.
      assert (Hi' : Iovs ctx' !! Z.to_nat i = Some (iovec_of buf)).
      { rewrite <- (lookup_take_lt _ (S (Z.to_nat i))) by lia. rewrite Hpre.
        subst ctx1. cbn. rewrite lookup_take_lt by lia.
        apply list_lookup_insert_eq. exact Hlti. }
      split; [|split].
      * apply (f_equal (take (Z.to_nat i))) in Hpre.
        rewrite !take_take in Hpre.
        replace (Z.to_nat i `min` S (Z.to_nat i))%nat with (Z.to_nat i) in Hpre by lia.
        rewrite Hpre. subst ctx1. cbn. apply take_insert_ge. lia.
      * rewrite (drop_S _ _ _ Hi'), (drop_S _ _ _ Hbuf). cbn [take map].
        f_equal. exact Hpost.
      * exact Hfr.
Qed.

(** The run of the path with a local address up to the result of sendmsg. *)
Ltac Send_sendmsg_prefix local b Hc Hrun Hc1 Hbuf0 Hpk Hb Hb1 Hs Hcall Hsys :=
  erewrite bind_Done; [|apply deref_Some; exact Hc];
  erewrite bind_Done; [|exact Hrun];
  erewrite bind_Done; [|apply deref_Some; exact Hc1];
  erewrite bind_Done; [|apply index_Some; [lia | exact Hbuf0]];
  erewrite bind_Done; [|reflexivity];
  fold (pktinfo_of local); rewrite Hpk;
  erewrite bind_Done;
    [|apply SocketContext_at_eq with (b := b); [cbn; rewrite Hb1; exact Hb | lia | exact Hs]];
  rewrite Hcall;
  erewrite bind_Done; [|apply Hsys; reflexivity].

(** X5: with a local address, QuicDataPathBindingSend hands the whole batch
    to the kernel in one sendmsg, whatever CurrentIndex is: the I/O vector
    holds one entry per datagram in use, rebuilt from the datagrams' buffers
    and lengths.  If the call succeeds, or fails with an errno other than
    EAGAIN / EWOULDBLOCK, the send context is freed with all its datagrams
    and the status is QUIC_STATUS_SUCCESS or that errno; if it would block,
    the status is QUIC_STATUS_SUCCESS and nothing is freed. *)
Theorem QuicDataPathBindingSend_local_address_one_sendmsg :
  forall P env B b s c ctx owner local r w,
    Bindings w !! B = Some b ->
    SocketContexts b !! 0%nat = Some s ->
    batch w c ctx owner ->
    Forall (fun b => Buffer_ptr b <> Some c) (used ctx) ->
    let call :=
      sys_sendmsg (SocketFd s) zero_addr sizeof_QUIC_ADDR
        (map iovec_of (used ctx)) (BufferCount ctx)
        (pktinfo_of local).1 (pktinfo_of local).2 0 0 in
    let ret := sys_ret env (Trace w) call in
    let e := sys_errno env (Trace w) call in
    let out :=
      QuicDataPathBindingSend P env (Some B) (Some local) (Some r) (Some c) w in
    out.1 = Done (if (ret <? 0) && negb (would_block e) then e
                  else QUIC_STATUS_SUCCESS P) /\
    added w out.2 =
      EvSys call ret ::
      (if (ret <? 0) && would_block e then []
       else FreeSendContext_events c ctx owner).
Proof.
  intros P env B b s c ctx owner local r w Hb Hs Hbatch Hne call ret e out.
  pose proof Hbatch as (Hc & Ho & Hown & Hproc & Hlb & Hli & Hcount).
  subst out. unfold QuicDataPathBindingSend. cbv zeta.
  erewrite bind_Done; [|apply QUIC_DBG_ASSERT_pass; rewrite !bool_decide_true by discriminate; apply andb_false_r].
  erewrite bind_Done; [|apply deref_Some; exact Hb].
  erewrite bind_Done; [|reflexivity].
  assert (Hlen : (Z.to_nat 0 + Z.to_nat (BufferCount ctx) <= length (Buffers ctx))%nat)
    by (rewrite Hlb; unfold QUIC_MAX_BATCH_SEND in *; lia).
  destruct (Send_iov_loop c (Z.to_nat (BufferCount ctx)) 0 0 ctx w Hc (Z.le_refl 0)
              Hlen ltac:(congruence))
    as (T' & w1 & ctx1 & Hrun & Hc1 & Hbufs & Hcnt & Hown1 & Hl1 & _ & Hiovs &
        Htr1 & Hlog1 & Herr1 & Hb1 & Hd1 & Hsb1).
  change (Z.to_nat 0) with 0%nat in Hiovs. rewrite !drop_0 in Hiovs.
  fold (used ctx) in Hiovs.
  assert (H0 : exists buf0, Buffers ctx1 !! 0%nat = Some buf0).
  { apply lookup_lt_is_Some_2. rewrite Hbufs, Hlb. unfold QUIC_MAX_BATCH_SEND. lia. }
  destruct H0 as [buf0 Hbuf0].
  assert (Hcall :
    sys_sendmsg (SocketFd s) zero_addr sizeof_QUIC_ADDR
      (take (Z.to_nat (BufferCount ctx1)) (Iovs ctx1)) (BufferCount ctx1)
      (pktinfo_of local).1 (pktinfo_of local).2 0 0 = call).
  { subst call. rewrite Hcnt, Hiovs. reflexivity. }
  assert (Hbatch1 : forall w2, SendContexts w2 = SendContexts w1 ->
                               Datapath w2 = Datapath w1 -> batch w2 c ctx1 owner).
  { intros w2 E1 E2. unfold batch. rewrite E1, E2, Hbufs, Hl1, Hcnt, Hown1, Hd1.
    repeat split; try assumption; lia. }
  assert (Hne1 : Forall (fun b => Buffer_ptr b <> Some c) (used ctx1)).
  { unfold used. rewrite Hbufs, Hcnt. exact Hne. }
  assert (Hev : FreeSendContext_events c ctx1 owner = FreeSendContext_events c ctx owner).
  { unfold FreeSendContext_events, used. rewrite Hbufs, Hcnt. reflexivity. }
  assert (Hpk : pktinfo_of local = ((pktinfo_of local).1, (pktinfo_of local).2))
    by (destruct (pktinfo_of local); reflexivity).
  assert (Hsys : forall w2, Trace w2 = Trace w1 ->
            syscall env call w2 =
              (Done ret,
               set_Trace (Trace w1 ++ [EvSys call ret])
                 (if ret <? 0 then set_Errno e w2 else w2))).
  { intros w2 E. unfold syscall. rewrite E, Htr1. fold ret e.
    destruct (ret <? 0); cbn [Trace set_Errno]; rewrite ?E, ?Htr1; reflexivity. }
  destruct (ret <? 0) eqn:Hret; [destruct (would_block e) eqn:Hwb|]; cbn [andb negb].
  - erewrite bind_Done; last first.
    { Send_sendmsg_prefix local b Hc Hrun Hc1 Hbuf0 Hpk Hb Hb1 Hs Hcall Hsys.
      rewrite Hret. unfold send_failed. erewrite bind_Done; [|reflexivity].
      cbn [Errno set_Trace set_Errno]. fold (would_block e). rewrite Hwb. reflexivity. }
    cbn. split; [reflexivity|].
    unfold added. cbn. rewrite Htr1, drop_app_length. reflexivity.
  - erewrite bind_Done; last first.
    { Send_sendmsg_prefix local b Hc Hrun Hc1 Hbuf0 Hpk Hb Hb1 Hs Hcall Hsys.
      rewrite Hret. unfold send_failed. erewrite bind_Done; [|reflexivity].
      cbn [Errno set_Trace set_Errno]. fold (would_block e). rewrite Hwb.
      erewrite bind_Done; [|reflexivity]. reflexivity. }
    cbn [negb].
    match goal with
    | |- context [bind (QuicDataPathBindingFreeSendContext (Some c)) _ ?w2] =>
        set (w2' := w2)
    end.
    destruct (QuicDataPathBindingFreeSendContext_run c ctx1 owner w2')
      as (w3 & Hfree & Htr3 & _); [apply Hbatch1; reflexivity | exact Hne1 |].
    erewrite bind_Done; [|exact Hfree].
    cbn. split; [reflexivity|].
    apply added_app. rewrite Htr3, Hev. subst w2'. cbn.
    rewrite Htr1, <- app_assoc. reflexivity.
  - erewrite bind_Done; last first.
    { Send_sendmsg_prefix local b Hc Hrun Hc1 Hbuf0 Hpk Hb Hb1 Hs Hcall Hsys.
      rewrite Hret. erewrite bind_Done; [|reflexivity]. reflexivity. }
    cbn [negb].
    match goal with
    | |- context [bind (QuicDataPathBindingFreeSendContext (Some c)) _ ?w2] =>
        set (w2' := w2)
    end.
    destruct (QuicDataPathBindingFreeSendContext_run c ctx1 owner w2')
      as (w3 & Hfree & Htr3 & _); [apply Hbatch1; reflexivity | exact Hne1 |].
    erewrite bind_Done; [|exact Hfree].
    cbn. split; [reflexivity|].
    apply added_app. rewrite Htr3, Hev. subst w2'. cbn.
    rewrite Htr1, <- app_assoc. reflexivity.
Qed.

Lemma QuicDataPathBindingSend_local_address_one_sendmsg_witness :
  let w := client_batch.2 in
  let local := mkAddr AF_INET 50000 16777343 (replicate 16 0) 0 in
  let call :=
    sys_sendmsg 8 zero_addr sizeof_QUIC_ADDR (map iovec_of (used batch_of_two)) 2
      (pktinfo_of local).1 (pktinfo_of local).2 0 0 in
  let out :=
    QuicDataPathBindingSend (posix false) env_ok (Some 3%N) (Some local)
      (Some peer) (Some 18%N) w in
  out.1 = Done (QUIC_STATUS_SUCCESS (posix false)) /\
  added w out.2 = EvSys call 0 :: FreeSendContext_events 18 batch_of_two 0.
Proof.
  refine (QuicDataPathBindingSend_local_address_one_sendmsg (posix false) env_ok 3
            client_binding client_socket 18 batch_of_two 0
            (mkAddr AF_INET 50000 16777343 (replicate 16 0) 0) peer
            client_batch.2 _ _ batch_of_two_batch batch_of_two_no_alias).
  - vm_compute. reflexivity.
  - reflexivity.
Defined.

(** * Filling a send context *)

Lemma Owner_deref_batch w c ctx owner :
  batch w c ctx owner -> Owner_deref ctx w = (Done owner, w).
Proof.
  intros (_ & Ho & Hown & [proc Hproc] & _). eapply Owner_deref_eq; eassumption.
Qed.

(** One call of QuicDataPathBindingAllocSendDatagram on a well-formed send
    context, when the pool has a buffer. *)
Lemma QuicDataPathBindingAllocSendDatagram_run
    P env c ctx owner MaxBufferLength a w :
  batch w c ctx owner ->
  MaxSendBatchSize (Datapath w) = QUIC_MAX_BATCH_SEND ->
  QUIC_DEBUG P &&
    negb (MaxBufferLength <=?
            QUIC_MAX_MTU P - QUIC_MIN_IPV4_HEADER_SIZE P - QUIC_UDP_HEADER_SIZE P)
    = false ->
  pool_alloc env (Trace w) (SendBufferPool owner) = Some a ->
  BufferCount ctx < QUIC_MAX_BATCH_SEND ->
  exists w' ctx',
    QuicDataPathBindingAllocSendDatagram P env (Some c) MaxBufferLength w =
      (Done (Some (BufferCount ctx)), w') /\
    batch w' c ctx' owner /\
    BufferCount ctx' = BufferCount ctx + 1 /\
    CurrentIndex ctx' = CurrentIndex ctx /\
    used ctx' = used ctx ++ [mkBuffer MaxBufferLength (Some a)] /\
    Iovs ctx' !! Z.to_nat (BufferCount ctx) = Some (mkIov (Some a) MaxBufferLength) /\
    SendBuffers w' !! a = Some [] /\
    Trace w' = Trace w ++ [EvPoolAlloc (SendBufferPool owner) (Some a)] /\
    Datapath w' = Datapath w /\
    Bindings w' = Bindings w.
Proof.
  intros Hbatch Hmax Hdbg Hpool Hroom.
  pose proof Hbatch as (Hc & Ho & Hown & Hproc & Hlb & Hli & Hcount).
  unfold QuicDataPathBindingAllocSendDatagram.
  erewrite bind_Done; [|apply QUIC_DBG_ASSERT_pass; rewrite bool_decide_true by discriminate; apply andb_false_r].
  erewrite bind_Done; [|apply QUIC_DBG_ASSERT_pass; exact Hdbg].
  erewrite bind_Done; [|apply deref_Some; exact Hc].
  erewrite bind_Done; [|eapply Owner_deref_batch; exact Hbatch].
  erewrite bind_Done; [|reflexivity].
  replace (BufferCount ctx =? MaxSendBatchSize (Datapath w)) with false
    by (symmetry; apply Z.eqb_neq; lia).
  assert (Hlt : (Z.to_nat (BufferCount ctx) < length (Buffers ctx))%nat)
    by (rewrite Hlb; unfold QUIC_MAX_BATCH_SEND in *; lia).
  destruct (lookup_lt_is_Some_2 _ _ Hlt) as [buf Hbuf].
  assert (Hlti : (Z.to_nat (BufferCount ctx) < length (Iovs ctx))%nat)
    by (rewrite Hli; unfold QUIC_MAX_BATCH_SEND in *; lia).
  destruct (lookup_lt_is_Some_2 _ _ Hlti) as [iov Hiov].
  erewrite bind_Done; [|apply index_Some; [lia | exact Hbuf]].
  erewrite bind_Done; [|reflexivity].
  erewrite bind_Done; [|unfold QuicPoolAlloc; cbn [Trace set_SendContexts]; rewrite Hpool; reflexivity].
  erewrite bind_Done; [|reflexivity].
  erewrite bind_Done; [|reflexivity].
  erewrite bind_Done; [|apply index_Some; [lia | cbn; exact Hiov]].
  erewrite bind_Done; [|reflexivity].
  do 2 eexists. split; [reflexivity|].
  cbn. rewrite !list_insert_insert_eq.
  split; [|split; [|split; [|split; [|split; [|split; [|split; [|split]]]]]]].
  - unfold batch. cbn.
    split; [apply lookup_insert_eq|]. cbn. rewrite !length_insert.
    split; [exact Ho|]. split; [exact Hown|].
    split; [exact Hproc|]. split; [exact Hlb|]. split; [exact Hli|].
    unfold wrap. rewrite Z.mod_small; unfold QUIC_MAX_BATCH_SEND in *; lia.
  - unfold wrap. apply Z.mod_small. unfold QUIC_MAX_BATCH_SEND in *. lia.
  - reflexivity.
  - unfold used. cbn. unfold wrap.
    rewrite Z.mod_small by (unfold QUIC_MAX_BATCH_SEND in *; lia).
    replace (Z.to_nat (BufferCount ctx + 1)) with (S (Z.to_nat (BufferCount ctx))) by lia.
    erewrite take_S_r; [|apply list_lookup_insert_eq; exact Hlt].
    rewrite take_insert_ge by lia. reflexivity.
  - apply list_lookup_insert_eq. exact Hlti.
  - apply lookup_insert_eq.
  - reflexivity.
  - reflexivity.
  - reflexivity.
Qed.

(** A full send context: NULL, and nothing but the event log changes. *)
Lemma QuicDataPathBindingAllocSendDatagram_full
    P env c ctx owner MaxBufferLength w :
  batch w c ctx owner ->
  QUIC_DEBUG P &&
    negb (MaxBufferLength <=?
            QUIC_MAX_MTU P - QUIC_MIN_IPV4_HEADER_SIZE P - QUIC_UDP_HEADER_SIZE P)
    = false ->
  BufferCount ctx = MaxSendBatchSize (Datapath w) ->
  exists w',
    QuicDataPathBindingAllocSendDatagram P env (Some c) MaxBufferLength w =
      (Done None, w') /\
    same_but_log w w'.
Proof.
  intros Hbatch Hdbg Hfull.
  pose proof Hbatch as (Hc & _).
  unfold QuicDataPathBindingAllocSendDatagram.
  erewrite bind_Done; [|apply QUIC_DBG_ASSERT_pass; rewrite bool_decide_true by discriminate; apply andb_false_r].
  erewrite bind_Done; [|apply QUIC_DBG_ASSERT_pass; exact Hdbg].
  erewrite bind_Done; [|apply deref_Some; exact Hc].
  erewrite bind_Done; [|eapply Owner_deref_batch; exact Hbatch].
  erewrite bind_Done; [|reflexivity].
  replace (BufferCount ctx =? MaxSendBatchSize (Datapath w)) with true
    by (symmetry; apply Z.eqb_eq; exact Hfull).
  eexists. split; [reflexivity|]. reflexivity.
Qed.

(** X6: QuicDataPathBindingAllocSendDatagram on a well-formed send context,
    when the send-buffer pool has a buffer to give.  A full context (ten
    datagrams) gives NULL and changes nothing but the event log; otherwise
    the result is the slot at BufferCount, the only call is the pool
    allocation, and the context stays well formed with one datagram more:
    the new last datagram has the pool's buffer and MaxBufferLength as its
    length, the I/O vector entry of the slot describes the same buffer, and
    CurrentIndex and the earlier datagrams are untouched. *)
Theorem QuicDataPathBindingAllocSendDatagram_appends :
  forall P env c ctx owner MaxBufferLength a w,
    batch w c ctx owner ->
    MaxSendBatchSize (Datapath w) = QUIC_MAX_BATCH_SEND ->
    QUIC_DEBUG P &&
      negb (MaxBufferLength <=?
              QUIC_MAX_MTU P - QUIC_MIN_IPV4_HEADER_SIZE P - QUIC_UDP_HEADER_SIZE P)
      = false ->
    pool_alloc env (Trace w) (SendBufferPool owner) = Some a ->
    let out := QuicDataPathBindingAllocSendDatagram P env (Some c) MaxBufferLength w in
    if BufferCount ctx =? QUIC_MAX_BATCH_SEND then
      out.1 = Done None /\ same_but_log w out.2
    else
      out.1 = Done (Some (BufferCount ctx)) /\
      added w out.2 = [EvPoolAlloc (SendBufferPool owner) (Some a)] /\
      exists ctx',
        batch out.2 c ctx' owner /\
        BufferCount ctx' = BufferCount ctx + 1 /\
        CurrentIndex ctx' = CurrentIndex ctx /\
        used ctx' = used ctx ++ [mkBuffer MaxBufferLength (Some a)] /\
        Iovs ctx' !! Z.to_nat (BufferCount ctx) =
          Some (mkIov (Some a) MaxBufferLength) /\
        SendBuffers out.2 !! a = Some [].
Proof.
  intros P env c ctx owner len a w Hbatch Hmax Hdbg Hpool out.
  destruct (BufferCount ctx =? QUIC_MAX_BATCH_SEND) eqn:Hfull.
  - apply Z.eqb_eq in Hfull.
    destruct (QuicDataPathBindingAllocSendDatagram_full P env c ctx owner len w
                Hbatch Hdbg) as (w' & Hrun & Hsame); [congruence|].
    subst out. rewrite Hrun. split; [reflexivity | exact Hsame].
  - apply Z.eqb_neq in Hfull.
    destruct (QuicDataPathBindingAllocSendDatagram_run P env c ctx owner len a w
                Hbatch Hmax Hdbg Hpool)
      as (w' & ctx' & Hrun & Hb' & Hcnt & Hci & Hused & Hiov & Hmem & Htr & _).
    { destruct Hbatch as (_ & _ & _ & _ & _ & _ & Hcount). lia. }
    subst out. rewrite Hrun. cbn. split; [reflexivity|].
    split; [apply added_app, Htr|].
    exists ctx'. repeat split; try assumption; apply Hb'.
Qed.

Lemma empty_batch_batch : batch client_context.2 18 empty_batch 0.
Proof.
  unfold batch.
  split; [vm_compute; reflexivity|]. split; [reflexivity|].
  split; [lia|]. split; [vm_compute; eauto|].
  split; [reflexivity|]. split; [reflexivity|].
  cbn. unfold QUIC_MAX_BATCH_SEND. lia.
Defined.

Lemma QuicDataPathBindingAllocSendDatagram_appends_witness :
  let w := client_context.2 in
  let out :=
    QuicDataPathBindingAllocSendDatagram (posix false) env_ok (Some 18%N) 1200 w in
  out.1 = Done (Some 0) /\
  added w out.2 = [EvPoolAlloc (SendBufferPool 0) (Some 19%N)] /\
  exists ctx',
    batch out.2 18 ctx' 0 /\
    BufferCount ctx' = 1 /\
    CurrentIndex ctx' = 0 /\
    used ctx' = [mkBuffer 1200 (Some 19%N)] /\
    Iovs ctx' !! 0%nat = Some (mkIov (Some 19%N) 1200) /\
    SendBuffers out.2 !! 19%N = Some [].
Proof.
  refine (QuicDataPathBindingAllocSendDatagram_appends (posix false) env_ok 18
            empty_batch 0 1200 19 client_context.2 empty_batch_batch _ _ _).
  - reflexivity.
  - reflexivity.
  - vm_compute. reflexivity.
Defined.

Lemma AllocSendDatagram_loop P env c len :
  QUIC_DEBUG P &&
    negb (len <=?
            QUIC_MAX_MTU P - QUIC_MIN_IPV4_HEADER_SIZE P - QUIC_UDP_HEADER_SIZE P)
    = false ->
  (forall tr, pool_alloc env tr (SendBufferPool 0) <> None) ->
  forall n ctx w,
    batch w c ctx 0 ->
    MaxSendBatchSize (Datapath w) = QUIC_MAX_BATCH_SEND ->
    BufferCount ctx + Z.of_nat n <= QUIC_MAX_BATCH_SEND ->
    forall i, exists w' ctx',
      for_each n i
        (fun _ => _ <- QuicDataPathBindingAllocSendDatagram P env (Some c) len ;;
                  ret tt) w = (Done tt, w') /\
      batch w' c ctx' 0 /\
      MaxSendBatchSize (Datapath w') = QUIC_MAX_BATCH_SEND /\
      BufferCount ctx' = BufferCount ctx + Z.of_nat n.
Proof.
  intros Hdbg Hpool. induction n as [|n IH]; intros ctx w Hbatch Hmax Hroom i.
  - exists w, ctx. cbn. rewrite Z.add_0_r.
    split; [reflexivity|]. split; [exact Hbatch|]. split; [exact Hmax | reflexivity].
  - destruct (pool_alloc env (Trace w) (SendBufferPool 0)) as [a|] eqn:Ha;
      [|destruct (Hpool _ Ha)].
    destruct (QuicDataPathBindingAllocSendDatagram_run P env c ctx 0 len a w
                Hbatch Hmax Hdbg Ha)
      as (w1 & ctx1 & Hrun & Hb1 & Hcnt & _ & _ & _ & _ & _ & Hd1 & _); [lia|].
    destruct (IH ctx1 w1 Hb1) with (i := i + 1)
      as (w' & ctx' & Hrun' & Hb' & Hmax' & Hcnt'); [congruence | lia |].
    exists w', ctx'. cbn [for_each].
    erewrite bind_Done; [|erewrite bind_Done; [|exact Hrun]; reflexivity].
    split; [exact Hrun'|]. split; [exact Hb'|]. split; [exact Hmax'|]. lia.
Qed.

(** X7: how the send-context functions compose.  A send context as
    QuicDataPathBindingAllocSendContext returns it takes ten datagrams: after
    n <= 10 allocations QuicDataPathBindingIsSendContextFull answers whether
    n = 10, and one more QuicDataPathBindingAllocSendDatagram gives slot n,
    or NULL when n = 10. *)
Theorem QuicDataPathBindingAllocSendDatagram_capacity :
  forall P env B b MaxPacketSize MaxBufferLength w (n : nat),
    Bindings w !! B = Some b ->
    is_Some (ProcContexts (Datapath w) !! 0%nat) ->
    MaxSendBatchSize (Datapath w) = QUIC_MAX_BATCH_SEND ->
    QUIC_DEBUG P &&
      negb (MaxBufferLength <=?
              QUIC_MAX_MTU P - QUIC_MIN_IPV4_HEADER_SIZE P - QUIC_UDP_HEADER_SIZE P)
      = false ->
    (forall tr, pool_alloc env tr (SendContextPool 0) <> None) ->
    (forall tr, pool_alloc env tr (SendBufferPool 0) <> None) ->
    (n <= 10)%nat ->
    let calls :=
      SendContext <- QuicDataPathBindingAllocSendContext P env (Some B) MaxPacketSize ;;
      for_each n 0
        (fun _ =>
           _ <- QuicDataPathBindingAllocSendDatagram P env SendContext MaxBufferLength ;;
           ret tt) ;;
      full <- QuicDataPathBindingIsSendContextFull SendContext ;;
      next <- QuicDataPathBindingAllocSendDatagram P env SendContext MaxBufferLength ;;
      ret (full, next) in
    (calls w).1 =
      Done (bool_decide (n = 10%nat),
            if bool_decide (n = 10%nat) then None else Some (Z.of_nat n)).
Proof.
  intros P env B b size len w n Hb Hproc Hmax Hdbg Hpc Hpb Hn calls. subst calls.
  destruct (pool_alloc env (Trace w) (SendContextPool 0)) as [c|] eqn:Hc;
    [|destruct (Hpc _ Hc)].
  erewrite bind_Done; last first.
  { unfold QuicDataPathBindingAllocSendContext.
    erewrite bind_Done; [|apply QUIC_DBG_ASSERT_pass; rewrite bool_decide_true by discriminate; apply andb_false_r].
    erewrite bind_Done; [|apply deref_Some; exact Hb].
    erewrite bind_Done; [|unfold QuicPoolAlloc; rewrite Hc; reflexivity].
    reflexivity. }
  match goal with |- context [bind _ _ ?w1] => set (w1' := w1) end.
  assert (Hb1 : batch w1' c (set_Owner (Some 0) zero_send_context) 0).
  { subst w1'. unfold batch. cbn. split; [apply lookup_insert_eq|].
    split; [reflexivity|]. split; [lia|]. split; [exact Hproc|].
    split; [reflexivity|]. split; [reflexivity|]. unfold QUIC_MAX_BATCH_SEND. lia. }
  destruct (AllocSendDatagram_loop P env c len Hdbg Hpb n _ w1' Hb1 Hmax) with (i := 0)
    as (w2 & ctx2 & Hrun & Hb2 & Hmax2 & Hcnt).
  { cbn. unfold QUIC_MAX_BATCH_SEND. lia. }
  cbn [BufferCount set_Owner zero_send_context] in Hcnt.
  erewrite bind_Done; [|exact Hrun].
  pose proof Hb2 as (Hc2 & Ho2 & Hown2 & [proc Hproc2] & _).
  erewrite bind_Done;
    [|eapply QuicDataPathBindingIsSendContextFull_eq; eassumption].
  rewrite Hcnt, Hmax2. unfold QUIC_MAX_BATCH_SEND.
  destruct (bool_decide (n = 10%nat)) eqn:Hfull.
  - apply bool_decide_eq_true in Hfull. subst n.
    destruct (QuicDataPathBindingAllocSendDatagram_full P env c ctx2 0 len w2 Hb2 Hdbg)
      as (w3 & Hrun3 & _); [rewrite Hcnt, Hmax2; reflexivity|].
    erewrite bind_Done; [|exact Hrun3]. reflexivity.
  - apply bool_decide_eq_false in Hfull.
    destruct (pool_alloc env (Trace w2) (SendBufferPool 0)) as [a|] eqn:Ha;
      [|destruct (Hpb _ Ha)].
    destruct (QuicDataPathBindingAllocSendDatagram_run P env c ctx2 0 len a w2
                Hb2 Hmax2 Hdbg Ha) as (w3 & ctx3 & Hrun3 & _).
    { rewrite Hcnt. unfold QUIC_MAX_BATCH_SEND. lia. }
    erewrite bind_Done; [|exact Hrun3]. cbn. rewrite Hcnt.
    replace (0 + Z.of_nat n =? 10) with false by (symmetry; apply Z.eqb_neq; lia).
    reflexivity.
Qed.

Lemma QuicDataPathBindingAllocSendDatagram_capacity_witness :
  let calls :=
    SendContext <-
      QuicDataPathBindingAllocSendContext (posix false) env_ok (Some 3%N) 1200 ;;
    for_each 10 0
      (fun _ =>
         _ <- QuicDataPathBindingAllocSendDatagram (posix false) env_ok
                SendContext 1200 ;;
         ret tt) ;;
    full <- QuicDataPathBindingIsSendContextFull SendContext ;;
    next <- QuicDataPathBindingAllocSendDatagram (posix false) env_ok
              SendContext 1200 ;;
    ret (full, next) in
  (calls client.2).1 = Done (true, None).
Proof.
  refine (QuicDataPathBindingAllocSendDatagram_capacity (posix false) env_ok 3
            client_binding 1200 1200 client.2 10 _ _ _ _ _ _ _).
  - vm_compute. reflexivity.
  - vm_compute. eauto.
  - reflexivity.
  - reflexivity.
  - intros tr. discriminate.
  - intros tr. discriminate.
  - lia.
Defined.

(** X8: QuicDataPathBindingAllocSendContext on a live binding makes exactly
    one call, an allocation from the send-context pool of processor context
    0, and returns what the pool gave, whatever MaxPacketSize is.  A context
    it returns is well formed, owned by processor context 0 and empty
    (BufferCount and CurrentIndex 0, not pending, every slot without a
    buffer), and no other send context is touched; when the pool gives
    NULL, no send context changes. *)
Theorem QuicDataPathBindingAllocSendContext_fresh :
  forall P env B b MaxPacketSize w,
    Bindings w !! B = Some b ->
    is_Some (ProcContexts (Datapath w) !! 0%nat) ->
    let out := QuicDataPathBindingAllocSendContext P env (Some B) MaxPacketSize w in
    let r := pool_alloc env (Trace w) (SendContextPool 0) in
    out.1 = Done r /\
    added w out.2 = [EvPoolAlloc (SendContextPool 0) r] /\
    match r with
    | Some c =>
        (exists ctx,
           batch out.2 c ctx 0 /\
           BufferCount ctx = 0 /\ CurrentIndex ctx = 0 /\ Pending ctx = false /\
           Forall (fun b => Buffer_ptr b = None) (Buffers ctx)) /\
        (forall c', c' <> c -> SendContexts out.2 !! c' = SendContexts w !! c')
    | None => SendContexts out.2 = SendContexts w
    end.
Proof.
  intros P env B b size w Hb Hproc out r. subst out r.
  unfold QuicDataPathBindingAllocSendContext.
  erewrite bind_Done; [|apply QUIC_DBG_ASSERT_pass; rewrite bool_decide_true by discriminate; apply andb_false_r].
  erewrite bind_Done; [|apply deref_Some; exact Hb].
  erewrite bind_Done; [|reflexivity].
  destruct (pool_alloc env (Trace w) (SendContextPool 0)) as [c|]; cbn.
  - split; [reflexivity|].
    split; [unfold added; cbn; apply drop_app_length|]. split.
    + eexists. split.
      * unfold batch. cbn. split; [apply lookup_insert_eq|]. cbn.
        split; [reflexivity|]. split; [lia|]. split; [exact Hproc|].
        split; [reflexivity|]. split; [reflexivity|]. unfold QUIC_MAX_BATCH_SEND. lia.
      * cbn. repeat split. apply Forall_replicate. reflexivity.
    + intros c' Hne. apply lookup_insert_ne. congruence.
  - split; [reflexivity|].
    split; [unfold added; cbn; apply drop_app_length | reflexivity].
Qed.

Lemma QuicDataPathBindingAllocSendContext_fresh_witness :
  let w := client.2 in
  let out :=
    QuicDataPathBindingAllocSendContext (posix false) env_ok (Some 3%N) 1200 w in
  out.1 = Done (Some 18%N) /\
  added w out.2 = [EvPoolAlloc (SendContextPool 0) (Some 18%N)] /\
  (exists ctx,
     batch out.2 18 ctx 0 /\
     BufferCount ctx = 0 /\ CurrentIndex ctx = 0 /\ Pending ctx = false /\
     Forall (fun b => Buffer_ptr b = None) (Buffers ctx)) /\
  (forall c', c' <> 18%N -> SendContexts out.2 !! c' = SendContexts w !! c').
Proof.
  refine (QuicDataPathBindingAllocSendContext_fresh (posix false) env_ok 3
            client_binding 1200 client.2 _ _).
  - vm_compute. reflexivity.
  - vm_compute. eauto.
Defined.

(** * Arming, receive completion and the events of the worker *)

Lemma QuicSocketContextPrepareReceive_fresh P env B i b s p w :
  Bindings w !! B = Some b ->
  0 <= i ->
  SocketContexts b !! Z.to_nat i = Some s ->
  CurrentRecvBlock s = None ->
  pool_alloc env (Trace w) (RecvBlockPool 0) = Some p ->
  exists w' b' s' blk',
    QuicSocketContextPrepareReceive P env (B, i) w =
      (Done (QUIC_STATUS_SUCCESS P), w') /\
    ready w' B i b' s' p blk' /\
    s' = set_RecvMsgHdr (armed_msghdr p)
           (set_RecvIov (mkIov (Some p) (iov_len (RecvIov s)))
              (set_CurrentRecvBlock (Some p) s)) /\
    b' = set_SocketContexts (<[Z.to_nat i := s']> (SocketContexts b)) b /\
    blk' = mkRecvBlock (Some (RecvBlockPool 0))
             (mkDatagram None (Some p) (Some p)
                (wrap (BufferLength_bits P) (iov_len (RecvIov s))) 0 true)
             zero_tuple [] /\
    Trace w' = Trace w ++ [EvPoolAlloc (RecvBlockPool 0) (Some p)] /\
    Datapath w' = Datapath w /\
    Bindings w' = <[B := b']> (Bindings w) /\
    RecvBlocks w' = <[p := blk']> (RecvBlocks w).
Proof.
  intros Hb Hi Hs Hcur Hpool.
  assert (Hlen : (Z.to_nat i < length (SocketContexts b))%nat)
    by (eapply lookup_lt_Some; eauto).
  unfold QuicSocketContextPrepareReceive.
  erewrite bind_Done; [|eapply load_SocketContext_eq; eassumption].
  rewrite Hcur.
  erewrite bind_Done; last first.
  { erewrite bind_Done; last first.
    { unfold QuicDataPathAllocRecvBlock, QuicPoolAlloc. unfold bind at 1.
      rewrite Hpool. reflexivity. }
    erewrite bind_Done; last first.
    { eapply store_SocketContext_eq; cbn; eassumption. }
    reflexivity. }
  cbv iota.
  erewrite bind_Done; last first.
  { eapply load_SocketContext_eq; [cbn; apply lookup_insert_eq | exact Hi |].
    cbn. apply list_lookup_insert_eq. exact Hlen. }
  cbn [CurrentRecvBlock set_CurrentRecvBlock].
  erewrite bind_Done; [|apply deref_Some; cbn; apply lookup_insert_eq].
  erewrite bind_Done; last first.
  { eapply store_SocketContext_eq; [cbn; apply lookup_insert_eq | exact Hi |].
    cbn. apply list_lookup_insert_eq. exact Hlen. }
  erewrite bind_Done; [|apply update_RecvBlock_eq; cbn; apply lookup_insert_eq].
  erewrite bind_Done; [|apply update_RecvBlock_eq; cbn; apply lookup_insert_eq].
  erewrite bind_Done; [|apply deref_Some; cbn; apply lookup_insert_eq].
  erewrite bind_Done; last first.
  { eapply store_SocketContext_eq; [cbn; apply lookup_insert_eq | exact Hi |].
    cbn. apply list_lookup_insert_eq. rewrite length_insert. exact Hlen. }
  do 4 eexists. split; [reflexivity|].
  cbn. rewrite !insert_insert_eq, !list_insert_insert_eq.
  split.
  { unfold ready, armed. cbn.
    split; [|split].
    - split; [apply lookup_insert_eq|]. split; [exact Hi|].
      split; [apply list_lookup_insert_eq; exact Hlen|].
      split; [reflexivity|]. split; [apply lookup_insert_eq | reflexivity].
    - reflexivity.
    - reflexivity. }
  repeat split.
Qed.

Lemma QuicSocketContextPrepareReceive_reuse P env B i b s p blk w :
  Bindings w !! B = Some b ->
  0 <= i ->
  SocketContexts b !! Z.to_nat i = Some s ->
  CurrentRecvBlock s = Some p ->
  RecvBlocks w !! p = Some blk ->
  exists w' b' s' blk',
    QuicSocketContextPrepareReceive P env (B, i) w =
      (Done (QUIC_STATUS_SUCCESS P), w') /\
    armed w' B i b' s' p blk' /\
    s' = set_RecvMsgHdr (armed_msghdr p)
           (set_RecvIov (mkIov (Buffer (Block_RecvPacket blk)) (iov_len (RecvIov s)))
              s) /\
    b' = set_SocketContexts (<[Z.to_nat i := s']> (SocketContexts b)) b /\
    blk' = in_RecvPacket
             (fun d => set_Tuple (Some p)
                         (set_BufferLength
                            (wrap (BufferLength_bits P) (iov_len (RecvIov s))) d))
             blk /\
    Trace w' = Trace w /\
    Datapath w' = Datapath w /\
    Bindings w' = <[B := b']> (Bindings w) /\
    RecvBlocks w' = <[p := blk']> (RecvBlocks w).
Proof.
  intros Hb Hi Hs Hcur Hblk.
  assert (Hlen : (Z.to_nat i < length (SocketContexts b))%nat)
    by (eapply lookup_lt_Some; eauto).
  unfold QuicSocketContextPrepareReceive.
  erewrite bind_Done; [|eapply load_SocketContext_eq; eassumption].
  rewrite Hcur.
  erewrite bind_Done; [|reflexivity].
  cbv iota.
  erewrite bind_Done; [|eapply load_SocketContext_eq; eassumption].
  rewrite Hcur.
  erewrite bind_Done; [|apply deref_Some; exact Hblk].
  erewrite bind_Done; [|eapply store_SocketContext_eq; eassumption].
  cbn [CurrentRecvBlock set_RecvIov].
  rewrite Hcur.
  erewrite bind_Done; [|apply update_RecvBlock_eq; cbn; exact Hblk].
  erewrite bind_Done; [|apply update_RecvBlock_eq; cbn; apply lookup_insert_eq].
  erewrite bind_Done; [|apply deref_Some; cbn; apply lookup_insert_eq].
  erewrite bind_Done; last first.
  { eapply store_SocketContext_eq; [cbn; apply lookup_insert_eq | exact Hi |].
    cbn. apply list_lookup_insert_eq. exact Hlen. }
  do 4 eexists. split; [reflexivity|].
  cbn. rewrite !insert_insert_eq, !list_insert_insert_eq.
  split.
  { unfold armed. cbn.
    split; [apply lookup_insert_eq|]. split; [exact Hi|].
    split; [apply list_lookup_insert_eq; exact Hlen|].
    split; [exact Hcur|]. split; [apply lookup_insert_eq | reflexivity]. }
  repeat split.
Qed.

Lemma QuicSocketContextPrepareReceive_empty P env B i b s w :
  Bindings w !! B = Some b ->
  0 <= i ->
  SocketContexts b !! Z.to_nat i = Some s ->
  CurrentRecvBlock s = None ->
  pool_alloc env (Trace w) (RecvBlockPool 0) = None ->
  exists w',
    QuicSocketContextPrepareReceive P env (B, i) w =
      (Done (QUIC_STATUS_OUT_OF_MEMORY P), w') /\
    Trace w' = Trace w ++ [EvPoolAlloc (RecvBlockPool 0) None] /\
    Datapath w' = Datapath w /\
    Bindings w' = Bindings w /\
    RecvBlocks w' = RecvBlocks w.
Proof.
  intros Hb Hi Hs Hcur Hpool.
  unfold QuicSocketContextPrepareReceive.
  erewrite bind_Done; [|eapply load_SocketContext_eq; eassumption].
  rewrite Hcur.
  erewrite bind_Done; last first.
  { erewrite bind_Done; last first.
    { unfold QuicDataPathAllocRecvBlock, QuicPoolAlloc. unfold bind at 1.
      rewrite Hpool. reflexivity. }
    erewrite bind_Done; last first.
    { eapply store_SocketContext_eq; cbn; eassumption. }
    reflexivity. }
  cbv iota.
  eexists. split; [reflexivity|]. cbn.
  repeat split.
  rewrite <- Hcur.
  replace (set_CurrentRecvBlock (CurrentRecvBlock s) s) with s by (destruct s; reflexivity).
  rewrite list_insert_id by exact Hs.
  replace (set_SocketContexts (SocketContexts b) b) with b by (destruct b; reflexivity).
  apply insert_id. exact Hb.
Qed.

(** X9: the three outcomes of QuicSocketContextPrepareReceive.  With a
    current receive block the socket context is re-armed on that block and
    the pool is not asked; without one, a block from the receive-block pool
    of processor context 0 becomes the current one, owned by that pool; if
    the pool has none, the status is QUIC_STATUS_OUT_OF_MEMORY and neither
    the binding nor any block changes.  Armed means: the datagram's Tuple
    points at the block's own tuple, its BufferLength is the length of the
    socket context's I/O vector, and the control buffer is empty. *)
Theorem QuicSocketContextPrepareReceive_outcomes :
  forall P env B i b s w,
    Bindings w !! B = Some b ->
    0 <= i ->
    SocketContexts b !! Z.to_nat i = Some s ->
    (forall p, CurrentRecvBlock s = Some p -> is_Some (RecvBlocks w !! p)) ->
    let out := QuicSocketContextPrepareReceive P env (B, i) w in
    let armed_on p :=
      exists b' s' blk',
        armed out.2 B i b' s' p blk' /\
        BufferLength (Block_RecvPacket blk') =
          wrap (BufferLength_bits P) (iov_len (RecvIov s)) /\
        RecvMsgHdr s' = armed_msghdr p /\
        iov_len (RecvIov s') = iov_len (RecvIov s) in
    match CurrentRecvBlock s, pool_alloc env (Trace w) (RecvBlockPool 0) with
    | Some p, _ =>
        out.1 = Done (QUIC_STATUS_SUCCESS P) /\ added w out.2 = [] /\ armed_on p
    | None, Some p =>
        out.1 = Done (QUIC_STATUS_SUCCESS P) /\
        added w out.2 = [EvPoolAlloc (RecvBlockPool 0) (Some p)] /\
        armed_on p /\
        OwningPool <$> RecvBlocks out.2 !! p = Some (Some (RecvBlockPool 0))
    | None, None =>
        out.1 = Done (QUIC_STATUS_OUT_OF_MEMORY P) /\
        added w out.2 = [EvPoolAlloc (RecvBlockPool 0) None] /\
        Bindings out.2 = Bindings w /\
        RecvBlocks out.2 = RecvBlocks w
    end.
Proof.
  intros P env B i b s w Hb Hi Hs Hlive out armed_on.
  destruct (CurrentRecvBlock s) as [p|] eqn:Hcur;
    [|destruct (pool_alloc env (Trace w) (RecvBlockPool 0)) as [p|] eqn:Hpool].
  - destruct (Hlive p eq_refl) as [blk Hblk].
    destruct (QuicSocketContextPrepareReceive_reuse P env B i b s p blk w
                Hb Hi Hs Hcur Hblk)
      as (w' & b' & s' & blk' & Hrun & Harmed & -> & -> & -> & Htr & _).
    subst armed_on out. rewrite Hrun. cbn [fst snd].
    split; [reflexivity|].
    split; [apply added_app; rewrite app_nil_r; exact Htr|].
    do 3 eexists. split; [exact Harmed|]. repeat split.
  - destruct (QuicSocketContextPrepareReceive_fresh P env B i b s p w
                Hb Hi Hs Hcur Hpool)
      as (w' & b' & s' & blk' & Hrun & [Harmed _] & -> & -> & -> & Htr & _ & _ & Hblk).
    subst armed_on out. rewrite Hrun. cbn [fst snd].
    split; [reflexivity|]. split; [apply added_app, Htr|]. split.
    + do 3 eexists. split; [exact Harmed|]. repeat split.
    + rewrite Hblk, lookup_insert_eq. reflexivity.
  - destruct (QuicSocketContextPrepareReceive_empty P env B i b s w
                Hb Hi Hs Hcur Hpool) as (w' & Hrun & Htr & _ & Hbd & Hbl).
    subst out. rewrite Hrun. cbn [fst snd].
    split; [reflexivity|]. split; [apply added_app, Htr|]. split; assumption.
Qed.

Lemma server_armed : armed server.2 3 0 server_binding server_socket 15 server_block.
Proof.
  unfold armed. split; [vm_compute; reflexivity|]. split; [lia|].
  split; [reflexivity|]. split; [reflexivity|].
  split; [vm_compute; reflexivity | reflexivity].
Defined.

Lemma server_ready : ready server.2 3 0 server_binding server_socket 15 server_block.
Proof. split; [exact server_armed | split; reflexivity]. Defined.

Lemma received_armed :
  armed received.2 3 0 received_binding received_socket 15 received_block.
Proof.
  unfold armed. split; [vm_compute; reflexivity|]. split; [lia|].
  split; [reflexivity|]. split; [reflexivity|].
  split; [vm_compute; reflexivity | reflexivity].
Defined.

Lemma QuicSocketContextPrepareReceive_outcomes_witness :
  let w := server.2 in
  let out := QuicSocketContextPrepareReceive (posix false) env_ok (3%N, 0) w in
  out.1 = Done (QUIC_STATUS_SUCCESS (posix false)) /\
  added w out.2 = [] /\
  exists b' s' blk',
    armed out.2 3 0 b' s' 15 blk' /\
    BufferLength (Block_RecvPacket blk') = wrap 16 1472 /\
    RecvMsgHdr s' = armed_msghdr 15 /\
    iov_len (RecvIov s') = 1472.
Proof.
  refine (QuicSocketContextPrepareReceive_outcomes (posix false) env_ok 3 0
            server_binding server_socket server.2 _ _ _ _).
  - vm_compute. reflexivity.
  - lia.
  - reflexivity.
  - intros p [= <-]. vm_compute. eauto.
Defined.

(** recvmsg on a ready socket context, when the kernel has a datagram. *)
Lemma recvmsg_received env B i b s p blk control source payload w :
  ready w B i b s p blk ->
  sys_datagram env (Trace w) (SocketFd s) = (control, source, payload) ->
  let call :=
    sys_recvmsg (SocketFd s) (msg_namelen (RecvMsgHdr s))
      (msg_iovlen (RecvMsgHdr s)) (msg_controllen (RecvMsgHdr s)) 0 in
  0 <= sys_ret env (Trace w) call ->
  exists w' b' s' blk',
    recvmsg env (B, i) w = (Done (sys_ret env (Trace w) call), w') /\
    ready w' B i b' s' p blk' /\
    msg_control (RecvMsgHdr s') = control /\
    blk' = mkRecvBlock (OwningPool blk) (Block_RecvPacket blk)
             (mkTuple source (Tuple_LocalAddress (Block_Tuple blk))) payload /\
    ClientContext b' = ClientContext b /\
    Binding_LocalAddress b' = Binding_LocalAddress b /\
    Trace w' = Trace w ++ [EvSys call (sys_ret env (Trace w) call)] /\
    Datapath w' = Datapath w /\
    RecvBlocks w' = <[p := blk']> (RecvBlocks w).
Proof.
  intros [(Hb & Hi & Hs & Hcur & Hblk & Htup) [Hname Hiov]] Hdg call Hret.
  assert (Hlen : (Z.to_nat i < length (SocketContexts b))%nat)
    by (eapply lookup_lt_Some; eauto).
  unfold recvmsg.
  erewrite bind_Done; [|eapply load_SocketContext_eq; eassumption].
  erewrite bind_Done; [|unfold get; rewrite Hdg; reflexivity].
  erewrite bind_Done; [|apply syscall_nonneg; exact Hret].
  fold call.
  replace (0 <=? sys_ret env (Trace w) call) with true
    by (symmetry; apply Z.leb_le; exact Hret).
  rewrite Hname, Hiov.
  erewrite bind_Done; last first.
  { cbv beta iota.
    erewrite bind_Done; [|eapply store_SocketContext_eq; cbn; eassumption].
    erewrite bind_Done; [|apply update_RecvBlock_eq; cbn; exact Hblk].
    apply update_RecvBlock_eq. cbn. apply lookup_insert_eq. }
  do 4 eexists. split; [reflexivity|]. cbn.
  rewrite !insert_insert_eq.
  split.
  { unfold ready, armed. cbn.
    split; [|split].
    - split; [apply lookup_insert_eq|]. split; [exact Hi|].
      split; [apply list_lookup_insert_eq; exact Hlen|].
      split; [exact Hcur|]. split; [apply lookup_insert_eq | exact Htup].
    - reflexivity.
    - exact Hiov. }
  repeat split.
Qed.

Lemma QuicSocketContextRecvComplete_handed_up
    P env w B i b s p blk pre CMsg post ProcContext proc BytesTransferred :
  armed w B i b s p blk ->
  msg_control (RecvMsgHdr s) = pre ++ CMsg :: post ->
  Forall (fun c => is_PKTINFO c = false) pre ->
  is_PKTINFO CMsg = true ->
  0 <= ProcContext ->
  ProcContexts (Datapath w) !! Z.to_nat ProcContext = Some proc ->
  QUIC_DEBUG P && negb (BytesTransferred <=? BufferLength (Block_RecvPacket blk))
    = false ->
  let blk1 := handed_up P b CMsg BytesTransferred proc blk in
  let s1 := set_CurrentRecvBlock None s in
  let b1 := set_SocketContexts (<[Z.to_nat i := s1]> (SocketContexts b)) b in
  exists w1,
    QuicSocketContextRecvComplete P env (B, i) ProcContext BytesTransferred w =
      (Status <- QuicSocketContextPrepareReceive P env (B, i) ;;
       QUIC_FRE_ASSERT (QUIC_SUCCEEDED P Status)) w1 /\
    Trace w1 = Trace w ++
      [EvRecvHandler B (ClientContext b) (Some p) (Block_RecvPacket blk1)
         (Block_Tuple blk1)] /\
    Bindings w1 = <[B := b1]> (Bindings w) /\
    RecvBlocks w1 = <[p := blk1]> (RecvBlocks w) /\
    Datapath w1 = Datapath w.
Proof.
  intros (Hb & Hi & Hs & Hcur & Hblk & Htup) Hctl Hpre Hc Hpc Hproc Hdbg blk1 s1 b1.
  RecvComplete_prefix P B b p blk Hb Hi Hs Hcur Hblk Htup Hctl Hpre Hc.
  erewrite bind_Done; [|unfold QUIC_DBG_ASSERT; cbn; rewrite Hdbg; reflexivity].
  erewrite bind_Done; [|reflexivity].
  erewrite bind_Done; [|apply index_Some; [exact Hpc | exact Hproc]].
  erewrite bind_Done; [|apply update_RecvBlock_eq; cbn; apply lookup_insert_eq].
  erewrite bind_Done; [|apply update_RecvBlock_eq; cbn; apply lookup_insert_eq].
  erewrite bind_Done; [|apply deref_Some; cbn; apply lookup_insert_eq].
  erewrite bind_Done; last first.
  { unfold RecvHandler.
    erewrite bind_Done; [|apply deref_Some; cbn; apply lookup_insert_eq].
    erewrite bind_Done; last first.
    { unfold load_Tuple.
      erewrite bind_Done;
        [|cbn; rewrite Htup; apply deref_Some; cbn; apply lookup_insert_eq].
      reflexivity. }
    reflexivity. }
  eexists. split; [reflexivity|]. cbn.
  rewrite !insert_insert_eq. repeat split.
Qed.

(** X10: the receive completion hands the datagram up before it asks for the
    next receive block, and treats a failure to get one as fatal: on an
    armed socket context with a matching PKTINFO record, if the pool of
    receive blocks is empty, the receive handler is called with the datagram
    and the process is then terminated at the assertion on the status of
    QuicSocketContextPrepareReceive; the socket context is left without a
    current block. *)
Theorem QuicSocketContextRecvComplete_out_of_blocks :
  forall P env w B i b s p blk ProcContext proc BytesTransferred,
    armed w B i b s p blk ->
    existsb is_PKTINFO (msg_control (RecvMsgHdr s)) = true ->
    0 <= ProcContext ->
    ProcContexts (Datapath w) !! Z.to_nat ProcContext = Some proc ->
    QUIC_DEBUG P && negb (BytesTransferred <=? BufferLength (Block_RecvPacket blk))
      = false ->
    (forall tr, pool_alloc env tr (RecvBlockPool 0) = None) ->
    QUIC_SUCCEEDED P (QUIC_STATUS_OUT_OF_MEMORY P) = false ->
    let out :=
      QuicSocketContextRecvComplete P env (B, i) ProcContext BytesTransferred w in
    out.1 = Terminated "QUIC_FRE_ASSERT" /\
    (exists Datagram DatagramTuple,
       added w out.2 =
         [EvRecvHandler B (ClientContext b) (Some p) Datagram DatagramTuple;
          EvPoolAlloc (RecvBlockPool 0) None]) /\
    (exists b' s',
       Bindings out.2 !! B = Some b' /\
       SocketContexts b' !! Z.to_nat i = Some s' /\
       CurrentRecvBlock s' = None) /\
    is_Some (RecvBlocks out.2 !! p).
Proof.
  intros P env w B i b s p blk ProcContext proc BT Harmed Hex Hpc Hproc Hdbg
    Hpool Hoom out.
  pose proof (first_PKTINFO (msg_control (RecvMsgHdr s))) as Hfirst.
  rewrite Hex in Hfirst. destruct Hfirst as (pre & CMsg & post & Hctl & Hpre & Hc).
  destruct (QuicSocketContextRecvComplete_handed_up P env w B i b s p blk pre CMsg
              post ProcContext proc BT Harmed Hctl Hpre Hc Hpc Hproc Hdbg)
    as (w1 & Hrun & Htr & Hbd & Hbl & Hdp).
  pose proof Harmed as (Hb & Hi & Hs & _).
  assert (Hlen : (Z.to_nat i < length (SocketContexts b))%nat)
    by (eapply lookup_lt_Some; eauto).
  set (s1 := set_CurrentRecvBlock None s) in *.
  set (b1 := set_SocketContexts (<[Z.to_nat i := s1]> (SocketContexts b)) b) in *.
  assert (Hb1 : Bindings w1 !! B = Some b1) by (rewrite Hbd; apply lookup_insert_eq).
  assert (Hs1 : SocketContexts b1 !! Z.to_nat i = Some s1)
    by (apply list_lookup_insert_eq; exact Hlen).
  destruct (QuicSocketContextPrepareReceive_empty P env B i b1 s1 w1 Hb1 Hi Hs1
              eq_refl (Hpool _))
    as (w2 & Hrun2 & Htr2 & _ & Hbd2 & Hbl2).
  subst out. rewrite Hrun.
  erewrite bind_Done; [|exact Hrun2].
  unfold QUIC_FRE_ASSERT. rewrite Hoom. unfold terminate. cbn [fst snd].
  split; [reflexivity|]. split; [|split].
  - do 2 eexists. apply added_app. rewrite Htr2, Htr, <- app_assoc. reflexivity.
  - exists b1, s1. rewrite Hbd2. repeat split; assumption.
  - rewrite Hbl2, Hbl, lookup_insert_eq. eauto.
Qed.

Lemma QuicSocketContextRecvComplete_out_of_blocks_witness :
  let w := received.2 in
  let out :=
    QuicSocketContextRecvComplete (posix true) env_no_recv_block (3%N, 0) 0 3 w in
  out.1 = Terminated "QUIC_FRE_ASSERT" /\
  (exists Datagram DatagramTuple,
     added w out.2 =
       [EvRecvHandler 3 77 (Some 15%N) Datagram DatagramTuple;
        EvPoolAlloc (RecvBlockPool 0) None]) /\
  (exists b' s',
     Bindings out.2 !! 3%N = Some b' /\
     SocketContexts b' !! 0%nat = Some s' /\
     CurrentRecvBlock s' = None) /\
  is_Some (RecvBlocks out.2 !! 15%N).
Proof.
  refine (QuicSocketContextRecvComplete_out_of_blocks (posix true)
            env_no_recv_block received.2 3 0 received_binding received_socket
            15 received_block 0 (mkProcContext 9 0) 3 received_armed
            _ _ _ _ _ _).
  - reflexivity.
  - lia.
  - reflexivity.
  - reflexivity.
  - intros tr. reflexivity.
  - reflexivity.
Defined.

(** X11: after a receive completion the datagram belongs to the upper layer
    and the socket receives into a new block: when the pool hands out a
    block other than the delivered one, the completion returns, the socket
    context is armed on the new block (owned by the receive-block pool of
    processor context 0), and the delivered block stays live with the fields
    the handler saw, its payload and its owning pool. *)
Theorem QuicSocketContextRecvComplete_rearms :
  forall P env w B i b s p blk pre CMsg post ProcContext proc BytesTransferred p',
    armed w B i b s p blk ->
    msg_control (RecvMsgHdr s) = pre ++ CMsg :: post ->
    Forall (fun c => is_PKTINFO c = false) pre ->
    is_PKTINFO CMsg = true ->
    0 <= ProcContext ->
    ProcContexts (Datapath w) !! Z.to_nat ProcContext = Some proc ->
    QUIC_DEBUG P && negb (BytesTransferred <=? BufferLength (Block_RecvPacket blk))
      = false ->
    QUIC_SUCCEEDED P (QUIC_STATUS_SUCCESS P) = true ->
    let delivered := handed_up P b CMsg BytesTransferred proc blk in
    let upcall :=
      EvRecvHandler B (ClientContext b) (Some p) (Block_RecvPacket delivered)
        (Block_Tuple delivered) in
    pool_alloc env (Trace w ++ [upcall]) (RecvBlockPool 0) = Some p' ->
    p' <> p ->
    let out :=
      QuicSocketContextRecvComplete P env (B, i) ProcContext BytesTransferred w in
    out.1 = Done tt /\
    added w out.2 = [upcall; EvPoolAlloc (RecvBlockPool 0) (Some p')] /\
    (exists b' s' blk',
       ready out.2 B i b' s' p' blk' /\
       OwningPool blk' = Some (RecvBlockPool 0) /\
       msg_control (RecvMsgHdr s') = []) /\
    RecvBlocks out.2 !! p = Some delivered /\
    OwningPool delivered = OwningPool blk /\
    Block_Buffer delivered = Block_Buffer blk.
Proof.
  intros P env w B i b s p blk pre CMsg post ProcContext proc BT p' Harmed Hctl
    Hpre Hc Hpc Hproc Hdbg Hok delivered upcall Hpool Hne out.
  destruct (QuicSocketContextRecvComplete_handed_up P env w B i b s p blk pre CMsg
              post ProcContext proc BT Harmed Hctl Hpre Hc Hpc Hproc Hdbg)
    as (w1 & Hrun & Htr & Hbd & Hbl & Hdp).
  fold delivered in Htr, Hbl. fold upcall in Htr.
  pose proof Harmed as (Hb & Hi & Hs & _).
  assert (Hlen : (Z.to_nat i < length (SocketContexts b))%nat)
    by (eapply lookup_lt_Some; eauto).
  set (s1 := set_CurrentRecvBlock None s) in *.
  set (b1 := set_SocketContexts (<[Z.to_nat i := s1]> (SocketContexts b)) b) in *.
  assert (Hb1 : Bindings w1 !! B = Some b1) by (rewrite Hbd; apply lookup_insert_eq).
  assert (Hs1 : SocketContexts b1 !! Z.to_nat i = Some s1)
    by (apply list_lookup_insert_eq; exact Hlen).
  destruct (QuicSocketContextPrepareReceive_fresh P env B i b1 s1 p' w1 Hb1 Hi Hs1
              eq_refl)
    as (w2 & b2 & s2 & blk2 & Hrun2 & Hready & Hs2 & _ & Hblk2 & Htr2 & _ & _ & Hbl2).
  { rewrite Htr. exact Hpool. }
  subst out. rewrite Hrun.
  erewrite bind_Done; [|exact Hrun2].
  unfold QUIC_FRE_ASSERT. rewrite Hok. unfold ret. cbn [fst snd].
  split; [reflexivity|]. split; [|split; [|split; [|split]]].
  - apply added_app. rewrite Htr2, Htr, <- app_assoc. reflexivity.
  - exists b2, s2, blk2. split; [exact Hready|].
    rewrite Hblk2, Hs2. split; reflexivity.
  - rewrite Hbl2, lookup_insert_ne by exact Hne.
    rewrite Hbl. apply lookup_insert_eq.
  - reflexivity.
  - reflexivity.
Qed.

Lemma QuicSocketContextRecvComplete_rearms_witness :
  let w := received.2 in
  let CMsg :=
    mkCmsg (CMSG_LEN sizeof_in6_pktinfo) IPPROTO_IPV6 IPV6_PKTINFO
      (in6_pktinfo_bytes (replicate 15 0 ++ [1]) 1) in
  let delivered :=
    handed_up (posix true) received_binding CMsg 3 (mkProcContext 9 0)
      received_block in
  let upcall :=
    EvRecvHandler 3 77 (Some 15%N) (Block_RecvPacket delivered)
      (Block_Tuple delivered) in
  let out :=
    QuicSocketContextRecvComplete (posix true) env_ok (3%N, 0) 0 3 w in
  out.1 = Done tt /\
  added w out.2 = [upcall; EvPoolAlloc (RecvBlockPool 0) (Some 19%N)] /\
  (exists b' s' blk',
     ready out.2 3 0 b' s' 19 blk' /\
     OwningPool blk' = Some (RecvBlockPool 0) /\
     msg_control (RecvMsgHdr s') = []) /\
  RecvBlocks out.2 !! 15%N = Some delivered /\
  OwningPool delivered = Some (RecvBlockPool 0) /\
  Block_Buffer delivered = [1; 2; 3].
Proof.
  refine (QuicSocketContextRecvComplete_rearms (posix true) env_ok received.2 3 0
            received_binding received_socket 15 received_block
            [mkCmsg (CMSG_LEN 4) IPPROTO_IP IP_RECVDSTADDR [127; 0; 0; 1]]
            (mkCmsg (CMSG_LEN sizeof_in6_pktinfo) IPPROTO_IPV6 IPV6_PKTINFO
               (in6_pktinfo_bytes (replicate 15 0 ++ [1]) 1))
            [] 0 (mkProcContext 9 0) 3 19 received_armed _ _ _ _ _ _ _ _ _).
  - reflexivity.
  - repeat constructor.
  - reflexivity.
  - lia.
  - reflexivity.
  - reflexivity.
  - reflexivity.
  - vm_compute. reflexivity.
  - discriminate.
Defined.

(** X12: what the worker does with one readable event when a datagram is
    there.  On a ready socket context, if recvmsg returns a byte count that
    fits the armed buffer and leaves a PKTINFO record among the ancillary
    data, the worker's two calls are that recvmsg and then the receive
    handler, which gets the datagram with the source address the kernel
    reported as its remote address, the byte count as its BufferLength and
    the worker's index as its PartitionIndex. *)
Theorem QuicDataPathWorkerThread_event_delivers :
  forall P env w B i b s p blk ProcContext proc data control source payload,
    ready w B i b s p blk ->
    data <> 0 ->
    sys_datagram env (Trace w) (SocketFd s) = (control, source, payload) ->
    existsb is_PKTINFO control = true ->
    let call :=
      sys_recvmsg (SocketFd s) (msg_namelen (RecvMsgHdr s))
        (msg_iovlen (RecvMsgHdr s)) (msg_controllen (RecvMsgHdr s)) 0 in
    let n := sys_ret env (Trace w) call in
    0 <= n <= BufferLength (Block_RecvPacket blk) ->
    BufferLength (Block_RecvPacket blk) < 2 ^ BufferLength_bits P ->
    0 <= ProcContext ->
    ProcContexts (Datapath w) !! Z.to_nat ProcContext = Some proc ->
    0 <= Index proc < 2 ^ PartitionIndex_bits P ->
    let out :=
      QuicDataPathWorkerThread_event P env ProcContext EVFILT_READ data (B, i) w in
    exists Datagram DatagramTuple rest,
      added w out.2 =
        EvSys call n ::
        EvRecvHandler B (ClientContext b) (Some p) Datagram DatagramTuple :: rest /\
      Forall (fun e => is_RecvHandler e = false) rest /\
      Tuple_RemoteAddress DatagramTuple = source /\
      BufferLength Datagram = n /\
      PartitionIndex Datagram = Index proc.
Proof.
  intros P env w B i b s p blk ProcContext proc data control source payload
    Hready Hdata Hdg Hex call n Hn Hbits Hpc Hproc Hidx out.
  destruct (recvmsg_received env B i b s p blk control source payload w Hready Hdg)
    as (w1 & b1 & s1 & blk1 & Hrun1 & [Harmed1 _] & Hctl1 & Hblk1 & Hcc & _ & Htr1 &
        Hdp1 & _); [apply Hn|].
  fold call in Hrun1, Htr1. fold n in Hrun1, Htr1.
  pose proof (first_PKTINFO control) as Hfirst.
  rewrite Hex in Hfirst. destruct Hfirst as (pre & CMsg & post & Hsplit & Hpre & Hc).
  destruct (QuicSocketContextRecvComplete_handed_up P env w1 B i b1 s1 p blk1 pre
              CMsg post ProcContext proc n Harmed1)
    as (w2 & Hrun2 & Htr2 & _); try assumption.
  { rewrite Hctl1. exact Hsplit. }
  { rewrite Hdp1. exact Hproc. }
  { rewrite Hblk1. cbn.
    replace (n <=? BufferLength (Block_RecvPacket blk)) with true
      by (symmetry; apply Z.leb_le; lia).
    apply andb_false_r. }
  destruct (rearm_extends P env (B, i) w2) as (rest & Hrest & Hquiet).
  subst out. unfold QuicDataPathWorkerThread_event.
  rewrite Z.eqb_refl.
  replace (data =? 0) with false by (symmetry; apply Z.eqb_neq; exact Hdata).
  erewrite bind_Done; [|exact Hrun1].
  replace (n =? -1) with false by (symmetry; apply Z.eqb_neq; lia).
  cbn [negb]. rewrite Hrun2.
  do 2 eexists. exists rest. split; [|split; [exact Hquiet|]].
  - apply added_app. rewrite Hrest, Htr2, Htr1, <- !app_assoc, Hcc. reflexivity.
  - rewrite Hblk1. cbn. unfold wrap.
    split; [reflexivity|]. split; apply Z.mod_small; lia.
Qed.

Lemma QuicDataPathWorkerThread_event_delivers_witness :
  let w := server.2 in
  let call := sys_recvmsg 8 28 1 8204 0 in
  let out :=
    QuicDataPathWorkerThread_event (posix true) env_datagram 0 EVFILT_READ 3
      (3%N, 0) w in
  exists Datagram DatagramTuple rest,
    added w out.2 =
      EvSys call 3 ::
      EvRecvHandler 3 77 (Some 15%N) Datagram DatagramTuple :: rest /\
    Forall (fun e => is_RecvHandler e = false) rest /\
    Tuple_RemoteAddress DatagramTuple =
      mkAddr AF_INET6 4433 0 (replicate 15 0 ++ [1]) 0 /\
    BufferLength Datagram = 3 /\
    PartitionIndex Datagram = 0.
Proof.
  refine (QuicDataPathWorkerThread_event_delivers (posix true) env_datagram
            server.2 3 0 server_binding server_socket 15 server_block 0
            (mkProcContext 9 0) 3 _ _ _ server_ready _ _ _ _ _ _ _ _).
  - discriminate.
  - reflexivity.
  - reflexivity.
  - cbn. lia.
  - cbn. lia.
  - lia.
  - reflexivity.
  - cbn. lia.
Defined.

(** X13: what the worker does with an event that brings no datagram.  A
    readable event whose data is 0 is skipped without a call; if recvmsg
    returns -1, the receive completion is not run: nothing is handed up and
    binding and receive blocks stay as they were, so the socket context is
    still armed on the same block; an event of any other filter runs into
    the breakpoint trap. *)
Theorem QuicDataPathWorkerThread_event_skips :
  forall P env ProcContext filter data B i b s p blk w,
    ready w B i b s p blk ->
    let call :=
      sys_recvmsg (SocketFd s) (msg_namelen (RecvMsgHdr s))
        (msg_iovlen (RecvMsgHdr s)) (msg_controllen (RecvMsgHdr s)) 0 in
    let out := QuicDataPathWorkerThread_event P env ProcContext filter data (B, i) w in
    (filter = EVFILT_READ -> data = 0 -> out = (Done tt, w)) /\
    (filter = EVFILT_READ -> data <> 0 -> sys_ret env (Trace w) call = -1 ->
     out.1 = Done tt /\
     added w out.2 = [EvSys call (-1)] /\
     Bindings out.2 = Bindings w /\
     RecvBlocks out.2 = RecvBlocks w) /\
    (filter <> EVFILT_READ ->
     out = (if TRAP_RESUMES P then Done tt else Terminated "int3", w)).
Proof.
  intros P env ProcContext filter data B i b s p blk w
    [(Hb & Hi & Hs & _) _] call out.
  subst out. unfold QuicDataPathWorkerThread_event. split; [|split].
  - intros -> ->. reflexivity.
  - intros -> Hdata Hret. rewrite Z.eqb_refl.
    replace (data =? 0) with false by (symmetry; apply Z.eqb_neq; exact Hdata).
    erewrite bind_Done; last first.
    { unfold recvmsg.
      erewrite bind_Done; [|eapply load_SocketContext_eq; eassumption].
      erewrite bind_Done; [|reflexivity].
      erewrite bind_Done; [|apply syscall_neg; fold call; lia].
      fold call. rewrite Hret. cbn [Z.leb Z.compare].
      erewrite bind_Done; [|reflexivity]. reflexivity. }
    cbn. split; [reflexivity|]. split; [|split; reflexivity].
    unfold added. cbn. rewrite drop_app_length. reflexivity.
  - intros Hf. replace (filter =? EVFILT_READ) with false
      by (symmetry; apply Z.eqb_neq; exact Hf).
    unfold int3. destruct (TRAP_RESUMES P); reflexivity.
Qed.

Lemma QuicDataPathWorkerThread_event_skips_witness :
  let w := server.2 in
  let call := sys_recvmsg 8 28 1 8204 0 in
  let out :=
    QuicDataPathWorkerThread_event (posix true) env_ok 0 EVFILT_READ 0
      (3%N, 0) w in
  (EVFILT_READ = EVFILT_READ -> 0 = 0 -> out = (Done tt, w)) /\
  (EVFILT_READ = EVFILT_READ -> 0 <> 0 -> sys_ret env_ok (Trace w) call = -1 ->
   out.1 = Done tt /\
   added w out.2 = [EvSys call (-1)] /\
   Bindings out.2 = Bindings w /\
   RecvBlocks out.2 = RecvBlocks w) /\
  (EVFILT_READ <> EVFILT_READ ->
   out = (if TRAP_RESUMES (posix true) then Done tt else Terminated "int3", w)).
Proof.
  exact (QuicDataPathWorkerThread_event_skips (posix true) env_ok 0 EVFILT_READ 0
           3 0 server_binding server_socket 15 server_block server.2
           server_ready).
Defined.

(** * Sockets: what fails, and how *)


Lemma bind_inv {A B} (m : M A) (k : A -> M B) w b w' :
  bind m k w = (Done b, w') ->
  exists a w1, m w = (Done a, w1) /\ k a w1 = (Done b, w').
Proof.
  unfold bind. destruct (m w) as [[a| |] w1]; try discriminate. eauto.
Qed.

Lemma extends_run {A} phi (m : M A) w a w' :
  extends phi m -> m w = (Done a, w') ->
  exists tr, Trace w' = Trace w ++ tr /\ Forall phi tr.
Proof. intros H Hrun. specialize (H w). rewrite Hrun in H. exact H. Qed.













Lemma syscall_frame env c w :
  let w' := (syscall env c w).2 in
  Trace w' = Trace w ++ [EvSys c (sys_ret env (Trace w) c)] /\
  Bindings w' = Bindings w /\ Datapath w' = Datapath w /\
  RecvBlocks w' = RecvBlocks w /\ SendContexts w' = SendContexts w /\
  SendBuffers w' = SendBuffers w /\ Log w' = Log w.
Proof. unfold syscall. cbn. destruct (_ <? 0); repeat split. Qed.

Lemma QuicSocketContextStartReceive_registered P env B i b s p KqueueFd w :
  Bindings w !! B = Some b ->
  0 <= i ->
  SocketContexts b !! Z.to_nat i = Some s ->
  CurrentRecvBlock s = None ->
  QUIC_FAILED P (QUIC_STATUS_SUCCESS P) = false ->
  pool_alloc env (Trace w) (RecvBlockPool 0) = Some p ->
  let alloc := EvPoolAlloc (RecvBlockPool 0) (Some p) in
  let call := register_call KqueueFd (SocketFd s) (B, i) in
  0 <= sys_ret env (Trace w ++ [alloc]) call ->
  exists w' b' s' blk',
    QuicSocketContextStartReceive P env (B, i) KqueueFd w =
      (Done (QUIC_STATUS_SUCCESS P), w') /\
    ready w' B i b' s' p blk' /\
    s' = set_RecvMsgHdr (armed_msghdr p)
           (set_RecvIov (mkIov (Some p) (iov_len (RecvIov s)))
              (set_CurrentRecvBlock (Some p) s)) /\
    b' = set_SocketContexts (<[Z.to_nat i := s']> (SocketContexts b)) b /\
    Trace w' = Trace w ++ [alloc; EvSys call (sys_ret env (Trace w ++ [alloc]) call)] /\
    Datapath w' = Datapath w /\
    Bindings w' = <[B := b']> (Bindings w) /\
    RecvBlocks w' = <[p := blk']> (RecvBlocks w).
Proof.
  intros Hb Hi Hs Hcur Hok Hpool alloc call Hret.
  subst alloc call. unfold register_call in *.
  destruct (QuicSocketContextPrepareReceive_fresh P env B i b s p w Hb Hi Hs Hcur Hpool)
    as (w1 & b1 & s1 & blk1 & Hrun & Hready & Hs1 & Hb1 & Hblk1 & Htr & Hdp & Hbd & Hbl).
  pose proof Hready as [(Hb1' & _ & Hs1' & _) _].
  unfold QuicSocketContextStartReceive.
  erewrite bind_Done; [|exact Hrun].
  rewrite Hok.
  erewrite bind_Done; last first.
  { erewrite bind_Done; [|eapply load_SocketContext_eq; eassumption].
    erewrite bind_Done; last first.
    { apply syscall_nonneg. rewrite Htr, Hs1. cbn [SocketFd set_RecvMsgHdr set_RecvIov set_CurrentRecvBlock]. exact Hret. }
    rewrite Htr, Hs1. cbn [SocketFd set_RecvMsgHdr set_RecvIov set_CurrentRecvBlock].
    replace (sys_ret env _ _ <? 0) with false
      by (symmetry; apply Z.ltb_ge; exact Hret).
    reflexivity. }
  rewrite Hok.
  eexists _, b1, s1, blk1.
  split; [reflexivity|]. cbn.
  split; [|split; [exact Hs1|]; split; [exact Hb1|]; split;
           [rewrite ?Htr, <- app_assoc; reflexivity|]; repeat split; assumption].
  destruct Hready as [(? & ? & ? & ? & ? & ?) [? ?]].
  unfold ready, armed. cbn. repeat split; assumption.
Qed.

Lemma close_and_invalidate_run P env B i b s (Status : Z) w :
  Bindings w !! B = Some b ->
  0 <= i ->
  SocketContexts b !! Z.to_nat i = Some s ->
  exists w',
    (s <- load_SocketContext (B, i) ;;
     _ <- syscall env (sys_close (SocketFd s)) ;;
     store_SocketFd (B, i) (INVALID_SOCKET_FD P) ;;
     ret Status) w = (Done Status, w') /\
    Trace w' = Trace w ++
      [EvSys (sys_close (SocketFd s)) (sys_ret env (Trace w) (sys_close (SocketFd s)))] /\
    Bindings w' =
      <[B := set_SocketContexts
               (<[Z.to_nat i := set_SocketFd (INVALID_SOCKET_FD P) s]>
                  (SocketContexts b)) b]> (Bindings w) /\
    Datapath w' = Datapath w /\
    RecvBlocks w' = RecvBlocks w.
Proof.
  intros Hb Hi Hs.
  erewrite bind_Done; [|eapply load_SocketContext_eq; eassumption].
  erewrite bind_Done; [|apply syscall_run].
  destruct (syscall_frame env (sys_close (SocketFd s)) w)
    as (Htr & Hbd & Hdp & Hbl & _).
  erewrite bind_Done; last first.
  { unfold store_SocketFd.
    erewrite bind_Done;
      [|eapply load_SocketContext_eq; [rewrite Hbd; exact Hb | exact Hi | exact Hs]].
    eapply store_SocketContext_eq; [rewrite Hbd; exact Hb | exact Hi | exact Hs]. }
  eexists. split; [reflexivity|].
  cbn [Trace Bindings Datapath RecvBlocks set_Bindings].
  rewrite Htr, Hbd, Hdp, Hbl. repeat split.
Qed.

(** X15: the outcomes of QuicSocketContextStartReceive on a socket context
    that has no receive block yet.  It takes a block from the pool and then
    registers the descriptor, converted to uintptr_t as EV_SET does, with
    the readiness queue for readable events (EV_ADD | EV_CLEAR), with the
    socket context as user data.  If the pool
    is empty the status is QUIC_STATUS_OUT_OF_MEMORY and no registration is
    tried; if the registration fails the status is
    QUIC_STATUS_INTERNAL_ERROR; in both cases the descriptor is closed and
    INVALID_SOCKET_FD stored, and after a failed registration the block
    stays allocated.  Otherwise the status is QUIC_STATUS_SUCCESS and the
    socket context is ready on the block, with its descriptor unchanged. *)
Theorem QuicSocketContextStartReceive_outcomes :
  forall P env B i b s KqueueFd w,
    Bindings w !! B = Some b ->
    0 <= i ->
    SocketContexts b !! Z.to_nat i = Some s ->
    CurrentRecvBlock s = None ->
    QUIC_FAILED P (QUIC_STATUS_SUCCESS P) = false ->
    QUIC_FAILED P (QUIC_STATUS_OUT_OF_MEMORY P) = true ->
    QUIC_FAILED P (QUIC_STATUS_INTERNAL_ERROR P) = true ->
    let out := QuicSocketContextStartReceive P env (B, i) KqueueFd w in
    let call := register_call KqueueFd (SocketFd s) (B, i) in
    let close := EvSys (sys_close (SocketFd s)) 0 in
    match pool_alloc env (Trace w) (RecvBlockPool 0) with
    | None =>
        out.1 = Done (QUIC_STATUS_OUT_OF_MEMORY P) /\
        map blank (added w out.2) = [EvPoolAlloc (RecvBlockPool 0) None; close] /\
        SocketFd_at out.2 (B, i) = Some (INVALID_SOCKET_FD P)
    | Some p =>
        let alloc := EvPoolAlloc (RecvBlockPool 0) (Some p) in
        let r := sys_ret env (Trace w ++ [alloc]) call in
        if r <? 0 then
          out.1 = Done (QUIC_STATUS_INTERNAL_ERROR P) /\
          map blank (added w out.2) = [alloc; EvSys call 0; close] /\
          SocketFd_at out.2 (B, i) = Some (INVALID_SOCKET_FD P) /\
          is_Some (RecvBlocks out.2 !! p)
        else
          out.1 = Done (QUIC_STATUS_SUCCESS P) /\
          added w out.2 = [alloc; EvSys call r] /\
          exists b' s' blk',
            ready out.2 B i b' s' p blk' /\ SocketFd s' = SocketFd s
    end.
Proof.
  intros P env B i b s kq w Hb Hi Hs Hcur Hok Hoom Hint out call close.
  assert (Hlen : (Z.to_nat i < length (SocketContexts b))%nat)
    by (eapply lookup_lt_Some; eauto).
  destruct (pool_alloc env (Trace w) (RecvBlockPool 0)) as [p|] eqn:Hpool.
  - cbv zeta.
    destruct (sys_ret env (Trace w ++ [EvPoolAlloc (RecvBlockPool 0) (Some p)]) call <? 0)
      eqn:Hr.
    + apply Z.ltb_lt in Hr.
      destruct (QuicSocketContextPrepareReceive_fresh P env B i b s p w
                  Hb Hi Hs Hcur Hpool)
        as (w1 & b1 & s1 & blk1 & Hrun & [(Hb1 & _ & Hs1 & _) _] & Hs1e & _ & _ &
            Htr & _ & _ & Hbl).
      assert (Hfd : SocketFd s1 = SocketFd s) by (rewrite Hs1e; reflexivity).
      subst out call. unfold register_call in *.
      unfold QuicSocketContextStartReceive.
      erewrite bind_Done; [|exact Hrun].
      rewrite Hok.
      erewrite bind_Done; last first.
      { erewrite bind_Done; [|eapply load_SocketContext_eq; eassumption].
        erewrite bind_Done; [|apply syscall_neg; rewrite Htr, Hfd; exact Hr].
        rewrite Htr, Hfd.
        replace (sys_ret env _ _ <? 0) with true
          by (symmetry; apply Z.ltb_lt; exact Hr).
        erewrite bind_Done; [|apply QUIC_DBG_ASSERT_true].
        erewrite bind_Done; [|reflexivity]. reflexivity. }
      rewrite Hint.
      match goal with |- context [bind _ _ ?w2] => set (w2' := w2) end.
      destruct (close_and_invalidate_run P env B i b1 s1
                  (QUIC_STATUS_INTERNAL_ERROR P) w2' Hb1 Hi Hs1)
        as (w3 & Hrun3 & Htr3 & Hbd3 & _ & Hbl3).
      rewrite Hrun3. cbn [fst snd].
      split; [reflexivity|]. split; [|split].
      * erewrite added_app;
          [|rewrite Htr3; subst w2'; cbn; rewrite Hfd, <- !app_assoc; reflexivity].
        reflexivity.
      * unfold SocketFd_at. cbn. rewrite Hbd3, lookup_insert_eq. cbn.
        rewrite list_lookup_insert_eq by (eapply lookup_lt_Some; eauto). reflexivity.
      * rewrite Hbl3. subst w2'. cbn. rewrite Hbl, lookup_insert_eq. eauto.
    + apply Z.ltb_ge in Hr.
      destruct (QuicSocketContextStartReceive_registered P env B i b s p kq w
                  Hb Hi Hs Hcur Hok Hpool Hr)
        as (w' & b' & s' & blk' & Hrun & Hready & Hs' & _ & Htr & _).
      subst out. rewrite Hrun. cbn [fst snd].
      split; [reflexivity|]. split; [apply added_app, Htr|].
      exists b', s', blk'. split; [exact Hready|]. rewrite Hs'. reflexivity.
  - destruct (QuicSocketContextPrepareReceive_empty P env B i b s w Hb Hi Hs Hcur Hpool)
      as (w1 & Hrun & Htr & Hdp & Hbd & Hbl).
    destruct (close_and_invalidate_run P env B i b s (QUIC_STATUS_OUT_OF_MEMORY P) w1)
      as (w2 & Hrun2 & Htr2 & Hbd2 & _); [rewrite Hbd; exact Hb | exact Hi | exact Hs |].
    subst out. unfold QuicSocketContextStartReceive.
    erewrite bind_Done; [|exact Hrun].
    rewrite Hoom. erewrite bind_Done; [|reflexivity].
    rewrite Hoom, Hrun2. cbn [fst snd].
    split; [reflexivity|]. split.
    + erewrite added_app; [|rewrite Htr2, Htr, <- app_assoc; reflexivity].
      reflexivity.
    + unfold SocketFd_at. cbn. rewrite Hbd2, lookup_insert_eq. cbn.
      rewrite list_lookup_insert_eq by exact Hlen. reflexivity.
Qed.

Lemma QuicSocketContextStartReceive_outcomes_witness :
  let w := bound in
  let out := QuicSocketContextStartReceive (posix false) env_kevent_fails (3%N, 0) 9 w in
  let call := register_call 9 8 (3%N, 0) in
  out.1 = Done (QUIC_STATUS_INTERNAL_ERROR (posix false)) /\
  map blank (added w out.2) =
    [EvPoolAlloc (RecvBlockPool 0) (Some 3%N); EvSys call 0;
     EvSys (sys_close 8) 0] /\
  SocketFd_at out.2 (3%N, 0) = Some (INVALID_SOCKET_FD (posix false)) /\
  is_Some (RecvBlocks out.2 !! 3%N).
Proof.
  refine (QuicSocketContextStartReceive_outcomes (posix false) env_kevent_fails
            3 0 bound_binding bound_socket 9 bound _ _ _ _ _ _ _).
  - vm_compute. reflexivity.
  - lia.
  - reflexivity.
  - reflexivity.
  - reflexivity.
  - reflexivity.
  - reflexivity.
Defined.

(** * Sockets: the initialisation that succeeds *)

Lemma store_SocketFd_eq B i b s fd w :
  Bindings w !! B = Some b -> 0 <= i ->
  SocketContexts b !! Z.to_nat i = Some s ->
  store_SocketFd (B, i) fd w =
    (Done tt,
     set_Bindings
       (<[B := set_SocketContexts (<[Z.to_nat i := set_SocketFd fd s]> (SocketContexts b)) b]>
          (Bindings w)) w).
Proof.
  intros Hb Hi Hs. unfold store_SocketFd.
  erewrite bind_Done; [|eapply load_SocketContext_eq; eassumption].
  eapply store_SocketContext_eq; eassumption.
Qed.

Lemma syscall_zero env c w :
  sys_ret env (Trace w) c = 0 ->
  syscall env c w = (Done 0, set_Trace (Trace w ++ [EvSys c 0]) w).
Proof. intros H. unfold syscall. rewrite H. reflexivity. Qed.

(** A call whose result is not looked at. *)
Lemma syscall_ignored {A} env c (k : Z -> M A) w :
  exists w1,
    bind (syscall env c) k w = k (sys_ret env (Trace w) c) w1 /\
    Trace w1 = Trace w ++ [EvSys c (sys_ret env (Trace w) c)] /\
    Bindings w1 = Bindings w /\ Datapath w1 = Datapath w /\
    RecvBlocks w1 = RecvBlocks w.
Proof.
  exists (syscall env c w).2. split; [reflexivity|].
  destruct (syscall_frame env c w) as (? & ? & ? & ? & _). auto.
Qed.

Lemma getsockname_LocalAddress_eq env fd B b w :
  Bindings w !! B = Some b ->
  sys_ret env (Trace w) (sys_getsockname fd sizeof_sockaddr) = 0 ->
  getsockname_LocalAddress env fd B w =
    (Done 0,
     set_Bindings
       (<[B := set_Binding_LocalAddress
                 (write_sockaddr16 (sys_sockname env (Trace w) fd)
                    (Binding_LocalAddress b)) b]> (Bindings w))
       (set_Trace (Trace w ++ [EvSys (sys_getsockname fd sizeof_sockaddr) 0]) w)).
Proof.
  intros Hb Hr. unfold getsockname_LocalAddress.
  erewrite bind_Done; [|apply deref_Some; exact Hb].
  erewrite bind_Done; [|reflexivity].
  erewrite bind_Done; [|apply syscall_zero; exact Hr].
  reflexivity.
Qed.

Lemma syscall_step env c w :
  exists w1,
    syscall env c w = (Done (sys_ret env (Trace w) c), w1) /\
    Trace w1 = Trace w ++ [EvSys c (sys_ret env (Trace w) c)] /\
    Bindings w1 = Bindings w /\ Datapath w1 = Datapath w /\
    RecvBlocks w1 = RecvBlocks w.
Proof.
  exists (syscall env c w).2. split; [reflexivity|].
  destruct (syscall_frame env c w) as (? & ? & ? & ? & _). auto.
Qed.

Lemma after_calls_refl w : after_calls w [] w.
Proof. unfold after_calls. rewrite app_nil_r. auto. Qed.

Lemma after_calls_trans w tr1 w1 tr2 w2 :
  after_calls w tr1 w1 -> after_calls w1 tr2 w2 -> after_calls w (tr1 ++ tr2) w2.
Proof.
  intros (H1 & H2 & H3 & H4) (H5 & H6 & H7 & H8). unfold after_calls.
  rewrite H5, H1, app_assoc. repeat split; congruence.
Qed.

Lemma receive_options_run env af fd w :
  exists w1 tr,
    (forall A (k : Z -> M A),
    bind
      (if af =? AF_INET then
         _ <- syscall env (sys_setsockopt fd IPPROTO_IP IP_RECVDSTADDR TRUE 4) ;;
         _ <- syscall env (sys_setsockopt fd IPPROTO_IP IP_PKTINFO TRUE 4) ;;
         _ <- syscall env (sys_setsockopt fd IPPROTO_IP IP_RECVIF TRUE 4) ;;
         ret sizeof_sockaddr_in
       else
         _ <- syscall env (sys_setsockopt fd IPPROTO_IPV6 IPV6_RECVPKTINFO TRUE 4) ;;
         _ <- syscall env (sys_setsockopt fd IPPROTO_IPV6 IPV6_V6ONLY FALSE 4) ;;
         _ <- syscall env (sys_setsockopt fd IPPROTO_IPV6 IPV6_RECVPKTINFO TRUE 4) ;;
         ret sizeof_sockaddr_in6) k w =
      k (if af =? AF_INET then sizeof_sockaddr_in else sizeof_sockaddr_in6) w1) /\
    after_calls w tr w1 /\
    map blank tr = map (fun c => EvSys c 0) (receive_options af fd).
Proof.
  unfold receive_options.
  destruct (af =? AF_INET).
  - destruct (syscall_frame env (sys_setsockopt fd IPPROTO_IP IP_RECVDSTADDR TRUE 4) w)
      as (T1 & B1 & D1 & R1 & _).
    set (w1 := (syscall env _ w).2) in *.
    destruct (syscall_frame env (sys_setsockopt fd IPPROTO_IP IP_PKTINFO TRUE 4) w1)
      as (T2 & B2 & D2 & R2 & _).
    set (w2 := (syscall env _ w1).2) in *.
    destruct (syscall_frame env (sys_setsockopt fd IPPROTO_IP IP_RECVIF TRUE 4) w2)
      as (T3 & B3 & D3 & R3 & _).
    set (w3 := (syscall env _ w2).2) in *.
    exists w3. eexists. split; [intros A k; reflexivity|]. split.
    + unfold after_calls. rewrite T3, T2, T1, <- !app_assoc.
      split; [reflexivity|]. repeat split; congruence.
    + reflexivity.
  - destruct (syscall_frame env (sys_setsockopt fd IPPROTO_IPV6 IPV6_RECVPKTINFO TRUE 4) w)
      as (T1 & B1 & D1 & R1 & _).
    set (w1 := (syscall env _ w).2) in *.
    destruct (syscall_frame env (sys_setsockopt fd IPPROTO_IPV6 IPV6_V6ONLY FALSE 4) w1)
      as (T2 & B2 & D2 & R2 & _).
    set (w2 := (syscall env _ w1).2) in *.
    destruct (syscall_frame env (sys_setsockopt fd IPPROTO_IPV6 IPV6_RECVPKTINFO TRUE 4) w2)
      as (T3 & B3 & D3 & R3 & _).
    set (w3 := (syscall env _ w2).2) in *.
    exists w3. eexists. split; [intros A k; reflexivity|]. split.
    + unfold after_calls. rewrite T3, T2, T1, <- !app_assoc.
      split; [reflexivity|]. repeat split; congruence.
    + reflexivity.
Qed.

Lemma address_family_run LocalAddress RemoteAddress af w :
  address_family LocalAddress RemoteAddress = Some af ->
  match RemoteAddress with
  | None =>
      match LocalAddress with
      | Some l => ret (sa_family l)
      | None => fault "NULL pointer"
      end
  | Some r => ret (sa_family r)
  end w = (Done af, w).
Proof.
  unfold address_family.
  destruct RemoteAddress as [r|]; [intros [= <-]; reflexivity|].
  destruct LocalAddress as [l|]; [intros [= <-]; reflexivity | discriminate].
Qed.

Lemma QuicSocketContextInitialize_checked
    P env B i b s ProcContext LocalAddress RemoteAddress af w :
  Bindings w !! B = Some b ->
  0 <= i ->
  SocketContexts b !! Z.to_nat i = Some s ->
  address_family LocalAddress RemoteAddress = Some af ->
  sockets_work P env ->
  SOCKET_ERROR P <> 0 ->
  QUIC_FAILED P (QUIC_STATUS_SUCCESS P) = false ->
  exists w' fd name tr,
    QuicSocketContextInitialize P env (B, i) ProcContext LocalAddress RemoteAddress w =
      (asserted P LocalAddress name (QUIC_STATUS_SUCCESS P), w') /\
    fd <> INVALID_SOCKET_FD P /\
    (exists tr0, name = sys_sockname env tr0 fd) /\
    Bindings w' =
      <[B := set_Binding_LocalAddress
               (write_sockaddr16 name (Binding_LocalAddress b))
               (set_SocketContexts
                  (<[Z.to_nat i := set_SocketFd fd s]> (SocketContexts b)) b)]>
        (Bindings w) /\
    Trace w' = Trace w ++ tr /\
    map blank tr =
      map (fun c => EvSys c 0)
        (Initialize_calls af fd (Binding_LocalAddress b) RemoteAddress) /\
    Datapath w' = Datapath w /\
    RecvBlocks w' = RecvBlocks w.
Proof.
  intros Hb Hi Hs Haf [Hsock Hchk] Herr Hok.
  assert (Hlen : (Z.to_nat i < length (SocketContexts b))%nat)
    by (eapply lookup_lt_Some; eauto).
  unfold QuicSocketContextInitialize. cbn [fst snd].
  (* the two socket calls *)
  destruct (syscall_step env (sys_socket af SOCK_DGRAM 0) w)
    as (w1 & Hrun1 & T1 & B1 & D1 & R1).
  set (fd1 := sys_ret env (Trace w) (sys_socket af SOCK_DGRAM 0)) in *.
  set (b1 := set_SocketContexts (<[Z.to_nat i := set_SocketFd fd1 s]> (SocketContexts b)) b).
  set (w2 := set_Bindings (<[B := b1]> (Bindings w1)) w1).
  destruct (syscall_step env (sys_socket AF_INET SOCK_DGRAM 0) w2)
    as (w3 & Hrun3 & T3 & B3 & D3 & R3).
  set (fd := sys_ret env (Trace w2) (sys_socket AF_INET SOCK_DGRAM 0)) in *.
  set (b2 := set_SocketContexts (<[Z.to_nat i := set_SocketFd fd s]> (SocketContexts b)) b).
  set (w4 := set_Bindings (<[B := b2]> (Bindings w3)) w3).
  assert (Hfd : fd <> INVALID_SOCKET_FD P) by apply Hsock.
  assert (HB4 : Bindings w4 !! B = Some b2) by apply lookup_insert_eq.
  (* the receive options *)
  destruct (receive_options_run env af fd w4) as (w5 & tr5 & Hopt & A5 & Hbl5).
  pose proof A5 as (T5 & B5 & D5 & R5).
  assert (HB5 : Bindings w5 !! B = Some b2) by (rewrite B5; exact HB4).
  set (w6 := set_Trace (Trace w5 ++ [EvSys (sys_setsockopt fd SOL_SOCKET SO_REUSEADDR TRUE 4) 0]) w5).
  set (w7 := set_Trace (Trace w6 ++ [EvSys (sys_bind fd (Binding_LocalAddress b) sizeof_sockaddr) 0]) w6).
  set (AddrSize := if af =? AF_INET then sizeof_sockaddr_in else sizeof_sockaddr_in6).
  set (w8 := match RemoteAddress with
             | Some r => set_Trace (Trace w7 ++ [EvSys (sys_connect fd r AddrSize) 0]) w7
             | None => w7
             end).
  assert (HB8 : Bindings w8 !! B = Some b2) by (subst w8; destruct RemoteAddress; exact HB5).
  set (name := sys_sockname env (Trace w8) fd).
  set (b3 := set_Binding_LocalAddress (write_sockaddr16 name (Binding_LocalAddress b)) b2).
  set (w9 := set_Bindings (<[B := b3]> (Bindings w8))
               (set_Trace (Trace w8 ++ [EvSys (sys_getsockname fd sizeof_sockaddr) 0]) w8)).
  assert (Hblock :
    (af_family <-
       match RemoteAddress with
       | None =>
           match LocalAddress with
           | Some l => ret (sa_family l)
           | None => fault "NULL pointer"
           end
       | Some r => ret (sa_family r)
       end ;;
     fd <- syscall env (sys_socket af_family SOCK_DGRAM 0) ;;
     store_SocketFd (B, i) fd ;;
     fd <- syscall env (sys_socket AF_INET SOCK_DGRAM 0) ;;
     store_SocketFd (B, i) fd ;;
     if fd =? INVALID_SOCKET_FD P then
       int3 P ;;
       errno_Status B "socket failed"
     else
       AddrSize <-
         (if af_family =? AF_INET then
            _ <- syscall env (sys_setsockopt fd IPPROTO_IP IP_RECVDSTADDR TRUE 4) ;;
            _ <- syscall env (sys_setsockopt fd IPPROTO_IP IP_PKTINFO TRUE 4) ;;
            _ <- syscall env (sys_setsockopt fd IPPROTO_IP IP_RECVIF TRUE 4) ;;
            ret sizeof_sockaddr_in
          else
            _ <- syscall env (sys_setsockopt fd IPPROTO_IPV6 IPV6_RECVPKTINFO TRUE 4) ;;
            _ <- syscall env (sys_setsockopt fd IPPROTO_IPV6 IPV6_V6ONLY FALSE 4) ;;
            _ <- syscall env (sys_setsockopt fd IPPROTO_IPV6 IPV6_RECVPKTINFO TRUE 4) ;;
            ret sizeof_sockaddr_in6) ;;
       Result <- syscall env (sys_setsockopt fd SOL_SOCKET SO_REUSEADDR TRUE 4) ;;
       if Result =? SOCKET_ERROR P then
         errno_Status B "setsockopt(SO_REUSEADDR) failed"
       else
         b <- deref Bindings (Some B) ;;
         Result <- syscall env (sys_bind fd (Binding_LocalAddress b) sizeof_sockaddr) ;;
         if Result =? SOCKET_ERROR P then
           errno_Status B "bind() failed"
         else
           connected <-
             match RemoteAddress with
             | Some r =>
                 Result <- syscall env (sys_connect fd r AddrSize) ;;
                 if Result =? SOCKET_ERROR P then
                   int3 P ;;
                   Status <- errno_Status B "connect failed" ;;
                   ret (Some Status)
                 else ret None
             | None => ret None
             end ;;
           match connected with
           | Some Status => ret Status
           | None =>
               Result <- getsockname_LocalAddress env fd B ;;
               if Result =? SOCKET_ERROR P then
                 errno_Status B "getsockname failed"
               else
                 b <- deref Bindings (Some B) ;;
                 match LocalAddress with
                 | Some l =>
                     if negb (sin_port l =? 0) then
                       QUIC_DBG_ASSERT P
                         (sin_port l =? sin_port (Binding_LocalAddress b))
                     else ret tt
                 | None => ret tt
                 end ;;
                 ret (QUIC_STATUS_SUCCESS P)
           end) w = (asserted P LocalAddress name (QUIC_STATUS_SUCCESS P), w9)).
  { assert (Hz : forall x, x = 0 -> (x =? SOCKET_ERROR P) = false).
    { intros x ->. apply Z.eqb_neq. congruence. }
    erewrite bind_Done; [|apply address_family_run; exact Haf].
    erewrite bind_Done; [|exact Hrun1].
    erewrite bind_Done;
      [|eapply store_SocketFd_eq; [rewrite B1; exact Hb | exact Hi | exact Hs]].
    fold b1. fold w2.
    erewrite bind_Done; [|exact Hrun3].
    erewrite bind_Done; last first.
    { eapply store_SocketFd_eq; [rewrite B3; apply lookup_insert_eq | exact Hi |].
      subst b1. cbn. apply list_lookup_insert_eq. exact Hlen. }
    replace (fd =? INVALID_SOCKET_FD P) with false
      by (symmetry; apply Z.eqb_neq; exact Hfd).
    match goal with
    | |- context [<[B := ?bb]> (Bindings w3)] =>
        replace bb with b2
          by (subst b1 b2; cbn; rewrite list_insert_insert_eq; reflexivity)
    end.
    fold w4. rewrite Hopt. fold AddrSize.
    erewrite bind_Done; [|apply syscall_zero; apply Hchk; reflexivity].
    rewrite Hz by reflexivity. fold w6.
    erewrite bind_Done; [|apply deref_Some; exact HB5].
    change (Binding_LocalAddress b2) with (Binding_LocalAddress b).
    erewrite bind_Done; [|apply syscall_zero; apply Hchk; reflexivity].
    rewrite Hz by reflexivity. fold w7.
    erewrite bind_Done; last first.
    { instantiate (1 := w8). instantiate (1 := None). subst w8.
      destruct RemoteAddress as [r|]; [|reflexivity].
      erewrite bind_Done; [|apply syscall_zero; apply Hchk; reflexivity].
      rewrite Hz by reflexivity. reflexivity. }
    cbv iota.
    erewrite bind_Done;
      [|apply getsockname_LocalAddress_eq; [exact HB8 | apply Hchk; reflexivity]].
    rewrite Hz by reflexivity.
    fold name. change (Binding_LocalAddress b2) with (Binding_LocalAddress b).
    fold b3. fold w9.
    erewrite bind_Done; [|apply deref_Some; apply lookup_insert_eq].
    unfold asserted, port_assertion_holds.
    destruct LocalAddress as [l|]; [|reflexivity].
    destruct (sin_port l =? 0) eqn:Hp0;
      [rewrite orb_true_r; reflexivity|]. cbn [negb].
    rewrite orb_false_r. unfold QUIC_DBG_ASSERT, bind.
    change (sin_port (Binding_LocalAddress b3)) with (sin_port name).
    destruct (QUIC_DEBUG P); [|reflexivity]. cbn [andb negb orb].
    destruct (sin_port l =? sin_port name); reflexivity. }
  assert (Hwhole :
    QuicSocketContextInitialize P env (B, i) ProcContext LocalAddress
      RemoteAddress w =
    (asserted P LocalAddress name (QUIC_STATUS_SUCCESS P), w9)).
  { unfold QuicSocketContextInitialize. cbn [fst snd]. unfold asserted in *.
    destruct (port_assertion_holds P LocalAddress name).
    - erewrite bind_Done; [|exact Hblock]. rewrite Hok. reflexivity.
    - erewrite bind_Terminated; [reflexivity | exact Hblock]. }
  exists w9, fd, name. eexists.
  split; [exact Hwhole|]. split; [exact Hfd|].
  split; [eexists; reflexivity|].
  destruct A5 as (_ & _ & _ & _).
  assert (Hbd8 : Bindings w8 = <[B := b2]> (Bindings w)).
  { subst w8. destruct RemoteAddress; cbn; rewrite B5; subst w4; cbn;
      rewrite B3; subst w2; cbn; rewrite insert_insert_eq, B1; reflexivity. }
  assert (Htr8 : Trace w8 = Trace w ++
            [EvSys (sys_socket af SOCK_DGRAM 0) fd1;
             EvSys (sys_socket AF_INET SOCK_DGRAM 0) fd] ++ tr5 ++
            [EvSys (sys_setsockopt fd SOL_SOCKET SO_REUSEADDR TRUE 4) 0;
             EvSys (sys_bind fd (Binding_LocalAddress b) sizeof_sockaddr) 0] ++
            match RemoteAddress with
            | Some r => [EvSys (sys_connect fd r AddrSize) 0]
            | None => []
            end).
  { subst w8. destruct RemoteAddress; cbn; rewrite T5; subst w4; cbn;
      rewrite T3; subst w2; cbn; rewrite T1; rewrite <- !app_assoc; cbn;
      rewrite ?app_nil_r; reflexivity. }
  split; [|split; [|split; [|split]]].
  - subst w9. cbn. rewrite Hbd8, insert_insert_eq. reflexivity.
  - subst w9. cbn. rewrite Htr8, <- !app_assoc. reflexivity.
  - rewrite !map_app, Hbl5. unfold Initialize_calls. rewrite !map_app.
    destruct RemoteAddress; reflexivity.
  - subst w9 w8. destruct RemoteAddress; cbn; rewrite D5; subst w4; cbn;
      rewrite D3; subst w2; cbn; exact D1.
  - subst w9 w8. destruct RemoteAddress; cbn; rewrite R5; subst w4; cbn;
      rewrite R3; subst w2; cbn; exact R1.
Qed.

Lemma port_as_requested_holds P env LocalAddress tr fd :
  port_as_requested P env LocalAddress ->
  port_assertion_holds P LocalAddress (sys_sockname env tr fd) = true.
Proof.
  intros Hport. unfold port_assertion_holds.
  destruct LocalAddress as [l|]; [|reflexivity].
  destruct (QUIC_DEBUG P) eqn:Hd; [|reflexivity].
  destruct (sin_port l =? 0) eqn:Hp0; [reflexivity|].
  apply Z.eqb_neq in Hp0.
  rewrite (Hport Hd l eq_refl Hp0), Z.eqb_refl. reflexivity.
Qed.

Lemma QuicSocketContextInitialize_run
    P env B i b s ProcContext LocalAddress RemoteAddress af w :
  Bindings w !! B = Some b ->
  0 <= i ->
  SocketContexts b !! Z.to_nat i = Some s ->
  address_family LocalAddress RemoteAddress = Some af ->
  sockets_work P env ->
  SOCKET_ERROR P <> 0 ->
  QUIC_FAILED P (QUIC_STATUS_SUCCESS P) = false ->
  port_as_requested P env LocalAddress ->
  exists w' fd name tr,
    QuicSocketContextInitialize P env (B, i) ProcContext LocalAddress RemoteAddress w =
      (Done (QUIC_STATUS_SUCCESS P), w') /\
    fd <> INVALID_SOCKET_FD P /\
    (exists tr0, name = sys_sockname env tr0 fd) /\
    Bindings w' =
      <[B := set_Binding_LocalAddress
               (write_sockaddr16 name (Binding_LocalAddress b))
               (set_SocketContexts
                  (<[Z.to_nat i := set_SocketFd fd s]> (SocketContexts b)) b)]>
        (Bindings w) /\
    Trace w' = Trace w ++ tr /\
    map blank tr =
      map (fun c => EvSys c 0)
        (Initialize_calls af fd (Binding_LocalAddress b) RemoteAddress) /\
    Datapath w' = Datapath w /\
    RecvBlocks w' = RecvBlocks w.
Proof.
  intros Hb Hi Hs Haf Hwork Herr Hok Hport.
  destruct (QuicSocketContextInitialize_checked P env B i b s ProcContext
              LocalAddress RemoteAddress af w Hb Hi Hs Haf Hwork Herr Hok)
    as (w' & fd & name & tr & Hrun & Hfd & (tr0 & Hname) & Hrest).
  exists w', fd, name, tr. split; [|split; [exact Hfd|split; [eauto|exact Hrest]]].
  rewrite Hrun. unfold asserted. subst name.
  rewrite (port_as_requested_holds P env LocalAddress tr0 fd Hport). reflexivity.
Qed.

(** X16: what QuicSocketContextInitialize does when the calls it checks
    succeed (the AF_INET socket, SO_REUSEADDR, bind, connect, getsockname),
    whatever the calls that ask for packet information return: their
    results are not looked at.  It makes a socket of the address family
    first and keeps an AF_INET one; it binds the address the binding held on
    entry, with the length of a struct sockaddr, and not the LocalAddress
    argument; it connects when there is a remote address; and it overwrites
    the first sixteen bytes of the binding's local address with what
    getsockname reports.  It then returns QUIC_STATUS_SUCCESS, with one
    exception: in a debug build, for a caller that asked for a port, the
    process ends at the QUIC_DBG_ASSERT on the port unless getsockname
    reports that very port, which is not the one that was bound.  The
    socket is left open in that case. *)
Theorem QuicSocketContextInitialize_when_calls_succeed :
  forall P env B i b s ProcContext LocalAddress RemoteAddress af w,
    Bindings w !! B = Some b ->
    0 <= i ->
    SocketContexts b !! Z.to_nat i = Some s ->
    address_family LocalAddress RemoteAddress = Some af ->
    sockets_work P env ->
    SOCKET_ERROR P <> 0 ->
    QUIC_FAILED P (QUIC_STATUS_SUCCESS P) = false ->
    let out :=
      QuicSocketContextInitialize P env (B, i) ProcContext LocalAddress
        RemoteAddress w in
    exists fd name,
      out.1 = asserted P LocalAddress name (QUIC_STATUS_SUCCESS P) /\
      map blank (added w out.2) =
        map (fun c => EvSys c 0)
          (Initialize_calls af fd (Binding_LocalAddress b) RemoteAddress) /\
      fd <> INVALID_SOCKET_FD P /\
      SocketFd_at out.2 (B, i) = Some fd /\
      (exists tr, name = sys_sockname env tr fd) /\
      Binding_LocalAddress <$> Bindings out.2 !! B =
        Some (write_sockaddr16 name (Binding_LocalAddress b)).
Proof.
  intros P env B i b s proc L R af w Hb Hi Hs Haf Hwork Herr Hok out.
  destruct (QuicSocketContextInitialize_checked P env B i b s proc L R af w
              Hb Hi Hs Haf Hwork Herr Hok)
    as (w' & fd & name & tr & Hrun & Hfd & Hname & Hbd & Htr & Hbl & _).
  subst out. rewrite Hrun. cbn [fst snd].
  exists fd, name. split; [reflexivity|].
  split; [rewrite (added_app _ _ _ Htr); exact Hbl|].
  split; [exact Hfd|]. split; [|split; [exact Hname|]].
  - unfold SocketFd_at. cbn. rewrite Hbd, lookup_insert_eq. cbn.
    rewrite list_lookup_insert_eq by (eapply lookup_lt_Some; eauto). reflexivity.
  - rewrite Hbd, lookup_insert_eq. reflexivity.
Qed.

Lemma env_ok_sockets_work : sockets_work (posix false) env_ok.
Proof.
  split.
  - intros tr. cbn. unfold fresh. lia.
  - intros tr [] H; try discriminate H; reflexivity.
Defined.

Lemma env_ok_receive_starts : receive_starts env_ok.
Proof.
  split.
  - intros tr. cbn. eauto.
  - intros tr [] H; try discriminate H. cbn. lia.
Defined.

Lemma release_port_as_requested env LocalAddress :
  port_as_requested (posix false) env LocalAddress.
Proof. intros H. discriminate H. Defined.

Lemma env_ok_sockets_work_debug : sockets_work (posix true) env_ok.
Proof.
  split.
  - intros tr. cbn. unfold fresh. lia.
  - intros tr [] H; try discriminate H; reflexivity.
Defined.

Lemma QuicSocketContextInitialize_when_calls_succeed_witness :
  let out :=
    QuicSocketContextInitialize (posix true) env_ok (3%N, 0) 0 (Some port4433)
      None unbound in
  out.1 = Terminated "QUIC_DBG_ASSERT" /\
  exists fd name,
    out.1 = asserted (posix true) (Some port4433) name
              (QUIC_STATUS_SUCCESS (posix true)) /\
    map blank (added unbound out.2) =
      map (fun c => EvSys c 0) (Initialize_calls AF_INET6 fd zero_addr None) /\
    fd <> INVALID_SOCKET_FD (posix true) /\
    SocketFd_at out.2 (3%N, 0) = Some fd /\
    (exists tr, name = sys_sockname env_ok tr fd) /\
    Binding_LocalAddress <$> Bindings out.2 !! 3%N =
      Some (write_sockaddr16 name zero_addr).
Proof.
  split; [vm_compute; reflexivity|].
  refine (QuicSocketContextInitialize_when_calls_succeed (posix true) env_ok 3 0
            unbound_binding unbound_socket 0 (Some port4433) None AF_INET6
            unbound _ _ _ _ env_ok_sockets_work_debug _ _).
  - vm_compute. reflexivity.
  - lia.
  - reflexivity.
  - reflexivity.
  - discriminate.
  - reflexivity.
Defined.

(** * Bindings: creation, getters and deletion *)

Lemma set_Binding_RemoteAddress_id b :
  set_Binding_RemoteAddress (Binding_RemoteAddress b) b = b.
Proof. destruct b; reflexivity. Qed.

Lemma set_Binding_LocalAddress_id b :
  set_Binding_LocalAddress (Binding_LocalAddress b) b = b.
Proof. destruct b; reflexivity. Qed.

(** The store of the remote address's family in QuicDataPathBindingCreate. *)
Lemma Create_LocalAddress_step B b LocalAddress RemoteAddress af w :
  address_family LocalAddress RemoteAddress = Some af ->
  Bindings w !! B = Some b ->
  Binding_LocalAddress b = zero_addr ->
  exists w',
    match LocalAddress with
    | Some _ => ret tt
    | None =>
        match RemoteAddress with
        | Some r =>
            store_Binding B
              (set_Binding_LocalAddress
                 (set_sa_family (sa_family r) (Binding_LocalAddress b)) b)
        | None => fault "NULL pointer"
        end
    end w = (Done tt, w') /\
    Bindings w' =
      <[B := set_Binding_LocalAddress
               (Create_LocalAddress LocalAddress RemoteAddress) b]> (Bindings w) /\
    Trace w' = Trace w /\ Datapath w' = Datapath w /\
    RecvBlocks w' = RecvBlocks w.
Proof.
  intros Haf Hb Hz. unfold Create_LocalAddress.
  destruct LocalAddress as [l|].
  - exists w. split; [reflexivity|]. split; [|auto].
    rewrite <- Hz, set_Binding_LocalAddress_id, insert_id; auto.
  - destruct RemoteAddress as [r|]; [|discriminate].
    eexists. split; [reflexivity|]. rewrite Hz. cbn. auto.
Qed.

(** The copy of the remote address in QuicDataPathBindingCreate. *)
Lemma Create_RemoteAddress_step B b RemoteAddress w :
  Bindings w !! B = Some b ->
  exists w',
    match RemoteAddress with
    | Some r =>
        b <- deref Bindings (Some B) ;;
        store_Binding B (set_Binding_RemoteAddress r b)
    | None => ret tt
    end w = (Done tt, w') /\
    Bindings w' =
      <[B := set_Binding_RemoteAddress
               (default (Binding_RemoteAddress b) RemoteAddress) b]> (Bindings w) /\
    Trace w' = Trace w /\ Datapath w' = Datapath w /\
    RecvBlocks w' = RecvBlocks w.
Proof.
  intros Hb. destruct RemoteAddress as [r|].
  - eexists. split.
    + erewrite bind_Done; [|apply deref_Some; exact Hb]. reflexivity.
    + cbn. auto.
  - exists w. split; [reflexivity|]. split; [|auto].
    cbn. rewrite set_Binding_RemoteAddress_id, insert_id; auto.
Qed.

Lemma QuicDataPathBindingCreate_checked
    P env LocalAddress RemoteAddress RecvCallbackContext af proc B w :
  ProcCount (Datapath w) = 1 ->
  ProcContexts (Datapath w) !! 0%nat = Some proc ->
  heap_alloc env (Trace w) 1 = Some B ->
  address_family LocalAddress RemoteAddress = Some af ->
  sockets_work P env ->
  receive_starts env ->
  SOCKET_ERROR P <> 0 ->
  QUIC_FAILED P (QUIC_STATUS_SUCCESS P) = false ->
  exists w4 w' fd name p blk s,
    QuicDataPathBindingCreate P env LocalAddress RemoteAddress RecvCallbackContext w =
      (if port_assertion_holds P LocalAddress name
       then (Done (QUIC_STATUS_SUCCESS P, Some B), w')
       else (Terminated "QUIC_DBG_ASSERT", w4)) /\
    map blank (added w w4) =
      Create_socket_events B af fd LocalAddress RemoteAddress /\
    SocketFd_at w4 (B, 0) = Some fd /\
    fd <> INVALID_SOCKET_FD P /\
    (exists tr0, name = sys_sockname env tr0 fd) /\
    s = mkSocketContext fd false
          (mkIov (Some p)
             (wrap 64 (QUIC_MAX_MTU P - QUIC_MIN_IPV4_HEADER_SIZE P -
                       QUIC_UDP_HEADER_SIZE P)))
          (armed_msghdr p) (Some p) [] /\
    Bindings w' =
      <[B := mkBinding RecvCallbackContext
               (write_sockaddr16 name (Create_LocalAddress LocalAddress RemoteAddress))
               (default zero_addr RemoteAddress) false false (QUIC_MAX_MTU P) [s]]>
        (Bindings w) /\
    RecvBlocks w' = <[p := blk]> (RecvBlocks w) /\
    Tuple (Block_RecvPacket blk) = Some p /\
    Datapath w' = Datapath w /\
    map blank (added w w') =
      Create_events B af fd p (KqueueFd proc) LocalAddress RemoteAddress.
Proof.
  intros Hcount Hproc Halloc Haf Hwork [Hpool Hkev] Herr Hok.
  unfold QuicDataPathBindingCreate.
  unfold bind at 1, get at 1. rewrite Hcount.
  erewrite bind_Done; last first.
  { unfold QUIC_ALLOC_PAGED. rewrite Halloc. reflexivity. }
  cbv iota beta.
  change (Z.to_nat 1) with 1%nat. cbn [replicate for_each for_status].
  set (b0 := mkBinding _ _ _ _ _ _ _).
  erewrite bind_Done; [|reflexivity].
  erewrite bind_Done; [|reflexivity].
  erewrite bind_Done; [|reflexivity].
  match goal with |- context [bind _ _ ?w1] => set (w1' := w1) end.
  destruct (Create_LocalAddress_step B b0 LocalAddress RemoteAddress af w1' Haf)
    as (w2 & Hrun2 & Hb2 & Ht2 & Hd2 & Hr2).
  { subst w1'. cbn. apply lookup_insert_eq. }
  { reflexivity. }
  erewrite bind_Done; [|exact Hrun2].
  set (b1 := set_Binding_LocalAddress _ b0) in Hb2.
  assert (Hb1 : Bindings w2 !! B = Some b1) by (rewrite Hb2; apply lookup_insert_eq).
  erewrite bind_Done; last first.
  { erewrite bind_Done; last first.
    { erewrite bind_Done; [|apply deref_Some; exact Hb1].
      erewrite bind_Done; last first.
      { eapply load_SocketContext_eq; [exact Hb1 | lia | reflexivity]. }
      erewrite bind_Done; last first.
      { eapply store_SocketContext_eq; [exact Hb1 | lia | reflexivity]. }
      reflexivity. }
    reflexivity. }
  erewrite bind_Done; [|reflexivity].
  match goal with |- context [bind _ _ ?w1] => set (w3 := w1) end.
  set (s0 := mkSocketContext (INVALID_SOCKET_FD P) false
               (mkIov None
                  (wrap 64 (QUIC_MAX_MTU P - QUIC_MIN_IPV4_HEADER_SIZE P -
                            QUIC_UDP_HEADER_SIZE P)))
               zero_msghdr None []).
  set (b2 := set_SocketContexts [s0] b1).
  assert (Hb3 : Bindings w3 = <[B := b2]> (Bindings w)).
  { subst w3. cbn [Bindings set_Trace set_Bindings]. rewrite Hb2.
    subst w1'. cbn [Bindings set_Trace set_Bindings set_Log].
    rewrite !insert_insert_eq. reflexivity. }
  assert (Ht3 : Trace w3 = Trace w ++
            [EvAlloc 1 (Some B); EvRundown RundownInitialize (Rundown B);
             EvRundown RundownAcquire (Rundown B);
             EvRundown RundownAcquire BindingsRundown]).
  { subst w3. cbn [Trace set_Trace set_Bindings]. rewrite Ht2.
    subst w1'. cbn [Trace set_Trace set_Bindings set_Log].
    rewrite <- !app_assoc. reflexivity. }
  assert (Hd3 : Datapath w3 = Datapath w).
  { subst w3. cbn [Datapath set_Trace set_Bindings]. rewrite Hd2. reflexivity. }
  assert (Hr3 : RecvBlocks w3 = RecvBlocks w).
  { subst w3. cbn [RecvBlocks set_Trace set_Bindings]. rewrite Hr2. reflexivity. }
  clearbody w3. clear Hrun2 Hb1.
  destruct (QuicSocketContextInitialize_checked P env B 0 b2 s0 0
              LocalAddress RemoteAddress af w3)
    as (w4 & fd & name & tr & Hrun4 & Hfd & Hname & Hb4 & Ht4 & Hbl4 & Hd4 & Hr4);
    [rewrite Hb3; apply lookup_insert_eq | lia | reflexivity | exact Haf
    | exact Hwork | exact Herr | exact Hok |].
  set (b4 := set_Binding_LocalAddress _ _) in Hb4.
  destruct (Create_RemoteAddress_step B b4 RemoteAddress w4)
    as (w5 & Hrun5 & Hb5 & Ht5 & Hd5 & Hr5);
    [rewrite Hb4; apply lookup_insert_eq|].
  set (b5 := set_Binding_RemoteAddress _ _) in Hb5.
  destruct (Hpool (Trace w5)) as [p Hp].
  destruct (QuicSocketContextStartReceive_registered P env B 0 b5
              (set_SocketFd fd s0) p (KqueueFd proc) w5)
    as (w6 & b6 & s6 & blk & Hrun6 & Hready & Hs6 & Hb6' & Ht6 & Hd6 & Hb6 & Hr6);
    [rewrite Hb5; apply lookup_insert_eq | lia | reflexivity | reflexivity
    | exact Hok | exact Hp | apply Hkev; reflexivity |].
  exists w4, w6, fd, name, p, blk, s6.
  split.
  { unfold asserted in Hrun4.
    destruct (port_assertion_holds P LocalAddress name).
    - erewrite bind_Done; last first.
      { erewrite bind_Done; last first.
        { erewrite bind_Done; [|exact Hrun4]. rewrite Hok. reflexivity. }
        reflexivity. }
      cbv iota beta.
      erewrite bind_Done; last first.
      { erewrite bind_Done; [|exact Hrun5].
        unfold bind at 1, get at 1. rewrite Hd5, Hd4, Hd3, Hcount.
        change (Z.to_nat 1) with 1%nat. cbn [for_status].
        erewrite bind_Done; last first.
        { erewrite bind_Done; last first.
          { unfold bind at 1, get at 1. rewrite Hd5, Hd4, Hd3.
            erewrite bind_Done; last first.
            { apply index_Some; [lia | exact Hproc]. }
            erewrite bind_Done; [|exact Hrun6]. rewrite Hok. reflexivity. }
          reflexivity. }
        reflexivity. }
      cbv iota beta. rewrite Hok.
      erewrite bind_Done; [|reflexivity]. reflexivity.
    - apply bind_Terminated, bind_Terminated, bind_Terminated. exact Hrun4. }
  split.
  { rewrite (added_app w w4
               ([EvAlloc 1 (Some B); EvRundown RundownInitialize (Rundown B);
                 EvRundown RundownAcquire (Rundown B);
                 EvRundown RundownAcquire BindingsRundown] ++ tr))
      by (rewrite Ht4, Ht3, <- !app_assoc; reflexivity).
    unfold Create_socket_events. rewrite !map_app, Hbl4. reflexivity. }
  split.
  { unfold SocketFd_at. cbn [fst snd]. rewrite Hb4, lookup_insert_eq.
    reflexivity. }
  split; [exact Hfd|]. split; [exact Hname|].
  split; [rewrite Hs6; reflexivity|].
  split.
  { rewrite Hb6, Hb5, Hb4, Hb3, !insert_insert_eq. f_equal.
    rewrite Hb6', Hs6. subst b5 b4 b2 b1 b0 s0. reflexivity. }
  split; [rewrite Hr6, Hr5, Hr4, Hr3; reflexivity|].
  split; [apply Hready|].
  split; [rewrite Hd6, Hd5, Hd4, Hd3; reflexivity|].
  rewrite (added_app w w6
             ([EvAlloc 1 (Some B); EvRundown RundownInitialize (Rundown B);
               EvRundown RundownAcquire (Rundown B);
               EvRundown RundownAcquire BindingsRundown] ++ tr ++
              [EvPoolAlloc (RecvBlockPool 0) (Some p);
               EvSys (register_call (KqueueFd proc) fd (B, 0))
                 (sys_ret env (Trace w5 ++ [EvPoolAlloc (RecvBlockPool 0) (Some p)])
                    (register_call (KqueueFd proc) fd (B, 0)))])).
  - unfold Create_events. rewrite !map_app, Hbl4. reflexivity.
  - rewrite Ht6, Ht5, Ht4, Ht3, <- !app_assoc. reflexivity.
Qed.

Lemma QuicDataPathBindingCreate_run
    P env LocalAddress RemoteAddress RecvCallbackContext af proc B w :
  ProcCount (Datapath w) = 1 ->
  ProcContexts (Datapath w) !! 0%nat = Some proc ->
  heap_alloc env (Trace w) 1 = Some B ->
  address_family LocalAddress RemoteAddress = Some af ->
  sockets_work P env ->
  receive_starts env ->
  SOCKET_ERROR P <> 0 ->
  QUIC_FAILED P (QUIC_STATUS_SUCCESS P) = false ->
  port_as_requested P env LocalAddress ->
  exists w' fd name p blk s,
    QuicDataPathBindingCreate P env LocalAddress RemoteAddress RecvCallbackContext w =
      (Done (QUIC_STATUS_SUCCESS P, Some B), w') /\
    fd <> INVALID_SOCKET_FD P /\
    (exists tr0, name = sys_sockname env tr0 fd) /\
    s = mkSocketContext fd false
          (mkIov (Some p)
             (wrap 64 (QUIC_MAX_MTU P - QUIC_MIN_IPV4_HEADER_SIZE P -
                       QUIC_UDP_HEADER_SIZE P)))
          (armed_msghdr p) (Some p) [] /\
    Bindings w' =
      <[B := mkBinding RecvCallbackContext
               (write_sockaddr16 name (Create_LocalAddress LocalAddress RemoteAddress))
               (default zero_addr RemoteAddress) false false (QUIC_MAX_MTU P) [s]]>
        (Bindings w) /\
    RecvBlocks w' = <[p := blk]> (RecvBlocks w) /\
    Tuple (Block_RecvPacket blk) = Some p /\
    Datapath w' = Datapath w /\
    map blank (added w w') =
      Create_events B af fd p (KqueueFd proc) LocalAddress RemoteAddress.
Proof.
  intros Hcount Hproc Halloc Haf Hwork Hrecv Herr Hok Hport.
  destruct (QuicDataPathBindingCreate_checked P env LocalAddress RemoteAddress
              RecvCallbackContext af proc B w Hcount Hproc Halloc Haf Hwork
              Hrecv Herr Hok)
    as (w4 & w' & fd & name & p & blk & s & Hrun & _ & _ & Hfd & (tr0 & Hname)
        & Hrest).
  exists w', fd, name, p, blk, s.
  split; [|split; [exact Hfd|split; [eauto|exact Hrest]]].
  rewrite Hrun. subst name.
  rewrite (port_as_requested_holds P env LocalAddress tr0 fd Hport). reflexivity.
Qed.

Lemma bind_ext {A B} (m : M A) (k1 k2 : A -> M B) w :
  (forall a w', k1 a w' = k2 a w') -> bind m k1 w = bind m k2 w.
Proof. intros H. unfold bind. destruct (m w) as [[a| |] w']; auto. Qed.

Lemma for_status_ext {A} (body1 body2 : Z -> M (option A)) n :
  (forall i w, body1 i w = body2 i w) ->
  forall i w, for_status n i body1 w = for_status n i body2 w.
Proof.
  intros H. induction n as [|n IH]; intros i w; [reflexivity|].
  cbn [for_status]. unfold bind. rewrite H.
  destruct (body2 i w) as [[[a|]| |] w']; auto.
Qed.

Lemma QUIC_DBG_ASSERT_release P c : QUIC_DEBUG P = false -> QUIC_DBG_ASSERT P c = ret tt.
Proof. intros H. unfold QUIC_DBG_ASSERT. rewrite H. reflexivity. Qed.

Ltac same_run :=
  repeat first
    [ reflexivity
    | apply bind_ext; intros
    | match goal with
      | |- (if ?c then _ else _) _ = _ => destruct c
      | |- match ?x with _ => _ end _ = _ => destruct x
      end ].

Lemma bind_ext_l {A B} (m1 m2 : M A) (k : A -> M B) w :
  m1 w = m2 w -> bind m1 k w = bind m2 k w.
Proof. intros H. unfold bind. rewrite H. reflexivity. Qed.

Lemma QuicSocketContextInitialize_LocalAddress P env sc proc l1 l2 RemoteAddress w :
  QUIC_DEBUG P = false ->
  (RemoteAddress = None -> sa_family l1 = sa_family l2) ->
  QuicSocketContextInitialize P env sc proc (Some l1) RemoteAddress w =
  QuicSocketContextInitialize P env sc proc (Some l2) RemoteAddress w.
Proof.
  intros Hrel Hfam. unfold QuicSocketContextInitialize.
  apply bind_ext_l.
  destruct RemoteAddress as [r|]; [|rewrite Hfam by reflexivity];
    same_run.
  all: rewrite !(QUIC_DBG_ASSERT_release P _ Hrel).
  all: do 2 destruct (negb _); reflexivity.
Qed.

(** X17: in a build without debug assertions QuicDataPathBindingCreate
    makes no use of the local address it is given, beyond the fact that it
    is not NULL and, without a remote address, its family: the port and the
    address the caller asks for reach neither bind() nor the binding, and
    two calls that differ in them alone run alike. *)
Theorem QuicDataPathBindingCreate_ignores_LocalAddress :
  forall P env l1 l2 RemoteAddress RecvCallbackContext w,
    QUIC_DEBUG P = false ->
    (RemoteAddress = None -> sa_family l1 = sa_family l2) ->
    QuicDataPathBindingCreate P env (Some l1) RemoteAddress RecvCallbackContext w =
    QuicDataPathBindingCreate P env (Some l2) RemoteAddress RecvCallbackContext w.
Proof.
  intros P env l1 l2 R ctx w Hrel Hfam.
  unfold QuicDataPathBindingCreate.
  apply bind_ext; intros dp w1.
  apply bind_ext; intros [B|] w2; [|reflexivity].
  do 6 (apply bind_ext; intros).
  apply bind_ext_l.
  apply for_status_ext.
  intros i w9. apply bind_ext_l.
  apply QuicSocketContextInitialize_LocalAddress; assumption.
Qed.

Lemma QuicDataPathBindingCreate_ignores_LocalAddress_witness :
  QuicDataPathBindingCreate (posix false) env_ok (Some any6) None 77 world0 =
  QuicDataPathBindingCreate (posix false) env_ok
    (Some (mkAddr AF_INET6 4433 0 (replicate 15 0 ++ [1]) 0)) None 77 world0.
Proof.
  refine (QuicDataPathBindingCreate_ignores_LocalAddress (posix false) env_ok
            any6 (mkAddr AF_INET6 4433 0 (replicate 15 0 ++ [1]) 0) None 77
            world0 _ _).
  - reflexivity.
  - intros _. reflexivity.
Defined.

(** X18: what QuicDataPathBindingCreate does on a datapath with one
    processor context, in surroundings in which the checked socket calls,
    the receive block pool and the readiness queue do not fail.  It
    allocates the binding, initialises its rundown and takes one reference
    on it for the socket and one on the datapath's BindingsRundown, makes
    the socket and binds it to the all-zero address that the new binding
    holds (with the remote address's family when no local address is
    given), so that the port is the kernel's choice, whatever LocalAddress
    asks for.  Then, in a debug build and for a caller that asked for a
    port that getsockname does not report, the process ends at the
    QUIC_DBG_ASSERT of QuicSocketContextInitialize, with the socket open
    and the binding allocated.  Otherwise the call arms the socket context
    with a block of the receive pool, registers the descriptor for read
    readiness with the context as user data, stores the new binding and
    returns QUIC_STATUS_SUCCESS; the binding's local address is what
    getsockname reported. *)
Theorem QuicDataPathBindingCreate_when_calls_succeed :
  forall P env LocalAddress RemoteAddress RecvCallbackContext af proc B w,
    ProcCount (Datapath w) = 1 ->
    ProcContexts (Datapath w) !! 0%nat = Some proc ->
    heap_alloc env (Trace w) 1 = Some B ->
    address_family LocalAddress RemoteAddress = Some af ->
    sockets_work P env ->
    receive_starts env ->
    SOCKET_ERROR P <> 0 ->
    QUIC_FAILED P (QUIC_STATUS_SUCCESS P) = false ->
    let out :=
      QuicDataPathBindingCreate P env LocalAddress RemoteAddress
        RecvCallbackContext w in
    exists fd name,
      fd <> INVALID_SOCKET_FD P /\
      (exists tr, name = sys_sockname env tr fd) /\
      if port_assertion_holds P LocalAddress name then
        exists p b s blk,
          out.1 = Done (QUIC_STATUS_SUCCESS P, Some B) /\
          map blank (added w out.2) =
            Create_events B af fd p (KqueueFd proc) LocalAddress RemoteAddress /\
          ready out.2 B 0 b s p blk /\
          SocketContexts b = [s] /\
          SocketFd s = fd /\
          iov_len (RecvIov s) =
            wrap 64 (QUIC_MAX_MTU P - QUIC_MIN_IPV4_HEADER_SIZE P -
                     QUIC_UDP_HEADER_SIZE P) /\
          ClientContext b = RecvCallbackContext /\
          Shutdown b = false /\
          Binding_LocalAddress b =
            write_sockaddr16 name (Create_LocalAddress LocalAddress RemoteAddress)
      else
        out.1 = Terminated "QUIC_DBG_ASSERT" /\
        map blank (added w out.2) =
          Create_socket_events B af fd LocalAddress RemoteAddress /\
        SocketFd_at out.2 (B, 0) = Some fd.
Proof.
  intros P env L R ctx af proc B w Hcount Hproc Halloc Haf Hwork Hrecv Herr Hok
    out.
  destruct (QuicDataPathBindingCreate_checked P env L R ctx af proc B w
              Hcount Hproc Halloc Haf Hwork Hrecv Herr Hok)
    as (w4 & w' & fd & name & p & blk & s & Hrun & Htr4 & Hfd4 & Hfd & Hname
        & Hs & Hb & Hr & Ht & _ & Htr).
  exists fd, name. split; [exact Hfd|]. split; [exact Hname|].
  subst out. rewrite Hrun.
  destruct (port_assertion_holds P L name); cbn [fst snd].
  - eexists p, _, s, blk.
    split; [reflexivity|]. split; [exact Htr|].
    split.
    { split; [|rewrite Hs; split; reflexivity].
      split; [rewrite Hb; apply lookup_insert_eq|].
      split; [lia|]. split; [reflexivity|].
      split; [rewrite Hs; reflexivity|].
      split; [rewrite Hr; apply lookup_insert_eq | exact Ht]. }
    split; [reflexivity|]. rewrite Hs. cbn. auto 10.
  - auto.
Qed.

Lemma QuicDataPathBindingCreate_when_calls_succeed_witness :
  let out :=
    QuicDataPathBindingCreate (posix true) env_ok (Some port4433) None 77 world0 in
  out.1 = Terminated "QUIC_DBG_ASSERT" /\
  exists fd name,
    fd <> INVALID_SOCKET_FD (posix true) /\
    (exists tr, name = sys_sockname env_ok tr fd) /\
    if port_assertion_holds (posix true) (Some port4433) name then
      exists p b s blk,
        out.1 = Done (QUIC_STATUS_SUCCESS (posix true), Some 3%N) /\
        map blank (added world0 out.2) =
          Create_events 3 AF_INET6 fd p 9 (Some port4433) None /\
        ready out.2 3 0 b s p blk /\
        SocketContexts b = [s] /\
        SocketFd s = fd /\
        iov_len (RecvIov s) = wrap 64 (1500 - 20 - 8) /\
        ClientContext b = 77 /\
        Shutdown b = false /\
        Binding_LocalAddress b =
          write_sockaddr16 name (Create_LocalAddress (Some port4433) None)
    else
      out.1 = Terminated "QUIC_DBG_ASSERT" /\
      map blank (added world0 out.2) =
        Create_socket_events 3 AF_INET6 fd (Some port4433) None /\
      SocketFd_at out.2 (3%N, 0) = Some fd.
Proof.
  split; [vm_compute; reflexivity|].
  refine (QuicDataPathBindingCreate_when_calls_succeed (posix true) env_ok
            (Some port4433) None 77 AF_INET6 (mkProcContext 9 0) 3 world0
            _ _ _ _ env_ok_sockets_work_debug env_ok_receive_starts _ _).
  - reflexivity.
  - reflexivity.
  - reflexivity.
  - reflexivity.
  - discriminate.
  - reflexivity.
Defined.

Lemma QuicDataPathBindingGetLocalMtu_eq P B b w :
  Bindings w !! B = Some b ->
  QuicDataPathBindingGetLocalMtu P (Some B) w = (Done (Mtu b), w).
Proof.
  intros Hb. unfold QuicDataPathBindingGetLocalMtu.
  rewrite bool_decide_true by discriminate.
  erewrite bind_Done; [|apply QUIC_DBG_ASSERT_true].
  erewrite bind_Done; [|apply deref_Some; exact Hb]. reflexivity.
Qed.

Lemma QuicDataPathBindingGetLocalAddress_eq P B b w :
  Bindings w !! B = Some b ->
  QuicDataPathBindingGetLocalAddress P (Some B) w = (Done (Binding_LocalAddress b), w).
Proof.
  intros Hb. unfold QuicDataPathBindingGetLocalAddress.
  rewrite bool_decide_true by discriminate.
  erewrite bind_Done; [|apply QUIC_DBG_ASSERT_true].
  erewrite bind_Done; [|apply deref_Some; exact Hb]. reflexivity.
Qed.

Lemma QuicDataPathBindingGetRemoteAddress_eq P B b w :
  Bindings w !! B = Some b ->
  QuicDataPathBindingGetRemoteAddress P (Some B) w = (Done (Binding_RemoteAddress b), w).
Proof.
  intros Hb. unfold QuicDataPathBindingGetRemoteAddress.
  rewrite bool_decide_true by discriminate.
  erewrite bind_Done; [|apply QUIC_DBG_ASSERT_true].
  erewrite bind_Done; [|apply deref_Some; exact Hb]. reflexivity.
Qed.

(** X19: after a successful QuicDataPathBindingCreate the getters report:
    as MTU, QUIC_MAX_MTU; as remote address, the one given to Create, or
    zeroes; as local address, the first sixteen bytes of what getsockname
    said of the socket, the size of a struct sockaddr, over the zeroed
    address of the binding, so that the second half of an IPv6 address and
    its scope are zero.  The getters change nothing. *)
Theorem QuicDataPathBindingCreate_then_getters :
  forall P env LocalAddress RemoteAddress RecvCallbackContext af proc B w,
    ProcCount (Datapath w) = 1 ->
    ProcContexts (Datapath w) !! 0%nat = Some proc ->
    heap_alloc env (Trace w) 1 = Some B ->
    address_family LocalAddress RemoteAddress = Some af ->
    sockets_work P env ->
    receive_starts env ->
    SOCKET_ERROR P <> 0 ->
    QUIC_FAILED P (QUIC_STATUS_SUCCESS P) = false ->
    port_as_requested P env LocalAddress ->
    let Create :=
      QuicDataPathBindingCreate P env LocalAddress RemoteAddress
        RecvCallbackContext in
    let query :=
      (created <- Create ;;
       mtu <- QuicDataPathBindingGetLocalMtu P created.2 ;;
       local <- QuicDataPathBindingGetLocalAddress P created.2 ;;
       remote <- QuicDataPathBindingGetRemoteAddress P created.2 ;;
       ret (mtu, local, remote)) in
    exists fd tr,
      let name := sys_sockname env tr fd in
      (query w).1 =
        Done (QUIC_MAX_MTU P,
              mkAddr (sa_family name) (sin_port name) (sin_addr name)
                (take 8 (sin6_addr name) ++ replicate 8 0) 0,
              default zero_addr RemoteAddress) /\
      (query w).2 = (Create w).2.
Proof.
  intros P env L R ctx af proc B w Hcount Hproc Halloc Haf Hwork Hrecv Herr Hok
    Hport Create query.
  destruct (QuicDataPathBindingCreate_run P env L R ctx af proc B w
              Hcount Hproc Halloc Haf Hwork Hrecv Herr Hok Hport)
    as (w' & fd & name & p & blk & s & Hrun & _ & [tr ->] & _ & Hb & _).
  exists fd, tr. cbv zeta. subst query Create.
  erewrite bind_Done; [|exact Hrun]. rewrite Hrun. cbn [fst snd].
  assert (Hlook : Bindings w' !! B = Some
            (mkBinding ctx
               (write_sockaddr16 (sys_sockname env tr fd) (Create_LocalAddress L R))
               (default zero_addr R) false false (QUIC_MAX_MTU P) [s]))
    by (rewrite Hb; apply lookup_insert_eq).
  erewrite bind_Done; [|apply QuicDataPathBindingGetLocalMtu_eq; exact Hlook].
  erewrite bind_Done; [|apply QuicDataPathBindingGetLocalAddress_eq; exact Hlook].
  erewrite bind_Done; [|apply QuicDataPathBindingGetRemoteAddress_eq; exact Hlook].
  cbn. split; [|reflexivity].
  unfold write_sockaddr16, Create_LocalAddress.
  destruct L, R; reflexivity.
Qed.

Lemma QuicDataPathBindingCreate_then_getters_witness :
  let Create :=
    QuicDataPathBindingCreate (posix false) env_ok None (Some peer) 77 in
  let query :=
    (created <- Create ;;
     mtu <- QuicDataPathBindingGetLocalMtu (posix false) created.2 ;;
     local <- QuicDataPathBindingGetLocalAddress (posix false) created.2 ;;
     remote <- QuicDataPathBindingGetRemoteAddress (posix false) created.2 ;;
     ret (mtu, local, remote)) in
  exists fd tr,
    let name := sys_sockname env_ok tr fd in
    (query world0).1 =
      Done (1500,
            mkAddr (sa_family name) (sin_port name) (sin_addr name)
              (take 8 (sin6_addr name) ++ replicate 8 0) 0,
            peer) /\
    (query world0).2 = (Create world0).2.
Proof.
  refine (QuicDataPathBindingCreate_then_getters (posix false) env_ok None
            (Some peer) 77 AF_INET (mkProcContext 9 0) 3 world0 _ _ _ _
            env_ok_sockets_work env_ok_receive_starts _ _
            (release_port_as_requested _ _)).
  - reflexivity.
  - reflexivity.
  - reflexivity.
  - reflexivity.
  - discriminate.
  - reflexivity.
Defined.

Lemma QUIC_ALLOC_PAGED_eq env SocketCount r w :
  heap_alloc env (Trace w) SocketCount = r ->
  QUIC_ALLOC_PAGED env SocketCount w =
    (Done r, set_Trace (Trace w ++ [EvAlloc SocketCount r]) w).
Proof. intros <-. reflexivity. Qed.

(** X20: when the binding cannot be allocated QuicDataPathBindingCreate
    returns QUIC_STATUS_OUT_OF_MEMORY without storing a binding, whatever
    the addresses, also two NULL ones: the allocation is the only thing it
    asked of its surroundings, no rundown reference is taken, and but for
    the event log the state is as before. *)
Theorem QuicDataPathBindingCreate_out_of_memory :
  forall P env LocalAddress RemoteAddress RecvCallbackContext w,
    heap_alloc env (Trace w) (ProcCount (Datapath w)) = None ->
    let out :=
      QuicDataPathBindingCreate P env LocalAddress RemoteAddress
        RecvCallbackContext w in
    out.1 = Done (QUIC_STATUS_OUT_OF_MEMORY P, None) /\
    added w out.2 = [EvAlloc (ProcCount (Datapath w)) None] /\
    same_but_log (set_Trace (Trace w) out.2) w.
Proof.
  intros P env L R ctx w Halloc out.
  assert (Hrun : out =
            (Done (QUIC_STATUS_OUT_OF_MEMORY P, None),
             set_Log (Log w ++ [("AllocFailure"%string,
                                 [LStr "QUIC_DATAPATH_BINDING";
                                  LInt (ProcCount (Datapath w))])])
               (set_Trace (Trace w ++ [EvAlloc (ProcCount (Datapath w)) None]) w))).
  { subst out. unfold QuicDataPathBindingCreate.
    unfold bind at 1, get at 1.
    erewrite bind_Done; [|apply QUIC_ALLOC_PAGED_eq; exact Halloc].
    reflexivity. }
  rewrite Hrun. cbn. split; [reflexivity|]. split; [|reflexivity].
  apply added_app. reflexivity.
Qed.

Lemma QuicDataPathBindingCreate_out_of_memory_witness :
  let out :=
    QuicDataPathBindingCreate (posix false) env_no_memory None None 77 world0 in
  out.1 = Done (QUIC_STATUS_OUT_OF_MEMORY (posix false), None) /\
  added world0 out.2 = [EvAlloc 1 None] /\
  same_but_log (set_Trace (Trace world0) out.2) world0.
Proof.
  refine (QuicDataPathBindingCreate_out_of_memory (posix false) env_no_memory
            None None 77 world0 _).
  reflexivity.
Defined.

(** X21: QuicDataPathBindingCreate needs one of the two addresses, though
    both are declared optional: with neither, and the binding allocated, it
    reads the family through the NULL remote address, after it has
    initialised the binding's rundown; the binding is not freed. *)
Theorem QuicDataPathBindingCreate_needs_an_address :
  forall P env RecvCallbackContext B w,
    heap_alloc env (Trace w) (ProcCount (Datapath w)) = Some B ->
    let out := QuicDataPathBindingCreate P env None None RecvCallbackContext w in
    out.1 = Fault "NULL pointer" /\
    added w out.2 =
      [EvAlloc (ProcCount (Datapath w)) (Some B);
       EvRundown RundownInitialize (Rundown B)] /\
    is_Some (Bindings out.2 !! B).
Proof.
  intros P env ctx B w Halloc out.
  assert (Hrun : exists w', out = (Fault "NULL pointer", w') /\
            Trace w' = Trace w ++ [EvAlloc (ProcCount (Datapath w)) (Some B);
                                   EvRundown RundownInitialize (Rundown B)] /\
            is_Some (Bindings w' !! B)).
  { subst out. unfold QuicDataPathBindingCreate.
    unfold bind at 1, get at 1.
    erewrite bind_Done; [|apply QUIC_ALLOC_PAGED_eq; exact Halloc].
    eexists. split; [reflexivity|]. cbn. split.
    - rewrite <- app_assoc. reflexivity.
    - rewrite lookup_insert_eq. eauto. }
  destruct Hrun as (w' & -> & Htr & Hb). cbn [fst snd].
  split; [reflexivity|]. split; [apply added_app; exact Htr | exact Hb].
Qed.

Lemma QuicDataPathBindingCreate_needs_an_address_witness :
  let out := QuicDataPathBindingCreate (posix false) env_ok None None 77 world0 in
  out.1 = Fault "NULL pointer" /\
  added world0 out.2 =
    [EvAlloc 1 (Some 3%N); EvRundown RundownInitialize (Rundown 3)] /\
  is_Some (Bindings out.2 !! 3%N).
Proof.
  refine (QuicDataPathBindingCreate_needs_an_address (posix false) env_ok 77 3
            world0 _).
  reflexivity.
Defined.

Lemma keeps_for_each (I : World -> Prop) n : forall i body,
  (forall i, keeps I (body i)) -> keeps I (for_each n i body).
Proof.
  induction n as [|n IH]; intros i body Hb; cbn.
  - apply keeps_ret.
  - apply keeps_bind; [apply Hb | intros _; apply IH, Hb].
Qed.

Lemma QuicDataPathBindingDelete_extends env Binding :
  extends (fun e => is_pool_event e = false) (QuicDataPathBindingDelete env Binding).
Proof.
  unfold QuicDataPathBindingDelete, QuicSocketContextUninitialize, QUIC_FREE,
    load_SocketContext, SocketContext_at.
  repeat first
    [ extends_step
    | apply extends_emit; reflexivity
    | apply extends_QuicRundown; reflexivity
    | apply extends_syscall; intros ?; reflexivity
    | apply extends_modify; intros ?; try destruct Binding; reflexivity ].
Qed.

Lemma QuicDataPathBindingDelete_keeps env Binding entries :
  keeps (fun w => pool_entries w = entries) (QuicDataPathBindingDelete env Binding).
Proof.
  unfold QuicDataPathBindingDelete, QuicSocketContextUninitialize, QUIC_FREE,
    QuicRundown, emit, store_Binding, load_SocketContext, SocketContext_at.
  repeat first
    [ apply keeps_ret | apply keeps_get | apply keeps_deref | apply keeps_index
    | apply keeps_bind; [|intros ?]
    | apply keeps_for_each; intros ?
    | apply keeps_modify; intros ? ?; assumption
    | intros w Hw; unfold syscall; cbn;
      destruct (sys_ret env (Trace w) _ <? 0); exact Hw ].
Qed.

(** X22: QuicDataPathBindingDelete gives nothing back to a pool.  However
    it ends, it makes no pool call, and the receive blocks, send contexts
    and send buffers are those of before: the block a socket context is
    armed with and the send contexts linked into it stay allocated when the
    binding is freed. *)
Theorem QuicDataPathBindingDelete_returns_nothing_to_pools :
  forall env Binding w,
    let out := QuicDataPathBindingDelete env Binding w in
    Forall (fun e => is_pool_event e = false) (added w out.2) /\
    RecvBlocks out.2 = RecvBlocks w /\
    SendContexts out.2 = SendContexts w /\
    SendBuffers out.2 = SendBuffers w.
Proof.
  intros env B w out. subst out.
  destruct (QuicDataPathBindingDelete_extends env B w) as (tr & Htr & Hall).
  split; [rewrite (added_app _ _ _ Htr); exact Hall|].
  pose proof (QuicDataPathBindingDelete_keeps env B (pool_entries w) w eq_refl) as H.
  unfold pool_entries in H. injection H as -> -> ->. auto.
Qed.

(** * Receive packets and name resolution *)

(** X23: the two conversions between a receive datagram and the packet
    context behind its block are inverse to each other, and the packet
    context starts where the block ends. *)
Theorem QuicDataPathRecvDatagramToRecvPacket_round_trip :
  forall size offset RecvBlock p,
    let Datagram := RecvBlock + offset in
    QuicDataPathRecvDatagramToRecvPacket size offset Datagram = RecvBlock + size /\
    QuicDataPathRecvPacketToRecvDatagram size offset
      (QuicDataPathRecvDatagramToRecvPacket size offset p) = p /\
    QuicDataPathRecvDatagramToRecvPacket size offset
      (QuicDataPathRecvPacketToRecvDatagram size offset p) = p.
Proof.
  intros. unfold QuicDataPathRecvDatagramToRecvPacket,
    QuicDataPathRecvPacketToRecvDatagram. subst Datagram. lia.
Qed.

Lemma QuicDataPathPopulateTargetAddress_inv P Family info a w w' :
  QuicDataPathPopulateTargetAddress P Family (Some info) w = (Done a, w') ->
  w' = w /\
  ((sa_family (ai_addr info) = AF_INET6 /\
    a = if (Family =? AF_UNSPEC) && IN6_IS_ADDR_V4MAPPED (sin6_addr (ai_addr info))
        then mkAddr AF_INET (sin_port (ai_addr info))
               (load32 (drop 12 (sin6_addr (ai_addr info)))) (replicate 16 0) 0
        else ai_addr info) \/
   (sa_family (ai_addr info) = AF_INET /\
    a = write_sockaddr16 (ai_addr info) zero_addr)).
Proof.
  unfold QuicDataPathPopulateTargetAddress, QUIC_DBG_ASSERT, QUIC_FRE_ASSERT.
  destruct (sa_family (ai_addr info) =? AF_INET6) eqn:H6.
  - apply Z.eqb_eq in H6.
    destruct (QUIC_DEBUG P && _); [discriminate|].
    cbn. destruct (_ && _); intros [= <- <-]; auto.
  - destruct (sa_family (ai_addr info) =? AF_INET) eqn:H4; [|discriminate].
    apply Z.eqb_eq in H4.
    destruct (QUIC_DEBUG P && _); [discriminate|].
    cbn. intros [= <- <-]. auto.
Qed.

(** X24: what QuicDataPathPopulateTargetAddress stores when it returns
    is an AF_INET or AF_INET6 address with the port of the resolver's; an
    address of another family ends the process in QUIC_FRE_ASSERT.  Asked
    with AF_UNSPEC it never stores an IPv4-mapped IPv6 address: it stores
    the IPv4 address in the last four bytes instead, over zeroes. *)
Theorem QuicDataPathPopulateTargetAddress_result :
  forall P Family info w,
    let out := QuicDataPathPopulateTargetAddress P Family (Some info) w in
    let source := ai_addr info in
    out.2 = w /\
    (sa_family source <> AF_INET -> sa_family source <> AF_INET6 ->
     out.1 = Terminated "QUIC_FRE_ASSERT") /\
    forall a, out.1 = Done a ->
      sin_port a = sin_port source /\
      (sa_family a = AF_INET \/ sa_family a = AF_INET6) /\
      (Family = AF_UNSPEC -> sa_family a = AF_INET6 ->
       a = source /\ IN6_IS_ADDR_V4MAPPED (sin6_addr a) = false) /\
      (Family = AF_UNSPEC -> sa_family source = AF_INET6 ->
       IN6_IS_ADDR_V4MAPPED (sin6_addr source) = true ->
       a = mkAddr AF_INET (sin_port source) (load32 (drop 12 (sin6_addr source)))
             (replicate 16 0) 0).
Proof.
  intros P Family info w out source. split; [|split].
  - subst out. unfold QuicDataPathPopulateTargetAddress, QUIC_DBG_ASSERT,
      QUIC_FRE_ASSERT.
    repeat match goal with
           | |- context [if ?c then _ else _] => destruct c; cbn
           end; reflexivity.
  - intros H4 H6. subst out source.
    unfold QuicDataPathPopulateTargetAddress.
    apply Z.eqb_neq in H4, H6. rewrite H4, H6. reflexivity.
  - intros a Ha.
    destruct out as [r w'] eqn:Hout. cbn in Ha. subst r.
    apply QuicDataPathPopulateTargetAddress_inv in Hout.
    subst source.
    destruct Hout as [_ [[H6 ->] | [H4 ->]]].
    + destruct ((Family =? AF_UNSPEC) && _) eqn:Hm.
      * apply andb_true_iff in Hm as [Hf Hm].
        cbn. split; [reflexivity|]. split; [auto|].
        split; [intros _ [=]|]. auto.
      * split; [reflexivity|]. split; [auto|].
        split.
        { intros -> _. split; [reflexivity|]. exact Hm. }
        intros -> _ Hm'. rewrite Hm' in Hm. discriminate.
    + cbn. split; [reflexivity|]. split; [auto|].
      split; [intros _ H; rewrite H4 in H; discriminate|].
      intros _ H. rewrite H4 in H. discriminate.
Qed.

Lemma QuicDataPathPopulateTargetAddress_Trace P Family AddrInfo w :
  (QuicDataPathPopulateTargetAddress P Family AddrInfo w).2 = w.
Proof.
  unfold QuicDataPathPopulateTargetAddress, QUIC_DBG_ASSERT, QUIC_FRE_ASSERT.
  destruct AddrInfo as [info|]; [|reflexivity].
  repeat match goal with
         | |- context [if ?c then _ else _] => destruct c; cbn
         end; reflexivity.
Qed.

(** X25: QuicDataPathResolveAddress asks the resolver for AF_INET
    answers, taking the name as a numeric address first and as a host name
    only if that fails.  Without an answer it returns
    QUIC_STATUS_DNS_RESOLUTION_ERROR and leaves the address as it was.  With
    one, when it returns, the status is QUIC_STATUS_SUCCESS and the address
    is the answer's: nothing of the address passed in is kept, and an
    AF_INET6 answer is stored as it is, also an IPv4-mapped one, since the
    family asked for is never AF_UNSPEC.  The trace is left alone. *)
Theorem QuicDataPathResolveAddress_outcomes :
  forall P QUIC_STATUS_DNS_RESOLUTION_ERROR getaddrinfo Datapath HostName
         Address w,
    let out :=
      QuicDataPathResolveAddress P QUIC_STATUS_DNS_RESOLUTION_ERROR getaddrinfo
        Datapath HostName Address w in
    Trace out.2 = Trace w /\
    match resolved getaddrinfo HostName with
    | None => out.1 = Done (QUIC_STATUS_DNS_RESOLUTION_ERROR, Address)
    | Some AddrInfo =>
        forall Status a, out.1 = Done (Status, a) ->
          Status = QUIC_STATUS_SUCCESS P /\
          exists info,
            AddrInfo = Some info /\
            a = if sa_family (ai_addr info) =? AF_INET6 then ai_addr info
                else write_sockaddr16 (ai_addr info) zero_addr
    end.
Proof.
  intros P DNS getaddrinfo Datapath HostName Address w out.
  assert (Hsome : forall AddrInfo Status a,
            ((Address <- QuicDataPathPopulateTargetAddress P AF_INET AddrInfo ;;
             ret (QUIC_STATUS_SUCCESS P, Address)) w).1 = Done (Status, a) ->
            Status = QUIC_STATUS_SUCCESS P /\
            exists info,
              AddrInfo = Some info /\
              a = if sa_family (ai_addr info) =? AF_INET6 then ai_addr info
                  else write_sockaddr16 (ai_addr info) zero_addr).
  { intros AddrInfo Status a. unfold bind.
    destruct (QuicDataPathPopulateTargetAddress P AF_INET AddrInfo w)
      as [[r| |] w1] eqn:Hrun; try discriminate.
    intros [= <- <-]. split; [reflexivity|].
    destruct AddrInfo as [info|]; [|discriminate].
    exists info. split; [reflexivity|].
    apply QuicDataPathPopulateTargetAddress_inv in Hrun.
    destruct Hrun as [_ [[H6 ->] | [H4 ->]]].
    - rewrite H6. reflexivity.
    - rewrite H4. reflexivity. }
  assert (Hw : forall AddrInfo,
            ((Address <- QuicDataPathPopulateTargetAddress P AF_INET AddrInfo ;;
              ret (QUIC_STATUS_SUCCESS P, Address)) w).2 = w).
  { intros AddrInfo. unfold bind.
    pose proof (QuicDataPathPopulateTargetAddress_Trace P AF_INET AddrInfo w) as H.
    destruct (QuicDataPathPopulateTargetAddress P AF_INET AddrInfo w)
      as [[r| |] w1]; cbn in *; congruence. }
  subst out. unfold QuicDataPathResolveAddress, resolved.
  destruct (getaddrinfo HostName AF_INET (Z.lor AI_NUMERICHOST AI_PASSIVE))
    as [r1 a1].
  destruct (getaddrinfo HostName AF_INET AI_CANONNAME) as [r2 a2].
  cbn [fst snd].
  destruct (r1 =? 0).
  { split; [rewrite Hw; reflexivity|].
    intros Status a Ha. apply (Hsome a1). exact Ha. }
  destruct (r2 =? 0).
  { split; [rewrite Hw; reflexivity|].
    intros Status a Ha. apply (Hsome a2). exact Ha. }
  split; reflexivity.
Qed.

(** * Bindings: creation that fails *)

Lemma appends_bind {A B} t1 t2 (m : M A) (k : A -> M B) :
  appends t1 m -> (forall a, appends t2 (k a)) -> appends (t1 ++ t2) (bind m k).
Proof.
  intros Hm Hk w b w' Hrun.
  apply bind_inv in Hrun as (a & w1 & H1 & H2).
  rewrite (Hk _ _ _ _ H2), (Hm _ _ _ H1), app_assoc. reflexivity.
Qed.

Lemma appends_quiet {A} (m : M A) : extends (fun _ => False) m -> appends [] m.
Proof.
  intros H w a w' Hrun. destruct (H w) as (tr & Htr & Hall).
  rewrite Hrun in Htr. destruct Hall as [|e tr []]. exact Htr.
Qed.

Lemma appends_emit e : appends [e] (emit e).
Proof. intros w a w' [= _ <-]. reflexivity. Qed.

Lemma Create_contexts_loop_appends P B k : forall i,
  appends (replicate k (EvRundown RundownAcquire (Rundown B)))
    (for_each k i (fun i =>
       b <- deref Bindings (Some B) ;;
       s <- load_SocketContext (B, i) ;;
       let s := set_SocketFd (INVALID_SOCKET_FD P) s in
       let s :=
         set_RecvIov
           (mkIov (iov_base (RecvIov s))
              (wrap 64 (Mtu b - QUIC_MIN_IPV4_HEADER_SIZE P - QUIC_UDP_HEADER_SIZE P)))
           s in
       let s := set_PendingSendContextHead [] s in
       store_SocketContext (B, i) s ;;
       QuicRundown RundownAcquire (Rundown B))).
Proof.
  induction k as [|k IH]; intros i; cbn [for_each replicate].
  - intros w a w' [= _ <-]. rewrite app_nil_r. reflexivity.
  - apply (appends_bind [_] _); [|intros _; apply IH].
    apply (appends_bind [] [_]); [apply appends_quiet, extends_deref|]. intros b.
    apply (appends_bind [] [_]).
    { apply appends_quiet. unfold load_SocketContext, SocketContext_at.
      repeat extends_step. }
    intros s.
    apply (appends_bind [] [_]).
    { apply appends_quiet. unfold store_SocketContext. repeat extends_step. }
    intros _. apply appends_emit.
Qed.

Lemma QuicSocketContextInitialize_calls P env sc proc LocalAddress RemoteAddress :
  extends (fun e => is_call_or_alloc e = true)
    (QuicSocketContextInitialize P env sc proc LocalAddress RemoteAddress).
Proof.
  unfold QuicSocketContextInitialize, store_SocketFd, load_SocketContext,
    store_SocketContext, SocketContext_at, errno_Status, getsockname_LocalAddress.
  repeat first
    [ apply extends_syscall; intros ?; reflexivity
    | extends_step
    | match goal with
      | |- extends _ (if ?c then _ else _) => destruct c
      end ].
Qed.

Lemma QuicSocketContextStartReceive_calls P env sc KqueueFd :
  extends (fun e => is_call_or_alloc e = true)
    (QuicSocketContextStartReceive P env sc KqueueFd).
Proof.
  unfold QuicSocketContextStartReceive, store_SocketFd, load_SocketContext,
    store_SocketContext, SocketContext_at.
  apply extends_bind.
  { eapply extends_weaken; [|apply QuicSocketContextPrepareReceive_extends].
    intros e [r ->]. reflexivity. }
  intros ?.
  repeat first
    [ apply extends_syscall; intros ?; reflexivity
    | extends_step
    | match goal with
      | |- extends _ (if ?c then _ else _) => destruct c
      end ].
Qed.

Lemma QuicDataPathBindingCreate_failure_inv
    P env LocalAddress RemoteAddress RecvCallbackContext B w Status NewBinding w' :
  heap_alloc env (Trace w) (ProcCount (Datapath w)) = Some B ->
  QuicDataPathBindingCreate P env LocalAddress RemoteAddress
    RecvCallbackContext w = (Done (Status, NewBinding), w') ->
  QUIC_FAILED P Status = true ->
  Bindings w' !! B = None /\
  exists tr,
    added w w' =
      [EvAlloc (ProcCount (Datapath w)) (Some B);
       EvRundown RundownInitialize (Rundown B)] ++
      replicate (Z.to_nat (ProcCount (Datapath w)))
        (EvRundown RundownAcquire (Rundown B)) ++
      [EvRundown RundownAcquire BindingsRundown] ++
      tr ++
      [EvRundown RundownRelease BindingsRundown;
       EvRundown RundownUninitialize (Rundown B);
       EvFree (Some B)] /\
    Forall (fun e => is_call_or_alloc e = true) tr.
Proof.
  revert LocalAddress RemoteAddress RecvCallbackContext NewBinding.
  intros L R ctx nb Halloc Hrun Hfail.
  unfold QuicDataPathBindingCreate in Hrun.
  unfold bind at 1, get at 1 in Hrun.
  erewrite bind_Done in Hrun; [|apply QUIC_ALLOC_PAGED_eq; exact Halloc].
  cbv iota beta in Hrun.
  erewrite bind_Done in Hrun; [|reflexivity].
  erewrite bind_Done in Hrun; [|reflexivity].
  erewrite bind_Done in Hrun; [|reflexivity].
  apply bind_inv in Hrun as ([] & w2 & Hla & Hrun).
  assert (Ht2 : Trace w2 = Trace w ++
            [EvAlloc (ProcCount (Datapath w)) (Some B);
             EvRundown RundownInitialize (Rundown B)]).
  { eapply (appends_quiet _) in Hla.
    - rewrite Hla, app_nil_r. cbn. rewrite <- app_assoc. reflexivity.
    - repeat extends_step. }
  clear Hla.
  apply bind_inv in Hrun as ([] & w3 & Hloop & Hrun).
  apply Create_contexts_loop_appends in Hloop.
  unfold QuicRundown at 1, emit at 1 in Hrun.
  erewrite bind_Done in Hrun; [|reflexivity].
  apply bind_inv in Hrun as (failed & w5 & Hinit & Hrun).
  eapply extends_run in Hinit as (tr1 & Ht5 & Hall1); last first.
  { apply extends_for_status. intros i.
    apply extends_bind; [apply QuicSocketContextInitialize_calls|].
    intros St. destruct (QUIC_FAILED P St); apply extends_ret. }
  apply bind_inv in Hrun as ([St nb'] & w6 & Hexit & Hrun).
  eapply extends_run in Hexit as (tr2 & Ht6 & Hall2); last first.
  { destruct failed as [e|]; [apply extends_ret|].
    apply extends_bind; [repeat extends_step|]. intros _.
    apply extends_bind; [apply extends_get|]. intros dp.
    apply extends_bind; [|intros [?|]; apply extends_ret].
    apply extends_for_status. intros i.
    apply extends_bind; [apply extends_get|]. intros dp0.
    apply extends_bind; [apply extends_index|]. intros proc.
    apply extends_bind; [apply QuicSocketContextStartReceive_calls|].
    intros St'. destruct (QUIC_FAILED P St'); apply extends_ret. }
  cbv iota beta in Hrun.
  destruct (QUIC_FAILED P St) eqn:HSt.
  - unfold QuicRundown, QUIC_FREE, emit, modify, bind, ret in Hrun.
    injection Hrun as <- <- <-. cbn.
    split; [apply lookup_delete_eq|].
    exists (tr1 ++ tr2). split; [|apply Forall_app; auto].
    apply added_app. rewrite Ht6, Ht5. cbn. rewrite Hloop, Ht2.
    rewrite <- !app_assoc. reflexivity.
  - unfold bind, ret in Hrun. injection Hrun as <- <- <-. congruence.
Qed.

(** X26: every failure of QuicDataPathBindingCreate after the binding
    was allocated ends alike.  The reference on the datapath's
    BindingsRundown is released, the binding's rundown is uninitialised and
    the binding is freed, also when the pointer to it was already stored
    through NewBinding.  Before that the call took one reference on the
    binding's rundown for each socket context and made system calls and
    pool allocations: none of the references is released and nothing goes
    back to a pool. *)
Theorem QuicDataPathBindingCreate_failure_frees_binding :
  forall P env LocalAddress RemoteAddress RecvCallbackContext B w Status
         NewBinding,
    let out :=
      QuicDataPathBindingCreate P env LocalAddress RemoteAddress
        RecvCallbackContext w in
    heap_alloc env (Trace w) (ProcCount (Datapath w)) = Some B ->
    out.1 = Done (Status, NewBinding) ->
    QUIC_FAILED P Status = true ->
    Bindings out.2 !! B = None /\
    exists tr,
      added w out.2 =
        [EvAlloc (ProcCount (Datapath w)) (Some B);
         EvRundown RundownInitialize (Rundown B)] ++
        replicate (Z.to_nat (ProcCount (Datapath w)))
          (EvRundown RundownAcquire (Rundown B)) ++
        [EvRundown RundownAcquire BindingsRundown] ++
        tr ++
        [EvRundown RundownRelease BindingsRundown;
         EvRundown RundownUninitialize (Rundown B);
         EvFree (Some B)] /\
      Forall (fun e => is_call_or_alloc e = true) tr.
Proof.
  intros P env L R ctx B w Status nb out Halloc Hst Hfail.
  apply (QuicDataPathBindingCreate_failure_inv P env L R ctx B w Status nb out.2);
    [exact Halloc | | exact Hfail].
  rewrite <- Hst. subst out. apply surjective_pairing.
Qed.

Lemma QuicDataPathBindingCreate_failure_frees_binding_witness :
  let out :=
    QuicDataPathBindingCreate (posix false) env_kevent_fails (Some any6) None 77
      world0 in
  Bindings out.2 !! 3%N = None /\
  exists tr,
    added world0 out.2 =
      [EvAlloc 1 (Some 3%N); EvRundown RundownInitialize (Rundown 3)] ++
      replicate 1 (EvRundown RundownAcquire (Rundown 3)) ++
      [EvRundown RundownAcquire BindingsRundown] ++
      tr ++
      [EvRundown RundownRelease BindingsRundown;
       EvRundown RundownUninitialize (Rundown 3);
       EvFree (Some 3%N)] /\
    Forall (fun e => is_call_or_alloc e = true) tr.
Proof.
  refine (QuicDataPathBindingCreate_failure_frees_binding (posix false)
            env_kevent_fails (Some any6) None 77 3 world0
            (QUIC_STATUS_INTERNAL_ERROR (posix false)) (Some 3%N) _ _ _).
  - reflexivity.
  - vm_compute. reflexivity.
  - reflexivity.
Defined.

(** * Sending without a remote address *)

Lemma QUIC_DBG_ASSERT_fails P w :
  QUIC_DEBUG P = true ->
  QUIC_DBG_ASSERT P false w = (Terminated "QUIC_DBG_ASSERT", w).
Proof. intros H. unfold QUIC_DBG_ASSERT. rewrite H. reflexivity. Qed.

Lemma QuicDataPathBindingSendTo_unconnected P env B b RemoteAddress SendContext w :
  QUIC_DEBUG P = true ->
  Bindings w !! B = Some b ->
  sin_port (Binding_RemoteAddress b) = 0 ->
  QuicDataPathBindingSendTo P env (Some B) RemoteAddress SendContext w =
    (Terminated "QUIC_DBG_ASSERT", w).
Proof.
  intros Hdbg Hb Hport. unfold QuicDataPathBindingSendTo.
  destruct (_ && _ && _) eqn:Hargs.
  - erewrite bind_Done; [|apply QUIC_DBG_ASSERT_true].
    apply andb_true_iff in Hargs as [Hargs Hctx].
    apply andb_true_iff in Hargs as [_ Hr].
    destruct RemoteAddress as [r|]; [|discriminate].
    unfold QuicDataPathBindingSend.
    rewrite !bool_decide_true by discriminate. rewrite Hctx.
    erewrite bind_Done; [|apply QUIC_DBG_ASSERT_true].
    erewrite bind_Done; [|apply deref_Some; exact Hb].
    erewrite bind_Done; [|reflexivity].
    rewrite Hport. cbn [Z.eqb negb].
    erewrite bind_Terminated; [reflexivity|].
    erewrite bind_Terminated; [reflexivity|].
    apply QUIC_DBG_ASSERT_fails, Hdbg.
  - erewrite bind_Terminated; [reflexivity|].
    apply QUIC_DBG_ASSERT_fails, Hdbg.
Qed.

(** X27: in a build with debug assertions QuicDataPathBindingSendTo cannot
    be used on a binding that was created without a remote address.
    Whatever the destination and the send context, the call ends the
    process at a debug assertion, on its arguments or on the port of the
    binding's remote address, which is zero; it makes no call and does not
    touch the send context. *)
Theorem QuicDataPathBindingSendTo_needs_remote_address :
  forall P env LocalAddress RecvCallbackContext af proc B RemoteAddress
         SendContext w,
    ProcCount (Datapath w) = 1 ->
    ProcContexts (Datapath w) !! 0%nat = Some proc ->
    heap_alloc env (Trace w) 1 = Some B ->
    address_family LocalAddress None = Some af ->
    sockets_work P env ->
    receive_starts env ->
    SOCKET_ERROR P <> 0 ->
    QUIC_FAILED P (QUIC_STATUS_SUCCESS P) = false ->
    port_as_requested P env LocalAddress ->
    QUIC_DEBUG P = true ->
    let Create :=
      QuicDataPathBindingCreate P env LocalAddress None RecvCallbackContext in
    let calls :=
      (created <- Create ;;
       QuicDataPathBindingSendTo P env created.2 RemoteAddress SendContext) in
    (Create w).1 = Done (QUIC_STATUS_SUCCESS P, Some B) /\
    (calls w).1 = Terminated "QUIC_DBG_ASSERT" /\
    (calls w).2 = (Create w).2.
Proof.
  intros P env L ctx af proc B R SendContext w Hcount Hproc Halloc Haf Hwork
    Hrecv Herr Hok Hport Hdbg Create calls.
  destruct (QuicDataPathBindingCreate_run P env L None ctx af proc B w
              Hcount Hproc Halloc Haf Hwork Hrecv Herr Hok Hport)
    as (w' & fd & name & p & blk & s & Hrun & _ & _ & _ & Hb & _).
  subst calls Create. cbv beta.
  erewrite bind_Done; [|exact Hrun]. rewrite Hrun. cbn [fst snd].
  erewrite QuicDataPathBindingSendTo_unconnected;
    [auto | exact Hdbg | rewrite Hb; apply lookup_insert_eq | reflexivity].
Qed.

Lemma QuicDataPathBindingSendTo_needs_remote_address_witness :
  let Create :=
    QuicDataPathBindingCreate (posix true) env_ok (Some any6) None 77 in
  let calls :=
    (created <- Create ;;
     QuicDataPathBindingSendTo (posix true) env_ok created.2 (Some peer)
       (Some 18%N)) in
  (Create world0).1 = Done (QUIC_STATUS_SUCCESS (posix true), Some 3%N) /\
  (calls world0).1 = Terminated "QUIC_DBG_ASSERT" /\
  (calls world0).2 = (Create world0).2.
Proof.
  refine (QuicDataPathBindingSendTo_needs_remote_address (posix true) env_ok
            (Some any6) 77 AF_INET6 (mkProcContext 9 0) 3 (Some peer)
            (Some 18%N) world0 _ _ _ _ env_ok_sockets_work_debug
            env_ok_receive_starts _ _ _ _).
  - reflexivity.
  - reflexivity.
  - reflexivity.
  - reflexivity.
  - discriminate.
  - reflexivity.
  - intros _ l [= <-] H. exfalso. apply H. reflexivity.
  - reflexivity.
Defined.

(** * The datapath: what is acquired is released *)

Section LifecycleRuns.

Local Open Scope h_scope.

Context (P : Platform) (host : Host).

Context (QUIC_STATUS_INVALID_PARAMETER : Z).

Context (sizeof_QUIC_DATAPATH sizeof_QUIC_DATAPATH_PROC_CONTEXT : Z).

Context (sizeof_QUIC_DATAPATH_RECV_BLOCK MAX_UDP_PAYLOAD_LENGTH : Z).

Context (sizeof_QUIC_DATAPATH_SEND_CONTEXT : Z).

Lemma Hbind_Done {A B} (m : H A) (k : A -> H B) p a p1 :
  m p = (Done a, p1) -> Hbind m k p = k a p1.
Proof. unfold Hbind. intros ->. reflexivity. Qed.

Lemma called_app p p' new : Calls p' = Calls p ++ new -> called p p' = new.
Proof. intros H. unfold called. rewrite H. apply drop_app_length. Qed.

Lemma Hbind_Terminated {A B} (m : H A) (k : A -> H B) p s p1 :
  m p = (Terminated s, p1) -> Hbind m k p = (Terminated s, p1).
Proof. unfold Hbind. intros ->. reflexivity. Qed.

Lemma after_nil p : after host p [] p.
Proof. unfold after. rewrite app_nil_r. repeat split. constructor. Qed.

Lemma after_app p n1 p1 n2 p2 :
  after host p n1 p1 -> after host p1 n2 p2 -> after host p (n1 ++ n2) p2.
Proof.
  intros (C1 & D1 & A1) (C2 & D2 & A2). unfold after, answers.
  rewrite C2, C1, app_assoc. split; [reflexivity|].
  split; [congruence | apply Forall_app; auto].
Qed.

Lemma host_call_run c p :
  exists r p', host_call host c p = (Done r, p') /\ after host p [(c, r)] p'.
Proof.
  eexists _, _. split; [reflexivity|]. unfold after, answers. cbn.
  repeat split. repeat constructor. eexists. reflexivity.
Qed.

Lemma after_store p new p' a o :
  after host p new p' ->
  Calls (store_Datapath a o p').2 = Calls p ++ new /\
  Datapaths (store_Datapath a o p').2 = <[a := o]> (Datapaths p).
Proof. intros (C & D & _). cbn. rewrite C, D. auto. Qed.

Lemma update_Datapath_eq a o f p :
  Datapaths p !! a = Some o ->
  update_Datapath a f p =
    (Done tt, mkProcess (Calls p) (Process_Log p) (<[a := in_Datapath f o]> (Datapaths p))).
Proof.
  intros Ho. unfold update_Datapath, load_Datapath, Hbind. rewrite Ho. reflexivity.
Qed.

Lemma load_ProcContext_eq a o c p :
  Datapaths p !! a = Some o ->
  ProcContexts (Object_Datapath o) = [c] ->
  load_ProcContext (a, 0) p = (Done c, p).
Proof.
  intros Ho Hc. unfold load_ProcContext, load_Datapath, Hbind. cbn [fst snd].
  rewrite Ho, Hc. reflexivity.
Qed.

Lemma update_ProcContext_eq a o c f p :
  Datapaths p !! a = Some o ->
  ProcContexts (Object_Datapath o) = [c] ->
  update_ProcContext (a, 0) f p =
    (Done tt,
     mkProcess (Calls p) (Process_Log p)
       (<[a := in_Datapath (set_ProcContexts [f c]) o]> (Datapaths p))).
Proof.
  intros Ho Hc. unfold update_ProcContext.
  erewrite Hbind_Done; [|eapply load_ProcContext_eq; eassumption].
  cbn [fst snd]. erewrite update_Datapath_eq; [|exact Ho].
  unfold in_Datapath. cbn. rewrite Hc. reflexivity.
Qed.

Lemma Process_blank_quiet c r :
  significant c = false -> Process_blank (c, r) = quiet c.
Proof. intros H. unfold Process_blank. cbn. rewrite H. reflexivity. Qed.

Lemma QuicProcessorContextInitialize_run a o c Index p :
  Datapaths p !! a = Some o ->
  ProcContexts (Object_Datapath o) = [c] ->
  exists kq Status new p',
    QuicProcessorContextInitialize P host sizeof_QUIC_DATAPATH_RECV_BLOCK
      MAX_UDP_PAYLOAD_LENGTH sizeof_QUIC_DATAPATH_SEND_CONTEXT
      (Some a) Index (a, 0) p = (Done Status, p') /\
    Calls p' = Calls p ++ new /\
    answers host new /\
    map Process_blank new =
      ProcContext_calls P
        (wrap 32 (sizeof_QUIC_DATAPATH_RECV_BLOCK +
                  ClientRecvContextLength (Object_Datapath o)))
        MAX_UDP_PAYLOAD_LENGTH sizeof_QUIC_DATAPATH_SEND_CONTEXT a kq Status /\
    Datapaths p' =
      <[a := in_Datapath
               (set_ProcContexts
                  [if kq =? INVALID_SOCKET_FD P then set_Index Index c
                   else set_KqueueFd kq (set_Index Index c)]) o]> (Datapaths p).
Proof.
  intros Ho Hc. unfold QuicProcessorContextInitialize.
  rewrite bool_decide_true by discriminate.
  erewrite Hbind_Done; last first.
  { unfold Process_DBG_ASSERT. rewrite andb_false_r. reflexivity. }
  erewrite Hbind_Done; [|unfold load_Datapath; rewrite Ho; reflexivity].
  erewrite Hbind_Done; [|eapply update_ProcContext_eq; eassumption].
  set (o1 := in_Datapath (set_ProcContexts [set_Index Index c]) o).
  match goal with |- context [Hbind _ _ ?q] => set (p1 := q) end.
  assert (D1 : Datapaths p1 = <[a := o1]> (Datapaths p)) by reflexivity.
  assert (A1 : after host p1 [] p1) by apply after_nil.
  assert (C1 : Calls p1 = Calls p) by reflexivity.
  assert (Ho1 : Datapaths p1 !! a = Some o1) by (rewrite D1; apply lookup_insert_eq).
  clearbody p1. cbn [fst snd].
  destruct (host_call_run
              (host_QuicPoolInitialize true
                 (wrap 32 (sizeof_QUIC_DATAPATH_RECV_BLOCK +
                           ClientRecvContextLength (Object_Datapath o)))
                 (RecvBlockPool 0)) p1) as (r1 & p2 & R2 & A2).
  erewrite Hbind_Done; [|exact R2].
  destruct (host_call_run
              (host_QuicPoolInitialize true MAX_UDP_PAYLOAD_LENGTH (SendBufferPool 0))
              p2) as (r2 & p3 & R3 & A3).
  erewrite Hbind_Done; [|exact R3].
  destruct (host_call_run
              (host_QuicPoolInitialize true sizeof_QUIC_DATAPATH_SEND_CONTEXT
                 (SendContextPool 0)) p3) as (r3 & p4 & R4 & A4).
  erewrite Hbind_Done; [|exact R4].
  destruct (host_call_run host_kqueue p4) as (kq & p5 & R5 & A5).
  erewrite Hbind_Done; [|exact R5].
  pose proof (after_app _ _ _ _ _ (after_app _ _ _ _ _ (after_app _ _ _ _ _ A2 A3) A4) A5)
    as A. cbn [app] in A.
  clear R2 R3 R4 R5 A2 A3 A4 A5 p2 p3 p4.
  exists kq.
  unfold ProcContext_calls.
  destruct (kq =? INVALID_SOCKET_FD P) eqn:Hkq.
  - (* kqueue failed *)
    erewrite Hbind_Done; [|reflexivity].
    generalize (host_errno host (Calls p5)). intros e.
    match goal with |- context [Hbind _ _ ?q] => set (p6 := q) end.
    assert (A6 : after host p5 [] p6).
    { subst p6. unfold after. cbn. rewrite app_nil_r. repeat split. constructor. }
    clearbody p6.
    pose proof (after_app _ _ _ _ _ A A6) as A'. cbn [app] in A'. clear A A6 p5.
    destruct (QUIC_FAILED P e) eqn:He.
    + cbn [negb].
      destruct (host_call_run (host_QuicPoolUninitialize (RecvBlockPool 0)) p6)
        as (u1 & p7 & R7 & A7).
      destruct (host_call_run (host_QuicPoolUninitialize (SendBufferPool 0)) p7)
        as (u2 & p8 & R8 & A8).
      destruct (host_call_run (host_QuicPoolUninitialize (SendContextPool 0)) p8)
        as (u3 & p9 & R9 & A9).
      erewrite Hbind_Done; last first.
      { erewrite Hbind_Done; [|reflexivity].
        erewrite Hbind_Done; [|exact R7].
        erewrite Hbind_Done; [|exact R8].
        erewrite Hbind_Done; [|exact R9].
        reflexivity. }
      pose proof (after_app _ _ _ _ _ (after_app _ _ _ _ _ (after_app _ _ _ _ _ A' A7) A8) A9)
        as (C & D & An). cbn [app] in C, An.
      eexists e, _, p9. split; [reflexivity|].
      split; [rewrite C, C1; reflexivity|]. split; [exact An|].
      split; [rewrite He; reflexivity|]. rewrite D, D1. reflexivity.
    + erewrite Hbind_Done; [|reflexivity].
      destruct A' as (C & D & An).
      eexists e, _, p6. split; [reflexivity|].
      split; [rewrite C, C1; reflexivity|]. split; [exact An|].
      split; [rewrite He; reflexivity|]. rewrite D, D1. reflexivity.
  - (* kqueue gave a descriptor *)
    destruct A as (C5 & D5 & An5).
    assert (Ho5 : Datapaths p5 !! a = Some o1) by (rewrite D5; exact Ho1).
    pose proof (update_ProcContext_eq a o1 (set_Index Index c) (set_KqueueFd kq) p5
                  Ho5 eq_refl) as R6.
    set (o2 := in_Datapath (set_ProcContexts [set_KqueueFd kq (set_Index Index c)]) o).
    assert (Ho2 : in_Datapath
                    (set_ProcContexts [set_KqueueFd kq (set_Index Index c)]) o1 = o2)
      by (subst o1 o2; destruct o; reflexivity).
    rewrite Ho2 in R6.
    match type of R6 with _ = (_, ?q) => set (p6 := q) in * end.
    assert (C6 : Calls p6 = Calls p5) by reflexivity.
    assert (D6 : Datapaths p6 = <[a := o2]> (Datapaths p)).
    { subst p6. cbn. rewrite D5, D1, insert_insert_eq. reflexivity. }
    clearbody p6.
    destruct (host_call_run (host_QuicThreadCreate (a, 0)) p6)
      as (st & p7 & R7 & (C7 & D7 & An7)).
    exists st.
    destruct (QUIC_FAILED P st) eqn:Hst.
    + match type of R7 with _ = (_, ?q) =>
        set (p8 := mkProcess (Calls q)
                     (Process_Log q ++
                      [("LibraryErrorStatus"%string,
                        [LInt st; LStr "QuicThreadCreate failed"])])
                     (Datapaths q))
      end.
      destruct (host_call_run (host_close kq) p8) as (u0 & p9 & R9 & A9).
      destruct (host_call_run (host_QuicPoolUninitialize (RecvBlockPool 0)) p9)
        as (u1 & p10 & R10 & A10).
      destruct (host_call_run (host_QuicPoolUninitialize (SendBufferPool 0)) p10)
        as (u2 & p11 & R11 & A11).
      destruct (host_call_run (host_QuicPoolUninitialize (SendContextPool 0)) p11)
        as (u3 & p12 & R12 & A12).
      pose proof (after_app _ _ _ _ _
                    (after_app _ _ _ _ _ (after_app _ _ _ _ _ A9 A10) A11) A12)
        as (C & D & An). cbn [app] in C, An.
      eexists _, p12. split.
      { erewrite Hbind_Done; last first.
        { erewrite Hbind_Done; [|exact R6].
          erewrite Hbind_Done; [|exact R7].
          rewrite Hst.
          erewrite Hbind_Done; [|reflexivity].
          reflexivity. }
        rewrite Hst. cbn [negb].
        erewrite Hbind_Done; last first.
        { erewrite Hbind_Done; last first.
          { erewrite Hbind_Done; [|exact R9]. reflexivity. }
          erewrite Hbind_Done; [|exact R10].
          erewrite Hbind_Done; [|exact R11].
          erewrite Hbind_Done; [|exact R12].
          reflexivity. }
        reflexivity. }
      split.
      { rewrite C. subst p8. cbn [Calls]. rewrite C7, C6, C5, C1, <- !app_assoc.
        reflexivity. }
      split.
      { repeat (apply Forall_app; split); assumption. }
      split; [rewrite !map_app; reflexivity|].
      rewrite D. subst p8. cbn [Datapaths]. rewrite D7, D6. reflexivity.
    + eexists _, p7. split.
      { erewrite Hbind_Done; last first.
        { erewrite Hbind_Done; [|exact R6].
          erewrite Hbind_Done; [|exact R7].
          rewrite Hst.
          erewrite Hbind_Done; [|reflexivity].
          reflexivity. }
        rewrite Hst.
        erewrite Hbind_Done; [|reflexivity].
        reflexivity. }
      split; [rewrite C7, C6, C5, C1, <- !app_assoc; reflexivity|].
      split; [apply Forall_app; split; assumption|].
      split; [rewrite !map_app; reflexivity|].
      rewrite D7, D6. reflexivity.
Qed.

Lemma QuicDataPathInitialize_run
    ClientRecvContextLength RecvCallback UnreachableCallback NewDataPath p :
  RecvCallback <> None -> UnreachableCallback <> None -> NewDataPath <> None ->
  exists a Status stored new p',
    QuicDataPathInitialize P host QUIC_STATUS_INVALID_PARAMETER
      sizeof_QUIC_DATAPATH sizeof_QUIC_DATAPATH_PROC_CONTEXT
      sizeof_QUIC_DATAPATH_RECV_BLOCK MAX_UDP_PAYLOAD_LENGTH
      sizeof_QUIC_DATAPATH_SEND_CONTEXT
      ClientRecvContextLength RecvCallback UnreachableCallback NewDataPath p =
      (Done (Status, stored), p') /\
    Calls p' = Calls p ++ new /\
    answers host new /\
    if a =? 0 then
      Status = QUIC_STATUS_OUT_OF_MEMORY P /\ stored = None /\
      map Process_blank new =
        [(host_QUIC_ALLOC_PAGED
            (sizeof_QUIC_DATAPATH + sizeof_QUIC_DATAPATH_PROC_CONTEXT), 0)] /\
      Datapaths p' = Datapaths p
    else
      exists kq,
        map Process_blank new =
          Initialize_calls_of P
            (sizeof_QUIC_DATAPATH + sizeof_QUIC_DATAPATH_PROC_CONTEXT)
            (wrap 32 (sizeof_QUIC_DATAPATH_RECV_BLOCK + ClientRecvContextLength))
            MAX_UDP_PAYLOAD_LENGTH sizeof_QUIC_DATAPATH_SEND_CONTEXT a kq Status /\
        stored = (if QUIC_FAILED P Status then None else Some (Z.to_N a)) /\
        Datapaths p' =
          if QUIC_FAILED P Status then delete (Z.to_N a) (Datapaths p)
          else <[Z.to_N a :=
                   Datapath_made P ClientRecvContextLength RecvCallback
                     UnreachableCallback kq]> (Datapaths p).
Proof.
  intros Hrc Huc Hnd. unfold QuicDataPathInitialize.
  rewrite !bool_decide_false by assumption. cbn [orb].
  destruct (host_call_run
              (host_QUIC_ALLOC_PAGED
                 (sizeof_QUIC_DATAPATH + sizeof_QUIC_DATAPATH_PROC_CONTEXT)) p)
    as (a & p1 & R1 & (C1 & D1 & An1)).
  erewrite Hbind_Done; [|exact R1].
  exists a.
  destruct (a =? 0) eqn:Ha.
  - apply Z.eqb_eq in Ha. subst a.
    eexists _, _, _, _. split; [reflexivity|]. cbn.
    split; [exact C1|]. split; [exact An1|]. rewrite D1. auto.
  - set (A := Z.to_N a).
    erewrite Hbind_Done; [|reflexivity].
    erewrite Hbind_Done;
      [|unfold load_Datapath; cbn [Datapaths]; rewrite lookup_insert_eq; reflexivity].
    erewrite Hbind_Done; [|reflexivity].
    cbn [Object_Datapath zero_object Calls Process_Log Datapaths].
    rewrite insert_insert_eq.
    erewrite Hbind_Done;
      [|apply update_Datapath_eq; cbn [Datapaths]; apply lookup_insert_eq].
    cbn [Calls Process_Log Datapaths]. rewrite insert_insert_eq.
    erewrite Hbind_Done;
      [|apply update_Datapath_eq; cbn [Datapaths]; apply lookup_insert_eq].
    cbn [Calls Process_Log Datapaths]. rewrite insert_insert_eq.
    erewrite Hbind_Done;
      [|apply update_Datapath_eq; cbn [Datapaths]; apply lookup_insert_eq].
    cbn [Calls Process_Log Datapaths]. rewrite insert_insert_eq.
    match goal with
    | |- context [Hbind (host_call host (host_QuicRundown RundownInitialize _)) _ ?q] =>
        set (p2 := q)
    end.
    set (o0 := mkObject
                 (mkDatapath false QUIC_MAX_BATCH_SEND ClientRecvContextLength 1
                    [mkProcContext 0 0]) RecvCallback UnreachableCallback).
    assert (C2 : Calls p2 = Calls p1) by reflexivity.
    assert (D2 : Datapaths p2 = <[A := o0]> (Datapaths p)).
    { subst p2. cbn [Datapaths]. rewrite D1. reflexivity. }
    clearbody p2.
    destruct (host_call_run (host_QuicRundown RundownInitialize BindingsRundown) p2)
      as (r2 & p3 & R3 & (C3 & D3 & An3)).
    erewrite Hbind_Done; [|exact R3].
    destruct (QuicProcessorContextInitialize_run A o0 (mkProcContext 0 0) 0 p3)
      as (kq & Status & new & p4 & R4 & C4 & An4 & B4 & D4);
      [rewrite D3, D2; apply lookup_insert_eq | reflexivity |].
    erewrite Hbind_Done; [|exact R4].
    assert (D4' : Datapaths p4 =
              <[A := Datapath_made P ClientRecvContextLength RecvCallback
                       UnreachableCallback kq]> (Datapaths p)).
    { rewrite D4, D3, D2, insert_insert_eq.
      unfold Datapath_made, in_Datapath. subst o0. cbn.
      destruct (kq =? INVALID_SOCKET_FD P); reflexivity. }
    exists Status.
    destruct (QUIC_FAILED P Status) eqn:Hst.
    + erewrite Hbind_Done;
        [|apply update_Datapath_eq; rewrite D4'; apply lookup_insert_eq].
      match goal with |- context [Hbind _ _ ?q] => set (p5 := q) end.
      destruct (host_call_run (host_QuicRundown RundownUninitialize BindingsRundown) p5)
        as (r5 & p6 & R6 & (C6 & D6 & An6)).
      erewrite Hbind_Done; [|exact R6].
      destruct (host_call_run (host_QUIC_FREE A) p6)
        as (r6 & p7 & R7 & (C7 & D7 & An7)).
      unfold Process_QUIC_FREE.
      erewrite Hbind_Done; [|erewrite Hbind_Done; [|exact R7]; reflexivity].
      eexists _, _, _. split; [reflexivity|]. cbn [Calls Datapaths].
      split.
      { rewrite C7, C6. subst p5. cbn [Calls]. rewrite C4, C3, C2, C1, <- !app_assoc.
        reflexivity. }
      split.
      { repeat (apply Forall_app; split); assumption. }
      exists kq. split.
      { rewrite !map_app, B4. unfold Initialize_calls_of. rewrite Hst. reflexivity. }
      split; [reflexivity|].
      rewrite D7, D6. subst p5. cbn [Datapaths]. rewrite D4', insert_insert_eq.
      apply delete_insert_eq.
    + eexists _, _, p4. split; [reflexivity|].
      split; [rewrite C4, C3, C2, C1, <- !app_assoc; reflexivity|].
      split.
      { repeat (apply Forall_app; split); assumption. }
      exists kq. split.
      { rewrite !map_app, B4. unfold Initialize_calls_of. rewrite Hst, app_nil_r.
        reflexivity. }
      split; [reflexivity | exact D4'].
Qed.

Lemma QuicDataPathUninitialize_run A o kq p :
  Datapaths p !! A = Some o ->
  ProcCount (Object_Datapath o) = 1 ->
  ProcContexts (Object_Datapath o) = [mkProcContext kq 0] ->
  exists ended waiting new p',
    (exists tr, ended = host_thread_ends host tr (A, 0)) /\
    QuicDataPathUninitialize host (Some A) p =
      (if ended then (Done tt, p')
       else (Terminated "QuicThreadWait does not return", waiting)) /\
    map Process_blank (called p waiting) =
      map quiet
        [host_QuicRundown RundownReleaseAndWait BindingsRundown;
         host_QuicThreadWait (A, 0)] /\
    Datapaths waiting =
      <[A := in_Datapath (set_Datapath_Shutdown true) o]> (Datapaths p) /\
    Calls p' = Calls p ++ new /\
    answers host new /\
    map Process_blank new =
      map quiet
        [host_QuicRundown RundownReleaseAndWait BindingsRundown;
         host_QuicThreadWait (A, 0);
         host_QuicThreadDelete (A, 0);
         host_close kq;
         host_QuicPoolUninitialize (RecvBlockPool 0);
         host_QuicPoolUninitialize (SendBufferPool 0);
         host_QuicPoolUninitialize (SendContextPool 0);
         host_QuicRundown RundownUninitialize BindingsRundown;
         host_QUIC_FREE A] /\
    Datapaths p' = delete A (Datapaths p).
Proof.
  intros Ho Hcount Hc. unfold QuicDataPathUninitialize.
  destruct (host_call_run (host_QuicRundown RundownReleaseAndWait BindingsRundown) p)
    as (r1 & p1 & R1 & (C1 & D1 & An1)).
  erewrite Hbind_Done; [|exact R1].
  erewrite Hbind_Done; [|apply update_Datapath_eq; rewrite D1; exact Ho].
  match goal with |- context [Hbind _ _ ?q] => set (p2 := q) end.
  set (o2 := in_Datapath (set_Datapath_Shutdown true) o) in *.
  assert (C2 : Calls p2 = Calls p1) by reflexivity.
  assert (D2 : Datapaths p2 = <[A := o2]> (Datapaths p))
    by (subst p2; cbn; rewrite D1; reflexivity).
  assert (Ho2 : Datapaths p2 !! A = Some o2) by (rewrite D2; apply lookup_insert_eq).
  clearbody p2.
  erewrite Hbind_Done; [|unfold load_Datapath; rewrite Ho2; reflexivity].
  replace (ProcCount (Object_Datapath o2)) with 1 by (symmetry; exact Hcount).
  change (Z.to_nat 1) with 1%nat. cbn [Hfor_each].
  unfold QuicProcessorContextUninitialize. cbn [fst snd].
  destruct (host_call_run (host_QuicThreadWait (A, 0)) p2)
    as (r3 & p3 & R3 & A3).
  set (ended := host_thread_ends host (Calls p3) (A, 0)).
  assert (W3 : Process_QuicThreadWait host (A, 0) p2 =
               (if ended then Done tt
                else Terminated "QuicThreadWait does not return", p3)).
  { unfold Process_QuicThreadWait. erewrite Hbind_Done; [|exact R3].
    fold ended. destruct ended; reflexivity. }
  destruct (host_call_run (host_QuicThreadDelete (A, 0)) p3)
    as (r4 & p4 & R4 & A4).
  pose proof A3 as (C3 & D3 & An3).
  pose proof (after_app _ _ _ _ _ A3 A4) as (C4 & D4 & An4).
  destruct (host_call_run (host_close kq) p4) as (r5 & p5 & R5 & A5).
  destruct (host_call_run (host_QuicPoolUninitialize (RecvBlockPool 0)) p5)
    as (r6 & p6 & R6 & A6).
  destruct (host_call_run (host_QuicPoolUninitialize (SendBufferPool 0)) p6)
    as (r7 & p7 & R7 & A7).
  destruct (host_call_run (host_QuicPoolUninitialize (SendContextPool 0)) p7)
    as (r8 & p8 & R8 & A8).
  destruct (host_call_run (host_QuicRundown RundownUninitialize BindingsRundown) p8)
    as (r9 & p9 & R9 & A9).
  destruct (host_call_run (host_QUIC_FREE A) p9) as (r10 & p10 & R10 & A10).
  pose proof (after_app _ _ _ _ _
               (after_app _ _ _ _ _
                 (after_app _ _ _ _ _
                   (after_app _ _ _ _ _
                     (after_app _ _ _ _ _ A5 A6) A7) A8) A9) A10) as (C & D & An).
  cbn [app] in C4, An4, C, An.
  exists ended, p3. eexists _, _.
  split; [exists (Calls p3); reflexivity|].
  split.
  { destruct ended.
    - erewrite Hbind_Done; last first.
      { erewrite Hbind_Done; last first.
        { erewrite Hbind_Done; [|exact W3].
          erewrite Hbind_Done; [|exact R4].
          erewrite Hbind_Done; last first.
          { eapply load_ProcContext_eq; [rewrite D4; exact Ho2 | exact Hc]. }
          erewrite Hbind_Done; [|exact R5].
          erewrite Hbind_Done; [|exact R6].
          erewrite Hbind_Done; [|exact R7].
          erewrite Hbind_Done; [|exact R8].
          reflexivity. }
        reflexivity. }
      erewrite Hbind_Done; [|exact R9].
      unfold Process_QUIC_FREE.
      erewrite Hbind_Done; [|exact R10].
      reflexivity.
    - apply Hbind_Terminated, Hbind_Terminated, Hbind_Terminated. exact W3. }
  split.
  { rewrite (called_app p p3
               [(host_QuicRundown RundownReleaseAndWait BindingsRundown, r1);
                (host_QuicThreadWait (A, 0), r3)])
      by (rewrite C3, C2, C1, <- app_assoc; reflexivity).
    reflexivity. }
  split; [rewrite D3; exact D2|].
  cbn [Calls Datapaths].
  split.
  { rewrite C, C4, C2, C1, <- !app_assoc. reflexivity. }
  split.
  { repeat (apply Forall_app; split); assumption. }
  split; [reflexivity|].
  rewrite D, D4, D2. apply delete_insert_eq.
Qed.

End LifecycleRuns.

Lemma acquires_blank P c : acquires P (Process_blank c) = acquires P c.
Proof. destruct c as [[] r]; reflexivity. Qed.

Lemma releases_blank c : releases (Process_blank c) = releases c.
Proof. destruct c as [[] r]; reflexivity. Qed.

Lemma flat_map_acquires_blank P calls :
  flat_map (acquires P) (map Process_blank calls) = flat_map (acquires P) calls.
Proof.
  induction calls as [|c l IH]; [reflexivity|].
  cbn [map flat_map]. rewrite acquires_blank, IH. reflexivity.
Qed.

Lemma flat_map_releases_blank calls :
  flat_map releases (map Process_blank calls) = flat_map releases calls.
Proof.
  induction calls as [|c l IH]; [reflexivity|].
  cbn [map flat_map]. rewrite releases_blank, IH. reflexivity.
Qed.

Lemma balanced_blank P calls :
  balanced P (map Process_blank calls) -> balanced P calls.
Proof.
  unfold balanced.
  rewrite flat_map_acquires_blank, flat_map_releases_blank. auto.
Qed.

Lemma answers_significant host calls c r :
  answers host calls ->
  In (c, r) (map Process_blank calls) ->
  significant c = true ->
  exists tr, r = host_ret host tr c.
Proof.
  intros Han Hin Hs. apply in_map_iff in Hin as ([c' r'] & Heq & Hin).
  unfold answers in Han. rewrite Forall_forall in Han.
  specialize (Han _ (proj2 (list_elem_of_In _ _) Hin)). cbn in Han.
  unfold Process_blank in Heq. cbn in Heq.
  destruct (significant c') eqn:Hs'; injection Heq as Hc Hr; subst.
  - exact Han.
  - congruence.
Qed.

Ltac find_split x r k :=
  lazymatch r with
  | x :: ?t => k (@nil Resource) t
  | ?y :: ?t => find_split x t ltac:(fun l1 l2 => k (y :: l1) l2)
  end.

Ltac perm :=
  lazymatch goal with
  | |- Permutation [] [] => constructor
  | |- Permutation (?x :: ?l) ?r =>
      find_split x r ltac:(fun l1 l2 =>
        apply (@Permutation_cons_app _ l l1 l2 x); cbn [app]; perm)
  end.

(** X28: every failure of QuicDataPathInitialize gives back what the call
    had taken.  Whenever the status it returns is a failure, nothing is
    stored through NewDataPath, no datapath object is left in the heap, and
    among its calls each thing acquired (the memory, the BindingsRundown,
    the three pools, the readiness queue's descriptor) is released once:
    the queue is closed exactly when kqueue had given one, and no worker
    thread is left. *)
Theorem QuicDataPathInitialize_failure_releases :
  forall P host QUIC_STATUS_INVALID_PARAMETER sizeof_QUIC_DATAPATH
         sizeof_QUIC_DATAPATH_PROC_CONTEXT sizeof_QUIC_DATAPATH_RECV_BLOCK
         MAX_UDP_PAYLOAD_LENGTH sizeof_QUIC_DATAPATH_SEND_CONTEXT
         ClientRecvContextLength RecvCallback UnreachableCallback NewDataPath p
         Status stored,
    let out :=
      QuicDataPathInitialize P host QUIC_STATUS_INVALID_PARAMETER
        sizeof_QUIC_DATAPATH sizeof_QUIC_DATAPATH_PROC_CONTEXT
        sizeof_QUIC_DATAPATH_RECV_BLOCK MAX_UDP_PAYLOAD_LENGTH
        sizeof_QUIC_DATAPATH_SEND_CONTEXT
        ClientRecvContextLength RecvCallback UnreachableCallback NewDataPath p in
    out.1 = Done (Status, stored) ->
    QUIC_FAILED P Status = true ->
    stored = None /\
    balanced P (called p out.2) /\
    Datapaths out.2 ⊆ Datapaths p.
Proof.
  intros P host INV s1 s2 s3 s4 s5 len rc uc nd p Status stored out Hout Hfail.
  destruct (decide (rc = None \/ uc = None \/ nd = None)) as [Hnull|Hnn].
  - assert (Hrun : out = (Done (INV, None), p)).
    { subst out. unfold QuicDataPathInitialize.
      destruct Hnull as [-> | [-> | ->]]; cbn;
        rewrite ?orb_true_r; reflexivity. }
    rewrite Hrun in *. cbn in *. injection Hout as <- <-.
    split; [reflexivity|]. split; [|reflexivity].
    unfold called. rewrite drop_all. unfold balanced. reflexivity.
  - destruct (QuicDataPathInitialize_run P host INV s1 s2 s3 s4 s5 len rc uc nd p)
      as (a & St & st & new & p' & Hrun & C & An & Hcase);
      [tauto | tauto | tauto |].
    subst out. rewrite Hrun in *. cbn [fst snd] in *.
    injection Hout as -> ->.
    rewrite (called_app _ _ _ C).
    destruct (a =? 0) eqn:Ha.
    + destruct Hcase as (_ & -> & Hb & ->).
      split; [reflexivity|]. split; [|reflexivity].
      apply balanced_blank. rewrite Hb. unfold balanced. reflexivity.
    + destruct Hcase as (kq & Hb & -> & ->). rewrite Hfail.
      split; [reflexivity|]. split; [|apply delete_subseteq].
      apply balanced_blank. rewrite Hb.
      unfold balanced, Initialize_calls_of, ProcContext_calls.
      rewrite Hfail.
      destruct (kq =? INVALID_SOCKET_FD P) eqn:Hkq;
        cbn; rewrite ?Ha, ?Hkq, ?Hfail; cbn; perm.
Qed.

Lemma QuicDataPathInitialize_failure_releases_witness :
  let out :=
    QuicDataPathInitialize (posix false) host_no_thread 22 64 160 1600 1472 400
      32 (Some 1) (Some 2) (Some 5%N) Process0 in
  @None ptr = None /\
  balanced (posix false) (called Process0 out.2) /\
  Datapaths out.2 ⊆ Datapaths Process0.
Proof.
  refine (QuicDataPathInitialize_failure_releases (posix false) host_no_thread
            22 64 160 1600 1472 400 32 (Some 1) (Some 2) (Some 5%N) Process0
            ENOMEM None _ _).
  - vm_compute. reflexivity.
  - reflexivity.
Defined.




(** X30: QuicDataPathUninitialize after QuicDataPathInitialize.  A NULL
    datapath is left alone, without a call.  On the datapath that
    QuicDataPathInitialize stored, in surroundings in which kqueue does not
    fail, it waits for the bindings' rundown, raises the Shutdown flag and
    waits for the worker thread, with no call in between: nothing wakes a
    worker that waits in kevent.  If the worker does not end, the call does
    not return, and nothing is released.  If it ends, the call deletes the
    thread, closes the readiness queue, uninitialises the three pools and
    the rundown, and frees the datapath; over the two functions together
    each thing acquired is then released once, and no datapath object is
    left. *)
Theorem QuicDataPathUninitialize_round_trip :
  forall P host QUIC_STATUS_INVALID_PARAMETER sizeof_QUIC_DATAPATH
         sizeof_QUIC_DATAPATH_PROC_CONTEXT sizeof_QUIC_DATAPATH_RECV_BLOCK
         MAX_UDP_PAYLOAD_LENGTH sizeof_QUIC_DATAPATH_SEND_CONTEXT
         ClientRecvContextLength RecvCallback UnreachableCallback NewDataPath p
         Status Datapath,
    (forall tr, host_ret host tr host_kqueue <> INVALID_SOCKET_FD P) ->
    let opened :=
      QuicDataPathInitialize P host QUIC_STATUS_INVALID_PARAMETER
        sizeof_QUIC_DATAPATH sizeof_QUIC_DATAPATH_PROC_CONTEXT
        sizeof_QUIC_DATAPATH_RECV_BLOCK MAX_UDP_PAYLOAD_LENGTH
        sizeof_QUIC_DATAPATH_SEND_CONTEXT
        ClientRecvContextLength RecvCallback UnreachableCallback NewDataPath p in
    opened.1 = Done (Status, Some Datapath) ->
    let closed := QuicDataPathUninitialize host (Some Datapath) opened.2 in
    QuicDataPathUninitialize host None p = (Done tt, p) /\
    exists kq ended,
      In (host_kqueue, kq) (called p opened.2) /\
      (exists tr, ended = host_thread_ends host tr (Datapath, 0)) /\
      if ended then
        closed.1 = Done tt /\
        map Process_blank (called opened.2 closed.2) =
          map quiet
            [host_QuicRundown RundownReleaseAndWait BindingsRundown;
             host_QuicThreadWait (Datapath, 0);
             host_QuicThreadDelete (Datapath, 0);
             host_close kq;
             host_QuicPoolUninitialize (RecvBlockPool 0);
             host_QuicPoolUninitialize (SendBufferPool 0);
             host_QuicPoolUninitialize (SendContextPool 0);
             host_QuicRundown RundownUninitialize BindingsRundown;
             host_QUIC_FREE Datapath] /\
        balanced P (called p closed.2) /\
        Datapaths closed.2 = delete Datapath (Datapaths p)
      else
        closed.1 = Terminated "QuicThreadWait does not return" /\
        map Process_blank (called opened.2 closed.2) =
          map quiet
            [host_QuicRundown RundownReleaseAndWait BindingsRundown;
             host_QuicThreadWait (Datapath, 0)] /\
        Datapath_Shutdown <$> (Object_Datapath <$> Datapaths closed.2 !! Datapath) =
          Some true.
Proof.
  intros P host INV s1 s2 s3 s4 s5 len rc uc nd p Status A Hkqueue opened Hopen
    closed.
  split; [reflexivity|].
  destruct (decide (rc = None \/ uc = None \/ nd = None)) as [Hnull|Hnn].
  { exfalso. subst opened. unfold QuicDataPathInitialize in Hopen.
    destruct Hnull as [-> | [-> | ->]]; cbn in Hopen;
      rewrite ?orb_true_r in Hopen; discriminate. }
  destruct (QuicDataPathInitialize_run P host INV s1 s2 s3 s4 s5 len rc uc nd p)
    as (a & St & stored & new & p' & Hrun & C & An & Hcase);
    [tauto | tauto | tauto |].
  subst closed opened. rewrite Hrun in *. cbn [fst snd] in *.
  injection Hopen as -> ->.
  destruct (a =? 0) eqn:Ha; [destruct Hcase as (_ & [=] & _)|].
  destruct Hcase as (kq & Hb & Hstored & Hd).
  destruct (QUIC_FAILED P Status) eqn:Hst; [discriminate|].
  injection Hstored as ->.
  assert (Hkq : (kq =? INVALID_SOCKET_FD P) = false).
  { apply Z.eqb_neq.
    destruct (answers_significant host new host_kqueue kq An) as (tr & ->);
      [rewrite Hb; cbn; tauto | reflexivity | apply Hkqueue]. }
  unfold Datapath_made in Hd. rewrite Hkq in Hd.
  destruct (QuicDataPathUninitialize_run host (Z.to_N a) _ kq p'
              (eq_ind_r (fun m => m !! Z.to_N a = Some _) (lookup_insert_eq _ _ _) Hd)
              eq_refl eq_refl)
    as (ended & waiting & new2 & p'' & Hended & Hrun2 & Hw & Hdw & C2 & An2 & Hb2
        & Hd2).
  unfold Initialize_calls_of, ProcContext_calls in Hb. rewrite Hkq, Hst in Hb.
  exists kq, ended. split.
  { rewrite (called_app _ _ _ C).
    assert (Hin : In (host_kqueue, kq) (map Process_blank new))
      by (rewrite Hb; cbn; tauto).
    apply in_map_iff in Hin as ([c r] & Heq & Hin).
    unfold Process_blank in Heq. cbn in Heq.
    destruct (significant c) eqn:Hs; injection Heq as Hc Hr; subst;
      [exact Hin | discriminate]. }
  split; [exact Hended|].
  rewrite Hrun2. destruct ended; cbn [fst snd].
  - split; [reflexivity|].
    split; [rewrite (called_app _ _ _ C2); exact Hb2|].
    split.
    { rewrite (called_app p p'' (new ++ new2))
        by (rewrite C2, C, app_assoc; reflexivity).
      apply balanced_blank. rewrite map_app, Hb, Hb2.
      unfold balanced. cbn. rewrite Ha, Hkq, Hst. cbn. perm. }
    rewrite Hd2, Hd. apply delete_insert_eq.
  - split; [reflexivity|]. split; [exact Hw|].
    rewrite Hdw, lookup_insert_eq. reflexivity.
Qed.

Lemma QuicDataPathUninitialize_round_trip_witness :
  let opened :=
    QuicDataPathInitialize (posix false) host_ok 22 64 160 1600 1472 400
      32 (Some 1) (Some 2) (Some 5%N) Process0 in
  let closed := QuicDataPathUninitialize host_ok (Some 3%N) opened.2 in
  let waits := QuicDataPathUninitialize host_worker_waits (Some 3%N) opened.2 in
  (closed.1 = Done tt /\
   waits.1 = Terminated "QuicThreadWait does not return") /\
  QuicDataPathUninitialize host_ok None Process0 = (Done tt, Process0) /\
  exists kq ended,
    In (host_kqueue, kq) (called Process0 opened.2) /\
    (exists tr, ended = host_thread_ends host_ok tr (3%N, 0)) /\
    if ended then
      closed.1 = Done tt /\
      map Process_blank (called opened.2 closed.2) =
        map quiet
          [host_QuicRundown RundownReleaseAndWait BindingsRundown;
           host_QuicThreadWait (3%N, 0);
           host_QuicThreadDelete (3%N, 0);
           host_close kq;
           host_QuicPoolUninitialize (RecvBlockPool 0);
           host_QuicPoolUninitialize (SendBufferPool 0);
           host_QuicPoolUninitialize (SendContextPool 0);
           host_QuicRundown RundownUninitialize BindingsRundown;
           host_QUIC_FREE 3%N] /\
      balanced (posix false) (called Process0 closed.2) /\
      Datapaths closed.2 = delete 3%N (Datapaths Process0)
    else
      closed.1 = Terminated "QuicThreadWait does not return" /\
      map Process_blank (called opened.2 closed.2) =
        map quiet
          [host_QuicRundown RundownReleaseAndWait BindingsRundown;
           host_QuicThreadWait (3%N, 0)] /\
      Datapath_Shutdown <$> (Object_Datapath <$> Datapaths closed.2 !! 3%N) =
        Some true.
Proof.
  split; [split; vm_compute; reflexivity|].
  refine (QuicDataPathUninitialize_round_trip (posix false) host_ok
            22 64 160 1600 1472 400 32 (Some 1) (Some 2) (Some 5%N) Process0
            0 3%N _ _).
  - intros tr. discriminate.
  - vm_compute. reflexivity.
Defined.
